(** * The asynchronous socket layer of lib/isc/unix/socket.c

    A shallow embedding of the I/O engine ([doio_recv], [doio_send]), the
    completion paths ([send_recvdone_event], [send_senddone_event]), the
    queue drain ([internal_recv]), the public calls [isc_socket_recv],
    [isc_socket_recvv], [isc_socket_connect], [isc_socket_cancel], the
    handler [internal_connect] and the part of [watcher] that recomputes
    the watch bits of a descriptor.

    The model is sequential: one call runs from LOCK to UNLOCK without
    interleaving, so the mutex operations leave no trace.  Everything a
    call does to the outside (kernel calls, events handed to the task
    scheduler, messages written to the control pipe, memory released) is
    appended to a trace, and the answers of the kernel and of the
    allocator come from an [environment] indexed by a clock. *)

From stdpp Require Import base gmap list.
From Stdlib Require Import ZArith Lia.
Open Scope Z_scope.

(** ** Constants of the host system

    <errno.h> and <sys/socket.h> are not part of the repository; the
    values are those of Linux.  [EAGAIN] and [EWOULDBLOCK] coincide
    there, which [SOFT_ERROR] tolerates. *)

Definition EINTR : Z := 4.
Definition EAGAIN : Z := 11.
Definition EWOULDBLOCK : Z := 11.
Definition ENETUNREACH : Z := 101.
Definition ENOBUFS : Z := 105.
Definition ETIMEDOUT : Z := 110.
Definition ECONNREFUSED : Z := 111.
Definition EHOSTUNREACH : Z := 113.
Definition EINPROGRESS : Z := 115.

Definition MSG_CTRUNC : Z := 0x08.
Definition MSG_TRUNC : Z := 0x20.
Definition SOL_SOCKET : Z := 1.
Definition SCM_TIMESTAMP : Z := 29.
Definition IPPROTO_IPV6 : Z := 41.
Definition IPV6_PKTINFO : Z := 50.
Definition FD_SETSIZE : Z := 1024.

(** [unsigned int] is 32 bits wide and [size_t] 64 bits wide (LP64). *)
Definition uint (x : Z) : Z := x mod 2 ^ 32.
Definition size_t (x : Z) : Z := x mod 2 ^ 64.

(** ** Constants of the repository's own headers

    <isc/socket.h>, <isc/net.h> and <isc/platform.h> are not among the
    sources at hand: the attribute and cancellation masks, the
    scatter/gather limit, an object size and the configuration macros
    that select code in socket.c are parameters of the development. *)

Class isc_headers := {
  ISC_SOCKEVENTATTR_ATTACHED : Z;
  ISC_SOCKEVENTATTR_FATALERROR : Z;
  ISC_SOCKEVENTATTR_TRUNC : Z;
  ISC_SOCKEVENTATTR_CTRUNC : Z;
  ISC_SOCKEVENTATTR_TIMESTAMP : Z;
  ISC_SOCKEVENTATTR_PKTINFO : Z;
  ISC_SOCKCANCEL_RECV : Z;
  ISC_SOCKCANCEL_SEND : Z;
  ISC_SOCKCANCEL_ACCEPT : Z;
  ISC_SOCKCANCEL_CONNECT : Z;
  ISC_SOCKET_MAXSCATTERGATHER : Z;
  ISC_BUFFER_MAGIC : Z;
  (** sizeof(dev->address.type) *)
  sizeof_sockaddr_type : Z;
  (** #ifdef ISC_NET_BSD44MSGHDR, ISC_NET_RECVOVERFLOW, ISC_PLATFORM_HAVEIPV6 *)
  ISC_NET_BSD44MSGHDR : bool;
  ISC_NET_RECVOVERFLOW : bool;
  ISC_PLATFORM_HAVEIPV6 : bool
}.

(** ** Data model *)

Inductive isc_result_t :=
| ISC_R_SUCCESS | ISC_R_NOMEMORY | ISC_R_TIMEDOUT | ISC_R_NORESOURCES
| ISC_R_NOPERM | ISC_R_ADDRINUSE | ISC_R_ADDRNOTAVAIL | ISC_R_BOUND
| ISC_R_CONNREFUSED | ISC_R_NETUNREACH | ISC_R_HOSTUNREACH | ISC_R_EOF
| ISC_R_CANCELED | ISC_R_UNEXPECTED.

Global Instance isc_result_eq_dec : EqDecision isc_result_t.
Proof. solve_decision. Defined.

Inductive isc_sockettype_t := isc_sockettype_udp | isc_sockettype_tcp.

Global Instance isc_sockettype_eq_dec : EqDecision isc_sockettype_t.
Proof. solve_decision. Defined.

Inductive isc_eventtype_t :=
| ISC_SOCKEVENT_RECVDONE | ISC_SOCKEVENT_SENDDONE | ISC_SOCKEVENT_NEWCONN
| ISC_SOCKEVENT_CONNECT | ISC_SOCKEVENT_RECVMARK | ISC_SOCKEVENT_SENDMARK
| ISC_SOCKEVENT_INTR | ISC_SOCKEVENT_INTW.

Global Instance isc_eventtype_eq_dec : EqDecision isc_eventtype_t.
Proof. solve_decision. Defined.

(** The outcomes of [doio_recv] and [doio_send] (the DOIO_ macros). *)
Inductive doio_t :=
| DOIO_SUCCESS      (* i/o ok, event sent *)
| DOIO_SOFT         (* i/o ok, soft error, no event sent *)
| DOIO_HARD         (* i/o error, event sent *)
| DOIO_EOF          (* EOF, no event sent *)
| DOIO_UNEXPECTED.  (* bad stuff, no event sent *)

(** A [void *] as the code uses it for senders: null, a task or a socket,
    each object named by its address. *)
Inductive pointer := NULL | TaskPtr (t : nat) | SockPtr (s : nat).

Global Instance pointer_eq_dec : EqDecision pointer.
Proof. solve_decision. Defined.

Record isc_region_t := { base : Z; region_length : Z }.

(** Modelled from the spec: isc_buffer_t and its macros are declared in
    <isc/buffer.h>, which is missing; a buffer is "a span of bytes with two
    logical regions, used and available". *)
Record isc_buffer_t := { buffer_magic : Z; buffer_length : Z; buffer_used : Z }.

Record isc_sockaddr_t := { sa : Z; sa_length : Z }.
Record isc_time_t := { seconds : Z; nanoseconds : Z }.
Record in6_pktinfo := { ipi6_addr : Z; ipi6_ifindex : Z }.

(** isc_socketevent_t.  [se_self] is the address of the object.  Whether
    its link is on a list is read off the list (see [ISC_LINK_LINKED]). *)
Record isc_socketevent_t := {
  se_self : nat;
  se_type : isc_eventtype_t;
  se_sender : pointer;
  se_action : Z;
  se_arg : Z;
  se_result : isc_result_t;
  se_minimum : Z;
  se_n : Z;
  se_offset : Z;
  se_region : isc_region_t;
  se_bufferlist : list isc_buffer_t;
  se_address : isc_sockaddr_t;
  se_timestamp : isc_time_t;
  se_pktinfo : in6_pktinfo;
  se_attributes : Z
}.

(** isc_socket_connev_t *)
Record isc_socket_connev_t := {
  ce_self : nat;
  ce_type : isc_eventtype_t;
  ce_sender : pointer;
  ce_action : Z;
  ce_arg : Z;
  ce_result : isc_result_t
}.

(** isc_event_t, for the two events embedded in a socket. *)
Record intev_t := {
  iev_type : isc_eventtype_t;
  iev_sender : pointer;
  iev_action : Z;
  iev_arg : Z
}.

(** struct isc_socket, and isc_socket_newconnev_t which carries the
    socket an accept will fill in.  [self] is the address of the object. *)
Inductive isc_socket_t := Build_isc_socket {
  self : nat;
  magic : Z;
  sock_type : isc_sockettype_t;
  references : Z;
  fd : Z;
  recv_result : isc_result_t;
  send_result : isc_result_t;
  send_list : list isc_socketevent_t;
  recv_list : list isc_socketevent_t;
  accept_list : list isc_socket_newconnev_t;
  connect_ev : option isc_socket_connev_t;
  readable_ev : intev_t;
  writable_ev : intev_t;
  address : isc_sockaddr_t;
  pending_recv : bool;
  pending_send : bool;
  pending_accept : bool;
  listener : bool;
  connected : bool;
  connecting : bool }
with isc_socket_newconnev_t := Build_isc_socket_newconnev {
  nc_self : nat;
  nc_type : isc_eventtype_t;
  nc_sender : pointer;
  nc_action : Z;
  nc_arg : Z;
  nc_result : isc_result_t;
  newsocket : option isc_socket_t;
  nc_address : isc_sockaddr_t }.

Definition SOCKET_MAGIC : Z := 0x494f696f.
Definition VALID_SOCKET (t : isc_socket_t) : bool := magic t =? SOCKET_MAGIC.

Definition CLOSED : Z := 0.
Definition MANAGED : Z := 1.
Definition CLOSE_PENDING : Z := 2.

(** struct isc_socketmgr.  [fds] maps a descriptor to the address of its
    socket (no entry: NULL); [fdstate] has no entry where the array holds
    CLOSED, its zeroed state. *)
Record isc_socketmgr_t := {
  mgr_magic : Z;
  nsockets : Z;
  read_fds : gset Z;
  write_fds : gset Z;
  fds : gmap Z nat;
  fdstate : gmap Z Z;
  maxfd : Z;
  pipe_fds : Z * Z
}.

Definition SOCKET_MANAGER_MAGIC : Z := 0x494f6d67.
Definition VALID_MANAGER (m : isc_socketmgr_t) : bool :=
  mgr_magic m =? SOCKET_MANAGER_MAGIC.

(** ** Field updates

    [set_f v x] is the object [x] after the assignment [x->f = v]. *)

Definition set_magic v (s : isc_socket_t) :=
  {| self := self s; magic := v; sock_type := sock_type s; references :=
     references s; fd := fd s; recv_result := recv_result s; send_result :=
     send_result s; send_list := send_list s; recv_list := recv_list s;
     accept_list := accept_list s; connect_ev := connect_ev s; readable_ev :=
     readable_ev s; writable_ev := writable_ev s; address := address s;
     pending_recv := pending_recv s; pending_send := pending_send s;
     pending_accept := pending_accept s; listener := listener s; connected :=
     connected s; connecting := connecting s |}.

Definition set_references v (s : isc_socket_t) :=
  {| self := self s; magic := magic s; sock_type := sock_type s; references
     := v; fd := fd s; recv_result := recv_result s; send_result := send_result
     s; send_list := send_list s; recv_list := recv_list s; accept_list :=
     accept_list s; connect_ev := connect_ev s; readable_ev := readable_ev s;
     writable_ev := writable_ev s; address := address s; pending_recv :=
     pending_recv s; pending_send := pending_send s; pending_accept :=
     pending_accept s; listener := listener s; connected := connected s;
     connecting := connecting s |}.

Definition set_recv_result v (s : isc_socket_t) :=
  {| self := self s; magic := magic s; sock_type := sock_type s; references
     := references s; fd := fd s; recv_result := v; send_result := send_result
     s; send_list := send_list s; recv_list := recv_list s; accept_list :=
     accept_list s; connect_ev := connect_ev s; readable_ev := readable_ev s;
     writable_ev := writable_ev s; address := address s; pending_recv :=
     pending_recv s; pending_send := pending_send s; pending_accept :=
     pending_accept s; listener := listener s; connected := connected s;
     connecting := connecting s |}.

Definition set_send_result v (s : isc_socket_t) :=
  {| self := self s; magic := magic s; sock_type := sock_type s; references
     := references s; fd := fd s; recv_result := recv_result s; send_result :=
     v; send_list := send_list s; recv_list := recv_list s; accept_list :=
     accept_list s; connect_ev := connect_ev s; readable_ev := readable_ev s;
     writable_ev := writable_ev s; address := address s; pending_recv :=
     pending_recv s; pending_send := pending_send s; pending_accept :=
     pending_accept s; listener := listener s; connected := connected s;
     connecting := connecting s |}.

Definition set_send_list v (s : isc_socket_t) :=
  {| self := self s; magic := magic s; sock_type := sock_type s; references
     := references s; fd := fd s; recv_result := recv_result s; send_result :=
     send_result s; send_list := v; recv_list := recv_list s; accept_list :=
     accept_list s; connect_ev := connect_ev s; readable_ev := readable_ev s;
     writable_ev := writable_ev s; address := address s; pending_recv :=
     pending_recv s; pending_send := pending_send s; pending_accept :=
     pending_accept s; listener := listener s; connected := connected s;
     connecting := connecting s |}.

Definition set_recv_list v (s : isc_socket_t) :=
  {| self := self s; magic := magic s; sock_type := sock_type s; references
     := references s; fd := fd s; recv_result := recv_result s; send_result :=
     send_result s; send_list := send_list s; recv_list := v; accept_list :=
     accept_list s; connect_ev := connect_ev s; readable_ev := readable_ev s;
     writable_ev := writable_ev s; address := address s; pending_recv :=
     pending_recv s; pending_send := pending_send s; pending_accept :=
     pending_accept s; listener := listener s; connected := connected s;
     connecting := connecting s |}.

Definition set_accept_list v (s : isc_socket_t) :=
  {| self := self s; magic := magic s; sock_type := sock_type s; references
     := references s; fd := fd s; recv_result := recv_result s; send_result :=
     send_result s; send_list := send_list s; recv_list := recv_list s;
     accept_list := v; connect_ev := connect_ev s; readable_ev := readable_ev
     s; writable_ev := writable_ev s; address := address s; pending_recv :=
     pending_recv s; pending_send := pending_send s; pending_accept :=
     pending_accept s; listener := listener s; connected := connected s;
     connecting := connecting s |}.

Definition set_connect_ev v (s : isc_socket_t) :=
  {| self := self s; magic := magic s; sock_type := sock_type s; references
     := references s; fd := fd s; recv_result := recv_result s; send_result :=
     send_result s; send_list := send_list s; recv_list := recv_list s;
     accept_list := accept_list s; connect_ev := v; readable_ev := readable_ev
     s; writable_ev := writable_ev s; address := address s; pending_recv :=
     pending_recv s; pending_send := pending_send s; pending_accept :=
     pending_accept s; listener := listener s; connected := connected s;
     connecting := connecting s |}.

Definition set_address v (s : isc_socket_t) :=
  {| self := self s; magic := magic s; sock_type := sock_type s; references
     := references s; fd := fd s; recv_result := recv_result s; send_result :=
     send_result s; send_list := send_list s; recv_list := recv_list s;
     accept_list := accept_list s; connect_ev := connect_ev s; readable_ev :=
     readable_ev s; writable_ev := writable_ev s; address := v; pending_recv :=
     pending_recv s; pending_send := pending_send s; pending_accept :=
     pending_accept s; listener := listener s; connected := connected s;
     connecting := connecting s |}.

Definition set_pending_recv v (s : isc_socket_t) :=
  {| self := self s; magic := magic s; sock_type := sock_type s; references
     := references s; fd := fd s; recv_result := recv_result s; send_result :=
     send_result s; send_list := send_list s; recv_list := recv_list s;
     accept_list := accept_list s; connect_ev := connect_ev s; readable_ev :=
     readable_ev s; writable_ev := writable_ev s; address := address s;
     pending_recv := v; pending_send := pending_send s; pending_accept :=
     pending_accept s; listener := listener s; connected := connected s;
     connecting := connecting s |}.

Definition set_pending_send v (s : isc_socket_t) :=
  {| self := self s; magic := magic s; sock_type := sock_type s; references
     := references s; fd := fd s; recv_result := recv_result s; send_result :=
     send_result s; send_list := send_list s; recv_list := recv_list s;
     accept_list := accept_list s; connect_ev := connect_ev s; readable_ev :=
     readable_ev s; writable_ev := writable_ev s; address := address s;
     pending_recv := pending_recv s; pending_send := v; pending_accept :=
     pending_accept s; listener := listener s; connected := connected s;
     connecting := connecting s |}.

Definition set_pending_accept v (s : isc_socket_t) :=
  {| self := self s; magic := magic s; sock_type := sock_type s; references
     := references s; fd := fd s; recv_result := recv_result s; send_result :=
     send_result s; send_list := send_list s; recv_list := recv_list s;
     accept_list := accept_list s; connect_ev := connect_ev s; readable_ev :=
     readable_ev s; writable_ev := writable_ev s; address := address s;
     pending_recv := pending_recv s; pending_send := pending_send s;
     pending_accept := v; listener := listener s; connected := connected s;
     connecting := connecting s |}.

Definition set_listener v (s : isc_socket_t) :=
  {| self := self s; magic := magic s; sock_type := sock_type s; references
     := references s; fd := fd s; recv_result := recv_result s; send_result :=
     send_result s; send_list := send_list s; recv_list := recv_list s;
     accept_list := accept_list s; connect_ev := connect_ev s; readable_ev :=
     readable_ev s; writable_ev := writable_ev s; address := address s;
     pending_recv := pending_recv s; pending_send := pending_send s;
     pending_accept := pending_accept s; listener := v; connected := connected
     s; connecting := connecting s |}.

Definition set_connected v (s : isc_socket_t) :=
  {| self := self s; magic := magic s; sock_type := sock_type s; references
     := references s; fd := fd s; recv_result := recv_result s; send_result :=
     send_result s; send_list := send_list s; recv_list := recv_list s;
     accept_list := accept_list s; connect_ev := connect_ev s; readable_ev :=
     readable_ev s; writable_ev := writable_ev s; address := address s;
     pending_recv := pending_recv s; pending_send := pending_send s;
     pending_accept := pending_accept s; listener := listener s; connected :=
     v; connecting := connecting s |}.

Definition set_connecting v (s : isc_socket_t) :=
  {| self := self s; magic := magic s; sock_type := sock_type s; references
     := references s; fd := fd s; recv_result := recv_result s; send_result :=
     send_result s; send_list := send_list s; recv_list := recv_list s;
     accept_list := accept_list s; connect_ev := connect_ev s; readable_ev :=
     readable_ev s; writable_ev := writable_ev s; address := address s;
     pending_recv := pending_recv s; pending_send := pending_send s;
     pending_accept := pending_accept s; listener := listener s; connected :=
     connected s; connecting := v |}.

Definition set_se_sender v (e : isc_socketevent_t) :=
  {| se_self := se_self e; se_type := se_type e; se_sender := v; se_action
     := se_action e; se_arg := se_arg e; se_result := se_result e; se_minimum
     := se_minimum e; se_n := se_n e; se_offset := se_offset e; se_region :=
     se_region e; se_bufferlist := se_bufferlist e; se_address := se_address e;
     se_timestamp := se_timestamp e; se_pktinfo := se_pktinfo e; se_attributes
     := se_attributes e |}.

Definition set_se_result v (e : isc_socketevent_t) :=
  {| se_self := se_self e; se_type := se_type e; se_sender := se_sender e;
     se_action := se_action e; se_arg := se_arg e; se_result := v; se_minimum
     := se_minimum e; se_n := se_n e; se_offset := se_offset e; se_region :=
     se_region e; se_bufferlist := se_bufferlist e; se_address := se_address e;
     se_timestamp := se_timestamp e; se_pktinfo := se_pktinfo e; se_attributes
     := se_attributes e |}.

Definition set_se_minimum v (e : isc_socketevent_t) :=
  {| se_self := se_self e; se_type := se_type e; se_sender := se_sender e;
     se_action := se_action e; se_arg := se_arg e; se_result := se_result e;
     se_minimum := v; se_n := se_n e; se_offset := se_offset e; se_region :=
     se_region e; se_bufferlist := se_bufferlist e; se_address := se_address e;
     se_timestamp := se_timestamp e; se_pktinfo := se_pktinfo e; se_attributes
     := se_attributes e |}.

Definition set_se_n v (e : isc_socketevent_t) :=
  {| se_self := se_self e; se_type := se_type e; se_sender := se_sender e;
     se_action := se_action e; se_arg := se_arg e; se_result := se_result e;
     se_minimum := se_minimum e; se_n := v; se_offset := se_offset e; se_region
     := se_region e; se_bufferlist := se_bufferlist e; se_address := se_address
     e; se_timestamp := se_timestamp e; se_pktinfo := se_pktinfo e;
     se_attributes := se_attributes e |}.

Definition set_se_offset v (e : isc_socketevent_t) :=
  {| se_self := se_self e; se_type := se_type e; se_sender := se_sender e;
     se_action := se_action e; se_arg := se_arg e; se_result := se_result e;
     se_minimum := se_minimum e; se_n := se_n e; se_offset := v; se_region :=
     se_region e; se_bufferlist := se_bufferlist e; se_address := se_address e;
     se_timestamp := se_timestamp e; se_pktinfo := se_pktinfo e; se_attributes
     := se_attributes e |}.

Definition set_se_region v (e : isc_socketevent_t) :=
  {| se_self := se_self e; se_type := se_type e; se_sender := se_sender e;
     se_action := se_action e; se_arg := se_arg e; se_result := se_result e;
     se_minimum := se_minimum e; se_n := se_n e; se_offset := se_offset e;
     se_region := v; se_bufferlist := se_bufferlist e; se_address := se_address
     e; se_timestamp := se_timestamp e; se_pktinfo := se_pktinfo e;
     se_attributes := se_attributes e |}.

Definition set_se_bufferlist v (e : isc_socketevent_t) :=
  {| se_self := se_self e; se_type := se_type e; se_sender := se_sender e;
     se_action := se_action e; se_arg := se_arg e; se_result := se_result e;
     se_minimum := se_minimum e; se_n := se_n e; se_offset := se_offset e;
     se_region := se_region e; se_bufferlist := v; se_address := se_address e;
     se_timestamp := se_timestamp e; se_pktinfo := se_pktinfo e; se_attributes
     := se_attributes e |}.

Definition set_se_address v (e : isc_socketevent_t) :=
  {| se_self := se_self e; se_type := se_type e; se_sender := se_sender e;
     se_action := se_action e; se_arg := se_arg e; se_result := se_result e;
     se_minimum := se_minimum e; se_n := se_n e; se_offset := se_offset e;
     se_region := se_region e; se_bufferlist := se_bufferlist e; se_address :=
     v; se_timestamp := se_timestamp e; se_pktinfo := se_pktinfo e;
     se_attributes := se_attributes e |}.

Definition set_se_timestamp v (e : isc_socketevent_t) :=
  {| se_self := se_self e; se_type := se_type e; se_sender := se_sender e;
     se_action := se_action e; se_arg := se_arg e; se_result := se_result e;
     se_minimum := se_minimum e; se_n := se_n e; se_offset := se_offset e;
     se_region := se_region e; se_bufferlist := se_bufferlist e; se_address :=
     se_address e; se_timestamp := v; se_pktinfo := se_pktinfo e; se_attributes
     := se_attributes e |}.

Definition set_se_pktinfo v (e : isc_socketevent_t) :=
  {| se_self := se_self e; se_type := se_type e; se_sender := se_sender e;
     se_action := se_action e; se_arg := se_arg e; se_result := se_result e;
     se_minimum := se_minimum e; se_n := se_n e; se_offset := se_offset e;
     se_region := se_region e; se_bufferlist := se_bufferlist e; se_address :=
     se_address e; se_timestamp := se_timestamp e; se_pktinfo := v;
     se_attributes := se_attributes e |}.

Definition set_se_attributes v (e : isc_socketevent_t) :=
  {| se_self := se_self e; se_type := se_type e; se_sender := se_sender e;
     se_action := se_action e; se_arg := se_arg e; se_result := se_result e;
     se_minimum := se_minimum e; se_n := se_n e; se_offset := se_offset e;
     se_region := se_region e; se_bufferlist := se_bufferlist e; se_address :=
     se_address e; se_timestamp := se_timestamp e; se_pktinfo := se_pktinfo e;
     se_attributes := v |}.

Definition set_ce_sender v (e : isc_socket_connev_t) :=
  {| ce_self := ce_self e; ce_type := ce_type e; ce_sender := v; ce_action
     := ce_action e; ce_arg := ce_arg e; ce_result := ce_result e |}.

Definition set_ce_result v (e : isc_socket_connev_t) :=
  {| ce_self := ce_self e; ce_type := ce_type e; ce_sender := ce_sender e;
     ce_action := ce_action e; ce_arg := ce_arg e; ce_result := v |}.

Definition set_nc_sender v (e : isc_socket_newconnev_t) :=
  {| nc_self := nc_self e; nc_type := nc_type e; nc_sender := v; nc_action
     := nc_action e; nc_arg := nc_arg e; nc_result := nc_result e; newsocket :=
     newsocket e; nc_address := nc_address e |}.

Definition set_nc_result v (e : isc_socket_newconnev_t) :=
  {| nc_self := nc_self e; nc_type := nc_type e; nc_sender := nc_sender e;
     nc_action := nc_action e; nc_arg := nc_arg e; nc_result := v; newsocket :=
     newsocket e; nc_address := nc_address e |}.

Definition set_newsocket v (e : isc_socket_newconnev_t) :=
  {| nc_self := nc_self e; nc_type := nc_type e; nc_sender := nc_sender e;
     nc_action := nc_action e; nc_arg := nc_arg e; nc_result := nc_result e;
     newsocket := v; nc_address := nc_address e |}.

Definition set_mgr_magic v (m : isc_socketmgr_t) :=
  {| mgr_magic := v; nsockets := nsockets m; read_fds := read_fds m;
     write_fds := write_fds m; fds := fds m; fdstate := fdstate m; maxfd :=
     maxfd m; pipe_fds := pipe_fds m |}.

Definition set_nsockets v (m : isc_socketmgr_t) :=
  {| mgr_magic := mgr_magic m; nsockets := v; read_fds := read_fds m;
     write_fds := write_fds m; fds := fds m; fdstate := fdstate m; maxfd :=
     maxfd m; pipe_fds := pipe_fds m |}.

Definition set_read_fds v (m : isc_socketmgr_t) :=
  {| mgr_magic := mgr_magic m; nsockets := nsockets m; read_fds := v;
     write_fds := write_fds m; fds := fds m; fdstate := fdstate m; maxfd :=
     maxfd m; pipe_fds := pipe_fds m |}.

Definition set_write_fds v (m : isc_socketmgr_t) :=
  {| mgr_magic := mgr_magic m; nsockets := nsockets m; read_fds := read_fds
     m; write_fds := v; fds := fds m; fdstate := fdstate m; maxfd := maxfd m;
     pipe_fds := pipe_fds m |}.

Definition set_fds v (m : isc_socketmgr_t) :=
  {| mgr_magic := mgr_magic m; nsockets := nsockets m; read_fds := read_fds
     m; write_fds := write_fds m; fds := v; fdstate := fdstate m; maxfd :=
     maxfd m; pipe_fds := pipe_fds m |}.

Definition set_fdstate v (m : isc_socketmgr_t) :=
  {| mgr_magic := mgr_magic m; nsockets := nsockets m; read_fds := read_fds
     m; write_fds := write_fds m; fds := fds m; fdstate := v; maxfd := maxfd m;
     pipe_fds := pipe_fds m |}.

Definition set_maxfd v (m : isc_socketmgr_t) :=
  {| mgr_magic := mgr_magic m; nsockets := nsockets m; read_fds := read_fds
     m; write_fds := write_fds m; fds := fds m; fdstate := fdstate m; maxfd :=
     v; pipe_fds := pipe_fds m |}.

(** ** The kernel and the allocator

    A pointer handed to the kernel is modelled by the value it points to:
    [msg_name] is [None] for NULL and otherwise holds the bytes of
    [dev->address.type.sa]; [msg_iov] keeps the length of each iovec (the
    payload bytes themselves are not modelled); [msg_control] is the list
    of control messages in the control buffer. *)

Record cmsghdr := { cmsg_level : Z; cmsg_type : Z; cmsg_data : Z * Z }.

Record msghdr := {
  msg_name : option Z;
  msg_namelen : Z;
  msg_iov : list Z;
  msg_control : option (list cmsghdr);
  msg_controllen : Z;
  msg_flags : Z
}.

(** What recvmsg() leaves behind: its return value, errno and the header
    as the kernel rewrote it. *)
Record recvmsg_ret := { rm_cc : Z; rm_errno : Z; rm_msg : msghdr }.

(** The answers of the outside world, by the time of the question.
    A system call answers with its return value and errno; getsockopt
    also with the SO_ERROR it stored.  [env_socketevent] and
    [env_connev] are the blocks isc_event_allocate() hands out ([None]:
    out of memory), holding whatever the memory held. *)
Record environment := {
  env_recvmsg : nat → Z → msghdr → recvmsg_ret;
  env_sendmsg : nat → Z → msghdr → Z * Z;
  env_connect : nat → Z → isc_sockaddr_t → Z * Z;
  env_getsockopt : nat → Z → Z * Z * Z;
  env_socketevent : nat → option isc_socketevent_t;
  env_connev : nat → option isc_socket_connev_t
}.

Inductive event :=
| SocketEvent (e : isc_socketevent_t)
| ConnEvent (e : isc_socket_connev_t)
| NewconnEvent (e : isc_socket_newconnev_t).

(** What a call does to the outside, in the order it does it. *)
Inductive effect :=
| Recvmsg (s : Z) (msg : msghdr)
| Sendmsg (s : Z) (msg : msghdr)
| Connect (s : Z) (name : isc_sockaddr_t)
| Getsockopt (s : Z)
| Close (s : Z)
| EventAllocate (type : isc_eventtype_t)
| TaskAttach (task : pointer)
| TaskSend (task : pointer) (ev : event)
| TaskSendAndDetach (task : pointer) (ev : event)
| Poke (msg : Z)
| UnexpectedError
| Signal
| MutexDestroy (sock : nat)
| MemPut (sock : nat).

Record world := {
  w_sock : isc_socket_t;
  w_manager : isc_socketmgr_t;
  w_trace : list effect;
  w_clock : nat
}.

(** ** Computations

    A computation runs on a [world] and returns a value, or stops at a
    failed REQUIRE or INSIST, or gives up because a loop used up the
    number of turns it was granted; the world it stopped in is kept. *)

Inductive result (A : Type) :=
| Ok (a : A)
| AssertionFailed
| OutOfFuel.
Arguments Ok {A} a.
Arguments AssertionFailed {A}.
Arguments OutOfFuel {A}.

Global Instance result_ret : MRet result := λ A a, Ok a.

Global Instance result_bind : MBind result := λ A B f m,
  match m with
  | Ok a => f a
  | AssertionFailed => AssertionFailed
  | OutOfFuel => OutOfFuel
  end.

Definition io (A : Type) : Type := world → result A * world.

Global Instance io_ret : MRet io := λ A a w, (Ok a, w).

Global Instance io_bind : MBind io := λ A B f m w,
  match m w with
  | (Ok a, w') => f a w'
  | (AssertionFailed, w') => (AssertionFailed, w')
  | (OutOfFuel, w') => (OutOfFuel, w')
  end.

Definition get_sock : io isc_socket_t := λ w, (Ok (w_sock w), w).

Definition modify_sock (f : isc_socket_t → isc_socket_t) : io unit := λ w,
  (Ok (), {| w_sock := f (w_sock w); w_manager := w_manager w;
               w_trace := w_trace w; w_clock := w_clock w |}).

Definition get_manager : io isc_socketmgr_t := λ w, (Ok (w_manager w), w).

Definition modify_manager (f : isc_socketmgr_t → isc_socketmgr_t) : io unit :=
  λ w, (Ok (), {| w_sock := w_sock w; w_manager := f (w_manager w);
                    w_trace := w_trace w; w_clock := w_clock w |}).

Definition emit (e : effect) : io unit := λ w,
  (Ok (), {| w_sock := w_sock w; w_manager := w_manager w;
               w_trace := w_trace w ++ [e]; w_clock := w_clock w |}).

(** Ask the environment: the question is traced and the clock advances. *)
Definition ask {A} (e : effect) (answer : nat → A) : io A := λ w,
  (Ok (answer (w_clock w)),
   {| w_sock := w_sock w; w_manager := w_manager w;
      w_trace := w_trace w ++ [e]; w_clock := S (w_clock w) |}).

(** A computation that does not touch the world. *)
Definition pure {A} (r : result A) : io A := λ w, (r, w).

(** INSIST and REQUIRE, in code that touches the world and in code that
    does not. *)
Class Assert (M : Type → Type) := INSIST : bool → M unit.

Global Instance result_assert : Assert result := λ cond,
  if cond then Ok () else AssertionFailed.

Global Instance io_assert : Assert io := λ cond, pure (INSIST cond).

Definition REQUIRE {M} `{Assert M} (cond : bool) : M unit := INSIST cond.

Definition out_of_fuel {A} : io A := pure OutOfFuel.

(** The events a trace hands to the task scheduler, in order. *)
Definition posted (e : effect) : option event :=
  match e with
  | TaskSend _ ev | TaskSendAndDetach _ ev => Some ev
  | _ => None
  end.

Definition completions (t : list effect) : list event := omap posted t.

(** The kernel receive calls of a trace. *)
Definition is_recvmsg (e : effect) : bool :=
  match e with Recvmsg _ _ => true | _ => false end.

Section SocketLayer.
Context `{headers : isc_headers} (env : environment).

(** ** Small pieces *)

Definition SOFT_ERROR (e : Z) : bool :=
  (e =? EAGAIN) || (e =? EWOULDBLOCK) || (e =? EINTR) || (e =? 0).

(** CMSG_SPACE of the two payloads on LP64 Linux, and the macros built on
    them.  SO_TIMESTAMP, CMSG_LEN and CMSG_SPACE exist on the host, so
    USE_CMSG is defined. *)
Definition CMSG_SPACE_in6_pktinfo : Z := 40.
Definition PKTINFO_SPACE : Z :=
  if ISC_PLATFORM_HAVEIPV6 then CMSG_SPACE_in6_pktinfo else 0.
Definition TIMESTAMP_SPACE : Z := 32.
Definition TOTAL_SPACE : Z := PKTINFO_SPACE + TIMESTAMP_SPACE.

Definition MAXSCATTERGATHER_SEND : Z := ISC_SOCKET_MAXSCATTERGATHER.
Definition MAXSCATTERGATHER_RECV : Z :=
  if ISC_NET_RECVOVERFLOW then ISC_SOCKET_MAXSCATTERGATHER + 1
  else ISC_SOCKET_MAXSCATTERGATHER.

Definition SOCK_DEAD (s : isc_socket_t) : bool := references s =? 0.

Definition is_udp (s : isc_socket_t) : bool :=
  bool_decide (sock_type s = isc_sockettype_udp).
Definition is_tcp (s : isc_socket_t) : bool :=
  bool_decide (sock_type s = isc_sockettype_tcp).

(** Modelled from the spec: the buffer macros of <isc/buffer.h>: the used
    region, the available region behind it, and "append n bytes to the
    used region". *)
Definition ISC_BUFFER_VALID (b : isc_buffer_t) : bool :=
  buffer_magic b =? ISC_BUFFER_MAGIC.
Definition ISC_BUFFER_USEDCOUNT (b : isc_buffer_t) : Z := buffer_used b.
Definition ISC_BUFFER_AVAILABLECOUNT (b : isc_buffer_t) : Z :=
  uint (buffer_length b - buffer_used b).
Definition isc_buffer_add (b : isc_buffer_t) (n : Z) : isc_buffer_t :=
  {| buffer_magic := buffer_magic b; buffer_length := buffer_length b;
     buffer_used := uint (buffer_used b + n) |}.

(** ISC_LIST_DEQUEUE / ISC_LIST_UNLINK: take the object at address [a]
    off the list. *)
Fixpoint unlink (a : nat) (l : list isc_socketevent_t) :=
  match l with
  | [] => []
  | e :: l' => if bool_decide (se_self e = a) then l' else e :: unlink a l'
  end.

Fixpoint unlink_newconn (a : nat) (l : list isc_socket_newconnev_t) :=
  match l with
  | [] => []
  | e :: l' =>
      if bool_decide (nc_self e = a) then l' else e :: unlink_newconn a l'
  end.

(** ISC_LINK_LINKED: a request is on a list exactly when the socket's
    queue for its direction holds the object at its address. *)
Definition ISC_LINK_LINKED (elt : nat) (l : list isc_socketevent_t) : bool :=
  existsb (λ e, bool_decide (se_self e = elt)) l.

(** A write through a pointer into a queue: the queued object at the
    address of [dev] takes the contents of [dev]. *)
Fixpoint store (dev : isc_socketevent_t) (l : list isc_socketevent_t) :=
  match l with
  | [] => []
  | e :: l' =>
      if bool_decide (se_self e = se_self dev) then dev :: l'
      else e :: store dev l'
  end.

(** Poke the select loop.  The write() to the control pipe is taken to go
    through at once; its retry on a soft error and FATAL_ERROR are left
    out. *)
Definition select_poke (msg : Z) : io unit := emit (Poke msg).

(** ** Control messages *)

Definition or_attribute (flag : Z) (dev : isc_socketevent_t) :=
  set_se_attributes (Z.lor (se_attributes dev) flag) dev.

(** One turn of the while loop of [process_cmsg]. *)
Definition process_cmsg_step (dev : isc_socketevent_t) (cmsgp : cmsghdr) :=
  if ISC_PLATFORM_HAVEIPV6 && (cmsg_level cmsgp =? IPPROTO_IPV6)
     && (cmsg_type cmsgp =? IPV6_PKTINFO)
  then
    or_attribute ISC_SOCKEVENTATTR_PKTINFO
      (set_se_pktinfo {| ipi6_addr := fst (cmsg_data cmsgp);
                         ipi6_ifindex := snd (cmsg_data cmsgp) |} dev)
  else if (cmsg_level cmsgp =? SOL_SOCKET)
          && (cmsg_type cmsgp =? SCM_TIMESTAMP)
  then
    or_attribute ISC_SOCKEVENTATTR_TIMESTAMP
      (set_se_timestamp {| seconds := fst (cmsg_data cmsgp);
                           nanoseconds := snd (cmsg_data cmsgp) * 1000 |} dev)
  else dev.

Definition process_cmsg (msg : msghdr) (dev : isc_socketevent_t) :=
  if negb ISC_NET_BSD44MSGHDR then dev
  else
    let dev :=
      if Z.land (msg_flags msg) MSG_TRUNC =? MSG_TRUNC
      then or_attribute ISC_SOCKEVENTATTR_TRUNC dev else dev in
    let dev :=
      if Z.land (msg_flags msg) MSG_CTRUNC =? MSG_CTRUNC
      then or_attribute ISC_SOCKEVENTATTR_CTRUNC dev else dev in
    match msg_control msg with
    | None => dev
    | Some cmsgs =>
        if msg_controllen msg =? 0 then dev
        else fold_left process_cmsg_step cmsgs dev
    end.

(** ** Scatter/gather headers *)

(** The first loop of the multibuffer case of [build_msghdr_send]: skip
    the buffers already written, keeping what is left of [skip_count]. *)
Fixpoint send_skip (skip_count : Z) (bl : list isc_buffer_t)
  : result (Z * list isc_buffer_t) :=
  match bl with
  | [] => mret (skip_count, [])
  | buffer :: rest =>
      REQUIRE (ISC_BUFFER_VALID buffer);;
      if skip_count <? ISC_BUFFER_USEDCOUNT buffer then mret (skip_count, bl)
      else send_skip (size_t (skip_count - ISC_BUFFER_USEDCOUNT buffer)) rest
  end.

(** Its second loop: one iovec per buffer with used bytes. *)
Fixpoint send_iov (maxiov : Z) (bl : list isc_buffer_t)
    (iov : list Z) (write_count skip_count : Z) : result (list Z * Z * Z) :=
  match bl with
  | [] => mret (iov, write_count, skip_count)
  | buffer :: rest =>
      INSIST (Z.of_nat (length iov) <? maxiov);;
      let used := ISC_BUFFER_USEDCOUNT buffer in
      if 0 <? used then
        send_iov maxiov rest (iov ++ [size_t (used - skip_count)])
          (size_t (write_count + size_t (used - skip_count))) 0
      else send_iov maxiov rest iov write_count skip_count
  end.

Definition build_msghdr_send (sock : isc_socket_t) (dev : isc_socketevent_t)
    (maxiov : Z) : result (msghdr * Z) :=
  '(iov, write_count) ←
    match se_bufferlist dev with
    | [] =>
        let write_count := uint (region_length (se_region dev) - se_n dev) in
        mret ([write_count], write_count)
    | bl =>
        '(skip_count, bl') ← send_skip (se_n dev) bl;
        '(iov, write_count, skip_count) ← send_iov maxiov bl' [] 0 skip_count;
        INSIST (skip_count =? 0);;
        mret (iov, write_count)
    end;
  let pktinfo :=
    ISC_NET_BSD44MSGHDR && is_udp sock
    && negb (Z.land (se_attributes dev) ISC_SOCKEVENTATTR_PKTINFO =? 0) in
  mret ({| msg_name :=
             if is_udp sock then Some (sa (se_address dev)) else None;
           msg_namelen :=
             if is_udp sock then sa_length (se_address dev) else 0;
           msg_iov := iov;
           msg_control :=
             if pktinfo
             then Some [ {| cmsg_level := IPPROTO_IPV6;
                            cmsg_type := IPV6_PKTINFO;
                            cmsg_data := (ipi6_addr (se_pktinfo dev),
                                          ipi6_ifindex (se_pktinfo dev)) |} ]
             else None;
           msg_controllen := if pktinfo then CMSG_SPACE_in6_pktinfo else 0;
           msg_flags := 0 |}, write_count).

(** The loops of the multibuffer case of [build_msghdr_recv]. *)
Fixpoint recv_skip (bl : list isc_buffer_t) : result (list isc_buffer_t) :=
  match bl with
  | [] => mret []
  | buffer :: rest =>
      REQUIRE (ISC_BUFFER_VALID buffer);;
      if negb (ISC_BUFFER_AVAILABLECOUNT buffer =? 0) then mret bl
      else recv_skip rest
  end.

Fixpoint recv_iov (maxiov : Z) (bl : list isc_buffer_t)
    (iov : list Z) (read_count : Z) : result (list Z * Z) :=
  match bl with
  | [] => mret (iov, read_count)
  | buffer :: rest =>
      INSIST (Z.of_nat (length iov) <? maxiov);;
      let available := ISC_BUFFER_AVAILABLECOUNT buffer in
      if 0 <? available then
        recv_iov maxiov rest (iov ++ [available])
          (size_t (read_count + available))
      else recv_iov maxiov rest iov read_count
  end.

(** Returns the event as the function leaves it (its address field is
    rewritten), the header and the number of bytes that fit. *)
Definition build_msghdr_recv (sock : isc_socket_t) (dev : isc_socketevent_t)
    (maxiov : Z) : result (isc_socketevent_t * msghdr * Z) :=
  let dev :=
    if is_udp sock then set_se_address {| sa := 0; sa_length := 0 |} dev
    else set_se_address (address sock) dev in
  let maxiov :=
    if is_udp sock && ISC_NET_RECVOVERFLOW then uint (maxiov - 1)
    else maxiov in
  '(iov, read_count) ←
    match se_bufferlist dev with
    | [] =>
        let read_count := uint (region_length (se_region dev) - se_n dev) in
        mret ([read_count], read_count)
    | bl => bl' ← recv_skip bl; recv_iov maxiov bl' [] 0
    end;
  let iov := if is_udp sock && ISC_NET_RECVOVERFLOW then iov ++ [1] else iov in
  let control := ISC_NET_BSD44MSGHDR && is_udp sock in
  mret (dev,
        {| msg_name := if is_udp sock then Some 0 else None;
           msg_namelen := if is_udp sock then sizeof_sockaddr_type else 0;
           msg_iov := iov;
           msg_control := if control then Some [] else None;
           msg_controllen := if control then TOTAL_SPACE else 0;
           msg_flags := 0 |},
        read_count).

(** ** Completion events *)

(** Set the result code in the done event and send it to the task it was
    destined for, taking it off the socket's read queue first when it is
    on it. *)
Definition send_recvdone_event (dev : isc_socketevent_t)
    (resultcode : isc_result_t) : io unit :=
  sock ← get_sock;
  let task := se_sender dev in
  let dev := set_se_result resultcode dev in
  let dev := set_se_sender (SockPtr (self sock)) dev in
  (if ISC_LINK_LINKED (se_self dev) (recv_list sock)
   then modify_sock (λ s, set_recv_list (unlink (se_self dev) (recv_list s)) s)
   else mret ());;
  let dev :=
    if bool_decide (recv_result sock ≠ ISC_R_SUCCESS)
    then or_attribute ISC_SOCKEVENTATTR_FATALERROR dev else dev in
  if Z.land (se_attributes dev) ISC_SOCKEVENTATTR_ATTACHED
     =? ISC_SOCKEVENTATTR_ATTACHED
  then emit (TaskSendAndDetach task (SocketEvent dev))
  else emit (TaskSend task (SocketEvent dev)).

Definition send_senddone_event (dev : isc_socketevent_t)
    (resultcode : isc_result_t) : io unit :=
  sock ← get_sock;
  let task := se_sender dev in
  let dev := set_se_result resultcode dev in
  let dev := set_se_sender (SockPtr (self sock)) dev in
  (if ISC_LINK_LINKED (se_self dev) (send_list sock)
   then modify_sock (λ s, set_send_list (unlink (se_self dev) (send_list s)) s)
   else mret ());;
  let dev :=
    if bool_decide (send_result sock ≠ ISC_R_SUCCESS)
    then or_attribute ISC_SOCKEVENTATTR_FATALERROR dev else dev in
  if Z.land (se_attributes dev) ISC_SOCKEVENTATTR_ATTACHED
     =? ISC_SOCKEVENTATTR_ATTACHED
  then emit (TaskSendAndDetach task (SocketEvent dev))
  else emit (TaskSend task (SocketEvent dev)).

(** ** The I/O engine *)

(** The SOFT_OR_HARD macro of [doio_recv], once its errno test passed. *)
Definition SOFT_OR_HARD_recv (_isc : isc_result_t) (dev : isc_socketevent_t)
  : io (doio_t * isc_socketevent_t) :=
  sock ← get_sock;
  if connected sock then
    (if is_tcp sock then modify_sock (set_recv_result _isc) else mret ());;
    send_recvdone_event dev _isc;;
    mret (DOIO_HARD, dev)
  else mret (DOIO_SOFT, dev).

(** "update the buffers (if any) and the i/o count": the while loop over
    the buffer list in [doio_recv]. *)
Fixpoint recv_fill (bl : list isc_buffer_t) (actual_count : Z)
  : result (list isc_buffer_t) :=
  match bl with
  | [] => mret []
  | buffer :: rest =>
      if 0 <? actual_count then
        REQUIRE (ISC_BUFFER_VALID buffer);;
        if ISC_BUFFER_AVAILABLECOUNT buffer <=? actual_count then
          let actual_count :=
            size_t (actual_count - ISC_BUFFER_AVAILABLECOUNT buffer) in
          let buffer :=
            isc_buffer_add buffer (ISC_BUFFER_AVAILABLECOUNT buffer) in
          (match rest with
           | [] => INSIST (actual_count =? 0)
           | _ => mret ()
           end);;
          rest' ← recv_fill rest actual_count;
          mret (buffer :: rest')
        else mret (isc_buffer_add buffer actual_count :: rest)
      else mret bl
  end.

(** Returns the outcome and the request as the call left it; after
    DOIO_SUCCESS and DOIO_HARD the request belongs to its task. *)
Definition doio_recv (dev : isc_socketevent_t)
  : io (doio_t * isc_socketevent_t) :=
  sock ← get_sock;
  '(dev, msghdr, read_count) ←
    pure (build_msghdr_recv sock dev MAXSCATTERGATHER_RECV);
  r ← ask (Recvmsg (fd sock) msghdr) (λ t, env_recvmsg env t (fd sock) msghdr);
  let cc := rm_cc r in
  let errno := rm_errno r in
  let msghdr := rm_msg r in
  (* what the kernel stored through msg_name *)
  let dev :=
    match msg_name msghdr with
    | Some name =>
        if is_udp sock
        then set_se_address {| sa := name;
                               sa_length := sa_length (se_address dev) |} dev
        else dev
    | None => dev
    end in
  if cc <? 0 then
    if SOFT_ERROR errno then mret (DOIO_SOFT, dev)
    else if errno =? ECONNREFUSED then SOFT_OR_HARD_recv ISC_R_CONNREFUSED dev
    else if errno =? ENETUNREACH then SOFT_OR_HARD_recv ISC_R_NETUNREACH dev
    else if errno =? EHOSTUNREACH then SOFT_OR_HARD_recv ISC_R_HOSTUNREACH dev
    else if errno =? ENOBUFS then
      send_recvdone_event dev ISC_R_NORESOURCES;;
      mret (DOIO_HARD, dev)
    else
      modify_sock (set_recv_result ISC_R_UNEXPECTED);;
      send_recvdone_event dev ISC_R_UNEXPECTED;;
      mret (DOIO_SUCCESS, dev)
  else if is_tcp sock && (cc =? 0) then
    modify_sock (set_recv_result ISC_R_EOF);;
    mret (DOIO_EOF, dev)
  else
    let dev :=
      if is_udp sock
      then set_se_address {| sa := sa (se_address dev);
                             sa_length := msg_namelen msghdr |} dev
      else dev in
    let overflow := ISC_NET_RECVOVERFLOW && is_udp sock && (read_count <? cc) in
    let dev :=
      if overflow then or_attribute ISC_SOCKEVENTATTR_TRUNC dev else dev in
    let cc := if overflow then cc - 1 else cc in
    let dev := if is_udp sock then process_cmsg msghdr dev else dev in
    let dev := set_se_n (uint (se_n dev + cc)) dev in
    bl ← pure (recv_fill (se_bufferlist dev) cc);
    let dev := set_se_bufferlist bl dev in
    if negb (cc =? read_count) && (se_n dev <? se_minimum dev)
    then mret (DOIO_SOFT, dev)
    else
      send_recvdone_event dev ISC_R_SUCCESS;;
      mret (DOIO_SUCCESS, dev).

(** The SOFT_OR_HARD macro of [doio_send]. *)
Definition SOFT_OR_HARD_send (_isc : isc_result_t) (dev : isc_socketevent_t)
  : io (doio_t * isc_socketevent_t) :=
  sock ← get_sock;
  if connected sock then
    (if is_tcp sock then modify_sock (set_send_result _isc) else mret ());;
    send_senddone_event dev _isc;;
    mret (DOIO_HARD, dev)
  else mret (DOIO_SOFT, dev).

Definition doio_send (dev : isc_socketevent_t)
  : io (doio_t * isc_socketevent_t) :=
  sock ← get_sock;
  '(msghdr, write_count) ←
    pure (build_msghdr_send sock dev MAXSCATTERGATHER_SEND);
  '(cc, errno) ←
    ask (Sendmsg (fd sock) msghdr) (λ t, env_sendmsg env t (fd sock) msghdr);
  if cc <? 0 then
    if SOFT_ERROR errno then mret (DOIO_SOFT, dev)
    else if errno =? ECONNREFUSED then SOFT_OR_HARD_send ISC_R_CONNREFUSED dev
    else if errno =? ENETUNREACH then SOFT_OR_HARD_send ISC_R_NETUNREACH dev
    else if errno =? EHOSTUNREACH then SOFT_OR_HARD_send ISC_R_HOSTUNREACH dev
    else if errno =? ENOBUFS then
      send_senddone_event dev ISC_R_NORESOURCES;;
      mret (DOIO_HARD, dev)
    else
      emit UnexpectedError;;
      modify_sock (set_send_result ISC_R_UNEXPECTED);;
      send_senddone_event dev ISC_R_UNEXPECTED;;
      mret (DOIO_HARD, dev)
  else
    (if cc =? 0 then emit UnexpectedError else mret ());;
    let dev := set_se_n (uint (se_n dev + cc)) dev in
    if negb (cc =? write_count) then mret (DOIO_SOFT, dev)
    else
      send_senddone_event dev ISC_R_SUCCESS;;
      mret (DOIO_SUCCESS, dev).

(** ** Teardown *)

Definition EMPTY {A} (l : list A) : bool :=
  match l with [] => true | _ => false end.

(** Checks and releases the socket object [sock]; returns it as the call
    leaves it. *)
Definition free_socket (sock : isc_socket_t) : io isc_socket_t :=
  INSIST (references sock =? 0);;
  INSIST (VALID_SOCKET sock);;
  INSIST (negb (connecting sock));;
  INSIST (negb (pending_recv sock));;
  INSIST (negb (pending_send sock));;
  INSIST (negb (pending_accept sock));;
  INSIST (EMPTY (recv_list sock));;
  INSIST (EMPTY (send_list sock));;
  INSIST (EMPTY (accept_list sock));;
  emit (MutexDestroy (self sock));;
  emit (MemPut (self sock));;
  mret (set_magic 0 sock).

Definition destroy : io unit :=
  sock ← get_sock;
  INSIST (EMPTY (accept_list sock));;
  INSIST (EMPTY (recv_list sock));;
  INSIST (EMPTY (send_list sock));;
  INSIST (bool_decide (connect_ev sock = None));;
  modify_manager (λ m, set_fds (delete (fd sock) (fds m)) m);;
  modify_manager (λ m, set_fdstate (<[fd sock := CLOSE_PENDING]> (fdstate m)) m);;
  select_poke (fd sock);;
  modify_manager (λ m, set_nsockets (uint (nsockets m - 1)) m);;
  manager ← get_manager;
  (if nsockets manager =? 0 then emit Signal else mret ());;
  sock ← free_socket sock;
  modify_sock (λ _, sock).

(** ** The read handler *)

(** The do-while of the DOIO_EOF case of [internal_recv].  Each turn takes
    the head off the queue, so [fuel] turns are enough for a queue of
    [fuel] requests. *)
Fixpoint eof_cascade (fuel : nat) (dev : isc_socketevent_t) : io unit :=
  match fuel with
  | O => out_of_fuel
  | S fuel =>
      send_recvdone_event dev ISC_R_EOF;;
      sock ← get_sock;
      match recv_list sock with
      | [] => mret ()
      | dev :: _ => eof_cascade fuel dev
      end
  end.

(** The while loop of [internal_recv], up to the label poke. *)
Fixpoint internal_recv_loop (fuel : nat) : io unit :=
  sock ← get_sock;
  match recv_list sock with
  | [] => mret ()
  | dev :: _ =>
      match fuel with
      | O => out_of_fuel
      | S fuel =>
          if bool_decide (se_type dev = ISC_SOCKEVENT_RECVMARK) then
            send_recvdone_event dev (recv_result sock);;
            internal_recv_loop fuel
          else if bool_decide (recv_result sock ≠ ISC_R_SUCCESS) then
            send_recvdone_event dev (recv_result sock);;
            internal_recv_loop fuel
          else
            '(io_result, dev) ← doio_recv dev;
            match io_result with
            | DOIO_SOFT =>
                (* the request stays queued, as doio_recv left it *)
                modify_sock (λ s, set_recv_list (store dev (recv_list s)) s)
            | DOIO_EOF =>
                sock ← get_sock;
                eof_cascade (length (recv_list sock)) dev
            | DOIO_UNEXPECTED | DOIO_SUCCESS | DOIO_HARD =>
                internal_recv_loop fuel
            end
      end
  end.

Definition internal_recv (ev : intev_t) : io unit :=
  INSIST (bool_decide (iev_type ev = ISC_SOCKEVENT_INTR));;
  sock ← get_sock;
  (* sock = ev->sender *)
  INSIST (bool_decide (iev_sender ev = SockPtr (self sock)));;
  INSIST (VALID_SOCKET sock);;
  INSIST (pending_recv sock);;
  modify_sock (set_pending_recv false);;
  INSIST (0 <? references sock);;
  modify_sock (λ s, set_references (uint (references s - 1)) s);;
  sock ← get_sock;
  if references sock =? 0 then destroy
  else
    internal_recv_loop (length (recv_list sock));;
    sock ← get_sock;
    if negb (EMPTY (recv_list sock)) then select_poke (fd sock) else mret ().

(** ** Posting a read *)

(** Modelled from the spec: isc_event_allocate() is defined in event.c,
    which is missing; an event is "a carrier of (type, sender, action, arg,
    payload)", so the call fills in exactly these and leaves the payload
    as the memory held it. *)
Definition init_socketevent (sock : isc_socket_t)
    (eventtype : isc_eventtype_t) (action arg : Z) (ev : isc_socketevent_t)
  : isc_socketevent_t :=
  {| se_self := se_self ev; se_type := eventtype;
     se_sender := SockPtr (self sock);
     se_action := action; se_arg := arg;
     se_result := ISC_R_UNEXPECTED;
     se_minimum := se_minimum ev;
     se_n := 0;
     se_offset := 0;
     se_region := {| base := 0;
                     region_length := region_length (se_region ev) |};
     se_bufferlist := [];
     se_address := se_address ev;
     se_timestamp := se_timestamp ev;
     se_pktinfo := se_pktinfo ev;
     se_attributes := se_attributes ev |}.

Definition allocate_socketevent (eventtype : isc_eventtype_t)
    (action arg : Z) : io (option isc_socketevent_t) :=
  sock ← get_sock;
  ev ← ask (EventAllocate eventtype) (env_socketevent env);
  match ev with
  | None => mret None
  | Some ev => mret (Some (init_socketevent sock eventtype action arg ev))
  end.

(** The code after the label queue of [isc_socket_recv] and
    [isc_socket_recvv]. *)
Definition recv_queue (dev : isc_socketevent_t) (task : pointer)
    (was_empty : bool) : io isc_result_t :=
  emit (TaskAttach task);;
  let dev := or_attribute ISC_SOCKEVENTATTR_ATTACHED dev in
  modify_sock (λ s, set_recv_list (recv_list s ++ [dev]) s);;
  sock ← get_sock;
  (if was_empty then select_poke (fd sock) else mret ());;
  mret ISC_R_SUCCESS.

(** The code both calls share from "was_empty =" on. *)
Definition recv_now_or_queue (dev : isc_socketevent_t) (task : pointer)
  : io isc_result_t :=
  sock ← get_sock;
  let was_empty := EMPTY (recv_list sock) in
  if negb was_empty then recv_queue dev task was_empty
  else if bool_decide (recv_result sock ≠ ISC_R_SUCCESS) then
    send_recvdone_event dev (recv_result sock);;
    mret ISC_R_SUCCESS
  else
    '(io_result, dev) ← doio_recv dev;
    match io_result with
    | DOIO_SOFT => recv_queue dev task was_empty
    | DOIO_EOF =>
        send_recvdone_event dev ISC_R_EOF;;
        mret ISC_R_SUCCESS
    | DOIO_HARD | DOIO_UNEXPECTED | DOIO_SUCCESS => mret ISC_R_SUCCESS
    end.

(** Modelled from the spec: isc_bufferlist_availablecount() is defined in
    bufferlist.c, which is missing: the available bytes of a buffer list. *)
Definition isc_bufferlist_availablecount (bl : list isc_buffer_t) : Z :=
  fold_left (λ acc b, uint (acc + ISC_BUFFER_AVAILABLECOUNT b)) bl 0.

Definition isc_socket_recvv (buflist : option (list isc_buffer_t))
    (minimum : Z) (task : pointer) (action arg : Z) : io isc_result_t :=
  sock ← get_sock;
  REQUIRE (VALID_SOCKET sock);;
  match buflist with
  | None => REQUIRE false;; mret ISC_R_UNEXPECTED
  | Some buflist =>
      REQUIRE (negb (EMPTY buflist));;
      REQUIRE (bool_decide (task ≠ NULL));;
      REQUIRE (negb (action =? 0));;
      manager ← get_manager;
      REQUIRE (VALID_MANAGER manager);;
      let iocount := isc_bufferlist_availablecount buflist in
      REQUIRE (0 <? iocount);;
      dev ← allocate_socketevent ISC_SOCKEVENT_RECVDONE action arg;
      match dev with
      | None => mret ISC_R_NOMEMORY
      | Some dev =>
          let dev :=
            if is_udp sock then set_se_minimum 1 dev
            else if minimum =? 0 then set_se_minimum iocount dev
            else set_se_minimum minimum dev in
          let dev := set_se_sender task dev in
          let dev := set_se_bufferlist buflist dev in
          recv_now_or_queue dev task
      end
  end.

Definition isc_socket_recv (region : option isc_region_t) (minimum : Z)
    (task : pointer) (action arg : Z) : io isc_result_t :=
  sock ← get_sock;
  REQUIRE (VALID_SOCKET sock);;
  match region with
  | None => REQUIRE false;; mret ISC_R_UNEXPECTED
  | Some region =>
      REQUIRE (minimum <=? region_length region);;
      REQUIRE (bool_decide (task ≠ NULL));;
      REQUIRE (negb (action =? 0));;
      manager ← get_manager;
      REQUIRE (VALID_MANAGER manager);;
      dev ← allocate_socketevent ISC_SOCKEVENT_RECVDONE action arg;
      match dev with
      | None => mret ISC_R_NOMEMORY
      | Some dev =>
          let dev :=
            if is_udp sock then set_se_minimum 1 dev
            else if minimum =? 0 then set_se_minimum (region_length region) dev
            else set_se_minimum minimum dev in
          let dev := set_se_result ISC_R_SUCCESS dev in
          let dev := set_se_n 0 dev in
          let dev := set_se_region region dev in
          let dev := set_se_sender task dev in
          recv_now_or_queue dev task
      end
  end.

(** ** Connecting *)

(** The code after the label queue of [isc_socket_connect]. *)
Definition connect_queue (dev : isc_socket_connev_t) (task : pointer)
  : io isc_result_t :=
  emit (TaskAttach task);;
  modify_sock (set_connecting true);;
  let dev := set_ce_sender task dev in
  sock ← get_sock;
  (if bool_decide (connect_ev sock = None) then select_poke (fd sock)
   else mret ());;
  modify_sock (set_connect_ev (Some dev));;
  mret ISC_R_SUCCESS.

(** The code after the label err_exit. *)
Definition connect_err_exit (dev : isc_socket_connev_t) (task : pointer)
  : io isc_result_t :=
  modify_sock (set_connected false);;
  emit (TaskSend task (ConnEvent dev));;
  mret ISC_R_SUCCESS.

Definition isc_socket_connect (addr : option isc_sockaddr_t)
    (task : pointer) (action arg : Z) : io isc_result_t :=
  sock ← get_sock;
  REQUIRE (VALID_SOCKET sock);;
  match addr with
  | None => REQUIRE false;; mret ISC_R_UNEXPECTED
  | Some addr =>
      REQUIRE (bool_decide (task ≠ NULL));;
      REQUIRE (negb (action =? 0));;
      manager ← get_manager;
      REQUIRE (VALID_MANAGER manager);;
      REQUIRE (negb (connecting sock));;
      dev ← ask (EventAllocate ISC_SOCKEVENT_CONNECT) (env_connev env);
      match dev with
      | None => mret ISC_R_NOMEMORY
      | Some dev =>
          (* what isc_event_allocate() filled in *)
          let dev :=
            {| ce_self := ce_self dev; ce_type := ISC_SOCKEVENT_CONNECT;
               ce_sender := SockPtr (self sock);
               ce_action := action; ce_arg := arg;
               ce_result := ce_result dev |} in
          modify_sock (set_address addr);;
          '(cc, errno) ←
            ask (Connect (fd sock) addr) (λ t, env_connect env t (fd sock) addr);
          if cc <? 0 then
            if SOFT_ERROR errno || (errno =? EINPROGRESS)
            then connect_queue dev task
            else if errno =? ECONNREFUSED then
              connect_err_exit (set_ce_result ISC_R_CONNREFUSED dev) task
            else if errno =? ENETUNREACH then
              connect_err_exit (set_ce_result ISC_R_NETUNREACH dev) task
            else
              modify_sock (set_connected false);;
              emit UnexpectedError;;
              mret ISC_R_UNEXPECTED
          else if cc =? 0 then
            modify_sock (set_connected true);;
            emit (TaskSend task (ConnEvent (set_ce_result ISC_R_SUCCESS dev)));;
            mret ISC_R_SUCCESS
          else connect_queue dev task
      end
  end.

(** Called when a socket with a pending connect() finishes. *)
Definition internal_connect (ev : intev_t) : io unit :=
  INSIST (bool_decide (iev_type ev = ISC_SOCKEVENT_INTW));;
  sock ← get_sock;
  (* sock = ev->sender *)
  INSIST (bool_decide (iev_sender ev = SockPtr (self sock)));;
  INSIST (VALID_SOCKET sock);;
  INSIST (0 <? references sock);;
  modify_sock (λ s, set_references (uint (references s - 1)) s);;
  sock ← get_sock;
  if references sock =? 0 then destroy
  else
    match connect_ev sock with
    | None => INSIST (negb (connecting sock))
    | Some dev =>
        INSIST (connecting sock);;
        modify_sock (set_connecting false);;
        '(ret, optval, errno) ←
          ask (Getsockopt (fd sock)) (λ t, env_getsockopt env t (fd sock));
        (* if (getsockopt(...) < 0) cc = errno; else errno = cc; *)
        let errno := if ret <? 0 then errno else optval in
        if negb (errno =? 0) && (SOFT_ERROR errno || (errno =? EINPROGRESS))
        then
          modify_sock (set_connecting true);;
          select_poke (fd sock)
        else
          dev ← (if negb (errno =? 0) then
                   if errno =? ETIMEDOUT
                   then mret (set_ce_result ISC_R_TIMEDOUT dev)
                   else if errno =? ECONNREFUSED
                   then mret (set_ce_result ISC_R_CONNREFUSED dev)
                   else if errno =? ENETUNREACH
                   then mret (set_ce_result ISC_R_NETUNREACH dev)
                   else
                     emit UnexpectedError;;
                     mret (set_ce_result ISC_R_UNEXPECTED dev)
                 else mret (set_ce_result ISC_R_SUCCESS dev));
          modify_sock (set_connect_ev None);;
          let task := ce_sender dev in
          let dev := set_ce_sender (SockPtr (self sock)) dev in
          emit (TaskSendAndDetach task (ConnEvent dev))
    end.

(** ** Cancelling *)

(** The while loops of [isc_socket_cancel].  [next] is read before the
    request is completed, so each loop walks the queue as it was when the
    loop began. *)
Fixpoint cancel_recv (task : pointer) (l : list isc_socketevent_t) : io unit :=
  match l with
  | [] => mret ()
  | dev :: next =>
      let current_task := se_sender dev in
      (if bool_decide (task = NULL) || bool_decide (task = current_task)
       then send_recvdone_event dev ISC_R_CANCELED else mret ());;
      cancel_recv task next
  end.

Fixpoint cancel_send (task : pointer) (l : list isc_socketevent_t) : io unit :=
  match l with
  | [] => mret ()
  | dev :: next =>
      let current_task := se_sender dev in
      (if bool_decide (task = NULL) || bool_decide (task = current_task)
       then send_senddone_event dev ISC_R_CANCELED else mret ());;
      cancel_send task next
  end.

Fixpoint cancel_accept (task : pointer) (l : list isc_socket_newconnev_t)
  : io unit :=
  match l with
  | [] => mret ()
  | dev :: next =>
      let current_task := nc_sender dev in
      (if bool_decide (task = NULL) || bool_decide (task = current_task)
       then
         sock ← get_sock;
         modify_sock
           (λ s, set_accept_list (unlink_newconn (nc_self dev) (accept_list s)) s);;
         match newsocket dev with
         | None => INSIST false  (* dev->newsocket is dereferenced *)
         | Some newsock =>
             free_socket
               (set_references (uint (references newsock - 1)) newsock);;
             let dev := set_newsocket None dev in
             let dev := set_nc_result ISC_R_CANCELED dev in
             let dev := set_nc_sender (SockPtr (self sock)) dev in
             emit (TaskSendAndDetach current_task (NewconnEvent dev))
         end
       else mret ());;
      cancel_accept task next
  end.

(** Run through the list of events on this socket, and cancel the ones
    queued for task [task] of type [how]; [how] is a bitmask. *)
Definition isc_socket_cancel (task : pointer) (how : Z) : io unit :=
  sock ← get_sock;
  REQUIRE (VALID_SOCKET sock);;
  if how =? 0 then mret ()
  else
    (if (Z.land how ISC_SOCKCANCEL_RECV =? ISC_SOCKCANCEL_RECV)
        && negb (EMPTY (recv_list sock))
     then cancel_recv task (recv_list sock) else mret ());;
    sock ← get_sock;
    (if (Z.land how ISC_SOCKCANCEL_SEND =? ISC_SOCKCANCEL_SEND)
        && negb (EMPTY (send_list sock))
     then cancel_send task (send_list sock) else mret ());;
    sock ← get_sock;
    (if (Z.land how ISC_SOCKCANCEL_ACCEPT =? ISC_SOCKCANCEL_ACCEPT)
        && negb (EMPTY (accept_list sock))
     then cancel_accept task (accept_list sock) else mret ());;
    sock ← get_sock;
    (if Z.land how ISC_SOCKCANCEL_CONNECT =? ISC_SOCKCANCEL_CONNECT
     then
       match connect_ev sock with
       | None => mret ()
       | Some dev =>
           INSIST (connecting sock);;
           modify_sock (set_connecting false);;
           let current_task := ce_sender dev in
           if bool_decide (task = NULL) || bool_decide (task = current_task)
           then
             modify_sock (set_connect_ev None);;
             let dev := set_ce_result ISC_R_CANCELED dev in
             let dev := set_ce_sender (SockPtr (self sock)) dev in
             emit (TaskSendAndDetach current_task (ConnEvent dev))
           else mret ()
       end
     else mret ());;
    sock ← get_sock;
    select_poke (fd sock).

(** ** The watcher: messages on the control pipe *)

Definition SELECT_POKE_SHUTDOWN : Z := -1.
Definition SELECT_POKE_NOTHING : Z := -2.

Definition fdstate_at (manager : isc_socketmgr_t) (i : Z) : Z :=
  default CLOSED (fdstate manager !! i).

Definition FD_SET (i : Z) (s : gset Z) : gset Z := {[ i ]} ∪ s.
Definition FD_CLR (i : Z) (s : gset Z) : gset Z := s ∖ {[ i ]}.
Definition FD_ISSET (i : Z) (s : gset Z) : bool := bool_decide (i ∈ s).

(** "If there are no events, or there is an event but we have already
    queued up the internal event on a task's queue, clear the bit.
    Otherwise, set it."  First for reading ... *)
Definition watch_read (sock : isc_socket_t) (manager : isc_socketmgr_t) :=
  let rev_null := EMPTY (recv_list sock) in
  let ev2_null := EMPTY (accept_list sock) in
  if (rev_null && ev2_null) || pending_recv sock || pending_accept sock
  then set_read_fds (FD_CLR (fd sock) (read_fds manager)) manager
  else set_read_fds (FD_SET (fd sock) (read_fds manager)) manager.

(** ... then for writing. *)
Definition watch_write (sock : isc_socket_t) (manager : isc_socketmgr_t) :=
  let rev_null := EMPTY (send_list sock) in
  if (rev_null || pending_send sock) && negb (connecting sock)
  then set_write_fds (FD_CLR (fd sock) (write_fds manager)) manager
  else set_write_fds (FD_SET (fd sock) (write_fds manager)) manager.

(** The body of "if (msg >= 0)" in [watcher]: a wakeup on descriptor
    [msg].  [heap] gives the socket at an address; following
    [manager->fds[msg]] to no socket is a crash, reported like a failed
    assertion.  Returns the manager and what was done to the outside. *)
Definition watcher_wakeup (heap : gmap nat isc_socket_t) (msg : Z)
    (manager : isc_socketmgr_t) : result (isc_socketmgr_t * list effect) :=
  if negb (msg <? FD_SETSIZE) then AssertionFailed
  else if fdstate_at manager msg =? CLOSE_PENDING then
    let manager := set_fdstate (<[msg := CLOSED]> (fdstate manager)) manager in
    let manager := set_read_fds (FD_CLR msg (read_fds manager)) manager in
    let manager := set_write_fds (FD_CLR msg (write_fds manager)) manager in
    Ok (manager, [Close msg])
  else if negb (fdstate_at manager msg =? MANAGED) then Ok (manager, [])
  else
    match fds manager !! msg ≫= λ a, heap !! a with
    | None => AssertionFailed
    | Some sock => Ok (watch_write sock (watch_read sock manager), [])
    end.

(** The for (;;) loop that drains the control pipe.  [pipe] holds the
    messages written so far; reading an empty pipe is a soft error, for
    which select_readmsg() answers SELECT_POKE_NOTHING.  Returns the
    manager, the flag done and what was done to the outside. *)
Fixpoint watcher_control (heap : gmap nat isc_socket_t) (pipe : list Z)
    (manager : isc_socketmgr_t) (trace : list effect)
  : result (isc_socketmgr_t * bool * list effect) :=
  match pipe with
  | [] => Ok (manager, false, trace)
  | msg :: pipe =>
      if msg =? SELECT_POKE_NOTHING then Ok (manager, false, trace)
      else if msg =? SELECT_POKE_SHUTDOWN then Ok (manager, true, trace)
      else if 0 <=? msg then
        match watcher_wakeup heap msg manager with
        | Ok (manager, t) => watcher_control heap pipe manager (trace ++ t)
        | AssertionFailed => AssertionFailed
        | OutOfFuel => OutOfFuel
        end
      else watcher_control heap pipe manager trace
  end.

End SocketLayer.

(** * The rest of the socket layer

    The write side, the markers and reference counting, written on the
    same world as the read side. *)

Section SocketLayerRest.
Context `{headers : isc_headers} (env : environment).

(** ** Posting a write *)

(** [addr] is [None] for a null [address]. *)
Definition set_dev_address (addr : option isc_sockaddr_t)
    (dev : isc_socketevent_t) : io isc_socketevent_t :=
  sock ← get_sock;
  if is_udp sock then
    match addr with
    | Some a => mret (set_se_address a dev)
    | None => mret (set_se_address (address sock) dev)
    end
  else if is_tcp sock then
    INSIST (match addr with None => true | Some _ => false end);;
    mret (set_se_address (address sock) dev)
  else mret dev.

(** The code after the label queue of [isc_socket_sendto] and
    [isc_socket_sendtov]. *)
Definition send_queue (dev : isc_socketevent_t) (task : pointer)
    (was_empty : bool) : io isc_result_t :=
  emit (TaskAttach task);;
  let dev := or_attribute ISC_SOCKEVENTATTR_ATTACHED dev in
  modify_sock (λ s, set_send_list (send_list s ++ [dev]) s);;
  sock ← get_sock;
  (if was_empty then select_poke (fd sock) else mret ());;
  mret ISC_R_SUCCESS.

(** The code both calls share from "was_empty =" on.  [doio_send] has no
    outcome DOIO_EOF; the switch has no case for it and falls through to
    the label queue. *)
Definition send_now_or_queue (dev : isc_socketevent_t) (task : pointer)
  : io isc_result_t :=
  sock ← get_sock;
  let was_empty := EMPTY (send_list sock) in
  if negb was_empty then send_queue dev task was_empty
  else if bool_decide (send_result sock ≠ ISC_R_SUCCESS) then
    send_senddone_event dev (send_result sock);;
    mret ISC_R_SUCCESS
  else
    '(io_result, dev) ← doio_send env dev;
    match io_result with
    | DOIO_SOFT | DOIO_EOF => send_queue dev task was_empty
    | DOIO_HARD | DOIO_UNEXPECTED | DOIO_SUCCESS => mret ISC_R_SUCCESS
    end.

(** "dev->attributes |= ISC_SOCKEVENTATTR_PKTINFO; dev->pktinfo =
    *pktinfo", when [pktinfo] is not null. *)
Definition set_dev_pktinfo (pktinfo : option in6_pktinfo)
    (dev : isc_socketevent_t) : isc_socketevent_t :=
  match pktinfo with
  | Some p => set_se_pktinfo p (or_attribute ISC_SOCKEVENTATTR_PKTINFO dev)
  | None => dev
  end.

Definition isc_socket_sendto (region : option isc_region_t)
    (task : pointer) (action arg : Z)
    (addr : option isc_sockaddr_t) (pktinfo : option in6_pktinfo)
  : io isc_result_t :=
  sock ← get_sock;
  REQUIRE (VALID_SOCKET sock);;
  match region with
  | None => REQUIRE false;; mret ISC_R_UNEXPECTED
  | Some region =>
      REQUIRE (bool_decide (task ≠ NULL));;
      REQUIRE (negb (action =? 0));;
      manager ← get_manager;
      REQUIRE (VALID_MANAGER manager);;
      dev ← allocate_socketevent env ISC_SOCKEVENT_SENDDONE action arg;
      match dev with
      | None => mret ISC_R_NOMEMORY
      | Some dev =>
          let dev := set_se_region region dev in
          let dev := set_se_sender task dev in
          dev ← set_dev_address addr dev;
          let dev := set_dev_pktinfo pktinfo dev in
          send_now_or_queue dev task
      end
  end.

Definition isc_socket_send (region : option isc_region_t)
    (task : pointer) (action arg : Z) : io isc_result_t :=
  isc_socket_sendto region task action arg None None.

(** Modelled from the spec: isc_bufferlist_usedcount() is defined in
    bufferlist.c, which is missing: the used bytes of a buffer list. *)
Definition isc_bufferlist_usedcount (bl : list isc_buffer_t) : Z :=
  fold_left (λ acc b, uint (acc + ISC_BUFFER_USEDCOUNT b)) bl 0.

Definition isc_socket_sendtov (buflist : option (list isc_buffer_t))
    (task : pointer) (action arg : Z)
    (addr : option isc_sockaddr_t) (pktinfo : option in6_pktinfo)
  : io isc_result_t :=
  sock ← get_sock;
  REQUIRE (VALID_SOCKET sock);;
  match buflist with
  | None => REQUIRE false;; mret ISC_R_UNEXPECTED
  | Some buflist =>
      REQUIRE (negb (EMPTY buflist));;
      REQUIRE (bool_decide (task ≠ NULL));;
      REQUIRE (negb (action =? 0));;
      manager ← get_manager;
      REQUIRE (VALID_MANAGER manager);;
      let iocount := isc_bufferlist_usedcount buflist in
      REQUIRE (0 <? iocount);;
      dev ← allocate_socketevent env ISC_SOCKEVENT_SENDDONE action arg;
      match dev with
      | None => mret ISC_R_NOMEMORY
      | Some dev =>
          let dev := set_se_sender task dev in
          dev ← set_dev_address addr dev;
          let dev := set_dev_pktinfo pktinfo dev in
          let dev := set_se_bufferlist buflist dev in
          send_now_or_queue dev task
      end
  end.

Definition isc_socket_sendv (buflist : option (list isc_buffer_t))
    (task : pointer) (action arg : Z) : io isc_result_t :=
  isc_socket_sendtov buflist task action arg None None.

(** ** The write handler *)

(** The while loop of [internal_send], up to the label poke.  Every turn
    that goes on has taken the head off the queue. *)
Fixpoint internal_send_loop (fuel : nat) : io unit :=
  sock ← get_sock;
  match send_list sock with
  | [] => mret ()
  | dev :: _ =>
      match fuel with
      | O => out_of_fuel
      | S fuel =>
          if bool_decide (se_type dev = ISC_SOCKEVENT_SENDMARK) then
            send_senddone_event dev (send_result sock);;
            internal_send_loop fuel
          else if bool_decide (send_result sock ≠ ISC_R_SUCCESS) then
            send_senddone_event dev (send_result sock);;
            internal_send_loop fuel
          else
            '(io_result, dev) ← doio_send env dev;
            match io_result with
            | DOIO_SOFT =>
                (* the request stays queued, as doio_send left it *)
                modify_sock (λ s, set_send_list (store dev (send_list s)) s)
            | DOIO_HARD | DOIO_UNEXPECTED | DOIO_SUCCESS | DOIO_EOF =>
                internal_send_loop fuel
            end
      end
  end.

Definition internal_send (ev : intev_t) : io unit :=
  INSIST (bool_decide (iev_type ev = ISC_SOCKEVENT_INTW));;
  sock ← get_sock;
  (* sock = ev->sender *)
  INSIST (bool_decide (iev_sender ev = SockPtr (self sock)));;
  INSIST (VALID_SOCKET sock);;
  INSIST (pending_send sock);;
  modify_sock (set_pending_send false);;
  INSIST (0 <? references sock);;
  modify_sock (λ s, set_references (uint (references s - 1)) s);;
  sock ← get_sock;
  if references sock =? 0 then destroy
  else
    internal_send_loop (length (send_list sock));;
    sock ← get_sock;
    if negb (EMPTY (send_list sock)) then select_poke (fd sock) else mret ().

(** ** Markers *)

Definition isc_socket_recvmark (task : pointer) (action arg : Z)
  : io isc_result_t :=
  sock ← get_sock;
  REQUIRE (VALID_SOCKET sock);;
  REQUIRE (bool_decide (task ≠ NULL));;
  REQUIRE (negb (action =? 0));;
  manager ← get_manager;
  REQUIRE (VALID_MANAGER manager);;
  dev ← allocate_socketevent env ISC_SOCKEVENT_RECVMARK action arg;
  match dev with
  | None => mret ISC_R_NOMEMORY
  | Some dev =>
      let dev := set_se_result ISC_R_SUCCESS dev in
      let dev := set_se_minimum 0 dev in
      if EMPTY (recv_list sock) then
        send_recvdone_event dev (recv_result sock);;
        mret ISC_R_SUCCESS
      else
        emit (TaskAttach task);;
        let dev := set_se_sender task dev in
        modify_sock (λ s, set_recv_list (recv_list s ++ [dev]) s);;
        mret ISC_R_SUCCESS
  end.

Definition isc_socket_sendmark (task : pointer) (action arg : Z)
  : io isc_result_t :=
  sock ← get_sock;
  REQUIRE (VALID_SOCKET sock);;
  REQUIRE (bool_decide (task ≠ NULL));;
  REQUIRE (negb (action =? 0));;
  manager ← get_manager;
  REQUIRE (VALID_MANAGER manager);;
  dev ← allocate_socketevent env ISC_SOCKEVENT_SENDMARK action arg;
  match dev with
  | None => mret ISC_R_NOMEMORY
  | Some dev =>
      let dev := set_se_result ISC_R_SUCCESS dev in
      let dev := set_se_minimum 0 dev in
      if EMPTY (send_list sock) then
        send_senddone_event dev (send_result sock);;
        mret ISC_R_SUCCESS
      else
        emit (TaskAttach task);;
        let dev := set_se_sender task dev in
        modify_sock (λ s, set_send_list (send_list s ++ [dev]) s);;
        mret ISC_R_SUCCESS
  end.

(** ** References *)

(** [socketp] is [None] for a null [socketp] and otherwise holds
    [*socketp]; the call returns what it stores there. *)
Definition isc_socket_attach (socketp : option pointer) : io pointer :=
  sock ← get_sock;
  REQUIRE (VALID_SOCKET sock);;
  REQUIRE (bool_decide (socketp = Some NULL));;
  modify_sock (λ s, set_references (uint (references s + 1)) s);;
  mret (SockPtr (self sock)).

(** Dereference the socket; the last reference destroys it.  Returns what
    the call stores in [*socketp]. *)
Definition isc_socket_detach : io pointer :=
  sock ← get_sock;
  REQUIRE (VALID_SOCKET sock);;
  REQUIRE (0 <? references sock);;
  modify_sock (λ s, set_references (uint (references s - 1)) s);;
  sock ← get_sock;
  let kill_socket := references sock =? 0 in
  (if kill_socket then destroy else mret ());;
  mret NULL.

End SocketLayerRest.

(** * Creating sockets, accepting connections and dispatching

    These functions ask more of the kernel and of the libraries than the
    read and write paths do.  They run on a [machine]: the world, with a
    trace that also holds the further calls. *)

(** More constants of the host system (Linux). *)
Definition ENFILE : Z := 23.
Definition EMFILE : Z := 24.
Definition AF_INET6 : Z := 10.
Definition SOCK_STREAM : Z := 1.
Definition SOCK_DGRAM : Z := 2.
Definition IPPROTO_TCP : Z := 6.
Definition IPPROTO_UDP : Z := 17.
Definition SO_TIMESTAMP : Z := 29.
Definition F_GETFL : Z := 3.
Definition F_SETFL : Z := 4.
Definition O_NONBLOCK : Z := 0x800.

Definition set_sock_type v (s : isc_socket_t) :=
  {| self := self s; magic := magic s; sock_type := v; references :=
     references s; fd := fd s; recv_result := recv_result s; send_result :=
     send_result s; send_list := send_list s; recv_list := recv_list s;
     accept_list := accept_list s; connect_ev := connect_ev s; readable_ev :=
     readable_ev s; writable_ev := writable_ev s; address := address s;
     pending_recv := pending_recv s; pending_send := pending_send s;
     pending_accept := pending_accept s; listener := listener s; connected :=
     connected s; connecting := connecting s |}.

Definition set_fd v (s : isc_socket_t) :=
  {| self := self s; magic := magic s; sock_type := sock_type s; references
     := references s; fd := v; recv_result := recv_result s; send_result :=
     send_result s; send_list := send_list s; recv_list := recv_list s;
     accept_list := accept_list s; connect_ev := connect_ev s; readable_ev :=
     readable_ev s; writable_ev := writable_ev s; address := address s;
     pending_recv := pending_recv s; pending_send := pending_send s;
     pending_accept := pending_accept s; listener := listener s; connected :=
     connected s; connecting := connecting s |}.

Definition set_readable_ev v (s : isc_socket_t) :=
  {| self := self s; magic := magic s; sock_type := sock_type s; references
     := references s; fd := fd s; recv_result := recv_result s; send_result :=
     send_result s; send_list := send_list s; recv_list := recv_list s;
     accept_list := accept_list s; connect_ev := connect_ev s; readable_ev :=
     v; writable_ev := writable_ev s; address := address s; pending_recv :=
     pending_recv s; pending_send := pending_send s; pending_accept :=
     pending_accept s; listener := listener s; connected := connected s;
     connecting := connecting s |}.

Definition set_writable_ev v (s : isc_socket_t) :=
  {| self := self s; magic := magic s; sock_type := sock_type s; references
     := references s; fd := fd s; recv_result := recv_result s; send_result :=
     send_result s; send_list := send_list s; recv_list := recv_list s;
     accept_list := accept_list s; connect_ev := connect_ev s; readable_ev :=
     readable_ev s; writable_ev := v; address := address s; pending_recv :=
     pending_recv s; pending_send := pending_send s; pending_accept :=
     pending_accept s; listener := listener s; connected := connected s;
     connecting := connecting s |}.

Definition set_nc_address v (e : isc_socket_newconnev_t) :=
  {| nc_self := nc_self e; nc_type := nc_type e; nc_sender := nc_sender e;
     nc_action := nc_action e; nc_arg := nc_arg e; nc_result := nc_result e;
     newsocket := newsocket e; nc_address := v |}.

(** The four handlers an internal event can name in its action field. *)
Inductive handler :=
| internal_accept_fn | internal_recv_fn | internal_send_fn
| internal_connect_fn.

(** The further answers of the outside world, by the time of the question.
    [k_mem_get] is the block isc_mem_get() hands out for a socket and
    [k_newconnev] the block isc_event_allocate() hands out for an accept
    request ([None]: out of memory), holding whatever the memory held.
    socket() and accept() answer with their return value and errno;
    accept() is given the address buffer and its length and also answers
    with what it left there.  fcntl() and setsockopt() answer with their
    return value. *)
Record kernel := {
  k_mem_get : nat → option isc_socket_t;
  k_mutex_init : nat → isc_result_t;
  k_newconnev : nat → option isc_socket_newconnev_t;
  k_socket : nat → Z → Z → Z → Z * Z;
  k_fcntl : nat → Z → Z → Z → Z;
  k_setsockopt : nat → Z → Z → Z → Z;
  k_accept : nat → Z → isc_sockaddr_t → Z * Z * isc_sockaddr_t
}.

(** What these functions do to the outside: the effects of the read and
    write paths, and the calls that only they make.  [TaskSendInternal]
    is isc_task_send() of one of the two events embedded in a socket. *)
Inductive call :=
| Effect (e : effect)
| MemGet
| MutexInit (sock : nat)
| EventFree (ev : nat)
| Socket (pf type protocol : Z)
| Fcntl (s cmd arg : Z)
| Setsockopt (s level name : Z)
| Accept (s : Z)
| TaskSendInternal (task : pointer) (ev : intev_t).

Record machine := {
  m_sock : isc_socket_t;
  m_manager : isc_socketmgr_t;
  m_calls : list call;
  m_clock : nat
}.

Definition sys (A : Type) : Type := machine → result A * machine.

Global Instance sys_ret : MRet sys := λ A a m, (Ok a, m).

Global Instance sys_bind : MBind sys := λ A B f c m,
  match c m with
  | (Ok a, m') => f a m'
  | (AssertionFailed, m') => (AssertionFailed, m')
  | (OutOfFuel, m') => (OutOfFuel, m')
  end.

Global Instance sys_assert : Assert sys := λ cond m, (INSIST cond, m).

(** A crash other than a failed assertion (a null pointer followed) is
    reported like one. *)
Definition crash {A} : sys A := λ m, (AssertionFailed, m).

(** Run a computation of the read and write paths: it sees the socket,
    the manager and the clock, and its effects go to the end of the
    trace. *)
Definition lift {A} (c : io A) : sys A := λ m,
  let '(r, w) := c {| w_sock := m_sock m; w_manager := m_manager m;
                      w_trace := []; w_clock := m_clock m |} in
  (r, {| m_sock := w_sock w; m_manager := w_manager w;
         m_calls := m_calls m ++ map Effect (w_trace w);
         m_clock := w_clock w |}).

(** A call that asks nothing ... *)
Definition note (c : call) : sys unit := λ m,
  (Ok (), {| m_sock := m_sock m; m_manager := m_manager m;
             m_calls := m_calls m ++ [c]; m_clock := m_clock m |}).

(** ... and one that is answered: the question is traced and the clock
    advances. *)
Definition consult {A} (c : call) (answer : nat → A) : sys A := λ m,
  (Ok (answer (m_clock m)),
   {| m_sock := m_sock m; m_manager := m_manager m;
      m_calls := m_calls m ++ [c]; m_clock := S (m_clock m) |}).

(** Modelled from the spec: ISC_EVENT_INIT is a macro of <isc/event.h>,
    which is missing; it initialises an event in place.  Of its arguments
    the type, the action, the argument and the sender are kept, in the
    order of the calls in [allocate_socket]. *)
Definition ISC_EVENT_INIT (type : isc_eventtype_t) (action arg : Z)
    (sender : pointer) : intev_t :=
  {| iev_type := type; iev_sender := sender;
     iev_action := action; iev_arg := arg |}.

(** manager->fds[fd] = sock and what follows it, in the order of
    [isc_socket_create] and in the order of [internal_accept].  Neither
    checks the descriptor against FD_SETSIZE; the tables are maps here,
    so an entry is made for any descriptor. *)
Definition register_created (sock : isc_socket_t) : io unit :=
  modify_manager (λ m, set_fds (<[fd sock := self sock]> (fds m)) m);;
  modify_manager (λ m, set_fdstate (<[fd sock := MANAGED]> (fdstate m)) m);;
  modify_manager (λ m, set_nsockets (uint (nsockets m + 1)) m);;
  modify_manager (λ m, if maxfd m <? fd sock then set_maxfd (fd sock) m else m).

Definition register_accepted (sock : isc_socket_t) : io unit :=
  modify_manager (λ m, set_fds (<[fd sock := self sock]> (fds m)) m);;
  modify_manager (λ m, set_fdstate (<[fd sock := MANAGED]> (fdstate m)) m);;
  modify_manager (λ m, if maxfd m <? fd sock then set_maxfd (fd sock) m else m);;
  modify_manager (λ m, set_nsockets (uint (nsockets m + 1)) m).

Section SocketLayerSys.
Context `{headers : isc_headers} (k : kernel) (address_of : handler → Z).

(** Make a fd non-blocking. *)
Definition make_nonblock (s : Z) : sys isc_result_t :=
  flags ← consult (Fcntl s F_GETFL 0) (λ t, k_fcntl k t s F_GETFL 0);
  let flags := Z.lor flags O_NONBLOCK in
  ret ← consult (Fcntl s F_SETFL flags) (λ t, k_fcntl k t s F_SETFL flags);
  if ret =? -1 then
    note (Effect UnexpectedError);;
    mret ISC_R_UNEXPECTED
  else mret ISC_R_SUCCESS.

(** Returns the result code and what the call stores in [*socketp]
    ([None]: nothing is stored). *)
Definition allocate_socket (type : isc_sockettype_t)
  : sys (isc_result_t * option isc_socket_t) :=
  block ← consult MemGet (k_mem_get k);
  match block with
  | None => mret (ISC_R_NOMEMORY, None)
  | Some sock =>
      let sock := set_magic 0 sock in
      let sock := set_references 0 sock in
      let sock := set_sock_type type sock in
      let sock := set_fd (-1) sock in
      let sock := set_recv_list [] sock in
      let sock := set_send_list [] sock in
      let sock := set_accept_list [] sock in
      let sock := set_connect_ev None sock in
      let sock := set_pending_recv false sock in
      let sock := set_pending_send false sock in
      let sock := set_pending_accept false sock in
      let sock := set_listener false sock in
      let sock := set_connected false sock in
      let sock := set_connecting false sock in
      let sock := set_recv_result ISC_R_SUCCESS sock in
      let sock := set_send_result ISC_R_SUCCESS sock in
      r ← consult (MutexInit (self sock)) (k_mutex_init k);
      if bool_decide (r ≠ ISC_R_SUCCESS) then
        note (Effect UnexpectedError);;
        (* err1 *)
        note (Effect (MemPut (self sock)));;
        mret (ISC_R_UNEXPECTED, None)
      else
        let sock :=
          set_readable_ev
            (ISC_EVENT_INIT ISC_SOCKEVENT_INTR 0 (Z.of_nat (self sock))
               (SockPtr (self sock))) sock in
        let sock :=
          set_writable_ev
            (ISC_EVENT_INIT ISC_SOCKEVENT_INTW 0 (Z.of_nat (self sock))
               (SockPtr (self sock))) sock in
        let sock := set_magic SOCKET_MAGIC sock in
        mret (ISC_R_SUCCESS, Some sock)
  end.

(** Create a socket of the given type under the manager.  [socketp] is
    [None] for a null [socketp] and otherwise holds [*socketp]; the call
    returns its result code and what it stores there. *)
Definition isc_socket_create (pf : Z) (type : isc_sockettype_t)
    (socketp : option pointer) : sys (isc_result_t * option isc_socket_t) :=
  manager ← lift get_manager;
  REQUIRE (VALID_MANAGER manager);;
  REQUIRE (bool_decide (socketp = Some NULL));;
  '(ret, sock) ← allocate_socket type;
  if bool_decide (ret ≠ ISC_R_SUCCESS) then mret (ret, None)
  else
    match sock with
    | None => crash
    | Some sock =>
        '(s, errno) ←
          match type with
          | isc_sockettype_udp =>
              consult (Socket pf SOCK_DGRAM IPPROTO_UDP)
                (λ t, k_socket k t pf SOCK_DGRAM IPPROTO_UDP)
          | isc_sockettype_tcp =>
              consult (Socket pf SOCK_STREAM IPPROTO_TCP)
                (λ t, k_socket k t pf SOCK_STREAM IPPROTO_TCP)
          end;
        let sock := set_fd s sock in
        if fd sock <? 0 then
          lift (free_socket sock);;
          if (errno =? EMFILE) || (errno =? ENFILE) || (errno =? ENOBUFS)
          then mret (ISC_R_NORESOURCES, None)
          else
            note (Effect UnexpectedError);;
            mret (ISC_R_UNEXPECTED, None)
        else
          r ← make_nonblock (fd sock);
          if bool_decide (r ≠ ISC_R_SUCCESS) then
            lift (free_socket sock);;
            mret (ISC_R_UNEXPECTED, None)
          else
            (if bool_decide (type = isc_sockettype_udp) then
               ret ← consult (Setsockopt (fd sock) SOL_SOCKET SO_TIMESTAMP)
                       (λ t, k_setsockopt k t (fd sock) SOL_SOCKET SO_TIMESTAMP);
               (if ret <? 0 then note (Effect UnexpectedError) else mret ());;
               if ISC_PLATFORM_HAVEIPV6 && (pf =? AF_INET6) then
                 ret ← consult (Setsockopt (fd sock) IPPROTO_IPV6 IPV6_PKTINFO)
                         (λ t, k_setsockopt k t (fd sock) IPPROTO_IPV6
                                 IPV6_PKTINFO);
                 if ret <? 0 then note (Effect UnexpectedError) else mret ()
               else mret ()
             else mret ());;
            let sock := set_references 1 sock in
            lift (register_created sock);;
            mret (ISC_R_SUCCESS, Some sock)
    end.

(** Queue an accept request for [task] on the listening socket. *)
Definition isc_socket_accept (task : pointer) (action arg : Z)
  : sys isc_result_t :=
  sock ← lift get_sock;
  REQUIRE (VALID_SOCKET sock);;
  manager ← lift get_manager;
  REQUIRE (VALID_MANAGER manager);;
  REQUIRE (listener sock);;
  dev ← lift (ask (EventAllocate ISC_SOCKEVENT_NEWCONN) (k_newconnev k));
  match dev with
  | None => mret ISC_R_NOMEMORY
  | Some dev =>
      (* what isc_event_allocate() filled in *)
      let dev :=
        {| nc_self := nc_self dev; nc_type := ISC_SOCKEVENT_NEWCONN;
           nc_sender := task; nc_action := action; nc_arg := arg;
           nc_result := nc_result dev; newsocket := newsocket dev;
           nc_address := nc_address dev |} in
      '(ret, nsock) ← allocate_socket (sock_type sock);
      if bool_decide (ret ≠ ISC_R_SUCCESS) then
        note (EventFree (nc_self dev));;
        mret ret
      else
        match nsock with
        | None => crash
        | Some nsock =>
            lift (emit (TaskAttach task));;
            let nsock := set_references (uint (references nsock + 1)) nsock in
            let dev := set_nc_sender task dev in
            let dev := set_newsocket (Some nsock) dev in
            (if EMPTY (accept_list sock) then lift (select_poke (fd sock))
             else mret ());;
            lift (modify_sock
                    (λ s, set_accept_list (accept_list s ++ [dev]) s));;
            mret ISC_R_SUCCESS
        end
  end.

(** [internal_accept] from "Pull off the done event" on: [s] and [result]
    are the locals fd and result. *)
Definition internal_accept_finish (dev : isc_socket_newconnev_t)
    (newsock : isc_socket_t) (s : Z) (result : isc_result_t) : sys unit :=
  lift (modify_sock
          (λ x, set_accept_list (unlink_newconn (nc_self dev) (accept_list x)) x));;
  sock ← lift get_sock;
  (if negb (EMPTY (accept_list sock)) then lift (select_poke (fd sock))
   else mret ());;
  '(s, result) ←
    (if negb (s =? -1) then
       r ← make_nonblock s;
       if bool_decide (r ≠ ISC_R_SUCCESS) then
         note (Effect (Close s));;
         note (Effect UnexpectedError);;
         mret (-1, ISC_R_UNEXPECTED)
       else mret (s, result)
     else mret (s, result));
  '(dev, newsock) ←
    (if negb (s =? -1) then
       let newsock := set_fd s newsock in
       let dev := set_nc_address (address newsock) dev in
       lift (register_accepted newsock);;
       mret (dev, newsock)
     else mret (dev, newsock));
  let dev := set_newsocket (Some newsock) dev in
  let dev := set_nc_result result dev in
  let task := nc_sender dev in
  let dev := set_nc_sender (SockPtr (self sock)) dev in
  lift (emit (TaskSendAndDetach task (NewconnEvent dev))).

(** The handler of the internal readable event on a listening socket. *)
Definition internal_accept (ev : intev_t) : sys unit :=
  sock ← lift get_sock;
  (* sock = ev->sender *)
  INSIST (bool_decide (iev_sender ev = SockPtr (self sock)));;
  INSIST (VALID_SOCKET sock);;
  manager ← lift get_manager;
  INSIST (VALID_MANAGER manager);;
  INSIST (listener sock);;
  INSIST (pending_accept sock);;
  lift (modify_sock (set_pending_accept false));;
  INSIST (0 <? references sock);;
  lift (modify_sock (λ s, set_references (references s - 1) s));;
  sock ← lift get_sock;
  if references sock =? 0 then lift destroy
  else
    match accept_list sock with
    | [] => mret ()
    | dev :: rest =>
        match newsocket dev with
        | None => crash
        | Some newsock =>
            let addrlen := sizeof_sockaddr_type in
            '(s, errno, name) ←
              consult (Accept (fd sock))
                (λ t, k_accept k t (fd sock)
                        {| sa := sa (address newsock); sa_length := addrlen |});
            let newsock := set_address name newsock in
            let dev := set_newsocket (Some newsock) dev in
            lift (modify_sock (set_accept_list (dev :: rest)));;
            if s <? 0 then
              if SOFT_ERROR errno then lift (select_poke (fd sock))
              else
                note (Effect UnexpectedError);;
                internal_accept_finish dev newsock (-1) ISC_R_UNEXPECTED
            else internal_accept_finish dev newsock s ISC_R_SUCCESS
        end
    end.

(** ** The watcher: descriptors that select() reported

    The dispatch functions work on the socket they are given and hand
    one of its two embedded events to the task of the request at the
    head of a queue. *)

Definition internal_event (iev : intev_t) (sock : isc_socket_t)
    (action : handler) : intev_t :=
  {| iev_type := iev_type iev; iev_sender := SockPtr (self sock);
     iev_action := address_of action; iev_arg := Z.of_nat (self sock) |}.

Definition dispatch_read (sock : isc_socket_t)
  : result (isc_socket_t * call) :=
  match recv_list sock with
  | [] => AssertionFailed  (* INSIST(ev != NULL) *)
  | ev :: _ =>
      INSIST (negb (pending_recv sock));;
      let sock := set_pending_recv true sock in
      let sock := set_references (uint (references sock + 1)) sock in
      let iev := internal_event (readable_ev sock) sock internal_recv_fn in
      let sock := set_readable_ev iev sock in
      Ok (sock, TaskSendInternal (se_sender ev) iev)
  end.

Definition dispatch_write (sock : isc_socket_t)
  : result (isc_socket_t * call) :=
  match send_list sock with
  | [] => AssertionFailed  (* INSIST(ev != NULL) *)
  | ev :: _ =>
      INSIST (negb (pending_send sock));;
      let sock := set_pending_send true sock in
      let sock := set_references (uint (references sock + 1)) sock in
      let iev := internal_event (writable_ev sock) sock internal_send_fn in
      let sock := set_writable_ev iev sock in
      Ok (sock, TaskSendInternal (se_sender ev) iev)
  end.

Definition dispatch_accept (sock : isc_socket_t)
  : result (isc_socket_t * call) :=
  match accept_list sock with
  | [] => AssertionFailed  (* INSIST(ev != NULL) *)
  | ev :: _ =>
      INSIST (negb (pending_accept sock));;
      let sock := set_pending_accept true sock in
      let sock := set_references (uint (references sock + 1)) sock in
      let iev := internal_event (readable_ev sock) sock internal_accept_fn in
      let sock := set_readable_ev iev sock in
      Ok (sock, TaskSendInternal (nc_sender ev) iev)
  end.

Definition dispatch_connect (sock : isc_socket_t)
  : result (isc_socket_t * call) :=
  match connect_ev sock with
  | None => AssertionFailed  (* INSIST(ev != NULL) *)
  | Some ev =>
      INSIST (connecting sock);;
      let sock := set_references (uint (references sock + 1)) sock in
      let iev := internal_event (writable_ev sock) sock internal_connect_fn in
      let sock := set_writable_ev iev sock in
      Ok (sock, TaskSendInternal (ce_sender ev) iev)
  end.

(** What the watcher works on between two calls of select(): the sockets
    by address, the manager and what was done to the outside so far. *)
Definition watched : Type :=
  gmap nat isc_socket_t * isc_socketmgr_t * list call.

(** One half of the body of the for loop over the descriptors.  [ready]
    tells whether the bit of [i] is set in the set select() returned,
    [clear] clears it in the manager's set and [dispatch] is the dispatch
    function the socket calls for.  Following [manager->fds[i]] to no
    socket is a crash. *)
Definition watcher_ready (ready : bool)
    (clear : isc_socketmgr_t → isc_socketmgr_t)
    (dispatch : isc_socket_t → result (isc_socket_t * call))
    (sock : option nat) (st : watched) : result watched :=
  let '(heap, manager, calls) := st in
  if ready then
    match sock with
    | None => Ok (heap, clear manager, calls)
    | Some a =>
        match heap !! a with
        | None => AssertionFailed
        | Some s =>
            if negb (SOCK_DEAD s) then
              '(s, c) ← dispatch s;
              Ok (<[a := s]> heap, clear manager, calls ++ [c])
            else Ok (heap, clear manager, calls)
        end
    end
  else Ok st.

(** The body of the for loop over the descriptors, for the descriptor
    [i]; [readfds] and [writefds] are the sets as select() left them. *)
Definition watcher_fd (readfds writefds : gset Z) (i : Z) (st : watched)
  : result watched :=
  let '(heap, manager, calls) := st in
  if (i =? (pipe_fds manager).1) || (i =? (pipe_fds manager).2) then Ok st
  else if fdstate_at manager i =? CLOSE_PENDING then
    let manager := set_fdstate (<[i := CLOSED]> (fdstate manager)) manager in
    let manager := set_read_fds (FD_CLR i (read_fds manager)) manager in
    let manager := set_write_fds (FD_CLR i (write_fds manager)) manager in
    Ok (heap, manager, calls ++ [Effect (Close i)])
  else
    let sock := fds manager !! i in
    st ← watcher_ready (FD_ISSET i readfds)
           (λ m, set_read_fds (FD_CLR i (read_fds m)) m)
           (λ s, if listener s then dispatch_accept s else dispatch_read s)
           sock st;
    (* check_write *)
    watcher_ready (FD_ISSET i writefds)
      (λ m, set_write_fds (FD_CLR i (write_fds m)) m)
      (λ s, if connecting s then dispatch_connect s else dispatch_write s)
      sock st.

(** The for loop, over the descriptors [l] in turn. *)
Fixpoint watcher_fd_loop (readfds writefds : gset Z) (l : list Z)
    (st : watched) : result watched :=
  match l with
  | [] => Ok st
  | i :: l =>
      st ← watcher_fd readfds writefds i st;
      watcher_fd_loop readfds writefds l st
  end.

(** for (i = 0 ; i < maxfd ; i++), where [maxfd] is the local variable:
    manager->maxfd + 1 as it was before select(). *)
Definition watcher_fds (readfds writefds : gset Z) (maxfd : Z)
    (st : watched) : result watched :=
  watcher_fd_loop readfds writefds (seqZ 0 maxfd) st.

End SocketLayerSys.

(** * Properties *)

(** ** Vocabulary *)

Section Vocabulary.
Context `{headers : isc_headers}.

(** The trace [t'] continues the trace [t] with the effects [new]. *)
Definition extends (t t' new : list effect) : Prop := t' = t ++ new.

(** The event [ev] is the request [dev] completed with the code [r]. *)
Definition completes (dev : isc_socketevent_t) (r : isc_result_t)
    (ev : event) : Prop :=
  ∃ e, ev = SocketEvent e ∧ se_self e = se_self dev ∧ se_result e = r
       ∧ se_type e = se_type dev.

(** The effect [e] hands the event [ev] to the task [task]. *)
Definition sent_to (task : pointer) (ev : event) (e : effect) : Prop :=
  e = TaskSend task ev ∨ e = TaskSendAndDetach task ev.

(** The errno values the SOFT_OR_HARD macro is used for, with the result
    codes it maps them to. *)
Definition SOFT_OR_HARD_errnos : list (Z * isc_result_t) :=
  [ (ECONNREFUSED, ISC_R_CONNREFUSED);
    (ENETUNREACH, ISC_R_NETUNREACH);
    (EHOSTUNREACH, ISC_R_HOSTUNREACH) ].

(** The request as [send_recvdone_event] hands it to the task. *)
Definition recvdone (sock : isc_socket_t) (dev : isc_socketevent_t)
    (r : isc_result_t) : isc_socketevent_t :=
  let dev := set_se_sender (SockPtr (self sock)) (set_se_result r dev) in
  if bool_decide (recv_result sock ≠ ISC_R_SUCCESS)
  then or_attribute ISC_SOCKEVENTATTR_FATALERROR dev else dev.

Definition senddone (sock : isc_socket_t) (dev : isc_socketevent_t)
    (r : isc_result_t) : isc_socketevent_t :=
  let dev := set_se_sender (SockPtr (self sock)) (set_se_result r dev) in
  if bool_decide (send_result sock ≠ ISC_R_SUCCESS)
  then or_attribute ISC_SOCKEVENTATTR_FATALERROR dev else dev.

(** isc_task_sendanddetach() for a request that holds a task reference,
    isc_task_send() otherwise. *)
Definition handover (task : pointer) (ev : isc_socketevent_t) : effect :=
  if Z.land (se_attributes ev) ISC_SOCKEVENTATTR_ATTACHED
     =? ISC_SOCKEVENTATTR_ATTACHED
  then TaskSendAndDetach task (SocketEvent ev)
  else TaskSend task (SocketEvent ev).

(** The world with another socket state, with a longer trace, and after
    the kernel was asked [e]. *)
Definition with_sock (s : isc_socket_t) (w : world) : world :=
  {| w_sock := s; w_manager := w_manager w;
     w_trace := w_trace w; w_clock := w_clock w |}.

Definition with_effects (t : list effect) (w : world) : world :=
  {| w_sock := w_sock w; w_manager := w_manager w;
     w_trace := w_trace w ++ t; w_clock := w_clock w |}.

Definition asked (e : effect) (w : world) : world :=
  {| w_sock := w_sock w; w_manager := w_manager w;
     w_trace := w_trace w ++ [e]; w_clock := S (w_clock w) |}.

(** The socket as [internal_recv] finds it once the internal event is
    accounted for. *)
Definition recv_entered (s : isc_socket_t) : isc_socket_t :=
  set_references (references s - 1) (set_pending_recv false s).

(** The fatal-error bit of the attributes of a request. *)
Definition fatal_bit (dev : isc_socketevent_t) : Z :=
  Z.land (se_attributes dev) ISC_SOCKEVENTATTR_FATALERROR.

(** The attribute masks written outside the completion paths share no bit
    with the fatal-error mask. *)
Definition fatal_apart : Prop :=
  Forall (λ flag, Z.land flag ISC_SOCKEVENTATTR_FATALERROR = 0)
    [ ISC_SOCKEVENTATTR_ATTACHED; ISC_SOCKEVENTATTR_TRUNC;
      ISC_SOCKEVENTATTR_CTRUNC; ISC_SOCKEVENTATTR_TIMESTAMP;
      ISC_SOCKEVENTATTR_PKTINFO ].

(** The requests on the two queues of a socket. *)
Definition queued (s : isc_socket_t) : list isc_socketevent_t :=
  recv_list s ++ send_list s.

(** The request [dev'] is one of the requests [known], with the
    fatal-error bit it has there. *)
Definition fatal_bit_from (known : list isc_socketevent_t)
    (dev' : isc_socketevent_t) : Prop :=
  ∃ dev, dev ∈ known ∧ se_self dev' = se_self dev
         ∧ fatal_bit dev' = fatal_bit dev.

(** One of the sticky results of the socket is not success. *)
Definition sticky_failure (s : isc_socket_t) : Prop :=
  recv_result s ≠ ISC_R_SUCCESS ∨ send_result s ≠ ISC_R_SUCCESS.

(** From the world [w] to the world [w'] the fatal-error bit is set by
    delivery under a sticky failure and by nothing else.  Every request
    queued in [w'] is one of the requests [known] and has the bit it has
    there.  Every request handed to a task on the way is one of them
    too, and has the bit it has there, unless it has the bit set and a
    sticky result of the socket is not success.  A sticky result that is
    not success stays so. *)
Definition fatal_only_by_delivery (known : list isc_socketevent_t)
    (w w' : world) : Prop :=
  ∃ t,
    extends (w_trace w) (w_trace w') t
    ∧ Forall (fatal_bit_from known) (queued (w_sock w'))
    ∧ (∀ e ev,
         e ∈ t → posted e = Some (SocketEvent ev) →
         ∃ dev, dev ∈ known ∧ se_self ev = se_self dev
                ∧ (fatal_bit ev = fatal_bit dev
                   ∨ (fatal_bit ev = ISC_SOCKEVENTATTR_FATALERROR
                      ∧ sticky_failure (w_sock w'))))
    ∧ (sticky_failure (w_sock w) → sticky_failure (w_sock w')).

(** The computation [m], run where the queued requests are among
    [known], writes the fatal-error bit by delivery only and returns
    values that satisfy [Q], whether it returns or stops. *)
Definition keeps {A} (known : list isc_socketevent_t) (m : io A)
    (Q : A → Prop) : Prop :=
  ∀ w r w',
    Forall (fatal_bit_from known) (queued (w_sock w)) →
    m w = (r, w') →
    fatal_only_by_delivery known w w' ∧ ∀ a, r = Ok a → Q a.

(** The block the next allocation of a request returns, if it returns
    one. *)
Definition next_block (env : environment) (w : world)
  : list isc_socketevent_t :=
  match env_socketevent env (w_clock w) with
  | Some raw => [raw]
  | None => []
  end.

(** Whatever world the computation [op] starts in and however it ends,
    the fatal-error bit is set by delivery only; the requests it may
    work on are those queued when it starts and the requests [fresh]. *)
Definition delivers_fatal_bit {A} (fresh : world → list isc_socketevent_t)
    (op : io A) : Prop :=
  ∀ w r w',
    op w = (r, w') →
    fatal_only_by_delivery (queued (w_sock w) ++ fresh w) w w'.

(** An accept request as [isc_socket_accept] queues it: it carries a
    socket fresh from allocate_socket() with the one reference the
    request holds. *)
Definition nascent (dev : isc_socket_newconnev_t) : Prop :=
  ∃ newsock,
    newsocket dev = Some newsock
    ∧ references newsock = 1 ∧ VALID_SOCKET newsock = true
    ∧ connecting newsock = false ∧ pending_recv newsock = false
    ∧ pending_send newsock = false ∧ pending_accept newsock = false
    ∧ recv_list newsock = [] ∧ send_list newsock = []
    ∧ accept_list newsock = [].

(** The connect category is selected in the mask [how]. *)
Definition cancels_connect (how : Z) : bool :=
  Z.land how ISC_SOCKCANCEL_CONNECT =? ISC_SOCKCANCEL_CONNECT.

(** The cancelling task [task] is the wildcard or the task [current]. *)
Definition cancels_task (task current : pointer) : bool :=
  bool_decide (task = NULL) || bool_decide (task = current).

(** The accept category is selected in the mask [how]. *)
Definition cancels_accept (how : Z) : bool :=
  Z.land how ISC_SOCKCANCEL_ACCEPT =? ISC_SOCKCANCEL_ACCEPT.

(** The socket [sock] passes every check [free_socket] makes before it
    releases the object. *)
Definition free_socket_accepts (sock : isc_socket_t) : bool :=
  (references sock =? 0) && VALID_SOCKET sock
  && negb (connecting sock) && negb (pending_recv sock)
  && negb (pending_send sock) && negb (pending_accept sock)
  && EMPTY (recv_list sock) && EMPTY (send_list sock)
  && EMPTY (accept_list sock).

(** The accept request [dev] carries a socket that [free_socket] releases
    once the reference of the request is dropped. *)
Definition releases (dev : isc_socket_newconnev_t) : bool :=
  match newsocket dev with
  | None => false
  | Some newsock =>
      free_socket_accepts (set_references (uint (references newsock - 1)) newsock)
  end.

(** No assertion stops [isc_socket_cancel] for the task [task] and the
    mask [how] on the socket [sock]: with the accept category selected,
    every accept request the call cancels carries a socket it can
    release; with the connect category selected, a connect event in the
    slot goes with [connecting]. *)
Definition cancel_returns (task : pointer) (how : Z) (sock : isc_socket_t)
  : bool :=
  (negb (cancels_accept how)
   || forallb (λ dev, negb (cancels_task task (nc_sender dev)) || releases dev)
        (accept_list sock))
  && (negb (cancels_connect how)
      || match connect_ev sock with
         | None => true
         | Some _ => connecting sock
         end).

(** The accept request [dev] as [internal_accept] hands it to the task:
    completed with the code [r], sent by the listening socket [sock] and
    carrying the socket [ns]. *)
Definition newconn_done (sock : isc_socket_t) (dev : isc_socket_newconnev_t)
    (ns : isc_socket_t) (r : isc_result_t) : isc_socket_newconnev_t :=
  set_nc_sender (SockPtr (self sock))
    (set_nc_result r (set_newsocket (Some ns) dev)).

(** The machine with another socket state, another manager, and after
    the calls [t] of which [n] were answered. *)
Definition machine_after (s : isc_socket_t) (mg : isc_socketmgr_t)
    (t : list call) (n : nat) (m : machine) : machine :=
  {| m_sock := s; m_manager := mg;
     m_calls := m_calls m ++ t; m_clock := n + m_clock m |}.

(** A socket at rest: valid, with nothing queued, pending or under way. *)
Definition at_rest (s : isc_socket_t) : Prop :=
  VALID_SOCKET s = true
  ∧ connecting s = false ∧ pending_recv s = false
  ∧ pending_send s = false ∧ pending_accept s = false
  ∧ recv_list s = [] ∧ send_list s = [] ∧ accept_list s = []
  ∧ connect_ev s = None.

(** The manager with the socket at the address [a] entered under the
    descriptor [s]. *)
Definition registered (s : Z) (a : nat) (mg : isc_socketmgr_t)
  : isc_socketmgr_t :=
  {| mgr_magic := mgr_magic mg; nsockets := uint (nsockets mg + 1);
     read_fds := read_fds mg; write_fds := write_fds mg;
     fds := <[s := a]> (fds mg); fdstate := <[s := MANAGED]> (fdstate mg);
     maxfd := Z.max (maxfd mg) s; pipe_fds := pipe_fds mg |}.

(** The socket type and the protocol [isc_socket_create] passes to
    socket() for a socket of the type [type]. *)
Definition socket_arguments (type : isc_sockettype_t) : Z * Z :=
  match type with
  | isc_sockettype_udp => (SOCK_DGRAM, IPPROTO_UDP)
  | isc_sockettype_tcp => (SOCK_STREAM, IPPROTO_TCP)
  end.

End Vocabulary.

(** ** Sample objects

    One choice of header constants and a few concrete objects, to run the
    model on. *)

Definition sample_headers : isc_headers :=
  {| ISC_SOCKEVENTATTR_ATTACHED := 0x80000000;
     ISC_SOCKEVENTATTR_FATALERROR := 0x40000000;
     ISC_SOCKEVENTATTR_TRUNC := 0x00800000;
     ISC_SOCKEVENTATTR_CTRUNC := 0x00400000;
     ISC_SOCKEVENTATTR_TIMESTAMP := 0x00200000;
     ISC_SOCKEVENTATTR_PKTINFO := 0x00100000;
     ISC_SOCKCANCEL_RECV := 0x1;
     ISC_SOCKCANCEL_SEND := 0x2;
     ISC_SOCKCANCEL_ACCEPT := 0x4;
     ISC_SOCKCANCEL_CONNECT := 0x8;
     ISC_SOCKET_MAXSCATTERGATHER := 8;
     ISC_BUFFER_MAGIC := 0x42756621;
     sizeof_sockaddr_type := 28;
     ISC_NET_BSD44MSGHDR := true;
     ISC_NET_RECVOVERFLOW := false;
     ISC_PLATFORM_HAVEIPV6 := true |}.

(** A read request at address [a] for task [task], over a region of 512
    bytes. *)
Definition sample_request (a : nat) (type : isc_eventtype_t) (task : nat)
  : isc_socketevent_t :=
  {| se_self := a; se_type := type; se_sender := TaskPtr task;
     se_action := 1; se_arg := 0; se_result := ISC_R_SUCCESS;
     se_minimum := 1; se_n := 0; se_offset := 0;
     se_region := {| base := 4096; region_length := 512 |};
     se_bufferlist := [];
     se_address := {| sa := 0; sa_length := 0 |};
     se_timestamp := {| seconds := 0; nanoseconds := 0 |};
     se_pktinfo := {| ipi6_addr := 0; ipi6_ifindex := 0 |};
     se_attributes := 0 |}.

Definition sample_connev (a : nat) (task : pointer) : isc_socket_connev_t :=
  {| ce_self := a; ce_type := ISC_SOCKEVENT_CONNECT; ce_sender := task;
     ce_action := 1; ce_arg := 0; ce_result := ISC_R_SUCCESS |}.

(** A socket on descriptor 5, at address 1, with two references and
    nothing queued. *)
Definition sample_socket (type : isc_sockettype_t) : isc_socket_t :=
  {| self := 1; magic := SOCKET_MAGIC; sock_type := type;
     references := 2; fd := 5;
     recv_result := ISC_R_SUCCESS; send_result := ISC_R_SUCCESS;
     send_list := []; recv_list := []; accept_list := [];
     connect_ev := None;
     readable_ev := {| iev_type := ISC_SOCKEVENT_INTR;
                       iev_sender := SockPtr 1;
                       iev_action := 0; iev_arg := 0 |};
     writable_ev := {| iev_type := ISC_SOCKEVENT_INTW;
                       iev_sender := SockPtr 1;
                       iev_action := 0; iev_arg := 0 |};
     address := {| sa := 0; sa_length := 0 |};
     pending_recv := false; pending_send := false; pending_accept := false;
     listener := false; connected := false; connecting := false |}.

Definition sample_manager : isc_socketmgr_t :=
  {| mgr_magic := SOCKET_MANAGER_MAGIC; nsockets := 1;
     read_fds := {[ 3 ]}; write_fds := ∅;
     fds := {[ 5 := 1%nat ]}; fdstate := {[ 5 := MANAGED ]};
     maxfd := 5; pipe_fds := (3, 4) |}.

Definition sample_world (s : isc_socket_t) : world :=
  {| w_sock := s; w_manager := sample_manager; w_trace := []; w_clock := 0 |}.

(** An environment whose system calls all return [cc] with errno [errno]
    and whose allocator never fails. *)
Definition kernel_says (cc errno : Z) : environment :=
  {| env_recvmsg := λ _ _ msg,
       {| rm_cc := cc; rm_errno := errno; rm_msg := msg |};
     env_sendmsg := λ _ _ _, (cc, errno);
     env_connect := λ _ _ _, (cc, errno);
     env_getsockopt := λ _ _, (cc, errno, errno);
     env_socketevent := λ t,
       Some (sample_request (100 + t) ISC_SOCKEVENT_SENDDONE 0);
     env_connev := λ t, Some (sample_connev (100 + t) NULL) |}.

(** A block of memory for a socket at address [a], holding what an
    earlier owner left in it. *)
Definition sample_block (a : nat) : isc_socket_t :=
  {| self := a; magic := 0xdead; sock_type := isc_sockettype_udp;
     references := 99; fd := 77;
     recv_result := ISC_R_UNEXPECTED; send_result := ISC_R_EOF;
     send_list := [sample_request 8 ISC_SOCKEVENT_SENDDONE 2];
     recv_list := [sample_request 9 ISC_SOCKEVENT_RECVDONE 2];
     accept_list := [];
     connect_ev := Some (sample_connev 6 NULL);
     readable_ev := {| iev_type := ISC_SOCKEVENT_RECVDONE;
                       iev_sender := NULL; iev_action := 3; iev_arg := 4 |};
     writable_ev := {| iev_type := ISC_SOCKEVENT_SENDDONE;
                       iev_sender := NULL; iev_action := 3; iev_arg := 4 |};
     address := {| sa := 0; sa_length := 0 |};
     pending_recv := true; pending_send := true; pending_accept := true;
     listener := true; connected := true; connecting := true |}.

(** A stream socket at address [a] as [isc_socket_accept] leaves it in a
    request: fresh from [allocate_socket], with one reference. *)
Definition sample_newsocket (a : nat) : isc_socket_t :=
  {| self := a; magic := SOCKET_MAGIC; sock_type := isc_sockettype_tcp;
     references := 1; fd := -1;
     recv_result := ISC_R_SUCCESS; send_result := ISC_R_SUCCESS;
     send_list := []; recv_list := []; accept_list := [];
     connect_ev := None;
     readable_ev := {| iev_type := ISC_SOCKEVENT_INTR;
                       iev_sender := SockPtr a;
                       iev_action := 0; iev_arg := Z.of_nat a |};
     writable_ev := {| iev_type := ISC_SOCKEVENT_INTW;
                       iev_sender := SockPtr a;
                       iev_action := 0; iev_arg := Z.of_nat a |};
     address := {| sa := 0; sa_length := 0 |};
     pending_recv := false; pending_send := false; pending_accept := false;
     listener := false; connected := false; connecting := false |}.

(** An accept request at address [a] for task [task], carrying the
    socket [ns]. *)
Definition sample_newconn (a : nat) (task : nat) (ns : option isc_socket_t)
  : isc_socket_newconnev_t :=
  {| nc_self := a; nc_type := ISC_SOCKEVENT_NEWCONN;
     nc_sender := TaskPtr task; nc_action := 1; nc_arg := 0;
     nc_result := ISC_R_SUCCESS; newsocket := ns;
     nc_address := {| sa := 0; sa_length := 0 |} |}.

(** A listening stream socket with the accept requests [l] queued. *)
Definition sample_listener (l : list isc_socket_newconnev_t) : isc_socket_t :=
  set_accept_list l (set_listener true (sample_socket isc_sockettype_tcp)).

(** A kernel whose allocators hand out memory when [events] and [blocks]
    say so, whose isc_mutex_init() answers [lock], whose socket() and
    accept() return [s] with errno [errno] (accept() naming the peer
    127.0.0.1), whose fcntl(F_SETFL) returns [setfl] and whose
    setsockopt() fails. *)
Definition sample_kernel (events blocks : bool) (lock : isc_result_t)
    (s errno setfl : Z) : kernel :=
  {| k_mem_get := λ t, if blocks then Some (sample_block (200 + t)) else None;
     k_mutex_init := λ _, lock;
     k_newconnev := λ t,
       if events then Some (sample_newconn (300 + t) 0 None) else None;
     k_socket := λ _ _ _ _, (s, errno);
     k_fcntl := λ _ _ cmd _, if cmd =? F_SETFL then setfl else 2;
     k_setsockopt := λ _ _ _ _, -1;
     k_accept := λ _ _ name,
       (s, errno,
        if s <? 0 then name else {| sa := 0x7f000001; sa_length := 16 |}) |}.

(** Where the four handlers live. *)
Definition sample_handlers (h : handler) : Z :=
  match h with
  | internal_accept_fn => 0x401000
  | internal_recv_fn => 0x402000
  | internal_send_fn => 0x403000
  | internal_connect_fn => 0x404000
  end.

Definition sample_machine (s : isc_socket_t) : machine :=
  {| m_sock := s; m_manager := sample_manager; m_calls := []; m_clock := 0 |}.

(** An environment whose allocator is out of memory. *)
Definition kernel_without_memory : environment :=
  {| env_recvmsg := λ _ _ msg,
       {| rm_cc := 0; rm_errno := 0; rm_msg := msg |};
     env_sendmsg := λ _ _ _, (0, 0);
     env_connect := λ _ _ _, (0, 0);
     env_getsockopt := λ _ _, (0, 0, 0);
     env_socketevent := λ _, None;
     env_connev := λ _, None |}.

(** A buffer of 512 bytes of which [used] are used. *)
Definition sample_buffer (used : Z) : isc_buffer_t :=
  {| buffer_magic := 0x42756621; buffer_length := 512; buffer_used := used |}.

(** The header of a message without address or control data, over
    buffers of the given lengths. *)
Definition plain_msghdr (iov : list Z) : msghdr :=
  {| msg_name := None; msg_namelen := 0; msg_iov := iov;
     msg_control := None; msg_controllen := 0; msg_flags := 0 |}.

(** Two sets of descriptors as select() may leave them: descriptor 5
    alone, and none. *)
Definition only_descriptor_5 : gset Z := {[ 5 ]}.
Definition no_descriptor : gset Z := ∅.

(** Decide a closed proposition by evaluation. *)
Ltac evaluate :=
  match goal with |- ?P => apply (bool_decide_unpack P) end;
  vm_compute; exact I.

Section Properties.
Context `{headers : isc_headers} (env : environment).

(** ** Running a computation step by step *)

Lemma run_get_sock {B} (f : isc_socket_t → io B) w :
  (get_sock ≫= f) w = f (w_sock w) w.
Proof. reflexivity. Qed.

Lemma run_get_manager {B} (f : isc_socketmgr_t → io B) w :
  (get_manager ≫= f) w = f (w_manager w) w.
Proof. reflexivity. Qed.

Lemma run_modify_sock {B} g (f : unit → io B) w :
  (modify_sock g ≫= f) w = f () (with_sock (g (w_sock w)) w).
Proof. reflexivity. Qed.

Lemma run_emit {B} e (f : unit → io B) w :
  (emit e ≫= f) w = f () (with_effects [e] w).
Proof. reflexivity. Qed.

Lemma run_ask {A B} e (answer : nat → A) (f : A → io B) w :
  (ask e answer ≫= f) w =
  f (answer (w_clock w))
    {| w_sock := w_sock w; w_manager := w_manager w;
       w_trace := w_trace w ++ [e]; w_clock := S (w_clock w) |}.
Proof. reflexivity. Qed.

Lemma run_pure {A B} (a : A) (f : A → io B) w :
  (pure (Ok a) ≫= f) w = f a w.
Proof. reflexivity. Qed.

Lemma run_ret {A B} (a : A) (f : A → io B) w : (mret a ≫= f) w = f a w.
Proof. reflexivity. Qed.

Lemma run_insist {B} (f : unit → io B) w : (INSIST true ≫= f) w = f () w.
Proof. reflexivity. Qed.

Lemma run_require {B} (f : unit → io B) w : (REQUIRE true ≫= f) w = f () w.
Proof. reflexivity. Qed.

Lemma run_poke {B} msg (f : unit → io B) w :
  (select_poke msg ≫= f) w = f () (with_effects [Poke msg] w).
Proof. reflexivity. Qed.

Lemma run_seq {A B} (m : io A) (f : A → io B) w a w' :
  m w = (Ok a, w') → (m ≫= f) w = f a w'.
Proof. intros E. unfold mbind, io_bind. now rewrite E. Qed.

Lemma run_assoc {A B C} (m : io A) (g : A → io B) (f : B → io C) w :
  ((m ≫= g) ≫= f) w = (m ≫= λ a, g a ≫= f) w.
Proof. unfold mbind, io_bind. destruct (m w) as [[]]; reflexivity. Qed.

Ltac run_step :=
  first
    [ rewrite run_get_sock | rewrite run_get_manager | rewrite run_modify_sock
    | rewrite run_emit | rewrite run_ask | rewrite run_pure | rewrite run_ret
    | rewrite run_insist | rewrite run_require | rewrite run_poke ].

Ltac run :=
  repeat first
    [ run_step
    | progress cbn [w_sock w_manager w_trace w_clock with_sock with_effects
                    asked] ].

Lemma with_effects_app t1 t2 w :
  with_effects t2 (with_effects t1 w) = with_effects (t1 ++ t2) w.
Proof. unfold with_effects; cbn. now rewrite app_assoc. Qed.

(** ** Lists of requests *)

Lemma unlink_head dev l : unlink (se_self dev) (dev :: l) = l.
Proof. cbn. now rewrite bool_decide_eq_true_2. Qed.

Lemma linked_head dev l : ISC_LINK_LINKED (se_self dev) (dev :: l) = true.
Proof. cbn. now rewrite bool_decide_eq_true_2. Qed.

Lemma unlink_not_linked a l : ISC_LINK_LINKED a l = false → unlink a l = l.
Proof.
  induction l as [|e l IH]; cbn; [done|].
  destruct (bool_decide (se_self e = a)); cbn; [done|].
  intros H. now rewrite IH.
Qed.

(** ** What a completion does *)

(** [send_recvdone_event] always returns; it takes the request off the
    read queue and hands it to the task found in its sender field. *)
Lemma send_recvdone_event_run dev r w :
  send_recvdone_event dev r w =
  (Ok (),
   with_effects [handover (se_sender dev) (recvdone (w_sock w) dev r)]
     (with_sock (set_recv_list (unlink (se_self dev) (recv_list (w_sock w)))
                   (w_sock w)) w)).
Proof.
  unfold send_recvdone_event. run.
  destruct (ISC_LINK_LINKED _ _) eqn:L; cbn [se_self set_se_sender set_se_result] in L;
    run; unfold handover, recvdone; cbn [se_self set_se_sender set_se_result].
  - match goal with |- (if ?c then _ else _) _ = _ => destruct c end; reflexivity.
  - rewrite (unlink_not_linked _ _ L).
    destruct w as [s m t c]; destruct s; cbn.
    match goal with |- (if ?c then _ else _) _ = _ => destruct c end; reflexivity.
Qed.

Lemma send_senddone_event_run dev r w :
  send_senddone_event dev r w =
  (Ok (),
   with_effects [handover (se_sender dev) (senddone (w_sock w) dev r)]
     (with_sock (set_send_list (unlink (se_self dev) (send_list (w_sock w)))
                   (w_sock w)) w)).
Proof.
  unfold send_senddone_event. run.
  destruct (ISC_LINK_LINKED _ _) eqn:L; cbn [se_self set_se_sender set_se_result] in L;
    run; unfold handover, senddone; cbn [se_self set_se_sender set_se_result].
  - match goal with |- (if ?c then _ else _) _ = _ => destruct c end; reflexivity.
  - rewrite (unlink_not_linked _ _ L).
    destruct w as [s m t c]; destruct s; cbn.
    match goal with |- (if ?c then _ else _) _ = _ => destruct c end; reflexivity.
Qed.

Ltac run_step ::=
  first
    [ rewrite run_get_sock | rewrite run_get_manager | rewrite run_modify_sock
    | rewrite run_emit | rewrite run_ask | rewrite run_pure | rewrite run_ret
    | rewrite run_insist | rewrite run_require | rewrite run_poke
    | erewrite (run_seq (send_recvdone_event _ _));
        [|apply send_recvdone_event_run]
    | erewrite (run_seq (send_senddone_event _ _));
        [|apply send_senddone_event_run]
    | rewrite run_assoc ].

Lemma posted_handover task ev : posted (handover task ev) = Some (SocketEvent ev).
Proof. unfold handover. now destruct (_ =? _). Qed.

Lemma handover_sent_to task ev : sent_to task (SocketEvent ev) (handover task ev).
Proof. unfold handover, sent_to. destruct (_ =? _); auto. Qed.

Lemma sent_to_posted task ev e : sent_to task ev e → posted e = Some ev.
Proof. now intros [-> | ->]. Qed.

Lemma recvdone_completes sock dev dev' r :
  se_self dev' = se_self dev → se_type dev' = se_type dev →
  completes dev r (SocketEvent (recvdone sock dev' r)).
Proof.
  intros Hs Ht. exists (recvdone sock dev' r). unfold recvdone.
  destruct (bool_decide _); cbn; auto.
Qed.

Lemma senddone_completes sock dev dev' r :
  se_self dev' = se_self dev → se_type dev' = se_type dev →
  completes dev r (SocketEvent (senddone sock dev' r)).
Proof.
  intros Hs Ht. exists (senddone sock dev' r). unfold senddone.
  destruct (bool_decide _); cbn; auto.
Qed.

(** [build_msghdr_recv] rewrites the address of the request and nothing
    else. *)
Lemma build_msghdr_recv_dev sock dev maxiov dev1 msghdr read_count :
  build_msghdr_recv sock dev maxiov = Ok (dev1, msghdr, read_count) →
  dev1 = set_se_address
           (if is_udp sock then {| sa := 0; sa_length := 0 |} else address sock)
           dev.
Proof.
  unfold build_msghdr_recv, mbind, result_bind.
  destruct (is_udp sock);
    repeat case_match; intros [= <- _ _]; reflexivity.
Qed.

Lemma not_SOFT_OR_HARD e :
  e ∉ SOFT_OR_HARD_errnos.*1 →
  (e =? ECONNREFUSED) = false ∧ (e =? ENETUNREACH) = false
  ∧ (e =? EHOSTUNREACH) = false.
Proof.
  cbn. rewrite !not_elem_of_cons. intros (?&?&?&_).
  repeat split; now apply Z.eqb_neq.
Qed.

(** ** The error branches of the I/O engine *)

(** A request that went through [build_msghdr_recv] and the kernel call
    is still the same request, for the same task. *)
Ltac same_request :=
  cbn [se_self se_type se_sender se_attributes se_n se_minimum
       set_se_address set_se_n set_se_bufferlist];
  repeat case_match;
  cbn [se_self se_type se_sender se_attributes se_n se_minimum
       set_se_address set_se_n set_se_bufferlist];
  reflexivity.

Ltac handed_over :=
  match goal with
  | |- sent_to ?t _ (handover ?t' _) =>
      replace t' with t by (symmetry; same_request);
      apply handover_sent_to
  end.

Lemma doio_recv_unexpected w dev dev1 msghdr read_count :
  build_msghdr_recv (w_sock w) dev MAXSCATTERGATHER_RECV
    = Ok (dev1, msghdr, read_count) →
  let r := env_recvmsg env (w_clock w) (fd (w_sock w)) msghdr in
  rm_cc r < 0 →
  SOFT_ERROR (rm_errno r) = false →
  rm_errno r ∉ SOFT_OR_HARD_errnos.*1 →
  rm_errno r ≠ ENOBUFS →
  ∃ dev' w' e ev,
    doio_recv env dev w = (Ok (DOIO_SUCCESS, dev'), w')
    ∧ recv_result (w_sock w') = ISC_R_UNEXPECTED
    ∧ extends (w_trace w) (w_trace w') [Recvmsg (fd (w_sock w)) msghdr; e]
    ∧ sent_to (se_sender dev) ev e
    ∧ completes dev ISC_R_UNEXPECTED ev.
Proof.
  intros Hb r Hcc Hsoft Hsh Hnobufs.
  pose proof (build_msghdr_recv_dev _ _ _ _ _ _ Hb) as ->.
  apply not_SOFT_OR_HARD in Hsh as (E1 & E2 & E3).
  apply Z.ltb_lt in Hcc. apply Z.eqb_neq in Hnobufs.
  unfold doio_recv. run. rewrite Hb. run. fold r.
  rewrite Hcc, Hsoft, E1, E2, E3, Hnobufs. run.
  eexists _, _, _, _. split; [reflexivity|].
  cbn [w_sock w_trace with_sock with_effects recv_result set_recv_list
       set_recv_result].
  split; [reflexivity|]. split; [unfold extends; now rewrite <- app_assoc|].
  split; [handed_over|].
  apply recvdone_completes; same_request.
Qed.

Lemma SOFT_OR_HARD_cases e code :
  (e, code) ∈ SOFT_OR_HARD_errnos →
  (e = ECONNREFUSED ∧ code = ISC_R_CONNREFUSED)
  ∨ (e = ENETUNREACH ∧ code = ISC_R_NETUNREACH)
  ∨ (e = EHOSTUNREACH ∧ code = ISC_R_HOSTUNREACH).
Proof.
  unfold SOFT_OR_HARD_errnos. rewrite !elem_of_cons, elem_of_nil.
  intros [[= -> ->]|[[= -> ->]|[[= -> ->]|[]]]]; auto.
Qed.

(** Decide the errno tests on a known errno. *)
Ltac errno_tests :=
  repeat match goal with
    | |- context [SOFT_ERROR ?e] =>
        progress (let b := eval vm_compute in (SOFT_ERROR e) in
                  change (SOFT_ERROR e) with b)
    | |- context [Z.eqb ?a ?b] =>
        progress (let c := eval vm_compute in (Z.eqb a b) in
                  change (Z.eqb a b) with c)
    end;
  cbn beta iota.

Lemma doio_recv_nobufs w dev dev1 msghdr read_count :
  build_msghdr_recv (w_sock w) dev MAXSCATTERGATHER_RECV
    = Ok (dev1, msghdr, read_count) →
  let r := env_recvmsg env (w_clock w) (fd (w_sock w)) msghdr in
  rm_cc r < 0 →
  rm_errno r = ENOBUFS →
  ∃ dev' w' e ev,
    doio_recv env dev w = (Ok (DOIO_HARD, dev'), w')
    ∧ recv_result (w_sock w') = recv_result (w_sock w)
    ∧ extends (w_trace w) (w_trace w') [Recvmsg (fd (w_sock w)) msghdr; e]
    ∧ sent_to (se_sender dev) ev e
    ∧ completes dev ISC_R_NORESOURCES ev.
Proof.
  intros Hb r Hcc He.
  pose proof (build_msghdr_recv_dev _ _ _ _ _ _ Hb) as ->.
  apply Z.ltb_lt in Hcc.
  unfold doio_recv. run. rewrite Hb. run. fold r.
  rewrite Hcc, He. errno_tests. run.
  eexists _, _, _, _. split; [reflexivity|].
  cbn [w_sock w_trace with_sock with_effects recv_result set_recv_list].
  split; [reflexivity|]. split; [unfold extends; now rewrite <- app_assoc|].
  split; [handed_over|].
  apply recvdone_completes; same_request.
Qed.

(** The SOFT_OR_HARD branches of [doio_recv] on a connected socket: the
    request completes with the mapped code, and only a stream socket
    gets the sticky result. *)
Lemma doio_recv_unreach_connected w dev dev1 msghdr read_count code :
  build_msghdr_recv (w_sock w) dev MAXSCATTERGATHER_RECV
    = Ok (dev1, msghdr, read_count) →
  let r := env_recvmsg env (w_clock w) (fd (w_sock w)) msghdr in
  rm_cc r < 0 →
  (rm_errno r, code) ∈ SOFT_OR_HARD_errnos →
  connected (w_sock w) = true →
  ∃ dev' w' e ev,
    doio_recv env dev w = (Ok (DOIO_HARD, dev'), w')
    ∧ recv_result (w_sock w')
      = (if is_tcp (w_sock w) then code else recv_result (w_sock w))
    ∧ extends (w_trace w) (w_trace w') [Recvmsg (fd (w_sock w)) msghdr; e]
    ∧ sent_to (se_sender dev) ev e
    ∧ completes dev code ev.
Proof.
  intros Hb r Hcc He Hconn.
  pose proof (build_msghdr_recv_dev _ _ _ _ _ _ Hb) as ->.
  apply Z.ltb_lt in Hcc.
  unfold doio_recv. run. rewrite Hb. run. fold r. rewrite Hcc.
  apply SOFT_OR_HARD_cases in He as [[-> ->]|[[-> ->]|[-> ->]]];
    errno_tests; unfold SOFT_OR_HARD_recv; run; rewrite Hconn;
    destruct (is_tcp (w_sock w)); run;
    (eexists _, _, _, _; split; [reflexivity|];
     cbn [w_sock w_trace with_sock with_effects recv_result set_recv_list
          set_recv_result];
     split; [reflexivity|]; split; [unfold extends; now rewrite <- app_assoc|];
     split; [handed_over|];
     apply recvdone_completes; same_request).
Qed.

(** The same branches on a socket that is not connected: a soft error. *)
Lemma doio_recv_unreach_unconnected w dev dev1 msghdr read_count code :
  build_msghdr_recv (w_sock w) dev MAXSCATTERGATHER_RECV
    = Ok (dev1, msghdr, read_count) →
  let r := env_recvmsg env (w_clock w) (fd (w_sock w)) msghdr in
  rm_cc r < 0 →
  (rm_errno r, code) ∈ SOFT_OR_HARD_errnos →
  connected (w_sock w) = false →
  ∃ dev',
    doio_recv env dev w
      = (Ok (DOIO_SOFT, dev'), asked (Recvmsg (fd (w_sock w)) msghdr) w).
Proof.
  intros Hb r Hcc He Hconn.
  apply Z.ltb_lt in Hcc.
  unfold doio_recv. run. rewrite Hb. run. fold r. rewrite Hcc.
  apply SOFT_OR_HARD_cases in He as [[-> ->]|[[-> ->]|[-> ->]]];
    errno_tests; unfold SOFT_OR_HARD_recv; run; rewrite Hconn;
    eexists; reflexivity.
Qed.

Lemma doio_recv_soft w dev dev1 msghdr read_count :
  build_msghdr_recv (w_sock w) dev MAXSCATTERGATHER_RECV
    = Ok (dev1, msghdr, read_count) →
  let r := env_recvmsg env (w_clock w) (fd (w_sock w)) msghdr in
  rm_cc r < 0 →
  SOFT_ERROR (rm_errno r) = true →
  ∃ dev',
    doio_recv env dev w
      = (Ok (DOIO_SOFT, dev'), asked (Recvmsg (fd (w_sock w)) msghdr) w).
Proof.
  intros Hb r Hcc He.
  apply Z.ltb_lt in Hcc.
  unfold doio_recv. run. rewrite Hb. run. fold r. rewrite Hcc, He.
  eexists; reflexivity.
Qed.

Ltac done_send dev :=
  eexists _, _, _, _; split; [reflexivity|];
  cbn [w_sock w_trace with_sock with_effects send_result set_send_list
       set_send_result];
  split; [reflexivity|];
  split; [unfold extends; rewrite <- ?app_assoc; reflexivity|];
  split; [handed_over|];
  apply senddone_completes; same_request.

Lemma doio_send_unexpected w dev msghdr write_count cc errno :
  build_msghdr_send (w_sock w) dev MAXSCATTERGATHER_SEND
    = Ok (msghdr, write_count) →
  env_sendmsg env (w_clock w) (fd (w_sock w)) msghdr = (cc, errno) →
  cc < 0 →
  SOFT_ERROR errno = false →
  errno ∉ SOFT_OR_HARD_errnos.*1 →
  errno ≠ ENOBUFS →
  ∃ dev' w' e ev,
    doio_send env dev w = (Ok (DOIO_HARD, dev'), w')
    ∧ send_result (w_sock w') = ISC_R_UNEXPECTED
    ∧ extends (w_trace w) (w_trace w')
        [Sendmsg (fd (w_sock w)) msghdr; UnexpectedError; e]
    ∧ sent_to (se_sender dev) ev e
    ∧ completes dev ISC_R_UNEXPECTED ev.
Proof.
  intros Hb Hk Hcc Hsoft Hsh Hnobufs.
  apply not_SOFT_OR_HARD in Hsh as (E1 & E2 & E3).
  apply Z.ltb_lt in Hcc. apply Z.eqb_neq in Hnobufs.
  unfold doio_send. run. rewrite Hb. run. rewrite Hk.
  rewrite Hcc, Hsoft, E1, E2, E3, Hnobufs. run.
  done_send dev.
Qed.

Lemma doio_send_nobufs w dev msghdr write_count cc :
  build_msghdr_send (w_sock w) dev MAXSCATTERGATHER_SEND
    = Ok (msghdr, write_count) →
  env_sendmsg env (w_clock w) (fd (w_sock w)) msghdr = (cc, ENOBUFS) →
  cc < 0 →
  ∃ dev' w' e ev,
    doio_send env dev w = (Ok (DOIO_HARD, dev'), w')
    ∧ send_result (w_sock w') = send_result (w_sock w)
    ∧ extends (w_trace w) (w_trace w') [Sendmsg (fd (w_sock w)) msghdr; e]
    ∧ sent_to (se_sender dev) ev e
    ∧ completes dev ISC_R_NORESOURCES ev.
Proof.
  intros Hb Hk Hcc. apply Z.ltb_lt in Hcc.
  unfold doio_send. run. rewrite Hb. run. rewrite Hk, Hcc.
  errno_tests. run. done_send dev.
Qed.

Lemma doio_send_unreach_connected w dev msghdr write_count cc errno code :
  build_msghdr_send (w_sock w) dev MAXSCATTERGATHER_SEND
    = Ok (msghdr, write_count) →
  env_sendmsg env (w_clock w) (fd (w_sock w)) msghdr = (cc, errno) →
  cc < 0 →
  (errno, code) ∈ SOFT_OR_HARD_errnos →
  connected (w_sock w) = true →
  ∃ dev' w' e ev,
    doio_send env dev w = (Ok (DOIO_HARD, dev'), w')
    ∧ send_result (w_sock w')
      = (if is_tcp (w_sock w) then code else send_result (w_sock w))
    ∧ extends (w_trace w) (w_trace w') [Sendmsg (fd (w_sock w)) msghdr; e]
    ∧ sent_to (se_sender dev) ev e
    ∧ completes dev code ev.
Proof.
  intros Hb Hk Hcc He Hconn. apply Z.ltb_lt in Hcc.
  unfold doio_send. run. rewrite Hb. run. rewrite Hk, Hcc.
  apply SOFT_OR_HARD_cases in He as [[-> ->]|[[-> ->]|[-> ->]]];
    errno_tests; unfold SOFT_OR_HARD_send; run; rewrite Hconn;
    destruct (is_tcp (w_sock w)); run; done_send dev.
Qed.

Lemma doio_send_unreach_unconnected w dev msghdr write_count cc errno code :
  build_msghdr_send (w_sock w) dev MAXSCATTERGATHER_SEND
    = Ok (msghdr, write_count) →
  env_sendmsg env (w_clock w) (fd (w_sock w)) msghdr = (cc, errno) →
  cc < 0 →
  (errno, code) ∈ SOFT_OR_HARD_errnos →
  connected (w_sock w) = false →
  doio_send env dev w
    = (Ok (DOIO_SOFT, dev), asked (Sendmsg (fd (w_sock w)) msghdr) w).
Proof.
  intros Hb Hk Hcc He Hconn. apply Z.ltb_lt in Hcc.
  unfold doio_send. run. rewrite Hb. run. rewrite Hk, Hcc.
  apply SOFT_OR_HARD_cases in He as [[-> ->]|[[-> ->]|[-> ->]]];
    errno_tests; unfold SOFT_OR_HARD_send; run; rewrite Hconn; reflexivity.
Qed.

Lemma doio_send_soft w dev msghdr write_count cc errno :
  build_msghdr_send (w_sock w) dev MAXSCATTERGATHER_SEND
    = Ok (msghdr, write_count) →
  env_sendmsg env (w_clock w) (fd (w_sock w)) msghdr = (cc, errno) →
  cc < 0 →
  SOFT_ERROR errno = true →
  doio_send env dev w
    = (Ok (DOIO_SOFT, dev), asked (Sendmsg (fd (w_sock w)) msghdr) w).
Proof.
  intros Hb Hk Hcc He. apply Z.ltb_lt in Hcc.
  unfold doio_send. run. rewrite Hb. run. rewrite Hk, Hcc, He. reflexivity.
Qed.

(** C2.  In [doio_recv], when recvmsg() fails with an errno that is not
    soft, not one of ECONNREFUSED, ENETUNREACH, EHOSTUNREACH, and not
    ENOBUFS, the sticky [recv_result] becomes ISC_R_UNEXPECTED, the request
    is handed to its task carrying ISC_R_UNEXPECTED, and the outcome is
    DOIO_SUCCESS.  In the same situation [doio_send] sets [send_result],
    hands the request over with ISC_R_UNEXPECTED and returns DOIO_HARD. *)
Theorem doio_recv_other_errno_is_success_doio_send_is_hard :
  (∀ w dev dev1 msghdr read_count,
     build_msghdr_recv (w_sock w) dev MAXSCATTERGATHER_RECV
       = Ok (dev1, msghdr, read_count) →
     let r := env_recvmsg env (w_clock w) (fd (w_sock w)) msghdr in
     rm_cc r < 0 →
     SOFT_ERROR (rm_errno r) = false →
     rm_errno r ∉ SOFT_OR_HARD_errnos.*1 →
     rm_errno r ≠ ENOBUFS →
     ∃ dev' w' e ev,
       doio_recv env dev w = (Ok (DOIO_SUCCESS, dev'), w')
       ∧ recv_result (w_sock w') = ISC_R_UNEXPECTED
       ∧ extends (w_trace w) (w_trace w') [Recvmsg (fd (w_sock w)) msghdr; e]
       ∧ sent_to (se_sender dev) ev e
       ∧ completes dev ISC_R_UNEXPECTED ev)
  ∧
  (∀ w dev msghdr write_count cc errno,
     build_msghdr_send (w_sock w) dev MAXSCATTERGATHER_SEND
       = Ok (msghdr, write_count) →
     env_sendmsg env (w_clock w) (fd (w_sock w)) msghdr = (cc, errno) →
     cc < 0 →
     SOFT_ERROR errno = false →
     errno ∉ SOFT_OR_HARD_errnos.*1 →
     errno ≠ ENOBUFS →
     ∃ dev' w' e ev,
       doio_send env dev w = (Ok (DOIO_HARD, dev'), w')
       ∧ send_result (w_sock w') = ISC_R_UNEXPECTED
       ∧ extends (w_trace w) (w_trace w')
           [Sendmsg (fd (w_sock w)) msghdr; UnexpectedError; e]
       ∧ sent_to (se_sender dev) ev e
       ∧ completes dev ISC_R_UNEXPECTED ev).
Proof.
  split.
  - intros. eapply doio_recv_unexpected; eassumption.
  - intros. eapply doio_send_unexpected; eassumption.
Qed.

(** C3, as amended.  ENOBUFS always hands the request to its task with
    ISC_R_NORESOURCES and gives DOIO_HARD, leaving the sticky result
    alone.  On a datagram socket a soft errno, and ECONNREFUSED,
    ENETUNREACH or EHOSTUNREACH while the socket is not connected, give
    DOIO_SOFT and nothing but the kernel call happens.  On a connected
    datagram socket these three errnos hand the request over with the
    mapped code and give DOIO_HARD, the sticky result staying as it was.
    Every other errno hands the request over with ISC_R_UNEXPECTED;
    [doio_recv] then answers DOIO_SUCCESS and [doio_send] DOIO_HARD. *)
Theorem datagram_kernel_errors :
  (∀ w dev dev1 msghdr read_count,
     build_msghdr_recv (w_sock w) dev MAXSCATTERGATHER_RECV
       = Ok (dev1, msghdr, read_count) →
     let r := env_recvmsg env (w_clock w) (fd (w_sock w)) msghdr in
     rm_cc r < 0 →
     let quiet :=
       ∃ dev',
         doio_recv env dev w
           = (Ok (DOIO_SOFT, dev'), asked (Recvmsg (fd (w_sock w)) msghdr) w) in
     let reported outcome code :=
       ∃ dev' w' e ev,
         doio_recv env dev w = (Ok (outcome, dev'), w')
         ∧ extends (w_trace w) (w_trace w') [Recvmsg (fd (w_sock w)) msghdr; e]
         ∧ sent_to (se_sender dev) ev e
         ∧ completes dev code ev in
     let sticky_kept :=
       ∀ out w', doio_recv env dev w = (out, w') →
                 recv_result (w_sock w') = recv_result (w_sock w) in
     (rm_errno r = ENOBUFS →
      reported DOIO_HARD ISC_R_NORESOURCES ∧ sticky_kept)
     ∧ (is_udp (w_sock w) = true →
        (SOFT_ERROR (rm_errno r) = true → quiet)
        ∧ (∀ code, (rm_errno r, code) ∈ SOFT_OR_HARD_errnos →
             if connected (w_sock w)
             then reported DOIO_HARD code ∧ sticky_kept
             else quiet)
        ∧ (SOFT_ERROR (rm_errno r) = false →
           rm_errno r ∉ SOFT_OR_HARD_errnos.*1 →
           rm_errno r ≠ ENOBUFS →
           reported DOIO_SUCCESS ISC_R_UNEXPECTED)))
  ∧
  (∀ w dev msghdr write_count cc errno,
     build_msghdr_send (w_sock w) dev MAXSCATTERGATHER_SEND
       = Ok (msghdr, write_count) →
     env_sendmsg env (w_clock w) (fd (w_sock w)) msghdr = (cc, errno) →
     cc < 0 →
     let quiet :=
       doio_send env dev w
         = (Ok (DOIO_SOFT, dev), asked (Sendmsg (fd (w_sock w)) msghdr) w) in
     let reported outcome code log :=
       ∃ dev' w' e ev,
         doio_send env dev w = (Ok (outcome, dev'), w')
         ∧ extends (w_trace w) (w_trace w')
             (Sendmsg (fd (w_sock w)) msghdr :: log ++ [e])
         ∧ sent_to (se_sender dev) ev e
         ∧ completes dev code ev in
     let sticky_kept :=
       ∀ out w', doio_send env dev w = (out, w') →
                 send_result (w_sock w') = send_result (w_sock w) in
     (errno = ENOBUFS →
      reported DOIO_HARD ISC_R_NORESOURCES [] ∧ sticky_kept)
     ∧ (is_udp (w_sock w) = true →
        (SOFT_ERROR errno = true → quiet)
        ∧ (∀ code, (errno, code) ∈ SOFT_OR_HARD_errnos →
             if connected (w_sock w)
             then reported DOIO_HARD code [] ∧ sticky_kept
             else quiet)
        ∧ (SOFT_ERROR errno = false →
           errno ∉ SOFT_OR_HARD_errnos.*1 →
           errno ≠ ENOBUFS →
           reported DOIO_HARD ISC_R_UNEXPECTED [UnexpectedError]))).
Proof.
  split.
  - intros w dev dev1 msghdr read_count Hb r Hcc.
    assert (Hudp : is_udp (w_sock w) = true → is_tcp (w_sock w) = false).
    { unfold is_udp, is_tcp. destruct (sock_type (w_sock w)); done. }
    cbv zeta. split; [|intros U; split; [|split]].
    + intros He.
      destruct (doio_recv_nobufs w dev _ _ _ Hb Hcc He)
        as (dev' & w' & e & ev & E & S & T & P & C).
      split; [exists dev', w', e, ev; repeat split; assumption|]. intros out w'' E'. rewrite E in E'.
      now injection E' as <- <-.
    + intros He. eapply doio_recv_soft; eassumption.
    + intros code He. destruct (connected (w_sock w)) eqn:Hc.
      * destruct (doio_recv_unreach_connected w dev _ _ _ code Hb Hcc He Hc)
          as (dev' & w' & e & ev & E & S & T & P & C).
        split; [exists dev', w', e, ev; repeat split; assumption|]. intros out w'' E'. rewrite E in E'.
        injection E' as <- <-. now rewrite S, (Hudp U).
      * eapply doio_recv_unreach_unconnected; eassumption.
    + intros Hs Hn Hb'.
      destruct (doio_recv_unexpected w dev _ _ _ Hb Hcc Hs Hn Hb')
        as (dev' & w' & e & ev & E & S & T & P & C).
      exists dev', w', e, ev; repeat split; assumption.
  - intros w dev msghdr write_count cc errno Hb Hk Hcc.
    assert (Hudp : is_udp (w_sock w) = true → is_tcp (w_sock w) = false).
    { unfold is_udp, is_tcp. destruct (sock_type (w_sock w)); done. }
    cbv zeta. split; [|intros U; split; [|split]].
    + intros ->.
      destruct (doio_send_nobufs w dev _ _ _ Hb Hk Hcc)
        as (dev' & w' & e & ev & E & S & T & P & C).
      split; [exists dev', w', e, ev; repeat split; assumption|]. intros out w'' E'. rewrite E in E'.
      now injection E' as <- <-.
    + intros He. eapply doio_send_soft; eassumption.
    + intros code He. destruct (connected (w_sock w)) eqn:Hc.
      * destruct (doio_send_unreach_connected w dev _ _ _ _ code Hb Hk Hcc He Hc)
          as (dev' & w' & e & ev & E & S & T & P & C).
        split; [exists dev', w', e, ev; repeat split; assumption|]. intros out w'' E'. rewrite E in E'.
        injection E' as <- <-. now rewrite S, (Hudp U).
      * eapply doio_send_unreach_unconnected; eassumption.
    + intros Hs Hn Hb'.
      destruct (doio_send_unexpected w dev _ _ _ _ Hb Hk Hcc Hs Hn Hb')
        as (dev' & w' & e & ev & E & S & T & P & C).
      exists dev', w', e, ev; repeat split; assumption.
Qed.

(** ** Draining the read queue *)

Lemma completions_app t1 t2 :
  completions (t1 ++ t2) = completions t1 ++ completions t2.
Proof. unfold completions. apply omap_app. Qed.

Lemma completions_cons e t :
  completions (e :: t)
  = match posted e with
    | Some ev => ev :: completions t
    | None => completions t
    end.
Proof. reflexivity. Qed.

Lemma completions_handover (f : isc_socketevent_t → isc_socketevent_t) q :
  completions (map (λ dev, handover (se_sender dev) (f dev)) q)
  = map (λ dev, SocketEvent (f dev)) q.
Proof.
  induction q as [|dev q IH]; [done|].
  cbn [map]. rewrite completions_cons, posted_handover. now rewrite IH.
Qed.

Lemma no_recvmsg_handover (f : isc_socketevent_t → isc_socketevent_t) q :
  Forall (λ e, is_recvmsg e = false)
    (map (λ dev, handover (se_sender dev) (f dev)) q).
Proof.
  apply Forall_forall. intros e [dev [-> _]]%list_elem_of_fmap.
  unfold handover. now destruct (_ =? _).
Qed.

(** With a sticky result other than success the loop of [internal_recv]
    empties the queue: every request, marker or not, is handed over with
    the sticky result, in queue order, and the kernel is not asked. *)
Lemma internal_recv_loop_sticky q : ∀ fuel w,
  recv_list (w_sock w) = q →
  recv_result (w_sock w) ≠ ISC_R_SUCCESS →
  (length q ≤ fuel)%nat →
  internal_recv_loop env fuel w =
  (Ok (),
   with_effects
     (map (λ dev, handover (se_sender dev)
                    (recvdone (w_sock w) dev (recv_result (w_sock w)))) q)
     (with_sock (set_recv_list [] (w_sock w)) w)).
Proof.
  induction q as [|dev q IH]; intros fuel w Hq Hr Hf.
  - destruct fuel; cbn [internal_recv_loop]; run; rewrite Hq;
      destruct w as [s m t c]; destruct s; cbn in *; subst;
      unfold with_effects, with_sock; cbn; now rewrite app_nil_r.
  - destruct fuel as [|fuel]; [cbn in Hf; lia|].
    cbn [internal_recv_loop]. run. rewrite Hq.
    assert (Hstep :
      (send_recvdone_event dev (recv_result (w_sock w));;
       internal_recv_loop env fuel) w
      = (Ok (),
         with_effects
           (map (λ dev, handover (se_sender dev)
                   (recvdone (w_sock w) dev (recv_result (w_sock w))))
              (dev :: q))
           (with_sock (set_recv_list [] (w_sock w)) w))).
    { run. rewrite Hq, unlink_head.
      rewrite IH; [|reflexivity|exact Hr|cbn in Hf; lia].
      destruct w as [s m t c]; destruct s; cbn in *; subst.
      unfold with_effects, with_sock, recvdone; cbn.
      now rewrite <- app_assoc. }
    destruct (bool_decide (se_type dev = ISC_SOCKEVENT_RECVMARK));
      [exact Hstep|].
    rewrite bool_decide_eq_true_2 by exact Hr. exact Hstep.
Qed.

Lemma unlink_same a e l : se_self e = a → unlink a (e :: l) = l.
Proof. intros <-. apply unlink_head. Qed.

Lemma completes_recvdone_queue sock r q :
  Forall2 (λ dev ev, completes dev r ev) q
    (map (λ dev, SocketEvent (recvdone sock dev r)) q).
Proof.
  induction q as [|dev q IH]; cbn [map]; constructor; [|exact IH].
  now apply recvdone_completes.
Qed.

(** The do-while of the DOIO_EOF case: the request [dev] that met the end
    of the stream and every request queued behind it are handed over
    with ISC_R_EOF, in queue order. *)
Lemma eof_cascade_run q : ∀ fuel dev head w,
  recv_list (w_sock w) = head :: q →
  se_self head = se_self dev →
  (length q < fuel)%nat →
  eof_cascade fuel dev w =
  (Ok (),
   with_effects
     (handover (se_sender dev) (recvdone (w_sock w) dev ISC_R_EOF)
      :: map (λ dev, handover (se_sender dev)
                       (recvdone (w_sock w) dev ISC_R_EOF)) q)
     (with_sock (set_recv_list [] (w_sock w)) w)).
Proof.
  induction q as [|next q IH]; intros fuel dev head w Hq Hself Hf;
    (destruct fuel as [|fuel]; [cbn in Hf; lia|]);
    cbn [eof_cascade]; run; rewrite Hq, (unlink_same _ _ _ Hself);
    cbn [recv_list set_recv_list].
  - destruct w as [s m t c]; destruct s; reflexivity.
  - rewrite (IH fuel next next); [|reflexivity|reflexivity|cbn in Hf; lia].
    destruct w as [s m t c]; destruct s; cbn in *; subst.
    unfold with_effects, with_sock, recvdone; cbn.
    now rewrite <- app_assoc.
Qed.

Lemma tcp_not_udp sock : is_tcp sock = true → is_udp sock = false.
Proof. unfold is_udp, is_tcp. now destruct (sock_type sock). Qed.

Lemma udp_not_tcp sock : is_udp sock = true → is_tcp sock = false.
Proof. unfold is_udp, is_tcp. now destruct (sock_type sock). Qed.

(** A read of zero bytes on a stream socket: the sticky result becomes
    ISC_R_EOF and nothing is handed over yet. *)
Lemma doio_recv_eof w dev dev1 msghdr read_count :
  is_tcp (w_sock w) = true →
  build_msghdr_recv (w_sock w) dev MAXSCATTERGATHER_RECV
    = Ok (dev1, msghdr, read_count) →
  rm_cc (env_recvmsg env (w_clock w) (fd (w_sock w)) msghdr) = 0 →
  doio_recv env dev w
  = (Ok (DOIO_EOF, dev1),
     with_sock (set_recv_result ISC_R_EOF (w_sock w))
       (asked (Recvmsg (fd (w_sock w)) msghdr) w)).
Proof.
  intros Htcp Hb Hcc.
  unfold doio_recv. run. rewrite Hb. run.
  rewrite Hcc, Htcp, (tcp_not_udp _ Htcp).
  cbn [Z.ltb Z.compare Z.eqb andb]. run.
  now destruct (msg_name _).
Qed.

(** The loop of [internal_recv] when the request at the head of the queue
    of a stream socket reads zero bytes. *)
Lemma internal_recv_loop_eof fuel w dev rest dev1 msghdr read_count :
  recv_list (w_sock w) = dev :: rest →
  is_tcp (w_sock w) = true →
  recv_result (w_sock w) = ISC_R_SUCCESS →
  se_type dev ≠ ISC_SOCKEVENT_RECVMARK →
  build_msghdr_recv (w_sock w) dev MAXSCATTERGATHER_RECV
    = Ok (dev1, msghdr, read_count) →
  rm_cc (env_recvmsg env (w_clock w) (fd (w_sock w)) msghdr) = 0 →
  ∃ w' t,
    internal_recv_loop env (S fuel) w = (Ok (), w')
    ∧ extends (w_trace w) (w_trace w') (Recvmsg (fd (w_sock w)) msghdr :: t)
    ∧ Forall2 (λ dev ev, completes dev ISC_R_EOF ev) (dev :: rest)
        (completions t)
    ∧ length t = length (dev :: rest)
    ∧ recv_list (w_sock w') = []
    ∧ recv_result (w_sock w') = ISC_R_EOF
    ∧ w_sock w' = set_recv_list [] (set_recv_result ISC_R_EOF (w_sock w)).
Proof.
  intros Hq Htcp Hr Hmark Hb Hcc.
  pose proof (build_msghdr_recv_dev _ _ _ _ _ _ Hb) as ->.
  cbn [internal_recv_loop]. run. rewrite Hq.
  rewrite bool_decide_eq_false_2 by exact Hmark.
  rewrite bool_decide_eq_false_2 by (rewrite Hr; auto).
  erewrite run_seq by (eapply doio_recv_eof; eassumption).
  run. cbn [recv_list set_recv_result asked w_sock]. rewrite Hq.
  erewrite (eof_cascade_run rest _ _ dev);
    [|cbn; exact Hq|same_request|cbn; lia].
  eexists _, _. split; [reflexivity|].
  cbn [w_trace w_sock with_effects with_sock asked].
  split; [unfold extends; rewrite <- ?app_assoc; reflexivity|].
  split.
  - rewrite completions_cons, posted_handover.
    rewrite (completions_handover (λ dev, recvdone _ dev ISC_R_EOF)).
    constructor; [|apply completes_recvdone_queue].
    apply recvdone_completes; same_request.
  - split; [cbn [length]; now rewrite length_map|].
    split; [reflexivity|]. split; [reflexivity|].
    destruct (w_sock w); reflexivity.
Qed.

(** [build_msghdr_recv] looks at the type and the address of the socket
    only. *)
Lemma build_msghdr_recv_ext s s' dev maxiov :
  sock_type s = sock_type s' → address s = address s' →
  build_msghdr_recv s dev maxiov = build_msghdr_recv s' dev maxiov.
Proof.
  intros Ht Ha. unfold build_msghdr_recv, is_udp. now rewrite Ht, Ha.
Qed.

(** The entry of [internal_recv]: with a valid socket whose read event is
    pending and which has other references left, the handler goes on to
    its loop and pokes the watcher if requests remain. *)
Lemma internal_recv_enter ev w :
  iev_type ev = ISC_SOCKEVENT_INTR →
  iev_sender ev = SockPtr (self (w_sock w)) →
  VALID_SOCKET (w_sock w) = true →
  pending_recv (w_sock w) = true →
  1 < references (w_sock w) < 2 ^ 32 →
  internal_recv env ev w =
  (internal_recv_loop env (length (recv_list (w_sock w)));;
   sock ← get_sock;
   if negb (EMPTY (recv_list sock)) then select_poke (fd sock) else mret ())
    (with_sock (recv_entered (w_sock w)) w).
Proof.
  intros Ht Hs Hv Hp Hr. unfold internal_recv.
  rewrite bool_decide_eq_true_2 by exact Ht. run.
  rewrite bool_decide_eq_true_2 by exact Hs. run.
  rewrite Hv. run. rewrite Hp. run.
  replace (0 <? references (w_sock w)) with true
    by (symmetry; apply Z.ltb_lt; lia).
  run. cbn [references set_references set_pending_recv recv_list].
  unfold uint. rewrite Z.mod_small by lia.
  replace (references (w_sock w) - 1 =? 0) with false
    by (symmetry; apply Z.eqb_neq; lia).
  reflexivity.
Qed.

(** C4.  When the request at the head of the read queue of a stream
    socket reads zero bytes while [internal_recv] drains the queue, that
    request and every request queued behind it, markers included, are
    taken off the queue and handed over with ISC_R_EOF, in queue order,
    and the sticky [recv_result] is ISC_R_EOF.  First for the loop at any
    point of the drain, then for the handler as a whole. *)
Theorem eof_completes_every_queued_request :
  (∀ fuel w dev rest dev1 msghdr read_count,
     recv_list (w_sock w) = dev :: rest →
     is_tcp (w_sock w) = true →
     recv_result (w_sock w) = ISC_R_SUCCESS →
     se_type dev ≠ ISC_SOCKEVENT_RECVMARK →
     build_msghdr_recv (w_sock w) dev MAXSCATTERGATHER_RECV
       = Ok (dev1, msghdr, read_count) →
     rm_cc (env_recvmsg env (w_clock w) (fd (w_sock w)) msghdr) = 0 →
     ∃ w' t,
       internal_recv_loop env (S fuel) w = (Ok (), w')
       ∧ extends (w_trace w) (w_trace w') (Recvmsg (fd (w_sock w)) msghdr :: t)
       ∧ Forall2 (λ dev ev, completes dev ISC_R_EOF ev) (dev :: rest)
           (completions t)
       ∧ length t = length (dev :: rest)
       ∧ recv_list (w_sock w') = []
       ∧ recv_result (w_sock w') = ISC_R_EOF)
  ∧
  (∀ ev w dev rest dev1 msghdr read_count,
     iev_type ev = ISC_SOCKEVENT_INTR →
     iev_sender ev = SockPtr (self (w_sock w)) →
     VALID_SOCKET (w_sock w) = true →
     pending_recv (w_sock w) = true →
     1 < references (w_sock w) < 2 ^ 32 →
     recv_list (w_sock w) = dev :: rest →
     is_tcp (w_sock w) = true →
     recv_result (w_sock w) = ISC_R_SUCCESS →
     se_type dev ≠ ISC_SOCKEVENT_RECVMARK →
     build_msghdr_recv (w_sock w) dev MAXSCATTERGATHER_RECV
       = Ok (dev1, msghdr, read_count) →
     rm_cc (env_recvmsg env (w_clock w) (fd (w_sock w)) msghdr) = 0 →
     ∃ w' t,
       internal_recv env ev w = (Ok (), w')
       ∧ extends (w_trace w) (w_trace w') (Recvmsg (fd (w_sock w)) msghdr :: t)
       ∧ Forall2 (λ dev ev, completes dev ISC_R_EOF ev) (dev :: rest)
           (completions t)
       ∧ length t = length (dev :: rest)
       ∧ recv_list (w_sock w') = []
       ∧ recv_result (w_sock w') = ISC_R_EOF).
Proof.
  split.
  - intros fuel w dev rest dev1 msghdr read_count Hq Htcp Hr Hm Hb Hcc.
    destruct (internal_recv_loop_eof fuel w dev rest _ _ _ Hq Htcp Hr Hm Hb Hcc)
      as (w' & t & E & T & C & L & Q & R & _).
    exists w', t. repeat split; assumption.
  - intros ev w dev rest dev1 msghdr read_count
      Ht Hs Hv Hp Href Hq Htcp Hr Hm Hb Hcc.
    rewrite (internal_recv_enter ev w Ht Hs Hv Hp Href), Hq.
    assert (Hb' : build_msghdr_recv (recv_entered (w_sock w)) dev
                    MAXSCATTERGATHER_RECV = Ok (dev1, msghdr, read_count)).
    { rewrite <- Hb. now apply build_msghdr_recv_ext. }
    destruct (internal_recv_loop_eof (length rest)
                (with_sock (recv_entered (w_sock w)) w) dev rest
                dev1 msghdr read_count Hq Htcp Hr Hm Hb' Hcc)
      as (w' & t & E & T & C & L & Q & R & S).
    cbn [length]. erewrite run_seq by exact E. run. rewrite Q.
    cbn [EMPTY negb]. exists w', t. repeat split; assumption.
Qed.

(** ** Posting a read on a socket with a sticky result *)

Lemma allocate_socketevent_run eventtype action arg w raw :
  env_socketevent env (w_clock w) = Some raw →
  allocate_socketevent env eventtype action arg w
  = (Ok (Some (init_socketevent (w_sock w) eventtype action arg raw)),
     asked (EventAllocate eventtype) w).
Proof. intros E. unfold allocate_socketevent. run. now rewrite E. Qed.

(** What [isc_socket_recv] and [isc_socket_recvv] do with a fresh request
    when the sticky result is not success: with an empty queue the
    request goes straight to its task with the sticky result; behind
    other requests it is queued.  The kernel is asked in neither case. *)
Lemma recv_now_or_queue_sticky dev task w :
  recv_result (w_sock w) ≠ ISC_R_SUCCESS →
  se_sender dev = task →
  ∃ w' t,
    recv_now_or_queue env dev task w = (Ok ISC_R_SUCCESS, w')
    ∧ extends (w_trace w) (w_trace w') t
    ∧ recv_result (w_sock w') = recv_result (w_sock w)
    ∧ match recv_list (w_sock w) with
      | [] =>
          (∃ e ev, t = [e] ∧ sent_to task ev e
                   ∧ completes dev (recv_result (w_sock w)) ev)
          ∧ recv_list (w_sock w') = []
      | _ =>
          t = [TaskAttach task]
          ∧ ∃ dev', recv_list (w_sock w') = recv_list (w_sock w) ++ [dev']
                    ∧ se_self dev' = se_self dev ∧ se_type dev' = se_type dev
      end.
Proof.
  intros Hr Hs. unfold recv_now_or_queue. run.
  destruct (recv_list (w_sock w)) as [|head q] eqn:Hq; cbn [EMPTY negb].
  - rewrite bool_decide_eq_true_2 by exact Hr. run.
    eexists _, _. split; [reflexivity|].
    cbn [w_trace w_sock with_effects with_sock recv_result recv_list
         set_recv_list].
    split; [reflexivity|]. split; [reflexivity|].
    rewrite Hq. split; [|reflexivity].
    eexists _, _. split; [reflexivity|]. rewrite Hs. split.
    + apply handover_sent_to.
    + now apply recvdone_completes.
  - unfold recv_queue. run.
    eexists _, _. split; [reflexivity|].
    cbn [w_trace w_sock with_effects with_sock recv_result recv_list
         set_recv_list].
    split; [reflexivity|]. split; [reflexivity|].
    split; [reflexivity|]. rewrite Hq. eexists. split; [reflexivity|].
    split; reflexivity.
Qed.

Lemma internal_recv_sticky ev w :
  recv_result (w_sock w) ≠ ISC_R_SUCCESS →
  iev_type ev = ISC_SOCKEVENT_INTR →
  iev_sender ev = SockPtr (self (w_sock w)) →
  VALID_SOCKET (w_sock w) = true →
  pending_recv (w_sock w) = true →
  1 < references (w_sock w) < 2 ^ 32 →
  ∃ w' t,
    internal_recv env ev w = (Ok (), w')
    ∧ extends (w_trace w) (w_trace w') t
    ∧ Forall2
        (λ dev e, ∃ ev, sent_to (se_sender dev) ev e
                        ∧ completes dev (recv_result (w_sock w)) ev)
        (recv_list (w_sock w)) t
    ∧ recv_list (w_sock w') = []
    ∧ recv_result (w_sock w') = recv_result (w_sock w).
Proof.
  intros Hr Ht Hs Hv Hp Href.
  rewrite (internal_recv_enter ev w Ht Hs Hv Hp Href).
  erewrite run_seq
    by (apply (internal_recv_loop_sticky (recv_list (w_sock w)));
        [reflexivity|exact Hr|reflexivity]).
  run. cbn [recv_list set_recv_list EMPTY negb].
  eexists _, _. split; [reflexivity|].
  cbn [w_trace w_sock with_effects with_sock recv_result recv_list
       set_recv_list recv_entered set_references set_pending_recv].
  split; [reflexivity|]. split; [|split; reflexivity].
  induction (recv_list (w_sock w)) as [|dev q IH]; cbn [map]; constructor;
    [|exact IH].
  eexists. split; [apply handover_sent_to|].
  now apply recvdone_completes.
Qed.

(** C1.  On a socket whose sticky [recv_result] is [r], not success, a
    request posted with [isc_socket_recv] or [isc_socket_recvv] on an
    empty queue goes to its task at once carrying [r], and one posted
    behind other requests is queued; [internal_recv] then hands every
    queued request to its task carrying [r], in queue order, and leaves
    the queue empty.  The traces show everything these calls do: none of
    them asks the kernel, and the sticky result stays [r]. *)
Theorem sticky_recv_result_completes_every_request :
  ∀ w r,
  recv_result (w_sock w) = r →
  r ≠ ISC_R_SUCCESS →
  VALID_SOCKET (w_sock w) = true →
  let posted_ok raw task w' t :=
    extends (w_trace w) (w_trace w') (EventAllocate ISC_SOCKEVENT_RECVDONE :: t)
    ∧ recv_result (w_sock w') = r
    ∧ match recv_list (w_sock w) with
      | [] =>
          (∃ e ev, t = [e] ∧ sent_to task (SocketEvent ev) e
                   ∧ se_self ev = se_self raw ∧ se_result ev = r)
          ∧ recv_list (w_sock w') = []
      | _ =>
          t = [TaskAttach task]
          ∧ ∃ dev', recv_list (w_sock w') = recv_list (w_sock w) ++ [dev']
                    ∧ se_self dev' = se_self raw
      end in
  (∀ region minimum task action arg raw,
     VALID_MANAGER (w_manager w) = true →
     minimum ≤ region_length region → task ≠ NULL → action ≠ 0 →
     env_socketevent env (w_clock w) = Some raw →
     ∃ w' t,
       isc_socket_recv env (Some region) minimum task action arg w
         = (Ok ISC_R_SUCCESS, w')
       ∧ posted_ok raw task w' t)
  ∧
  (∀ buflist minimum task action arg raw,
     VALID_MANAGER (w_manager w) = true →
     buflist ≠ [] → 0 < isc_bufferlist_availablecount buflist →
     task ≠ NULL → action ≠ 0 →
     env_socketevent env (w_clock w) = Some raw →
     ∃ w' t,
       isc_socket_recvv env (Some buflist) minimum task action arg w
         = (Ok ISC_R_SUCCESS, w')
       ∧ posted_ok raw task w' t)
  ∧
  (∀ ev,
     iev_type ev = ISC_SOCKEVENT_INTR →
     iev_sender ev = SockPtr (self (w_sock w)) →
     pending_recv (w_sock w) = true →
     1 < references (w_sock w) < 2 ^ 32 →
     ∃ w' t,
       internal_recv env ev w = (Ok (), w')
       ∧ extends (w_trace w) (w_trace w') t
       ∧ Forall2
           (λ dev e, ∃ ev, sent_to (se_sender dev) ev e ∧ completes dev r ev)
           (recv_list (w_sock w)) t
       ∧ recv_list (w_sock w') = []
       ∧ recv_result (w_sock w') = r).
Proof.
  intros w r Hr Hne Hv. cbv zeta. rewrite <- Hr in Hne.
  assert (Hpost : ∀ dev task raw,
    se_sender dev = task → se_self dev = se_self raw →
    ∃ w' t,
      recv_now_or_queue env dev task
        (asked (EventAllocate ISC_SOCKEVENT_RECVDONE) w)
        = (Ok ISC_R_SUCCESS, w')
      ∧ (extends (w_trace w) (w_trace w')
           (EventAllocate ISC_SOCKEVENT_RECVDONE :: t)
         ∧ recv_result (w_sock w') = r
         ∧ match recv_list (w_sock w) with
           | [] =>
               (∃ e ev, t = [e] ∧ sent_to task (SocketEvent ev) e
                        ∧ se_self ev = se_self raw ∧ se_result ev = r)
               ∧ recv_list (w_sock w') = []
           | _ =>
               t = [TaskAttach task]
               ∧ ∃ dev', recv_list (w_sock w') = recv_list (w_sock w) ++ [dev']
                         ∧ se_self dev' = se_self raw
           end)).
  { intros dev task raw Hs Hself.
    destruct (recv_now_or_queue_sticky dev task
                (asked (EventAllocate ISC_SOCKEVENT_RECVDONE) w) Hne Hs)
      as (w' & t & E & T & R & Q).
    exists w', t. split; [exact E|]. cbn [w_sock w_trace asked] in *.
    split; [unfold extends in *; rewrite T, <- app_assoc; reflexivity|].
    split; [now rewrite R|].
    destruct (recv_list (w_sock w)).
    - destruct Q as [(e & ev & -> & S & (e' & -> & ? & ? & ?)) ?].
      split; [|assumption]. exists e, e'. rewrite <- Hself, <- Hr. auto.
    - destruct Q as [-> (dev' & ? & ? & ?)]. split; [reflexivity|].
      exists dev'. rewrite <- Hself. auto. }
  split; [|split].
  - intros region minimum task action arg raw Hm Hmin Htask Hact Hraw.
    unfold isc_socket_recv. run. rewrite Hv. run.
    replace (minimum <=? region_length region) with true
      by (symmetry; now apply Z.leb_le).
    run. rewrite bool_decide_eq_true_2 by exact Htask. run.
    replace (action =? 0) with false by (symmetry; now apply Z.eqb_neq).
    cbn [negb]. run. rewrite Hm. run.
    erewrite run_seq by (apply allocate_socketevent_run; exact Hraw).
    apply Hpost; [reflexivity|]. repeat case_match; reflexivity.
  - intros buflist minimum task action arg raw Hm Hbl Hcount Htask Hact Hraw.
    unfold isc_socket_recvv. run. rewrite Hv. run.
    replace (EMPTY buflist) with false by (now destruct buflist).
    cbn [negb]. run. rewrite bool_decide_eq_true_2 by exact Htask. run.
    replace (action =? 0) with false by (symmetry; now apply Z.eqb_neq).
    cbn [negb]. run. rewrite Hm. run.
    replace (0 <? isc_bufferlist_availablecount buflist) with true
      by (symmetry; now apply Z.ltb_lt).
    run.
    erewrite run_seq by (apply allocate_socketevent_run; exact Hraw).
    apply Hpost; [reflexivity|]. repeat case_match; reflexivity.
  - intros ev Ht Hs Hp Href.
    destruct (internal_recv_sticky ev w Hne Ht Hs Hv Hp Href)
      as (w' & t & E & T & F & Q & R).
    exists w', t. rewrite <- Hr. rewrite R. repeat split; assumption.
Qed.

(** ** An empty datagram *)

Lemma recv_fill_zero bl : recv_fill bl 0 = Ok bl.
Proof. now destruct bl. Qed.

Lemma process_cmsg_step_request dev c :
  let dev' := process_cmsg_step dev c in
  se_self dev' = se_self dev ∧ se_type dev' = se_type dev
  ∧ se_sender dev' = se_sender dev ∧ se_n dev' = se_n dev
  ∧ se_minimum dev' = se_minimum dev
  ∧ se_bufferlist dev' = se_bufferlist dev.
Proof. unfold process_cmsg_step. repeat case_match; cbn; auto 10. Qed.

(** [process_cmsg] writes attributes, packet info and time stamp, and
    leaves the rest of the request alone. *)
Lemma process_cmsg_request msg dev :
  let dev' := process_cmsg msg dev in
  se_self dev' = se_self dev ∧ se_type dev' = se_type dev
  ∧ se_sender dev' = se_sender dev ∧ se_n dev' = se_n dev
  ∧ se_minimum dev' = se_minimum dev
  ∧ se_bufferlist dev' = se_bufferlist dev.
Proof.
  assert (Hfold : ∀ cs d,
    let d' := fold_left process_cmsg_step cs d in
    se_self d' = se_self d ∧ se_type d' = se_type d
    ∧ se_sender d' = se_sender d ∧ se_n d' = se_n d
    ∧ se_minimum d' = se_minimum d ∧ se_bufferlist d' = se_bufferlist d).
  { induction cs as [|c cs IH]; intros d; cbn; [auto 10|].
    destruct (IH (process_cmsg_step d c)) as (-> & -> & -> & -> & -> & ->).
    apply process_cmsg_step_request. }
  unfold process_cmsg. cbv zeta.
  destruct ISC_NET_BSD44MSGHDR; cbn [negb]; [|auto 10].
  destruct (msg_control msg) as [cs|];
    [destruct (msg_controllen msg =? 0)|];
    try (destruct (Hfold cs
           (if Z.land (msg_flags msg) MSG_CTRUNC =? MSG_CTRUNC
            then or_attribute ISC_SOCKEVENTATTR_CTRUNC
                   (if Z.land (msg_flags msg) MSG_TRUNC =? MSG_TRUNC
                    then or_attribute ISC_SOCKEVENTATTR_TRUNC dev else dev)
            else if Z.land (msg_flags msg) MSG_TRUNC =? MSG_TRUNC
                 then or_attribute ISC_SOCKEVENTATTR_TRUNC dev else dev))
           as (-> & -> & -> & -> & -> & ->));
    repeat case_match; cbn; auto 10.
Qed.

(** A datagram of zero bytes for a request that could take more and is
    short of its minimum: [doio_recv] answers DOIO_SOFT, nothing is
    handed over, and the request has read as much as before. *)
Lemma doio_recv_empty_datagram w dev dev1 msghdr read_count :
  is_udp (w_sock w) = true →
  build_msghdr_recv (w_sock w) dev MAXSCATTERGATHER_RECV
    = Ok (dev1, msghdr, read_count) →
  0 < read_count →
  rm_cc (env_recvmsg env (w_clock w) (fd (w_sock w)) msghdr) = 0 →
  0 ≤ se_n dev < 2 ^ 32 →
  se_n dev < se_minimum dev →
  ∃ dev',
    doio_recv env dev w
      = (Ok (DOIO_SOFT, dev'), asked (Recvmsg (fd (w_sock w)) msghdr) w)
    ∧ se_self dev' = se_self dev ∧ se_type dev' = se_type dev
    ∧ se_sender dev' = se_sender dev
    ∧ se_n dev' = se_n dev ∧ se_minimum dev' = se_minimum dev.
Proof.
  intros Hudp Hb Hrc Hcc Hn Hmin.
  pose proof (build_msghdr_recv_dev _ _ _ _ _ _ Hb) as ->.
  unfold doio_recv. run. rewrite Hb. run.
  rewrite Hcc, Hudp, (udp_not_tcp _ Hudp).
  replace (read_count <? 0) with false by (symmetry; apply Z.ltb_ge; lia).
  cbn [Z.ltb Z.compare andb negb]. rewrite !andb_false_r.
  match goal with
  | |- context [process_cmsg ?m ?d] =>
      pose proof (process_cmsg_request m d) as P; cbv zeta in P;
      assert (D : se_self d = se_self dev ∧ se_type d = se_type dev
                  ∧ se_sender d = se_sender dev ∧ se_n d = se_n dev
                  ∧ se_minimum d = se_minimum dev)
        by (repeat split; same_request);
      set (d1 := process_cmsg m d) in *
  end.
  destruct P as (Es & Et & Ed & En & Em & Eb).
  destruct D as (Ds & Dt & Dd & Dn & Dm).
  cbn [se_bufferlist set_se_n]. rewrite recv_fill_zero. run.
  cbn [se_n se_minimum set_se_n set_se_bufferlist].
  rewrite En, Em, Dn, Dm.
  replace (uint (se_n dev + 0)) with (se_n dev)
    by (unfold uint; rewrite Z.add_0_r; symmetry; now apply Z.mod_small).
  replace (se_n dev <? se_minimum dev) with true
    by (symmetry; now apply Z.ltb_lt).
  replace (0 =? read_count) with false by (symmetry; apply Z.eqb_neq; lia).
  cbn [andb negb]. eexists. split; [reflexivity|].
  cbn [se_self se_type se_sender se_n se_minimum set_se_n set_se_bufferlist].
  rewrite Es, Et, Ed, Em, Ds, Dt, Dd, Dm. auto.
Qed.

Lemma build_msghdr_recv_region sock dev maxiov :
  se_bufferlist dev = [] →
  ∃ dev1 msghdr,
    build_msghdr_recv sock dev maxiov
    = Ok (dev1, msghdr, uint (region_length (se_region dev) - se_n dev)).
Proof.
  intros Hbl. unfold build_msghdr_recv.
  cbn [se_bufferlist se_region se_n set_se_address].
  destruct (is_udp sock); cbn [se_bufferlist se_region se_n set_se_address];
    rewrite Hbl; eexists _, _; reflexivity.
Qed.

Lemma store_head dev' dev rest :
  se_self dev' = se_self dev → store dev' (dev :: rest) = dev' :: rest.
Proof. intros E. cbn. now rewrite bool_decide_eq_true_2. Qed.

(** The loop of [internal_recv] when the request at the head of the queue
    of a datagram socket meets an empty datagram: the loop stops and the
    request is still at the head. *)
Lemma internal_recv_loop_empty_datagram fuel w dev rest dev1 msghdr read_count :
  is_udp (w_sock w) = true →
  recv_list (w_sock w) = dev :: rest →
  recv_result (w_sock w) = ISC_R_SUCCESS →
  se_type dev ≠ ISC_SOCKEVENT_RECVMARK →
  build_msghdr_recv (w_sock w) dev MAXSCATTERGATHER_RECV
    = Ok (dev1, msghdr, read_count) →
  0 < read_count →
  rm_cc (env_recvmsg env (w_clock w) (fd (w_sock w)) msghdr) = 0 →
  0 ≤ se_n dev < 2 ^ 32 →
  se_n dev < se_minimum dev →
  ∃ dev',
    internal_recv_loop env (S fuel) w
    = (Ok (),
       with_sock (set_recv_list (dev' :: rest) (w_sock w))
         (asked (Recvmsg (fd (w_sock w)) msghdr) w))
    ∧ se_self dev' = se_self dev ∧ se_n dev' = se_n dev.
Proof.
  intros Hudp Hq Hr Hmark Hb Hrc Hcc Hn Hmin.
  destruct (doio_recv_empty_datagram w dev dev1 msghdr read_count
              Hudp Hb Hrc Hcc Hn Hmin)
    as (dev' & E & Es & _ & _ & En & _).
  exists dev'. split; [|auto].
  cbn [internal_recv_loop]. run. rewrite Hq.
  rewrite bool_decide_eq_false_2 by exact Hmark.
  rewrite bool_decide_eq_false_2 by (rewrite Hr; auto).
  erewrite run_seq by exact E. run.
  unfold modify_sock. cbn [w_sock w_manager w_trace w_clock asked].
  now rewrite Hq, (store_head _ _ _ Es).
Qed.

(** C10.  On a datagram socket a read of zero bytes, for a request that
    could take more ([read_count > 0]) and is short of its minimum, makes
    [doio_recv] answer DOIO_SOFT: only the kernel call happens, nothing
    is handed over.  Posted through [isc_socket_recv], whose minimum for
    a datagram socket is 1, the request that met the empty datagram is
    queued with nothing read; met at the head of the queue in
    [internal_recv] it stays at the head and the watcher is poked
    again. *)
Theorem empty_datagram_is_soft :
  ∀ w,
  is_udp (w_sock w) = true →
  (∀ dev dev1 msghdr read_count,
     build_msghdr_recv (w_sock w) dev MAXSCATTERGATHER_RECV
       = Ok (dev1, msghdr, read_count) →
     0 < read_count →
     rm_cc (env_recvmsg env (w_clock w) (fd (w_sock w)) msghdr) = 0 →
     0 ≤ se_n dev < 2 ^ 32 →
     se_n dev < se_minimum dev →
     ∃ dev',
       doio_recv env dev w
         = (Ok (DOIO_SOFT, dev'), asked (Recvmsg (fd (w_sock w)) msghdr) w)
       ∧ se_self dev' = se_self dev ∧ se_n dev' = se_n dev)
  ∧
  (∀ region minimum task action arg raw,
     VALID_SOCKET (w_sock w) = true →
     VALID_MANAGER (w_manager w) = true →
     0 < region_length region < 2 ^ 32 →
     minimum ≤ region_length region → task ≠ NULL → action ≠ 0 →
     env_socketevent env (w_clock w) = Some raw →
     recv_list (w_sock w) = [] →
     recv_result (w_sock w) = ISC_R_SUCCESS →
     (∀ msghdr,
        rm_cc (env_recvmsg env (S (w_clock w)) (fd (w_sock w)) msghdr) = 0) →
     ∃ w' msghdr dev',
       isc_socket_recv env (Some region) minimum task action arg w
         = (Ok ISC_R_SUCCESS, w')
       ∧ extends (w_trace w) (w_trace w')
           [EventAllocate ISC_SOCKEVENT_RECVDONE;
            Recvmsg (fd (w_sock w)) msghdr;
            TaskAttach task; Poke (fd (w_sock w))]
       ∧ recv_list (w_sock w') = [dev']
       ∧ se_self dev' = se_self raw
       ∧ se_n dev' = 0 ∧ se_minimum dev' = 1)
  ∧
  (∀ ev dev rest dev1 msghdr read_count,
     iev_type ev = ISC_SOCKEVENT_INTR →
     iev_sender ev = SockPtr (self (w_sock w)) →
     VALID_SOCKET (w_sock w) = true →
     pending_recv (w_sock w) = true →
     1 < references (w_sock w) < 2 ^ 32 →
     recv_list (w_sock w) = dev :: rest →
     recv_result (w_sock w) = ISC_R_SUCCESS →
     se_type dev ≠ ISC_SOCKEVENT_RECVMARK →
     build_msghdr_recv (w_sock w) dev MAXSCATTERGATHER_RECV
       = Ok (dev1, msghdr, read_count) →
     0 < read_count →
     rm_cc (env_recvmsg env (w_clock w) (fd (w_sock w)) msghdr) = 0 →
     0 ≤ se_n dev < 2 ^ 32 →
     se_n dev < se_minimum dev →
     ∃ w' dev',
       internal_recv env ev w = (Ok (), w')
       ∧ extends (w_trace w) (w_trace w')
           [Recvmsg (fd (w_sock w)) msghdr; Poke (fd (w_sock w))]
       ∧ recv_list (w_sock w') = dev' :: rest
       ∧ se_self dev' = se_self dev ∧ se_n dev' = se_n dev).
Proof.
  intros w Hudp. split; [|split].
  - intros dev dev1 msghdr read_count Hb Hrc Hcc Hn Hmin.
    destruct (doio_recv_empty_datagram w dev _ _ _ Hudp Hb Hrc Hcc Hn Hmin)
      as (dev' & E & Es & _ & _ & En & _).
    exists dev'. auto.
  - intros region minimum task action arg raw
      Hv Hm Hlen Hmin Htask Hact Hraw Hq Hr Hcc.
    unfold isc_socket_recv. run. rewrite Hv. run.
    replace (minimum <=? region_length region) with true
      by (symmetry; now apply Z.leb_le).
    run. rewrite bool_decide_eq_true_2 by exact Htask. run.
    replace (action =? 0) with false by (symmetry; now apply Z.eqb_neq).
    cbn [negb]. run. rewrite Hm. run.
    erewrite run_seq by (apply allocate_socketevent_run; exact Hraw).
    rewrite Hudp. unfold recv_now_or_queue. run. rewrite Hq.
    cbn [EMPTY negb]. rewrite bool_decide_eq_false_2 by (rewrite Hr; auto).
    match goal with
    | |- context [doio_recv env ?d] =>
        destruct (build_msghdr_recv_region (w_sock w) d MAXSCATTERGATHER_RECV
                    eq_refl) as (dev1 & msghdr & Hb);
        destruct (doio_recv_empty_datagram
                    (asked (EventAllocate ISC_SOCKEVENT_RECVDONE) w) d
                    dev1 msghdr _ Hudp Hb)
          as (dev' & E & Es & _ & _ & En & Em);
        [cbn; unfold uint; rewrite Z.sub_0_r, Z.mod_small; lia
        |apply Hcc
        |cbn; lia
        |cbn; lia
        |]
    end.
    erewrite run_seq by exact E. unfold recv_queue. run.
    eexists _, msghdr, _. split; [reflexivity|].
    cbn [w_trace w_sock with_effects with_sock asked fd recv_list
         set_recv_list].
    split; [unfold extends; rewrite <- ?app_assoc; reflexivity|].
    rewrite Hq. split; [reflexivity|].
    cbn [se_self se_n se_minimum or_attribute set_se_attributes].
    rewrite Es, En, Em. auto.
  - intros ev dev rest dev1 msghdr read_count
      Ht Hs Hv Hp Href Hq Hr Hmark Hb Hrc Hcc Hn Hmin.
    rewrite (internal_recv_enter ev w Ht Hs Hv Hp Href), Hq.
    assert (Hb' : build_msghdr_recv (recv_entered (w_sock w)) dev
                    MAXSCATTERGATHER_RECV = Ok (dev1, msghdr, read_count)).
    { rewrite <- Hb. now apply build_msghdr_recv_ext. }
    destruct (internal_recv_loop_empty_datagram (length rest)
                (with_sock (recv_entered (w_sock w)) w) dev rest dev1 msghdr
                read_count Hudp Hq Hr Hmark Hb' Hrc Hcc Hn Hmin)
      as (dev' & E & Es & En).
    cbn [length]. erewrite run_seq by exact E. run.
    cbn [recv_list set_recv_list EMPTY negb]. run.
    eexists _, dev'. split; [reflexivity|].
    cbn [w_trace w_sock with_effects with_sock asked fd recv_list
         set_recv_list set_references set_pending_recv recv_entered].
    split; [unfold extends; rewrite <- ?app_assoc; reflexivity|].
    auto.
Qed.

(** ** The fatal-error attribute *)

Lemma fatal_bit_or flag dev :
  Z.land flag ISC_SOCKEVENTATTR_FATALERROR = 0 →
  fatal_bit (or_attribute flag dev) = fatal_bit dev.
Proof.
  intros H. unfold fatal_bit, or_attribute. cbn [se_attributes set_se_attributes].
  now rewrite Z.land_lor_distr_l, H, Z.lor_0_r.
Qed.

Lemma fatal_bit_set dev :
  Z.land (se_attributes (or_attribute ISC_SOCKEVENTATTR_FATALERROR dev))
    ISC_SOCKEVENTATTR_FATALERROR = ISC_SOCKEVENTATTR_FATALERROR.
Proof.
  unfold or_attribute. cbn [se_attributes set_se_attributes].
  apply Z.bits_inj'. intros n _. rewrite Z.land_spec, Z.lor_spec.
  now destruct (Z.testbit (se_attributes dev) n), (Z.testbit _ n).
Qed.

Lemma run_failed {A B} (f : A → io B) w :
  (pure AssertionFailed ≫= f) w = (AssertionFailed, w).
Proof. reflexivity. Qed.

Lemma run_fuel {A B} (f : A → io B) w :
  (pure OutOfFuel ≫= f) w = (OutOfFuel, w).
Proof. reflexivity. Qed.

Lemma process_cmsg_step_fatal dev c :
  fatal_apart → fatal_bit (process_cmsg_step dev c) = fatal_bit dev.
Proof.
  intros Hf. apply Forall_forall with (x := ISC_SOCKEVENTATTR_TIMESTAMP) in Hf as Ht;
    [|set_solver].
  apply Forall_forall with (x := ISC_SOCKEVENTATTR_PKTINFO) in Hf as Hp;
    [|set_solver].
  unfold process_cmsg_step. repeat case_match; try reflexivity.
  - now rewrite fatal_bit_or.
  - now rewrite fatal_bit_or.
Qed.

Lemma process_cmsg_fatal msg dev :
  fatal_apart → fatal_bit (process_cmsg msg dev) = fatal_bit dev.
Proof.
  intros Hf.
  apply Forall_forall with (x := ISC_SOCKEVENTATTR_TRUNC) in Hf as Ht;
    [|set_solver].
  apply Forall_forall with (x := ISC_SOCKEVENTATTR_CTRUNC) in Hf as Hc;
    [|set_solver].
  assert (Hfold : ∀ cs d,
            fatal_bit (fold_left process_cmsg_step cs d) = fatal_bit d).
  { induction cs as [|c cs IH]; intros d; cbn; [done|].
    now rewrite IH, process_cmsg_step_fatal. }
  unfold process_cmsg.
  repeat case_match; rewrite ?Hfold, ?fatal_bit_or; auto.
Qed.

Ltac run_case :=
  match goal with
  | |- context [(if ?c then _ else _) ?w] =>
      lazymatch type of w with world => destruct c eqn:? end
  | |- context [((if ?c then _ else _) ≫= _) _] => destruct c eqn:?
  | |- context [(pure ?r ≫= _) _] => destruct r as [?| |] eqn:?
  end.

Ltac fatal_same Hf :=
  repeat first
    [ rewrite process_cmsg_fatal by exact Hf
    | rewrite fatal_bit_or
        by (eapply (proj1 (Forall_forall _ _) Hf); set_solver)
    | match goal with
      | |- context [fatal_bit (set_se_n ?a ?d)] =>
          change (fatal_bit (set_se_n a d)) with (fatal_bit d)
      | |- context [fatal_bit (set_se_bufferlist ?a ?d)] =>
          change (fatal_bit (set_se_bufferlist a d)) with (fatal_bit d)
      | |- context [fatal_bit (set_se_address ?a ?d)] =>
          change (fatal_bit (set_se_address a d)) with (fatal_bit d)
      | |- context [fatal_bit (if ?c then _ else _)] => destruct c
      end ];
  reflexivity.

Lemma doio_recv_shape w dev :
  fatal_apart →
  match doio_recv env dev w with
  | (Ok (out, dev'), w') =>
      fatal_bit dev' = fatal_bit dev
      ∧ ∃ msghdr t,
          w_trace w' = w_trace w ++ Recvmsg (fd (w_sock w)) msghdr :: t
          ∧ (t = []
             ∨ ∃ r, t = [handover (se_sender dev) (recvdone (w_sock w') dev' r)])
  | _ => True
  end.
Proof.
  intros Hf. unfold doio_recv. run.
  destruct (build_msghdr_recv _ _ _) as [[[dev1 msghdr] rc]| |] eqn:Hb;
    [|exact I..].
  pose proof (build_msghdr_recv_dev _ _ _ _ _ _ Hb) as ->. clear Hb.
  run. unfold SOFT_OR_HARD_recv.
  destruct (msg_name _); destruct (is_udp (w_sock w)) eqn:U;
  repeat first [ progress run | rewrite run_failed | rewrite run_fuel | run_case ].
  all: cbn [mret io_ret]; try exact I.
  all: (split; [fatal_same Hf|]).
  all: eexists _, _; split;
    [cbn [w_trace w_sock with_effects with_sock]; rewrite <- ?app_assoc;
     reflexivity|].
  all: first
    [ left; reflexivity
    | right; eexists; reflexivity
    | right; exists ISC_R_SUCCESS; f_equal; f_equal;
      cbn [se_sender set_se_bufferlist set_se_n];
      try rewrite (proj1 (proj2 (proj2 (process_cmsg_request _ _))));
      repeat case_match; reflexivity ].
Qed.

Lemma doio_send_shape w dev :
  match doio_send env dev w with
  | (Ok (out, dev'), w') =>
      se_attributes dev' = se_attributes dev
      ∧ ∃ msghdr t,
          w_trace w' = w_trace w ++ Sendmsg (fd (w_sock w)) msghdr :: t
          ∧ (t = [] ∨ t = [UnexpectedError]
             ∨ ∃ log r,
                 (log = [] ∨ log = [UnexpectedError])
                 ∧ t = log ++ [handover (se_sender dev)
                                 (senddone (w_sock w') dev' r)])
  | _ => True
  end.
Proof.
  unfold doio_send. run.
  destruct (build_msghdr_send _ _ _) as [[msghdr wc]| |] eqn:Hb; [|exact I..].
  run. destruct (env_sendmsg _ _ _ _) as [cc errno].
  unfold SOFT_OR_HARD_send.
  repeat first [ progress run | rewrite run_failed | rewrite run_fuel | run_case ].
  all: cbn [mret io_ret]; try exact I.
  all: (split; [reflexivity|]).
  all: eexists _, _; split;
    [cbn [w_trace w_sock with_effects with_sock]; rewrite <- ?app_assoc;
     reflexivity|].
  all: first
    [ left; reflexivity
    | right; left; reflexivity
    | right; right; exists []; eexists; split; [left|]; reflexivity
    | right; right; exists [UnexpectedError]; eexists;
      split; [right|]; reflexivity ].
Qed.

Lemma recvdone_plain sock dev r :
  recv_result sock = ISC_R_SUCCESS →
  se_attributes (recvdone sock dev r) = se_attributes dev.
Proof.
  intros H. unfold recvdone. now rewrite bool_decide_eq_false_2 by (rewrite H; auto).
Qed.

Lemma senddone_plain sock dev r :
  send_result sock = ISC_R_SUCCESS →
  se_attributes (senddone sock dev r) = se_attributes dev.
Proof.
  intros H. unfold senddone. now rewrite bool_decide_eq_false_2 by (rewrite H; auto).
Qed.

(** *** Where the bit can come from

    The rules below follow the fatal-error bit through a computation,
    one step at a time. *)

Lemma fatal_bit_from_known K dev : dev ∈ K → fatal_bit_from K dev.
Proof. intros H. exists dev. auto. Qed.

Lemma fatal_bit_from_same K dev dev' :
  fatal_bit_from K dev → se_self dev' = se_self dev →
  fatal_bit dev' = fatal_bit dev → fatal_bit_from K dev'.
Proof.
  intros (d & Hin & Hs & Hb) Hs' Hb'. exists d.
  split; [exact Hin|]. split; congruence.
Qed.

Lemma Forall_unlink (P : isc_socketevent_t → Prop) a l :
  Forall P l → Forall P (unlink a l).
Proof.
  induction 1 as [|e l He Hl IH]; cbn; [constructor|].
  destruct (bool_decide (se_self e = a)); [exact Hl|now constructor].
Qed.

Lemma Forall_store (P : isc_socketevent_t → Prop) dev l :
  P dev → Forall P l → Forall P (store dev l).
Proof.
  intros Hd. induction 1 as [|e l He Hl IH]; cbn; [constructor|].
  destruct (bool_decide (se_self e = se_self dev)); now constructor.
Qed.

Lemma kept_refl K w :
  Forall (fatal_bit_from K) (queued (w_sock w)) →
  fatal_only_by_delivery K w w.
Proof.
  intros H. exists []. unfold extends. rewrite app_nil_r.
  split; [reflexivity|]. split; [exact H|]. split; [|auto].
  intros e ev Hin. now apply elem_of_nil in Hin.
Qed.

Lemma kept_trans K w w1 w2 :
  fatal_only_by_delivery K w w1 → fatal_only_by_delivery K w1 w2 →
  fatal_only_by_delivery K w w2.
Proof.
  intros (t1 & T1 & A1 & B1 & C1) (t2 & T2 & A2 & B2 & C2).
  exists (t1 ++ t2). unfold extends in *.
  split; [rewrite T2, T1, app_assoc; reflexivity|].
  split; [exact A2|]. split; [|auto].
  intros e ev [Hin|Hin]%elem_of_app Hp.
  - destruct (B1 e ev Hin Hp) as (d & Hd & Hs & [Hb|[Hb Hf]]);
      exists d; auto 6.
  - exact (B2 e ev Hin Hp).
Qed.

(** A step that leaves the queues and the sticky results alone and hands
    no request to a task. *)
Lemma kept_quiet K w w' t :
  Forall (fatal_bit_from K) (queued (w_sock w)) →
  w_trace w' = w_trace w ++ t →
  queued (w_sock w') = queued (w_sock w) →
  recv_result (w_sock w') = recv_result (w_sock w) →
  send_result (w_sock w') = send_result (w_sock w) →
  (∀ e ev, e ∈ t → posted e ≠ Some (SocketEvent ev)) →
  fatal_only_by_delivery K w w'.
Proof.
  intros H T Q R S P. exists t. split; [exact T|].
  split; [now rewrite Q|]. split.
  - intros e ev Hin Hp. now destruct (P e ev Hin).
  - unfold sticky_failure. now rewrite R, S.
Qed.

Lemma keeps_ret {A} K (a : A) (Q : A → Prop) : Q a → keeps K (mret a) Q.
Proof.
  intros HQ w r w' H [= <- <-]. split; [now apply kept_refl|].
  now intros ? [= <-].
Qed.

Lemma keeps_bind {A B} K (m : io A) (f : A → io B) Q R :
  keeps K m Q → (∀ a, Q a → keeps K (f a) R) → keeps K (m ≫= f) R.
Proof.
  intros Hm Hf w r w' H E. unfold mbind, io_bind in E.
  destruct (m w) as [[a| |] w1] eqn:Em.
  - destruct (Hm w _ _ H Em) as [K1 Q1].
    destruct (Hf a (Q1 a eq_refl) w1 r w') as [K2 Q2]; [|exact E|].
    + now destruct K1 as (? & ? & ? & ?).
    + split; [now apply kept_trans with w1|exact Q2].
  - injection E as <- <-. destruct (Hm w _ _ H Em) as [K1 _].
    split; [exact K1|discriminate].
  - injection E as <- <-. destruct (Hm w _ _ H Em) as [K1 _].
    split; [exact K1|discriminate].
Qed.

Lemma keeps_assoc {A B C} K (m : io A) (g : A → io B) (f : B → io C) Q :
  keeps K (m ≫= λ a, g a ≫= f) Q → keeps K ((m ≫= g) ≫= f) Q.
Proof. intros H w r w' Hq E. rewrite run_assoc in E. exact (H w r w' Hq E). Qed.

Lemma keeps_weaken {A} K (m : io A) (Q Q' : A → Prop) :
  keeps K m Q → (∀ a, Q a → Q' a) → keeps K m Q'.
Proof.
  intros H HQ w r w' Hq E. destruct (H w r w' Hq E) as [K1 Q1].
  split; [exact K1|]. intros a Ha. now apply HQ, Q1.
Qed.

Lemma keeps_get_sock K :
  keeps K get_sock (λ s, Forall (fatal_bit_from K) (queued s)).
Proof.
  intros w r w' H [= <- <-]. split; [now apply kept_refl|].
  now intros ? [= <-].
Qed.

Lemma keeps_get_manager K : keeps K get_manager (λ _, True).
Proof.
  intros w r w' H [= <- <-]. split; [now apply kept_refl|auto].
Qed.

Lemma keeps_pure {A} K (r : result A) : keeps K (pure r) (λ a, r = Ok a).
Proof.
  intros w r' w' H [= <- <-]. split; [now apply kept_refl|auto].
Qed.

Lemma keeps_insist K c : keeps K (INSIST c) (λ _, c = true).
Proof.
  intros w r w' H E. unfold INSIST, io_assert, pure in E.
  injection E as <- <-. split; [now apply kept_refl|].
  intros []. now destruct c.
Qed.

Lemma keeps_require K c : keeps K (REQUIRE c) (λ _, c = true).
Proof. apply keeps_insist. Qed.

Lemma keeps_out_of_fuel {A} K (Q : A → Prop) : keeps K out_of_fuel Q.
Proof.
  intros w r w' H [= <- <-]. split; [now apply kept_refl|discriminate].
Qed.

Lemma keeps_modify_sock K f :
  (∀ s, Forall (fatal_bit_from K) (queued s) →
        Forall (fatal_bit_from K) (queued (f s))) →
  (∀ s, sticky_failure s → sticky_failure (f s)) →
  keeps K (modify_sock f) (λ _, True).
Proof.
  intros Hq Hs w r w' H [= <- <-]. split; [|auto].
  exists []. unfold extends. cbn [w_trace w_sock]. rewrite app_nil_r.
  split; [reflexivity|]. split; [now apply Hq|]. split; [|apply Hs].
  intros e ev Hin. now apply elem_of_nil in Hin.
Qed.

Lemma keeps_modify_manager K f : keeps K (modify_manager f) (λ _, True).
Proof.
  intros w r w' H [= <- <-]. split; [|auto].
  apply kept_quiet with (t := []); try reflexivity; try exact H.
  - cbn. now rewrite app_nil_r.
  - intros e ev Hin. now apply elem_of_nil in Hin.
Qed.

Lemma keeps_emit K e :
  (∀ ev, posted e ≠ Some (SocketEvent ev)) →
  keeps K (emit e) (λ _, True).
Proof.
  intros Hp w r w' H [= <- <-]. split; [|auto].
  apply kept_quiet with (t := [e]); try reflexivity; try exact H.
  intros e' ev ->%list_elem_of_singleton. apply Hp.
Qed.

Lemma keeps_poke K msg : keeps K (select_poke msg) (λ _, True).
Proof. apply keeps_emit. discriminate. Qed.

Lemma keeps_ask {A} K e (answer : nat → A) :
  (∀ ev, posted e ≠ Some (SocketEvent ev)) →
  keeps K (ask e answer) (λ _, True).
Proof.
  intros Hp w r w' H [= <- <-]. split; [|auto].
  apply kept_quiet with (t := [e]); try reflexivity; try exact H.
  intros e' ev ->%list_elem_of_singleton. apply Hp.
Qed.

(** Delivery: the one step that sets the bit. *)
Lemma keeps_recvdone K dev r :
  fatal_bit_from K dev → keeps K (send_recvdone_event dev r) (λ _, True).
Proof.
  intros (d & Hd & Hs & Hb) w res w' H E.
  rewrite send_recvdone_event_run in E. injection E as <- <-.
  split; [|auto]. eexists. split; [reflexivity|].
  cbn [w_sock w_trace with_effects with_sock].
  unfold queued in *. cbn [recv_list send_list set_recv_list].
  apply Forall_app in H as [Hr Hsl].
  split; [apply Forall_app; split; [now apply Forall_unlink|exact Hsl]|].
  split.
  - intros e ev ->%list_elem_of_singleton Hp.
    rewrite posted_handover in Hp. injection Hp as <-.
    exists d. split; [exact Hd|]. unfold recvdone.
    destruct (bool_decide_reflect (recv_result (w_sock w) ≠ ISC_R_SUCCESS))
      as [Hne|He]; (split; [exact Hs|]).
    + right. split; [apply fatal_bit_set|]. now left.
    + left. exact Hb.
  - auto.
Qed.

Lemma keeps_senddone K dev r :
  fatal_bit_from K dev → keeps K (send_senddone_event dev r) (λ _, True).
Proof.
  intros (d & Hd & Hs & Hb) w res w' H E.
  rewrite send_senddone_event_run in E. injection E as <- <-.
  split; [|auto]. eexists. split; [reflexivity|].
  cbn [w_sock w_trace with_effects with_sock].
  unfold queued in *. cbn [recv_list send_list set_send_list].
  apply Forall_app in H as [Hr Hsl].
  split; [apply Forall_app; split; [exact Hr|now apply Forall_unlink]|].
  split.
  - intros e ev ->%list_elem_of_singleton Hp.
    rewrite posted_handover in Hp. injection Hp as <-.
    exists d. split; [exact Hd|]. unfold senddone.
    destruct (bool_decide_reflect (send_result (w_sock w) ≠ ISC_R_SUCCESS))
      as [Hne|He]; (split; [exact Hs|]).
    + right. split; [apply fatal_bit_set|]. now right.
    + left. exact Hb.
  - auto.
Qed.

Lemma fatal_apart_flags :
  fatal_apart →
  Z.land ISC_SOCKEVENTATTR_ATTACHED ISC_SOCKEVENTATTR_FATALERROR = 0
  ∧ Z.land ISC_SOCKEVENTATTR_TRUNC ISC_SOCKEVENTATTR_FATALERROR = 0
  ∧ Z.land ISC_SOCKEVENTATTR_CTRUNC ISC_SOCKEVENTATTR_FATALERROR = 0
  ∧ Z.land ISC_SOCKEVENTATTR_TIMESTAMP ISC_SOCKEVENTATTR_FATALERROR = 0
  ∧ Z.land ISC_SOCKEVENTATTR_PKTINFO ISC_SOCKEVENTATTR_FATALERROR = 0.
Proof.
  intros H. unfold fatal_apart in H.
  repeat (apply Forall_cons in H as [? H]). auto.
Qed.

Ltac fatal_kept Hf :=
  let Ha := fresh in let Ht := fresh in let Hc := fresh in
  let Hs := fresh in let Hp := fresh in
  destruct (fatal_apart_flags Hf) as (Ha & Ht & Hc & Hs & Hp);
  repeat first
    [ rewrite process_cmsg_fatal by exact Hf
    | rewrite fatal_bit_or by assumption
    | match goal with
      | |- context [fatal_bit (set_se_n ?a ?d)] =>
          change (fatal_bit (set_se_n a d)) with (fatal_bit d)
      | |- context [fatal_bit (set_se_bufferlist ?a ?d)] =>
          change (fatal_bit (set_se_bufferlist a d)) with (fatal_bit d)
      | |- context [fatal_bit (set_se_address ?a ?d)] =>
          change (fatal_bit (set_se_address a d)) with (fatal_bit d)
      | |- context [fatal_bit (if ?c then _ else _)] => destruct c
      end ];
  reflexivity.

Lemma keeps_frame_step K f :
  (∀ s, queued (f s) = queued s) →
  (∀ s, recv_result (f s) = recv_result s) →
  (∀ s, send_result (f s) = send_result s) →
  keeps K (modify_sock f) (λ _, True).
Proof.
  intros Hq Hr Hs. apply keeps_modify_sock.
  - intros s. now rewrite Hq.
  - intros s. unfold sticky_failure. now rewrite Hr, Hs.
Qed.

Lemma keeps_ret_bind {A B} K (a : A) (f : A → io B) Q :
  keeps K (f a) Q → keeps K (mret a ≫= f) Q.
Proof. intros H w r w' Hq E. exact (H w r w' Hq E). Qed.

(** One step of a computation, by the rule for what it starts with. *)
Ltac keeps_step :=
  lazymatch goal with
  | |- keeps _ ((_ ≫= _) ≫= _) _ => apply keeps_assoc
  | |- keeps _ (mret _ ≫= _) _ => apply keeps_ret_bind
  | |- keeps _ (get_sock ≫= _) _ =>
      let H := fresh "Hq" in
      eapply keeps_bind; [apply keeps_get_sock|intros ? H; cbv beta in H]
  | |- keeps _ (get_manager ≫= _) _ =>
      eapply keeps_bind; [apply keeps_get_manager|intros ? _]
  | |- keeps _ (INSIST _ ≫= _) _ =>
      let H := fresh "Hc" in
      eapply keeps_bind; [apply keeps_insist|intros [] H; cbv beta in H]
  | |- keeps _ (REQUIRE _ ≫= _) _ =>
      let H := fresh "Hc" in
      eapply keeps_bind; [apply keeps_require|intros [] H; cbv beta in H]
  | |- keeps _ (pure _ ≫= _) _ =>
      let H := fresh "Hp" in
      eapply keeps_bind; [apply keeps_pure|intros ? H; cbv beta in H]
  | |- keeps _ (select_poke _ ≫= _) _ =>
      eapply keeps_bind; [apply keeps_poke|intros [] _]
  | |- keeps _ (modify_manager _ ≫= _) _ =>
      eapply keeps_bind; [apply keeps_modify_manager|intros [] _]
  | |- keeps _ (ask _ _ ≫= _) _ =>
      eapply keeps_bind; [apply keeps_ask; discriminate|intros ? _]
  | |- keeps _ (emit _ ≫= _) _ =>
      eapply keeps_bind; [apply keeps_emit; discriminate|intros [] _]
  | |- keeps _ (send_recvdone_event _ _ ≫= _) _ =>
      eapply keeps_bind; [apply keeps_recvdone|intros [] _]
  | |- keeps _ (send_senddone_event _ _ ≫= _) _ =>
      eapply keeps_bind; [apply keeps_senddone|intros [] _]
  | |- keeps _ (modify_sock _ ≫= _) _ =>
      eapply keeps_bind;
        [first [ apply keeps_frame_step; intros ?; reflexivity
               | apply keeps_modify_sock;
                 [try (intros ? ?; assumption)|try (intros ? ?; assumption)] ]
        |intros [] _]
  | |- keeps _ ((if ?c then _ else _) ≫= _) _ => destruct c eqn:?
  | |- keeps _ (if ?c then _ else _) _ => destruct c eqn:?
  | |- keeps _ (mret _) _ => apply keeps_ret
  | |- keeps _ (select_poke _) _ =>
      eapply keeps_weaken; [apply keeps_poke|auto]
  | |- keeps _ (emit _) _ =>
      eapply keeps_weaken; [apply keeps_emit; discriminate|auto]
  | |- keeps _ (INSIST _) _ =>
      eapply keeps_weaken; [apply keeps_insist|auto]
  | |- keeps _ (send_recvdone_event _ _) _ =>
      eapply keeps_weaken; [apply keeps_recvdone|auto]
  | |- keeps _ (send_senddone_event _ _) _ =>
      eapply keeps_weaken; [apply keeps_senddone|auto]
  | |- keeps _ (modify_sock _) _ =>
      eapply keeps_weaken;
        [first [ apply keeps_frame_step; intros ?; reflexivity
               | apply keeps_modify_sock;
                 [try (intros ? ?; assumption)|try (intros ? ?; assumption)] ]
        |auto]
  | |- keeps _ out_of_fuel _ => apply keeps_out_of_fuel
  end.

Ltac self_same :=
  repeat first
    [ rewrite (proj1 (process_cmsg_request _ _))
    | match goal with
      | |- context [se_self (if ?c then _ else _)] => destruct c
      end
    | progress cbn [se_self set_se_n set_se_bufferlist set_se_address
                    or_attribute set_se_attributes] ];
  reflexivity.

Lemma sticky_recv_result c s :
  c ≠ ISC_R_SUCCESS → sticky_failure (set_recv_result c s).
Proof. intros H. now left. Qed.

Lemma sticky_send_result c s :
  c ≠ ISC_R_SUCCESS → sticky_failure (set_send_result c s).
Proof. intros H. now right. Qed.

Lemma keeps_SOFT_OR_HARD_recv K c dev :
  c ≠ ISC_R_SUCCESS → fatal_bit_from K dev →
  keeps K (SOFT_OR_HARD_recv c dev) (λ p, fatal_bit_from K p.2).
Proof.
  intros Hc Hdev. unfold SOFT_OR_HARD_recv.
  repeat keeps_step; try exact Hdev.
  intros s _. now apply sticky_recv_result.
Qed.

Lemma keeps_doio_recv K dev :
  fatal_apart → fatal_bit_from K dev →
  keeps K (doio_recv env dev) (λ p, fatal_bit_from K p.2).
Proof.
  intros Hf Hdev. unfold doio_recv.
  keeps_step. keeps_step. destruct a0 as [[dev1 msghdr] rc].
  apply build_msghdr_recv_dev in Hp as ->.
  keeps_step. cbv zeta.
  set (dev2 := match msg_name (rm_msg a0) with
               | Some name => _ | None => _ end).
  assert (H2 : fatal_bit_from K dev2).
  { eapply fatal_bit_from_same; [exact Hdev| |]; subst dev2;
      destruct (msg_name _), (is_udp a); reflexivity. }
  clearbody dev2.
  repeat keeps_step.
  all: try (apply keeps_SOFT_OR_HARD_recv; [discriminate|exact H2]).
  all: try (intros s _; apply sticky_recv_result; discriminate).
  all: cbn [snd]; try exact H2.
  all: eapply fatal_bit_from_same; [exact H2|self_same|fatal_kept Hf].
Qed.

Lemma keeps_SOFT_OR_HARD_send K c dev :
  c ≠ ISC_R_SUCCESS → fatal_bit_from K dev →
  keeps K (SOFT_OR_HARD_send c dev) (λ p, fatal_bit_from K p.2).
Proof.
  intros Hc Hdev. unfold SOFT_OR_HARD_send.
  repeat keeps_step; try exact Hdev.
  intros s _. now apply sticky_send_result.
Qed.

Lemma keeps_doio_send K dev :
  fatal_bit_from K dev →
  keeps K (doio_send env dev) (λ p, fatal_bit_from K p.2).
Proof.
  intros Hdev. unfold doio_send.
  keeps_step. keeps_step. destruct a0 as [msghdr wc].
  keeps_step. destruct a0 as [cc errno].
  repeat keeps_step.
  all: try (apply keeps_SOFT_OR_HARD_send; [discriminate|exact Hdev]).
  all: try (intros s _; apply sticky_send_result; discriminate).
  all: cbn [snd]; try exact Hdev.
  all: eapply fatal_bit_from_same; [exact Hdev|reflexivity|reflexivity].
Qed.

Lemma keeps_queue_on_recv K dev :
  fatal_bit_from K dev →
  keeps K (modify_sock (λ s, set_recv_list (recv_list s ++ [dev]) s))
    (λ _, True).
Proof.
  intros Hdev. apply keeps_modify_sock; [|auto].
  intros s. unfold queued. cbn [recv_list send_list set_recv_list].
  rewrite !Forall_app. intros [Hr Hs]. repeat split; auto.
Qed.

Lemma keeps_queue_on_send K dev :
  fatal_bit_from K dev →
  keeps K (modify_sock (λ s, set_send_list (send_list s ++ [dev]) s))
    (λ _, True).
Proof.
  intros Hdev. apply keeps_modify_sock; [|auto].
  intros s. unfold queued. cbn [recv_list send_list set_send_list].
  rewrite !Forall_app. intros [Hr Hs]. repeat split; auto.
Qed.

Lemma keeps_store_recv K dev :
  fatal_bit_from K dev →
  keeps K (modify_sock (λ s, set_recv_list (store dev (recv_list s)) s))
    (λ _, True).
Proof.
  intros Hdev. apply keeps_modify_sock; [|auto].
  intros s. unfold queued. cbn [recv_list send_list set_recv_list].
  rewrite !Forall_app. intros [Hr Hs]. split; [now apply Forall_store|auto].
Qed.

Lemma keeps_store_send K dev :
  fatal_bit_from K dev →
  keeps K (modify_sock (λ s, set_send_list (store dev (send_list s)) s))
    (λ _, True).
Proof.
  intros Hdev. apply keeps_modify_sock; [|auto].
  intros s. unfold queued. cbn [recv_list send_list set_send_list].
  rewrite !Forall_app. intros [Hr Hs]. split; [auto|now apply Forall_store].
Qed.

Lemma fatal_bit_from_attached K dev :
  fatal_apart → fatal_bit_from K dev →
  fatal_bit_from K (or_attribute ISC_SOCKEVENTATTR_ATTACHED dev).
Proof.
  intros Hf Hdev. eapply fatal_bit_from_same; [exact Hdev|reflexivity|].
  apply fatal_bit_or. now destruct (fatal_apart_flags Hf).
Qed.

Lemma keeps_recv_queue K dev task was_empty :
  fatal_apart → fatal_bit_from K dev →
  keeps K (recv_queue dev task was_empty) (λ _, True).
Proof.
  intros Hf Hdev. unfold recv_queue. keeps_step.
  eapply keeps_bind;
    [apply keeps_queue_on_recv, fatal_bit_from_attached; assumption|].
  intros [] _. repeat keeps_step; auto.
Qed.

Lemma keeps_send_queue K dev task was_empty :
  fatal_apart → fatal_bit_from K dev →
  keeps K (send_queue dev task was_empty) (λ _, True).
Proof.
  intros Hf Hdev. unfold send_queue. keeps_step.
  eapply keeps_bind;
    [apply keeps_queue_on_send, fatal_bit_from_attached; assumption|].
  intros [] _. repeat keeps_step; auto.
Qed.

Lemma keeps_recv_now_or_queue K dev task :
  fatal_apart → fatal_bit_from K dev →
  keeps K (recv_now_or_queue env dev task) (λ _, True).
Proof.
  intros Hf Hdev. unfold recv_now_or_queue.
  keeps_step. keeps_step; [now apply keeps_recv_queue|].
  keeps_step; [repeat keeps_step; auto|].
  eapply keeps_bind; [now apply keeps_doio_recv|].
  intros [out dev'] Hdev'. cbn [snd] in Hdev'.
  destruct out; try (now apply keeps_recv_queue); repeat keeps_step; auto.
Qed.

Lemma keeps_send_now_or_queue K dev task :
  fatal_apart → fatal_bit_from K dev →
  keeps K (send_now_or_queue env dev task) (λ _, True).
Proof.
  intros Hf Hdev. unfold send_now_or_queue.
  keeps_step. keeps_step; [now apply keeps_send_queue|].
  keeps_step; [repeat keeps_step; auto|].
  eapply keeps_bind; [now apply keeps_doio_send|].
  intros [out dev'] Hdev'. cbn [snd] in Hdev'.
  destruct out; try (now apply keeps_send_queue); repeat keeps_step; auto.
Qed.

(** The head of a queue is one of the queued requests. *)
Lemma head_of_recv_list K (s : isc_socket_t) dev rest :
  Forall (fatal_bit_from K) (queued s) → recv_list s = dev :: rest →
  fatal_bit_from K dev.
Proof.
  unfold queued. intros H E. rewrite E in H.
  now apply Forall_app in H as [[? _]%Forall_cons _].
Qed.

Lemma head_of_send_list K (s : isc_socket_t) dev rest :
  Forall (fatal_bit_from K) (queued s) → send_list s = dev :: rest →
  fatal_bit_from K dev.
Proof.
  unfold queued. intros H E. rewrite E in H.
  now apply Forall_app in H as [_ [? _]%Forall_cons].
Qed.

Lemma keeps_eof_cascade K fuel : ∀ dev,
  fatal_bit_from K dev → keeps K (eof_cascade fuel dev) (λ _, True).
Proof.
  induction fuel as [|fuel IH]; intros dev Hdev; cbn [eof_cascade].
  - apply keeps_out_of_fuel.
  - keeps_step; [exact Hdev|]. keeps_step.
    destruct (recv_list a) as [|dev' rest] eqn:E; [now keeps_step|].
    apply IH. eapply head_of_recv_list; eauto.
Qed.

Lemma keeps_internal_recv_loop K fuel :
  fatal_apart → keeps K (internal_recv_loop env fuel) (λ _, True).
Proof.
  intros Hf. induction fuel as [|fuel IH]; cbn [internal_recv_loop].
  - keeps_step. destruct (recv_list a); [now keeps_step|].
    apply keeps_out_of_fuel.
  - keeps_step. destruct (recv_list a) as [|dev rest] eqn:E;
      [now keeps_step|].
    assert (Hdev : fatal_bit_from K dev) by (eapply head_of_recv_list; eauto).
    keeps_step; [keeps_step; [exact Hdev|exact IH]|].
    keeps_step; [keeps_step; [exact Hdev|exact IH]|].
    eapply keeps_bind; [now apply keeps_doio_recv|].
    intros [out dev'] Hdev'. cbn [snd] in Hdev'.
    destruct out; try exact IH.
    + now apply keeps_store_recv.
    + keeps_step. now apply keeps_eof_cascade.
Qed.

Lemma keeps_internal_send_loop K fuel :
  keeps K (internal_send_loop env fuel) (λ _, True).
Proof.
  induction fuel as [|fuel IH]; cbn [internal_send_loop].
  - keeps_step. destruct (send_list a); [now keeps_step|].
    apply keeps_out_of_fuel.
  - keeps_step. destruct (send_list a) as [|dev rest] eqn:E;
      [now keeps_step|].
    assert (Hdev : fatal_bit_from K dev) by (eapply head_of_send_list; eauto).
    keeps_step; [keeps_step; [exact Hdev|exact IH]|].
    keeps_step; [keeps_step; [exact Hdev|exact IH]|].
    eapply keeps_bind; [now apply keeps_doio_send|].
    intros [out dev'] Hdev'. cbn [snd] in Hdev'.
    destruct out; try exact IH.
    now apply keeps_store_send.
Qed.

Lemma keeps_free_socket K sock :
  keeps K (free_socket sock) (λ s, s = set_magic 0 sock).
Proof.
  unfold free_socket. repeat keeps_step. reflexivity.
Qed.

Lemma run_modify_manager {B} g (f : unit → io B) w :
  (modify_manager g ≫= f) w
  = f () {| w_sock := w_sock w; w_manager := g (w_manager w);
            w_trace := w_trace w; w_clock := w_clock w |}.
Proof. reflexivity. Qed.

Lemma run_insist_false {B} (f : unit → io B) w :
  (INSIST false ≫= f) w = (AssertionFailed, w).
Proof. reflexivity. Qed.

(** [destroy] puts back the socket it read, with the magic number
    cleared; nothing else runs on the socket in between. *)
Lemma keeps_destroy K : keeps K destroy (λ _, True).
Proof.
  intros w r w' H E. split; [|auto].
  assert (∃ t, w_trace w' = w_trace w ++ t
               ∧ (∀ e ev, e ∈ t → posted e ≠ Some (SocketEvent ev))
               ∧ (w_sock w' = w_sock w ∨ w_sock w' = set_magic 0 (w_sock w)))
    as (t & T & P & [S|S]).
  { revert E. unfold destroy, free_socket. run.
    repeat first
      [ progress run
      | rewrite run_modify_manager
      | match goal with
        | |- (INSIST ?c ≫= _) _ = _ → _ =>
            destruct c; [rewrite run_insist|rewrite run_insist_false]
        | |- ((if ?c then _ else _) ≫= _) _ = _ → _ =>
            destruct c; cbv iota
        | |- ((_ ≫= _) ≫= _) _ = _ → _ => rewrite run_assoc
        end ].
    all: intros [= <- <-]; cbn [w_trace w_sock with_effects with_sock].
    all: first [ exists []; rewrite app_nil_r; split; [reflexivity|]
               | eexists; split; [rewrite <- ?app_assoc; reflexivity|] ].
    all: (split; [|first [now left|now right]]).
    all: intros e ev Hin;
      repeat (apply elem_of_cons in Hin as [->|Hin]; [discriminate|]);
      now apply elem_of_nil in Hin. }
  - apply kept_quiet with (t := t); auto; now rewrite S.
  - apply kept_quiet with (t := t); auto; now rewrite S.
Qed.

Lemma keeps_internal_recv K ev :
  fatal_apart → keeps K (internal_recv env ev) (λ _, True).
Proof.
  intros Hf. unfold internal_recv. do 9 keeps_step.
  keeps_step; [apply keeps_destroy|].
  eapply keeps_bind; [now apply keeps_internal_recv_loop|].
  intros [] _. repeat keeps_step; auto.
Qed.

Lemma keeps_internal_send K ev :
  keeps K (internal_send env ev) (λ _, True).
Proof.
  unfold internal_send. do 9 keeps_step.
  keeps_step; [apply keeps_destroy|].
  eapply keeps_bind; [now apply keeps_internal_send_loop|].
  intros [] _. repeat keeps_step; auto.
Qed.

Lemma keeps_cancel_recv K task l :
  Forall (fatal_bit_from K) l → keeps K (cancel_recv task l) (λ _, True).
Proof.
  induction 1 as [|dev l Hdev Hl IH]; cbn [cancel_recv];
    repeat keeps_step; auto.
Qed.

Lemma keeps_cancel_send K task l :
  Forall (fatal_bit_from K) l → keeps K (cancel_send task l) (λ _, True).
Proof.
  induction 1 as [|dev l Hdev Hl IH]; cbn [cancel_send];
    repeat keeps_step; auto.
Qed.

Lemma keeps_cancel_accept K task l :
  keeps K (cancel_accept task l) (λ _, True).
Proof.
  induction l as [|dev l IH]; cbn [cancel_accept]; [now keeps_step|].
  keeps_step; [|keeps_step; exact IH].
  do 3 keeps_step.
  destruct (newsocket dev) as [newsock|].
  - do 2 keeps_step.
    eapply keeps_bind; [apply keeps_free_socket|]. intros ? _.
    keeps_step. exact IH.
  - repeat keeps_step. exact IH.
Qed.

Lemma keeps_isc_socket_cancel K task how :
  keeps K (isc_socket_cancel task how) (λ _, True).
Proof.
  unfold isc_socket_cancel. do 3 keeps_step; [now keeps_step|].
  unfold queued in *.
  eapply keeps_bind with (Q := λ _, True).
  { keeps_step; [|now keeps_step].
    apply keeps_cancel_recv. now apply Forall_app in Hq as [? _]. }
  intros [] _. keeps_step.
  eapply keeps_bind with (Q := λ _, True).
  { keeps_step; [|now keeps_step].
    apply keeps_cancel_send. now apply Forall_app in Hq0 as [_ ?]. }
  intros [] _. keeps_step.
  eapply keeps_bind with (Q := λ _, True).
  { keeps_step; [|now keeps_step]. apply keeps_cancel_accept. }
  intros [] _. keeps_step.
  eapply keeps_bind with (Q := λ _, True).
  { keeps_step; [|now keeps_step].
    destruct (connect_ev a2); [|now keeps_step].
    repeat keeps_step; auto. }
  intros [] _. repeat keeps_step; auto.
Qed.

Lemma keeps_set_dev_address K addr dev :
  fatal_bit_from K dev →
  keeps K (set_dev_address addr dev) (fatal_bit_from K).
Proof.
  intros Hdev. unfold set_dev_address. keeps_step.
  keeps_step; [destruct addr; now keeps_step|].
  repeat keeps_step; auto.
Qed.

Lemma set_dev_pktinfo_fatal pktinfo dev :
  fatal_apart → fatal_bit (set_dev_pktinfo pktinfo dev) = fatal_bit dev.
Proof.
  intros Hf. destruct pktinfo as [p|]; [|reflexivity]. cbn [set_dev_pktinfo].
  change (fatal_bit (set_se_pktinfo p ?d)) with (fatal_bit d).
  apply fatal_bit_or. now destruct (fatal_apart_flags Hf) as (_&_&_&_&?).
Qed.

Lemma set_dev_pktinfo_self pktinfo dev :
  se_self (set_dev_pktinfo pktinfo dev) = se_self dev.
Proof. now destruct pktinfo. Qed.

(** A posting call up to the allocation of the request runs on the world
    as it found it; the request it works on is the block it was
    given. *)
Lemma posting_kept {A} T action arg (f : option isc_socketevent_t → io A)
    w r w' :
  let K := queued (w_sock w) ++ next_block env w in
  (∀ raw, env_socketevent env (w_clock w) = Some raw →
          keeps K (f (Some (init_socketevent (w_sock w) T action arg raw)))
            (λ _, True)) →
  keeps K (f None) (λ _, True) →
  (allocate_socketevent env T action arg ≫= f) w = (r, w') →
  fatal_only_by_delivery K w w'.
Proof.
  intros K Hsome Hnone. unfold allocate_socketevent. run.
  assert (Hq : Forall (fatal_bit_from K) (queued (w_sock w))).
  { apply Forall_forall. intros d Hd. apply fatal_bit_from_known.
    subst K. apply elem_of_app. now left. }
  assert (Hstep : fatal_only_by_delivery K w
                    (asked (EventAllocate T) w)).
  { apply kept_quiet with (t := [EventAllocate T]); try reflexivity; auto.
    intros e ev ->%list_elem_of_singleton. discriminate. }
  intros E. apply kept_trans with (asked (EventAllocate T) w); [exact Hstep|].
  destruct (env_socketevent env (w_clock w)) as [raw|] eqn:Hraw.
  - revert E. run. intros E.
    now apply (Hsome raw eq_refl (asked (EventAllocate T) w) r w').
  - revert E. run. intros E.
    now apply (Hnone (asked (EventAllocate T) w) r w').
Qed.

Lemma run_require_false {B} (f : unit → io B) w :
  (REQUIRE false ≫= f) w = (AssertionFailed, w).
Proof. reflexivity. Qed.

Ltac stopped_at_check :=
  rewrite run_require_false; intros [= <- <-];
  apply kept_refl, Forall_forall; intros ? ?;
  apply fatal_bit_from_known, elem_of_app; now left.

(** The checks a posting call makes before it allocates. *)
Ltac posting_checks :=
  repeat first
    [ progress run
    | match goal with
      | |- (REQUIRE false ≫= _) _ = _ → _ => stopped_at_check
      | |- (REQUIRE ?c ≫= _) _ = _ → _ =>
          destruct c eqn:?; [rewrite run_require|stopped_at_check]
      end ].

Ltac from_block raw Hraw :=
  eapply fatal_bit_from_same;
    [apply (fatal_bit_from_known _ raw);
     apply elem_of_app; right; unfold next_block; rewrite Hraw;
     apply list_elem_of_singleton; reflexivity
    |repeat case_match; reflexivity
    |repeat case_match; reflexivity].

Lemma isc_socket_recv_kept region minimum task action arg w r w' :
  fatal_apart →
  isc_socket_recv env region minimum task action arg w = (r, w') →
  fatal_only_by_delivery (queued (w_sock w) ++ next_block env w) w w'.
Proof.
  intros Hf. unfold isc_socket_recv. run.
  destruct region as [region|]; posting_checks.
  intros E. eapply posting_kept; [| |exact E]; cbv beta iota.
  - intros raw Hraw. apply keeps_recv_now_or_queue; [exact Hf|].
    from_block raw Hraw.
  - now keeps_step.
Qed.

Lemma isc_socket_recvv_kept buflist minimum task action arg w r w' :
  fatal_apart →
  isc_socket_recvv env buflist minimum task action arg w = (r, w') →
  fatal_only_by_delivery (queued (w_sock w) ++ next_block env w) w w'.
Proof.
  intros Hf. unfold isc_socket_recvv. run.
  destruct buflist as [buflist|]; posting_checks.
  intros E. eapply posting_kept; [| |exact E]; cbv beta iota.
  - intros raw Hraw. apply keeps_recv_now_or_queue; [exact Hf|].
    from_block raw Hraw.
  - now keeps_step.
Qed.

Lemma isc_socket_sendto_kept region task action arg addr pktinfo w r w' :
  fatal_apart →
  isc_socket_sendto env region task action arg addr pktinfo w = (r, w') →
  fatal_only_by_delivery (queued (w_sock w) ++ next_block env w) w w'.
Proof.
  intros Hf. unfold isc_socket_sendto. run.
  destruct region as [region|]; posting_checks.
  intros E. eapply posting_kept; [| |exact E]; cbv beta iota.
  - intros raw Hraw.
    eapply keeps_bind; [apply keeps_set_dev_address; from_block raw Hraw|].
    intros dev Hdev. apply keeps_send_now_or_queue; [exact Hf|].
    eapply fatal_bit_from_same;
      [exact Hdev|apply set_dev_pktinfo_self|now apply set_dev_pktinfo_fatal].
  - now keeps_step.
Qed.

Lemma isc_socket_sendtov_kept buflist task action arg addr pktinfo w r w' :
  fatal_apart →
  isc_socket_sendtov env buflist task action arg addr pktinfo w = (r, w') →
  fatal_only_by_delivery (queued (w_sock w) ++ next_block env w) w w'.
Proof.
  intros Hf. unfold isc_socket_sendtov. run.
  destruct buflist as [buflist|]; posting_checks.
  intros E. eapply posting_kept; [| |exact E]; cbv beta iota.
  - intros raw Hraw.
    eapply keeps_bind; [apply keeps_set_dev_address; from_block raw Hraw|].
    intros dev Hdev. apply keeps_send_now_or_queue; [exact Hf|].
    eapply fatal_bit_from_same;
      [exact Hdev
      |cbn [se_self set_se_bufferlist]; apply set_dev_pktinfo_self
      |change (fatal_bit (set_se_bufferlist ?b ?d)) with (fatal_bit d);
       now apply set_dev_pktinfo_fatal].
  - now keeps_step.
Qed.

Lemma isc_socket_recvmark_kept task action arg w r w' :
  isc_socket_recvmark env task action arg w = (r, w') →
  fatal_only_by_delivery (queued (w_sock w) ++ next_block env w) w w'.
Proof.
  unfold isc_socket_recvmark. run. posting_checks.
  intros E. eapply posting_kept; [| |exact E]; cbv beta iota.
  - intros raw Hraw. keeps_step.
    + keeps_step; [from_block raw Hraw|now keeps_step].
    + keeps_step.
      eapply keeps_bind; [apply keeps_queue_on_recv; from_block raw Hraw|].
      intros [] _. now keeps_step.
  - now keeps_step.
Qed.

Lemma isc_socket_sendmark_kept task action arg w r w' :
  isc_socket_sendmark env task action arg w = (r, w') →
  fatal_only_by_delivery (queued (w_sock w) ++ next_block env w) w w'.
Proof.
  unfold isc_socket_sendmark. run. posting_checks.
  intros E. eapply posting_kept; [| |exact E]; cbv beta iota.
  - intros raw Hraw. keeps_step.
    + keeps_step; [from_block raw Hraw|now keeps_step].
    + keeps_step.
      eapply keeps_bind; [apply keeps_queue_on_send; from_block raw Hraw|].
      intros [] _. now keeps_step.
  - now keeps_step.
Qed.

(** What a handler or a cancel finds queued is all it works on. *)
Lemma kept_from_queued {A} (m : io A) w r w' :
  keeps (queued (w_sock w)) m (λ _, True) →
  m w = (r, w') →
  fatal_only_by_delivery (queued (w_sock w)) w w'.
Proof.
  intros H E. apply (H w r w'); [|exact E].
  apply Forall_forall. intros d Hd. now apply fatal_bit_from_known.
Qed.

Lemma delivers_from_queued {A} (m : io A) :
  (∀ K, keeps K m (λ _, True)) → delivers_fatal_bit (λ _, []) m.
Proof.
  intros H w r w' E. cbv beta. rewrite app_nil_r.
  apply (kept_from_queued m w r w'); [apply H|exact E].
Qed.


(** ** Connecting *)

(** C5.  When the connect() that [isc_socket_connect] tries at once fails
    with an errno that is neither soft nor EINPROGRESS: for ECONNREFUSED
    and ENETUNREACH the connect event goes to the task with
    ISC_R_CONNREFUSED and ISC_R_NETUNREACH and the call returns
    ISC_R_SUCCESS; for every other errno the call returns
    ISC_R_UNEXPECTED and hands nothing to the task. *)
Theorem connect_failing_at_once :
  ∀ w addr task action arg raw cc errno,
  VALID_SOCKET (w_sock w) = true →
  VALID_MANAGER (w_manager w) = true →
  task ≠ NULL → action ≠ 0 →
  connecting (w_sock w) = false →
  env_connev env (w_clock w) = Some raw →
  env_connect env (S (w_clock w)) (fd (w_sock w)) addr = (cc, errno) →
  cc < 0 →
  SOFT_ERROR errno = false →
  errno ≠ EINPROGRESS →
  let delivered code :=
    ∃ w' ev,
      isc_socket_connect env (Some addr) task action arg w
        = (Ok ISC_R_SUCCESS, w')
      ∧ extends (w_trace w) (w_trace w')
          [EventAllocate ISC_SOCKEVENT_CONNECT;
           Connect (fd (w_sock w)) addr;
           TaskSend task (ConnEvent ev)]
      ∧ ce_self ev = ce_self raw
      ∧ ce_result ev = code in
  (errno = ECONNREFUSED → delivered ISC_R_CONNREFUSED)
  ∧ (errno = ENETUNREACH → delivered ISC_R_NETUNREACH)
  ∧ (errno ≠ ECONNREFUSED → errno ≠ ENETUNREACH →
     ∃ w',
       isc_socket_connect env (Some addr) task action arg w
         = (Ok ISC_R_UNEXPECTED, w')
       ∧ extends (w_trace w) (w_trace w')
           [EventAllocate ISC_SOCKEVENT_CONNECT;
            Connect (fd (w_sock w)) addr;
            UnexpectedError]).
Proof.
  intros w addr task action arg raw cc errno
    Hv Hm Htask Hact Hc Hraw Hk Hcc Hsoft Hprog. cbv zeta.
  unfold isc_socket_connect. run. rewrite Hv. run.
  rewrite bool_decide_eq_true_2 by exact Htask. run.
  replace (action =? 0) with false by (symmetry; now apply Z.eqb_neq).
  cbn [negb]. run. rewrite Hm. run. rewrite Hc. cbn [negb]. run.
  rewrite Hraw. run. cbn [fd set_address]. rewrite Hk.
  replace (cc <? 0) with true by (symmetry; now apply Z.ltb_lt).
  rewrite Hsoft.
  replace (errno =? EINPROGRESS) with false
    by (symmetry; now apply Z.eqb_neq).
  cbn [orb]. split; [|split].
  - intros ->. errno_tests. unfold connect_err_exit. run.
    eexists _, _. split; [reflexivity|].
    split; [unfold extends; cbn; rewrite <- ?app_assoc; reflexivity|].
    split; reflexivity.
  - intros ->. errno_tests. unfold connect_err_exit. run.
    eexists _, _. split; [reflexivity|].
    split; [unfold extends; cbn; rewrite <- ?app_assoc; reflexivity|].
    split; reflexivity.
  - intros H1 H2.
    replace (errno =? ECONNREFUSED) with false
      by (symmetry; now apply Z.eqb_neq).
    replace (errno =? ENETUNREACH) with false
      by (symmetry; now apply Z.eqb_neq).
    run. eexists. split; [reflexivity|].
    unfold extends; cbn; rewrite <- ?app_assoc; reflexivity.
Qed.

(** ** The watcher *)

Lemma FD_ISSET_FD_SET i j s :
  FD_ISSET i (FD_SET j s) = bool_decide (i = j) || FD_ISSET i s.
Proof.
  unfold FD_ISSET, FD_SET. rewrite <- bool_decide_or.
  apply bool_decide_ext. now rewrite elem_of_union, elem_of_singleton.
Qed.

Lemma FD_ISSET_FD_CLR i j s :
  FD_ISSET i (FD_CLR j s) = negb (bool_decide (i = j)) && FD_ISSET i s.
Proof.
  unfold FD_ISSET, FD_CLR. rewrite <- bool_decide_not, <- bool_decide_and.
  apply bool_decide_ext. rewrite elem_of_difference, elem_of_singleton. tauto.
Qed.

(** C7, as amended.  When the watcher recomputes the watch bits of a
    managed descriptor after a poke, the write bit of the socket's
    descriptor is set if and only if the socket is connecting, or its
    send queue is not empty and [pending_send] is not set; otherwise it
    is cleared.  The write bits of other descriptors stay as they
    were. *)
Theorem watch_write_bit :
  ∀ heap manager msg a sock,
  0 ≤ msg < FD_SETSIZE →
  fdstate_at manager msg = MANAGED →
  fds manager !! msg = Some a →
  heap !! a = Some sock →
  ∃ manager',
    watcher_wakeup heap msg manager = Ok (manager', [])
    ∧ FD_ISSET (fd sock) (write_fds manager')
      = connecting sock
        || (negb (EMPTY (send_list sock)) && negb (pending_send sock))
    ∧ ∀ i, i ≠ fd sock →
           FD_ISSET i (write_fds manager') = FD_ISSET i (write_fds manager).
Proof.
  intros heap manager msg a sock Hmsg Hst Hfd Hheap.
  unfold watcher_wakeup.
  replace (msg <? FD_SETSIZE) with true by (symmetry; apply Z.ltb_lt; lia).
  rewrite Hst, Hfd. cbn [negb Z.eqb MANAGED CLOSE_PENDING Pos.eqb mbind option_bind].
  rewrite Hheap. eexists. split; [reflexivity|].
  unfold watch_write, watch_read.
  destruct (EMPTY (send_list sock)), (pending_send sock), (connecting sock);
    cbn [orb andb negb];
    repeat case_match;
    cbn [write_fds set_write_fds set_read_fds];
    (split;
     [rewrite ?FD_ISSET_FD_SET, ?FD_ISSET_FD_CLR;
      rewrite bool_decide_eq_true_2 by reflexivity; reflexivity
     |intros i Hi; rewrite ?FD_ISSET_FD_SET, ?FD_ISSET_FD_CLR;
      rewrite bool_decide_eq_false_2 by exact Hi; reflexivity]).
Qed.

(** ** Cancelling *)

Lemma set_recv_list_twice l l' s :
  set_recv_list l (set_recv_list l' s) = set_recv_list l s.
Proof. now destruct s. Qed.

Lemma set_send_list_twice l l' s :
  set_send_list l (set_send_list l' s) = set_send_list l s.
Proof. now destruct s. Qed.

Lemma set_accept_list_twice l l' s :
  set_accept_list l (set_accept_list l' s) = set_accept_list l s.
Proof. now destruct s. Qed.

(** The read loop of [isc_socket_cancel] always returns, and touches
    nothing of the socket but its read queue. *)
Lemma cancel_recv_run task l : ∀ w,
  ∃ w' t rl,
    cancel_recv task l w = (Ok (), w')
    ∧ w_trace w' = w_trace w ++ t
    ∧ w_sock w' = set_recv_list rl (w_sock w).
Proof.
  induction l as [|dev l IH]; intros w; cbn [cancel_recv].
  - exists w, [], (recv_list (w_sock w)).
    rewrite app_nil_r. repeat split. now destruct (w_sock w).
  - destruct (bool_decide (task = NULL) || bool_decide (task = se_sender dev)).
    + run.
      match goal with
      | |- context [cancel_recv task l ?w1] =>
          destruct (IH w1) as (w' & t & rl & E & T & S)
      end.
      exists w'. eexists _, rl. split; [exact E|].
      cbn [w_trace w_sock with_effects with_sock] in T, S.
      now rewrite T, S, <- app_assoc, set_recv_list_twice.
    + run. apply IH.
Qed.

Lemma cancel_send_run task l : ∀ w,
  ∃ w' t sl,
    cancel_send task l w = (Ok (), w')
    ∧ w_trace w' = w_trace w ++ t
    ∧ w_sock w' = set_send_list sl (w_sock w).
Proof.
  induction l as [|dev l IH]; intros w; cbn [cancel_send].
  - exists w, [], (send_list (w_sock w)).
    rewrite app_nil_r. repeat split. now destruct (w_sock w).
  - destruct (bool_decide (task = NULL) || bool_decide (task = se_sender dev)).
    + run.
      match goal with
      | |- context [cancel_send task l ?w1] =>
          destruct (IH w1) as (w' & t & sl & E & T & S)
      end.
      exists w'. eexists _, sl. split; [exact E|].
      cbn [w_trace w_sock with_effects with_sock] in T, S.
      now rewrite T, S, <- app_assoc, set_send_list_twice.
    + run. apply IH.
Qed.

Lemma free_socket_run sock w :
  references sock = 0 → VALID_SOCKET sock = true →
  connecting sock = false → pending_recv sock = false →
  pending_send sock = false → pending_accept sock = false →
  recv_list sock = [] → send_list sock = [] → accept_list sock = [] →
  free_socket sock w
  = (Ok (set_magic 0 sock),
     with_effects [MutexDestroy (self sock); MemPut (self sock)] w).
Proof.
  intros Hr Hv Hc Hpr Hps Hpa Hrl Hsl Hal. unfold free_socket.
  rewrite Hr, Hv, Hc, Hpr, Hps, Hpa, Hrl, Hsl, Hal.
  cbn [Z.eqb negb EMPTY]. run.
  unfold with_effects. cbn. now rewrite <- app_assoc.
Qed.

(** The accept loop returns when every queued accept request is as
    [isc_socket_accept] left it. *)
Lemma cancel_accept_run task l : ∀ w,
  Forall nascent l →
  ∃ w' t al,
    cancel_accept task l w = (Ok (), w')
    ∧ w_trace w' = w_trace w ++ t
    ∧ w_sock w' = set_accept_list al (w_sock w).
Proof.
  induction l as [|dev l IH]; intros w Hn; cbn [cancel_accept].
  - exists w, [], (accept_list (w_sock w)).
    rewrite app_nil_r. repeat split. now destruct (w_sock w).
  - apply Forall_cons in Hn as [Hdev Hn].
    destruct (bool_decide (task = NULL) || bool_decide (task = nc_sender dev)).
    + destruct Hdev as (ns & Hns & Hr & Hv & Hc & Hpr & Hps & Hpa
                        & Hrl & Hsl & Hal).
      run. rewrite Hns. run.
      erewrite run_seq
        by (apply free_socket_run; cbn; rewrite ?Hr; auto).
      run.
      match goal with
      | |- context [cancel_accept task l ?w1] =>
          destruct (IH w1 Hn) as (w' & t & al & E & T & S)
      end.
      exists w'. eexists _, al. split; [exact E|].
      cbn [w_trace w_sock with_effects with_sock] in T, S.
      rewrite T, S, <- !app_assoc, set_accept_list_twice. auto.
    + run. now apply IH.
Qed.

Lemma select_poke_run msg w :
  select_poke msg w = (Ok (), with_effects [Poke msg] w).
Proof. reflexivity. Qed.

Lemma extends_snoc a b t e : b = a ++ t → extends a (b ++ [e]) (t ++ [e]).
Proof. intros ->. unfold extends. now rewrite app_assoc. Qed.

(** [isc_socket_cancel] with a mask that is not empty, on a valid socket
    whose accept requests are as queued and whose connect slot, if
    taken, goes with [connecting]: the call returns, the last thing it
    does is to poke the watcher, and the connect slot ends up as the
    connect category of the code leaves it. *)
Lemma isc_socket_cancel_run task how w :
  VALID_SOCKET (w_sock w) = true →
  how ≠ 0 →
  Forall nascent (accept_list (w_sock w)) →
  (connect_ev (w_sock w) ≠ None → connecting (w_sock w) = true) →
  ∃ w' t,
    isc_socket_cancel task how w = (Ok (), w')
    ∧ extends (w_trace w) (w_trace w') (t ++ [Poke (fd (w_sock w))])
    ∧ match connect_ev (w_sock w) with
      | Some dev =>
          if cancels_connect how then
            connecting (w_sock w') = false
            ∧ connect_ev (w_sock w')
              = (if cancels_task task (ce_sender dev) then None else Some dev)
          else
            connecting (w_sock w') = connecting (w_sock w)
            ∧ connect_ev (w_sock w') = Some dev
      | None =>
          connecting (w_sock w') = connecting (w_sock w)
          ∧ connect_ev (w_sock w') = None
      end.
Proof.
  intros Hv Hhow Hacc Hinv. unfold isc_socket_cancel. run. rewrite Hv. run.
  replace (how =? 0) with false by (symmetry; now apply Z.eqb_neq).
  (* the read queue *)
  assert (∃ w1 t1 rl,
    (if (Z.land how ISC_SOCKCANCEL_RECV =? ISC_SOCKCANCEL_RECV)
        && negb (EMPTY (recv_list (w_sock w)))
     then cancel_recv task (recv_list (w_sock w)) else mret ()) w
    = (Ok (), w1)
    ∧ w_trace w1 = w_trace w ++ t1
    ∧ w_sock w1 = set_recv_list rl (w_sock w))
    as (w1 & t1 & rl & E1 & T1 & S1).
  { match goal with |- context [if ?c then _ else _] => destruct c end;
      [apply cancel_recv_run|].
    exists w, [], (recv_list (w_sock w)).
    rewrite app_nil_r. repeat split. now destruct (w_sock w). }
  erewrite run_seq by exact E1. run.
  (* the write queue *)
  assert (∃ w2 t2 sl,
    (if (Z.land how ISC_SOCKCANCEL_SEND =? ISC_SOCKCANCEL_SEND)
        && negb (EMPTY (send_list (w_sock w1)))
     then cancel_send task (send_list (w_sock w1)) else mret ()) w1
    = (Ok (), w2)
    ∧ w_trace w2 = w_trace w1 ++ t2
    ∧ w_sock w2 = set_send_list sl (w_sock w1))
    as (w2 & t2 & sl & E2 & T2 & S2).
  { match goal with |- context [if ?c then _ else _] => destruct c end;
      [apply cancel_send_run|].
    exists w1, [], (send_list (w_sock w1)).
    rewrite app_nil_r. repeat split. now destruct (w_sock w1). }
  erewrite run_seq by exact E2. run.
  (* the accept queue *)
  assert (Hacc2 : accept_list (w_sock w2) = accept_list (w_sock w))
    by (rewrite S2, S1; reflexivity).
  assert (∃ w3 t3 al,
    (if (Z.land how ISC_SOCKCANCEL_ACCEPT =? ISC_SOCKCANCEL_ACCEPT)
        && negb (EMPTY (accept_list (w_sock w2)))
     then cancel_accept task (accept_list (w_sock w2)) else mret ()) w2
    = (Ok (), w3)
    ∧ w_trace w3 = w_trace w2 ++ t3
    ∧ w_sock w3 = set_accept_list al (w_sock w2))
    as (w3 & t3 & al & E3 & T3 & S3).
  { match goal with |- context [if ?c then _ else _] => destruct c end;
      [apply cancel_accept_run; now rewrite Hacc2|].
    exists w2, [], (accept_list (w_sock w2)).
    rewrite app_nil_r. repeat split. now destruct (w_sock w2). }
  erewrite run_seq by exact E3. run.
  (* the connect slot *)
  assert (Hce : connect_ev (w_sock w3) = connect_ev (w_sock w))
    by (rewrite S3, S2, S1; reflexivity).
  assert (Hcg : connecting (w_sock w3) = connecting (w_sock w))
    by (rewrite S3, S2, S1; reflexivity).
  assert (Hfd : fd (w_sock w3) = fd (w_sock w))
    by (rewrite S3, S2, S1; reflexivity).
  assert (Htr : w_trace w3 = w_trace w ++ (t1 ++ t2 ++ t3))
    by (rewrite T3, T2, T1, <- !app_assoc; reflexivity).
  rewrite Hce. fold (cancels_connect how).
  destruct (connect_ev (w_sock w)) as [dev|] eqn:Hdev.
  - destruct (cancels_connect how).
    + rewrite Hcg, Hinv by discriminate. run.
      fold (cancels_task task (ce_sender dev)).
      destruct (cancels_task task (ce_sender dev)); run;
        cbn [fd set_connecting set_connect_ev]; rewrite Hfd, select_poke_run;
        eexists _, _; (split; [reflexivity|]);
        cbn [w_trace w_sock with_effects with_sock connecting connect_ev
             set_connecting set_connect_ev];
        rewrite ?Hce; (split; [|auto]); apply extends_snoc.
      * rewrite Htr, <- app_assoc. reflexivity.
      * exact Htr.
    + run. rewrite Hfd, select_poke_run. eexists _, _. split; [reflexivity|].
      cbn [w_trace w_sock with_effects with_sock].
      rewrite Hce, Hcg. split; [|auto]. apply extends_snoc. exact Htr.
  - assert (E :
      (if cancels_connect how then mret () else mret ()) = (mret () : io ()))
      by now destruct (cancels_connect how).
    rewrite E. run. rewrite Hfd, select_poke_run.
    eexists _, _. split; [reflexivity|].
    cbn [w_trace w_sock with_effects with_sock].
    rewrite Hce, Hcg. split; [|auto]. apply extends_snoc. exact Htr.
Qed.

Lemma handover_not_poke task ev msg : handover task ev ≠ Poke msg.
Proof. unfold handover. now destruct (_ =? _). Qed.

(** The read loop of [isc_socket_cancel] writes nothing to the control
    pipe. *)
Lemma cancel_recv_quiet task l : ∀ w,
  ∃ w' t rl,
    cancel_recv task l w = (Ok (), w')
    ∧ w_trace w' = w_trace w ++ t
    ∧ Forall (λ e, ∀ msg, e ≠ Poke msg) t
    ∧ w_sock w' = set_recv_list rl (w_sock w).
Proof.
  induction l as [|dev l IH]; intros w; cbn [cancel_recv].
  - exists w, [], (recv_list (w_sock w)).
    rewrite app_nil_r. repeat split; [constructor|now destruct (w_sock w)].
  - destruct (bool_decide (task = NULL) || bool_decide (task = se_sender dev)).
    + run.
      match goal with
      | |- context [cancel_recv task l ?w1] =>
          destruct (IH w1) as (w' & t & rl & E & T & Q & S)
      end.
      exists w'. eexists _, rl. split; [exact E|].
      cbn [w_trace w_sock with_effects with_sock] in T, S.
      rewrite T, S, <- app_assoc, set_recv_list_twice.
      split; [reflexivity|]. split; [|reflexivity].
      constructor; [intros msg; apply handover_not_poke|exact Q].
    + run. apply IH.
Qed.

(** Nor does the write loop. *)
Lemma cancel_send_quiet task l : ∀ w,
  ∃ w' t sl,
    cancel_send task l w = (Ok (), w')
    ∧ w_trace w' = w_trace w ++ t
    ∧ Forall (λ e, ∀ msg, e ≠ Poke msg) t
    ∧ w_sock w' = set_send_list sl (w_sock w).
Proof.
  induction l as [|dev l IH]; intros w; cbn [cancel_send].
  - exists w, [], (send_list (w_sock w)).
    rewrite app_nil_r. repeat split; [constructor|now destruct (w_sock w)].
  - destruct (bool_decide (task = NULL) || bool_decide (task = se_sender dev)).
    + run.
      match goal with
      | |- context [cancel_send task l ?w1] =>
          destruct (IH w1) as (w' & t & sl & E & T & Q & S)
      end.
      exists w'. eexists _, sl. split; [exact E|].
      cbn [w_trace w_sock with_effects with_sock] in T, S.
      rewrite T, S, <- app_assoc, set_send_list_twice.
      split; [reflexivity|]. split; [|reflexivity].
      constructor; [intros msg; apply handover_not_poke|exact Q].
    + run. apply IH.
Qed.

Lemma run_stop {A B} (m : io A) (f : A → io B) w w' :
  m w = (AssertionFailed, w') → (m ≫= f) w = (AssertionFailed, w').
Proof. intros E. unfold mbind, io_bind. now rewrite E. Qed.

(** [free_socket] releases the object when all its checks hold, and stops
    at the first that does not, before it has done anything. *)
Lemma free_socket_total sock w :
  free_socket sock w
  = if free_socket_accepts sock
    then (Ok (set_magic 0 sock),
          with_effects [MutexDestroy (self sock); MemPut (self sock)] w)
    else (AssertionFailed, w).
Proof.
  unfold free_socket, free_socket_accepts.
  destruct (references sock =? 0); [|reflexivity].
  destruct (VALID_SOCKET sock); [|reflexivity].
  destruct (connecting sock); [reflexivity|].
  destruct (pending_recv sock); [reflexivity|].
  destruct (pending_send sock); [reflexivity|].
  destruct (pending_accept sock); [reflexivity|].
  destruct (EMPTY (recv_list sock)); [|reflexivity].
  destruct (EMPTY (send_list sock)); [|reflexivity].
  destruct (EMPTY (accept_list sock)); [|reflexivity].
  cbn [andb negb]. run.
  unfold with_effects. cbn. now rewrite <- app_assoc.
Qed.

(** The accept loop of [isc_socket_cancel] returns when every request it
    cancels carries a socket it can release, and stops at an assertion
    otherwise; either way it writes nothing to the control pipe and
    touches nothing of the socket but its accept queue. *)
Lemma cancel_accept_total task l : ∀ w,
  ∃ w' t al,
    cancel_accept task l w
    = (if forallb (λ dev, negb (cancels_task task (nc_sender dev))
                          || releases dev) l
       then Ok () else AssertionFailed, w')
    ∧ w_trace w' = w_trace w ++ t
    ∧ Forall (λ e, ∀ msg, e ≠ Poke msg) t
    ∧ w_sock w' = set_accept_list al (w_sock w).
Proof.
  induction l as [|dev l IH]; intros w; cbn [cancel_accept forallb].
  - exists w, [], (accept_list (w_sock w)).
    rewrite app_nil_r. repeat split; [constructor|now destruct (w_sock w)].
  - fold (cancels_task task (nc_sender dev)).
    destruct (cancels_task task (nc_sender dev)); cbn [negb orb].
    + run. unfold releases.
      destruct (newsocket dev) as [newsock|] eqn:Hns.
      * rewrite run_assoc.
        pose proof (free_socket_total
          (set_references (uint (references newsock - 1)) newsock)) as F.
        destruct (free_socket_accepts _).
        -- erewrite run_seq by apply F. run.
           match goal with
           | |- context [cancel_accept task l ?w1] =>
               destruct (IH w1) as (w' & t & al & E & T & Q & S)
           end.
           exists w'. eexists _, al. split; [exact E|].
           cbn [w_trace w_sock with_effects with_sock] in T, S.
           rewrite T, S, <- !app_assoc, set_accept_list_twice.
           split; [reflexivity|]. split; [|reflexivity].
           repeat (constructor; [intros msg; discriminate|]). exact Q.
        -- erewrite run_stop by apply F.
           eexists _, [], _. split; [reflexivity|].
           cbn [w_trace w_sock with_effects with_sock].
           rewrite app_nil_r. repeat split. constructor.
      * cbn [andb]. eexists _, [], _. split; [reflexivity|].
        cbn [w_trace w_sock with_effects with_sock].
        rewrite app_nil_r. repeat split. constructor.
    + run. apply IH.
Qed.

(** An accept request as [isc_socket_accept] queues it can be released. *)
Lemma nascent_releases dev : nascent dev → releases dev = true.
Proof.
  intros (ns & Hns & Hr & Hv & Hc & Hpr & Hps & Hpa & Hrl & Hsl & Hal).
  unfold releases, free_socket_accepts. rewrite Hns.
  unfold VALID_SOCKET in *. cbn [references set_references magic connecting
    pending_recv pending_send pending_accept recv_list send_list accept_list].
  rewrite Hr, Hv, Hc, Hpr, Hps, Hpa, Hrl, Hsl, Hal. reflexivity.
Qed.

(** The consistent states, in which the accept requests are as queued
    and a connect event in the slot goes with [connecting], are among
    those in which the call returns. *)
Lemma cancel_returns_when_consistent task how sock :
  Forall nascent (accept_list sock) →
  (connect_ev sock ≠ None → connecting sock = true) →
  cancel_returns task how sock = true.
Proof.
  intros Hacc Hinv. unfold cancel_returns.
  apply andb_true_iff. split.
  - apply orb_true_iff. right. apply forallb_forall. intros dev Hin.
    apply orb_true_iff. right. apply nascent_releases.
    rewrite Forall_forall in Hacc. apply Hacc. now apply list_elem_of_In.
  - apply orb_true_iff. right.
    destruct (connect_ev sock); [now apply Hinv|reflexivity].
Qed.

(** C8, as amended.  [isc_socket_cancel] on a valid socket.  With an empty
    mask it returns at once and does nothing, so it does not poke the
    watcher.  With any other mask it either returns, and then the last
    thing it does is to poke the watcher for the socket's descriptor,
    which is the only poke of the call, whichever categories the mask
    selects and whether or not anything is cancelled; or an assertion
    stops it, and then it has not poked the watcher.  An assertion stops
    it exactly when [cancel_returns] fails: the accept category is
    selected and an accept request the call cancels carries no socket,
    or one that [free_socket] refuses once the reference is dropped; or
    the connect category is selected and a connect event is in the slot
    while [connecting] is clear, which is INSIST(sock->connecting). *)
Theorem cancel_pokes_unless_mask_is_empty :
  ∀ w task,
  VALID_SOCKET (w_sock w) = true →
  isc_socket_cancel task 0 w = (Ok (), w)
  ∧ ∀ how,
      how ≠ 0 →
      (cancel_returns task how (w_sock w) = true →
       ∃ w' t,
         isc_socket_cancel task how w = (Ok (), w')
         ∧ extends (w_trace w) (w_trace w') (t ++ [Poke (fd (w_sock w))])
         ∧ Forall (λ e, ∀ msg, e ≠ Poke msg) t)
      ∧ (cancel_returns task how (w_sock w) = false →
         ∃ w' t,
           isc_socket_cancel task how w = (AssertionFailed, w')
           ∧ extends (w_trace w) (w_trace w') t
           ∧ Forall (λ e, ∀ msg, e ≠ Poke msg) t).
Proof.
  intros w task Hv. split.
  { unfold isc_socket_cancel. run. rewrite Hv. run. reflexivity. }
  intros how Hhow.
  unfold isc_socket_cancel. run. rewrite Hv. run.
  replace (how =? 0) with false by (symmetry; now apply Z.eqb_neq).
  (* the read queue *)
  assert (∃ w1 t1 rl,
    (if (Z.land how ISC_SOCKCANCEL_RECV =? ISC_SOCKCANCEL_RECV)
        && negb (EMPTY (recv_list (w_sock w)))
     then cancel_recv task (recv_list (w_sock w)) else mret ()) w
    = (Ok (), w1)
    ∧ w_trace w1 = w_trace w ++ t1
    ∧ Forall (λ e, ∀ msg, e ≠ Poke msg) t1
    ∧ w_sock w1 = set_recv_list rl (w_sock w))
    as (w1 & t1 & rl & E1 & T1 & Q1 & S1).
  { match goal with |- context [if ?c then _ else _] => destruct c end;
      [apply cancel_recv_quiet|].
    exists w, [], (recv_list (w_sock w)).
    rewrite app_nil_r. repeat split; [constructor|now destruct (w_sock w)]. }
  erewrite run_seq by exact E1. run.
  (* the write queue *)
  assert (∃ w2 t2 sl,
    (if (Z.land how ISC_SOCKCANCEL_SEND =? ISC_SOCKCANCEL_SEND)
        && negb (EMPTY (send_list (w_sock w1)))
     then cancel_send task (send_list (w_sock w1)) else mret ()) w1
    = (Ok (), w2)
    ∧ w_trace w2 = w_trace w1 ++ t2
    ∧ Forall (λ e, ∀ msg, e ≠ Poke msg) t2
    ∧ w_sock w2 = set_send_list sl (w_sock w1))
    as (w2 & t2 & sl & E2 & T2 & Q2 & S2).
  { match goal with |- context [if ?c then _ else _] => destruct c end;
      [apply cancel_send_quiet|].
    exists w1, [], (send_list (w_sock w1)).
    rewrite app_nil_r. repeat split; [constructor|now destruct (w_sock w1)]. }
  erewrite run_seq by exact E2. run.
  (* the accept queue *)
  assert (Hacc2 : accept_list (w_sock w2) = accept_list (w_sock w))
    by (rewrite S2, S1; reflexivity).
  set (accepts :=
    negb (cancels_accept how)
    || forallb (λ dev, negb (cancels_task task (nc_sender dev)) || releases dev)
         (accept_list (w_sock w))).
  assert (∃ w3 t3 al,
    (if (Z.land how ISC_SOCKCANCEL_ACCEPT =? ISC_SOCKCANCEL_ACCEPT)
        && negb (EMPTY (accept_list (w_sock w2)))
     then cancel_accept task (accept_list (w_sock w2)) else mret ()) w2
    = (if accepts then Ok () else AssertionFailed, w3)
    ∧ w_trace w3 = w_trace w2 ++ t3
    ∧ Forall (λ e, ∀ msg, e ≠ Poke msg) t3
    ∧ w_sock w3 = set_accept_list al (w_sock w2))
    as (w3 & t3 & al & E3 & T3 & Q3 & S3).
  { subst accepts. fold (cancels_accept how). rewrite Hacc2.
    destruct (cancels_accept how); cbn [negb orb andb].
    - destruct (accept_list (w_sock w)) as [|d l] eqn:Hl.
      + exists w2, [], (accept_list (w_sock w2)).
        rewrite app_nil_r. repeat split; [constructor|now destruct (w_sock w2)].
      + cbn [EMPTY negb]. apply cancel_accept_total.
    - exists w2, [], (accept_list (w_sock w2)).
      rewrite app_nil_r. repeat split; [constructor|now destruct (w_sock w2)]. }
  assert (Hce : connect_ev (w_sock w3) = connect_ev (w_sock w))
    by (rewrite S3, S2, S1; reflexivity).
  assert (Hcg : connecting (w_sock w3) = connecting (w_sock w))
    by (rewrite S3, S2, S1; reflexivity).
  assert (Hfd : fd (w_sock w3) = fd (w_sock w))
    by (rewrite S3, S2, S1; reflexivity).
  assert (Htr : w_trace w3 = w_trace w ++ (t1 ++ t2 ++ t3))
    by (rewrite T3, T2, T1, <- !app_assoc; reflexivity).
  assert (Hq : Forall (λ e, ∀ msg, e ≠ Poke msg) (t1 ++ t2 ++ t3))
    by (rewrite !Forall_app; auto).
  unfold cancel_returns. fold accepts.
  destruct accepts; cbn [andb].
  2:{ erewrite run_stop by exact E3. split; [discriminate|]. intros _.
      exists w3, (t1 ++ t2 ++ t3). split; [reflexivity|]. split; assumption. }
  erewrite run_seq by exact E3. run. rewrite Hce. fold (cancels_connect how).
  destruct (cancels_connect how); cbn [negb orb].
  - destruct (connect_ev (w_sock w)) as [dev|] eqn:Hdev.
    + rewrite Hcg. destruct (connecting (w_sock w)).
      * split; [intros _|discriminate]. run.
        fold (cancels_task task (ce_sender dev)).
        destruct (cancels_task task (ce_sender dev)); run;
          cbn [fd set_connecting set_connect_ev]; rewrite Hfd, select_poke_run;
          eexists _, _; (split; [reflexivity|]);
          cbn [w_trace w_sock with_effects with_sock].
        -- split; [apply extends_snoc; rewrite Htr, <- app_assoc; reflexivity|].
           apply Forall_app. split; [exact Hq|].
           constructor; [intros msg; discriminate|constructor].
        -- split; [apply extends_snoc; exact Htr|exact Hq].
      * split; [discriminate|intros _].
        exists w3, (t1 ++ t2 ++ t3). split; [reflexivity|]. split; assumption.
    + split; [intros _|discriminate]. run. rewrite Hfd, select_poke_run.
      eexists _, _. split; [reflexivity|].
      cbn [w_trace w_sock with_effects with_sock].
      split; [apply extends_snoc; exact Htr|exact Hq].
  - split; [intros _|discriminate]. run. rewrite Hfd, select_poke_run.
    eexists _, _. split; [reflexivity|].
    cbn [w_trace w_sock with_effects with_sock].
    split; [apply extends_snoc; exact Htr|exact Hq].
Qed.

(** A writable event that finds the connect slot taken but [connecting]
    clear stops at INSIST(sock->connecting). *)
Lemma internal_connect_asserts ev w :
  iev_type ev = ISC_SOCKEVENT_INTW →
  iev_sender ev = SockPtr (self (w_sock w)) →
  VALID_SOCKET (w_sock w) = true →
  1 < references (w_sock w) < 2 ^ 32 →
  connect_ev (w_sock w) ≠ None →
  connecting (w_sock w) = false →
  (internal_connect env ev w).1 = AssertionFailed.
Proof.
  intros Ht Hs Hv Hr Hce Hc. unfold internal_connect.
  rewrite bool_decide_eq_true_2 by exact Ht. run.
  rewrite bool_decide_eq_true_2 by exact Hs. run. rewrite Hv. run.
  replace (0 <? references (w_sock w)) with true
    by (symmetry; apply Z.ltb_lt; lia).
  run. cbn [references set_references connect_ev connecting].
  unfold uint. rewrite Z.mod_small by lia.
  replace (references (w_sock w) - 1 =? 0) with false
    by (symmetry; apply Z.eqb_neq; lia).
  destruct (connect_ev (w_sock w)); [|done].
  rewrite Hc. reflexivity.
Qed.

(** C6 fails on the code.  [isc_socket_cancel] with the connect category
    selected clears [connecting] before it looks at the task, so for a
    task that is neither the wildcard nor the sender of the connect
    event the socket is left with [connecting] clear and [connect_ev]
    still set (for the wildcard or the owning task both are cleared).
    The state it leaves contradicts the assertion of [internal_connect]:
    a writable event delivered in that state stops at
    INSIST(sock->connecting). *)
Theorem cancel_connect_for_another_task_splits_the_connect_slot :
  ∀ w task how dev,
  VALID_SOCKET (w_sock w) = true →
  how ≠ 0 → cancels_connect how = true →
  Forall nascent (accept_list (w_sock w)) →
  connect_ev (w_sock w) = Some dev →
  connecting (w_sock w) = true →
  ∃ w',
    isc_socket_cancel task how w = (Ok (), w')
    ∧ connecting (w_sock w') = false
    ∧ (if cancels_task task (ce_sender dev)
       then connect_ev (w_sock w') = None
       else connect_ev (w_sock w') = Some dev
            ∧ ∀ ev,
                iev_type ev = ISC_SOCKEVENT_INTW →
                iev_sender ev = SockPtr (self (w_sock w')) →
                VALID_SOCKET (w_sock w') = true →
                1 < references (w_sock w') < 2 ^ 32 →
                (internal_connect env ev w').1 = AssertionFailed).
Proof.
  intros w task how dev Hv Hhow Hsel Hacc Hce Hc.
  destruct (isc_socket_cancel_run task how w Hv Hhow Hacc (λ _, Hc))
    as (w' & t & E & T & S).
  rewrite Hce, Hsel in S. destruct S as [S1 S2].
  exists w'. split; [exact E|]. split; [exact S1|].
  destruct (cancels_task task (ce_sender dev)); [exact S2|].
  split; [exact S2|]. intros ev Ht Hs Hv' Hr.
  apply internal_connect_asserts; try assumption. now rewrite S2.
Qed.

(** ** The connect slot across the other operations *)

(** Run a computation to its end, splitting on every test on the way; a
    failed assertion ends the run. *)
Ltac run_all :=
  repeat first
    [ progress run
    | rewrite run_modify_manager
    | rewrite select_poke_run
    | match goal with
      | |- context [(REQUIRE ?c ≫= _) _] => destruct c eqn:?; [|exact I]
      | |- context [(INSIST ?c ≫= _) _] => destruct c eqn:?; [|exact I]
      | |- context [(if ?c then _ else _) _] => destruct c eqn:?
      | |- context [((if ?c then _ else _) ≫= _) _] => destruct c eqn:?
      | |- context [match ?o with Some _ => _ | None => _ end] =>
          destruct o eqn:?
      | |- context [env_connect ?e ?t ?f ?a] =>
          destruct (env_connect e t f a) as [? ?] eqn:?
      | |- context [env_getsockopt ?e ?t ?f] =>
          destruct (env_getsockopt e t f) as [[? ?] ?] eqn:?
      end ].

(** [isc_socket_connect] keeps [connecting] and the connect slot
    together: whenever it returns, the socket is connecting exactly when
    it holds a connect event. *)
Lemma isc_socket_connect_connect_slot w addr task action arg :
  (connecting (w_sock w) = true ↔ is_Some (connect_ev (w_sock w))) →
  match isc_socket_connect env addr task action arg w with
  | (Ok _, w') =>
      connecting (w_sock w') = true ↔ is_Some (connect_ev (w_sock w'))
  | _ => True
  end.
Proof.
  intros Hinv. unfold isc_socket_connect, connect_queue, connect_err_exit.
  run_all.
  all: cbn [w_sock connecting connect_ev set_connecting set_connect_ev
            set_connected set_address with_sock with_effects].
  all: try exact I.
  all: try (split; [eauto | reflexivity]).
  all: try exact Hinv.
Qed.

(** So does [internal_connect]: it either puts [connecting] back and
    leaves the event in its slot, or hands the event over and leaves
    both clear; a socket it destroys has neither. *)
Lemma internal_connect_connect_slot ev w :
  (connecting (w_sock w) = true ↔ is_Some (connect_ev (w_sock w))) →
  match internal_connect env ev w with
  | (Ok _, w') =>
      connecting (w_sock w') = true ↔ is_Some (connect_ev (w_sock w'))
  | _ => True
  end.
Proof.
  intros Hinv. unfold internal_connect, destroy, free_socket.
  run_all.
  all: try match goal with
           | |- context [INSIST (negb ?c)] => destruct c eqn:?
           end.
  all: unfold emit, modify_sock.
  all: cbn [w_sock connecting connect_ev set_connecting set_connect_ev
            set_references set_magic with_sock with_effects negb] in *.
  all: try exact I.
  all: try exact Hinv.
  all: try (split; [intros _; apply Hinv; assumption | reflexivity]).
  all: split; [discriminate | intros [? ?]; discriminate].
Qed.

(** * The write side, markers and references *)

(** ** The write side *)

(** With a sticky result other than success the loop of [internal_send]
    empties the queue without asking the kernel. *)
Lemma internal_send_loop_sticky q : ∀ fuel w,
  send_list (w_sock w) = q →
  send_result (w_sock w) ≠ ISC_R_SUCCESS →
  (length q ≤ fuel)%nat →
  internal_send_loop env fuel w =
  (Ok (),
   with_effects
     (map (λ dev, handover (se_sender dev)
                    (senddone (w_sock w) dev (send_result (w_sock w)))) q)
     (with_sock (set_send_list [] (w_sock w)) w)).
Proof.
  induction q as [|dev q IH]; intros fuel w Hq Hr Hf.
  - destruct fuel; cbn [internal_send_loop]; run; rewrite Hq;
      destruct w as [s m t c]; destruct s; cbn in *; subst;
      unfold with_effects, with_sock; cbn; now rewrite app_nil_r.
  - destruct fuel as [|fuel]; [cbn in Hf; lia|].
    cbn [internal_send_loop]. run. rewrite Hq.
    assert (Hstep :
      (send_senddone_event dev (send_result (w_sock w));;
       internal_send_loop env fuel) w
      = (Ok (),
         with_effects
           (map (λ dev, handover (se_sender dev)
                   (senddone (w_sock w) dev (send_result (w_sock w))))
              (dev :: q))
           (with_sock (set_send_list [] (w_sock w)) w))).
    { run. rewrite Hq, unlink_head.
      rewrite IH; [|reflexivity|exact Hr|cbn in Hf; lia].
      destruct w as [s m t c]; destruct s; cbn in *; subst.
      unfold with_effects, with_sock, senddone; cbn.
      now rewrite <- app_assoc. }
    destruct (bool_decide (se_type dev = ISC_SOCKEVENT_SENDMARK));
      [exact Hstep|].
    rewrite bool_decide_eq_true_2 by exact Hr. exact Hstep.
Qed.

(** [internal_send] up to its loop, when the internal event does not hold
    the last reference. *)
Lemma internal_send_enter ev w :
  iev_type ev = ISC_SOCKEVENT_INTW →
  iev_sender ev = SockPtr (self (w_sock w)) →
  VALID_SOCKET (w_sock w) = true →
  pending_send (w_sock w) = true →
  1 < references (w_sock w) < 2 ^ 32 →
  internal_send env ev w =
  (internal_send_loop env (length (send_list (w_sock w)));;
   sock ← get_sock;
   if negb (EMPTY (send_list sock)) then select_poke (fd sock) else mret ())
    (with_sock
       (set_references (references (w_sock w) - 1)
          (set_pending_send false (w_sock w))) w).
Proof.
  intros Ht Hs Hv Hp Hr. unfold internal_send.
  rewrite bool_decide_eq_true_2 by exact Ht. run.
  rewrite bool_decide_eq_true_2 by exact Hs. run.
  rewrite Hv. run. rewrite Hp. run.
  replace (0 <? references (w_sock w)) with true
    by (symmetry; apply Z.ltb_lt; lia).
  run. cbn [references set_references set_pending_send send_list].
  unfold uint. rewrite Z.mod_small by lia.
  replace (references (w_sock w) - 1 =? 0) with false
    by (symmetry; apply Z.eqb_neq; lia).
  reflexivity.
Qed.

(** [set_dev_address] where its assertion holds: a stream socket takes no
    explicit address. *)
Lemma set_dev_address_run addr dev w :
  (is_tcp (w_sock w) = true → addr = None) →
  set_dev_address addr dev w
  = (Ok (set_se_address
           (if is_udp (w_sock w) then default (address (w_sock w)) addr
            else address (w_sock w)) dev), w).
Proof.
  intros H. unfold set_dev_address. run.
  unfold is_udp, is_tcp in *. destruct (sock_type (w_sock w)).
  - rewrite bool_decide_eq_true_2 by reflexivity. now destruct addr.
  - rewrite bool_decide_eq_false_2 by discriminate.
    rewrite bool_decide_eq_true_2 by reflexivity.
    rewrite H by (now apply bool_decide_eq_true_2). now run.
Qed.

(** What [isc_socket_sendto] and [isc_socket_sendtov] do with a fresh
    request when the sticky result is not success. *)
Lemma send_now_or_queue_sticky dev task w :
  send_result (w_sock w) ≠ ISC_R_SUCCESS →
  se_sender dev = task →
  ∃ w' t,
    send_now_or_queue env dev task w = (Ok ISC_R_SUCCESS, w')
    ∧ extends (w_trace w) (w_trace w') t
    ∧ send_result (w_sock w') = send_result (w_sock w)
    ∧ match send_list (w_sock w) with
      | [] =>
          (∃ e ev, t = [e] ∧ sent_to task ev e
                   ∧ completes dev (send_result (w_sock w)) ev)
          ∧ send_list (w_sock w') = []
      | _ =>
          t = [TaskAttach task]
          ∧ ∃ dev', send_list (w_sock w') = send_list (w_sock w) ++ [dev']
                    ∧ se_self dev' = se_self dev ∧ se_type dev' = se_type dev
      end.
Proof.
  intros Hr Hs. unfold send_now_or_queue. run.
  destruct (send_list (w_sock w)) as [|head q] eqn:Hq; cbn [EMPTY negb].
  - rewrite bool_decide_eq_true_2 by exact Hr. run.
    eexists _, _. split; [reflexivity|].
    cbn [w_trace w_sock with_effects with_sock send_result send_list
         set_send_list].
    split; [reflexivity|]. split; [reflexivity|].
    rewrite Hq. cbn [unlink]. split; [|reflexivity].
    eexists _, _. split; [reflexivity|]. rewrite <- Hs.
    split; [apply handover_sent_to|]. now apply senddone_completes.
  - unfold send_queue. run.
    eexists _, _. split; [reflexivity|].
    cbn [w_trace w_sock with_effects with_sock send_result send_list
         set_send_list].
    split; [reflexivity|]. split; [reflexivity|]. split; [reflexivity|].
    rewrite Hq. eexists. split; [reflexivity|]. split; reflexivity.
Qed.

(** X1.  On a socket whose sticky [send_result] is [r], not success, a request
    posted with [isc_socket_sendto] on an empty queue goes to its task at
    once carrying [r] and one posted behind other requests is queued;
    [internal_send] hands every queued request to its task carrying [r],
    in queue order, and leaves the queue empty.  None of this asks the
    kernel. *)
Theorem sticky_send_result_completes_every_request :
  ∀ w r,
  send_result (w_sock w) = r →
  r ≠ ISC_R_SUCCESS →
  VALID_SOCKET (w_sock w) = true →
  (∀ region task action arg addr pktinfo raw,
     VALID_MANAGER (w_manager w) = true →
     task ≠ NULL → action ≠ 0 →
     (is_tcp (w_sock w) = true → addr = None) →
     env_socketevent env (w_clock w) = Some raw →
     ∃ w' t,
       isc_socket_sendto env (Some region) task action arg addr pktinfo w
         = (Ok ISC_R_SUCCESS, w')
       ∧ extends (w_trace w) (w_trace w')
           (EventAllocate ISC_SOCKEVENT_SENDDONE :: t)
       ∧ send_result (w_sock w') = r
       ∧ match send_list (w_sock w) with
         | [] =>
             (∃ e ev, t = [e] ∧ sent_to task (SocketEvent ev) e
                      ∧ se_self ev = se_self raw ∧ se_result ev = r)
             ∧ send_list (w_sock w') = []
         | _ =>
             t = [TaskAttach task]
             ∧ ∃ dev', send_list (w_sock w') = send_list (w_sock w) ++ [dev']
                       ∧ se_self dev' = se_self raw
         end)
  ∧
  (∀ ev,
     iev_type ev = ISC_SOCKEVENT_INTW →
     iev_sender ev = SockPtr (self (w_sock w)) →
     pending_send (w_sock w) = true →
     1 < references (w_sock w) < 2 ^ 32 →
     ∃ w' t,
       internal_send env ev w = (Ok (), w')
       ∧ extends (w_trace w) (w_trace w') t
       ∧ Forall2
           (λ dev e, ∃ ev, sent_to (se_sender dev) ev e ∧ completes dev r ev)
           (send_list (w_sock w)) t
       ∧ send_list (w_sock w') = []
       ∧ send_result (w_sock w') = r).
Proof.
  intros w r Hr Hne Hv. rewrite <- Hr in Hne. split.
  - intros region task action arg addr pktinfo raw Hm Htask Hact Haddr Hraw.
    unfold isc_socket_sendto. run. rewrite Hv. run.
    rewrite bool_decide_eq_true_2 by exact Htask. run.
    replace (action =? 0) with false by (symmetry; now apply Z.eqb_neq).
    run. rewrite Hm. run.
    erewrite run_seq by (apply allocate_socketevent_run; exact Hraw).
    cbv beta iota.
    erewrite run_seq by (apply set_dev_address_run; exact Haddr).
    match goal with
    | |- context [send_now_or_queue env ?d task ?w1] =>
        destruct (send_now_or_queue_sticky d task w1) as (w' & t & E & T & S & Q)
    end.
    + exact Hne.
    + unfold set_dev_pktinfo. now destruct pktinfo.
    + exists w', t. split; [exact E|].
      cbn [w_trace w_sock asked] in T, S, Q.
      split; [unfold extends in *; rewrite T, <- app_assoc; reflexivity|].
      split; [now rewrite S|].
      destruct (send_list (w_sock w)) as [|head q].
      * destruct Q as [(e & ev & -> & P & (ev' & -> & Es & Er & _)) Q].
        split; [|exact Q]. exists e, ev'. repeat split; try assumption.
        -- rewrite Es. unfold set_dev_pktinfo. now destruct pktinfo.
        -- now rewrite Er.
      * destruct Q as [-> (dev' & Q & Es & _)]. split; [reflexivity|].
        exists dev'. split; [exact Q|]. rewrite Es.
        unfold set_dev_pktinfo. now destruct pktinfo.
  - intros ev Ht Hs Hp Href.
    rewrite (internal_send_enter ev w Ht Hs Hv Hp Href).
    erewrite run_seq
      by (apply (internal_send_loop_sticky (send_list (w_sock w)));
          [reflexivity|exact Hne|reflexivity]).
    run. cbn [send_list set_send_list EMPTY negb].
    eexists _, _. split; [reflexivity|].
    cbn [w_trace w_sock with_effects with_sock send_result send_list
         set_send_list set_references set_pending_send].
    split; [reflexivity|]. split; [|split; [reflexivity|exact Hr]].
    rewrite <- Hr.
    induction (send_list (w_sock w)) as [|dev q IH]; cbn [map]; constructor;
      [|exact IH].
    eexists. split; [apply handover_sent_to|].
    now apply senddone_completes.
Qed.

(** [build_msghdr_send] for a request over a region on a stream socket:
    one iovec, for what is left of the region. *)
Lemma build_msghdr_send_region sock dev maxiov :
  is_tcp sock = true →
  se_bufferlist dev = [] →
  build_msghdr_send sock dev maxiov
  = Ok ({| msg_name := None; msg_namelen := 0;
           msg_iov := [uint (region_length (se_region dev) - se_n dev)];
           msg_control := None; msg_controllen := 0; msg_flags := 0 |},
        uint (region_length (se_region dev) - se_n dev)).
Proof.
  intros Htcp Hbl. unfold build_msghdr_send.
  rewrite Hbl, (tcp_not_udp _ Htcp). cbn [mbind result_bind mret result_ret].
  now rewrite !andb_false_r.
Qed.

(** [doio_send] when sendmsg() wrote [cc] bytes. *)
Lemma doio_send_written w dev msghdr write_count cc errno :
  build_msghdr_send (w_sock w) dev MAXSCATTERGATHER_SEND
    = Ok (msghdr, write_count) →
  env_sendmsg env (w_clock w) (fd (w_sock w)) msghdr = (cc, errno) →
  0 < cc →
  let dev' := set_se_n (uint (se_n dev + cc)) dev in
  doio_send env dev w
  = if cc =? write_count
    then (Ok (DOIO_SUCCESS, dev'),
          with_effects
            [handover (se_sender dev) (senddone (w_sock w) dev' ISC_R_SUCCESS)]
            (with_sock
               (set_send_list (unlink (se_self dev) (send_list (w_sock w)))
                  (w_sock w))
               (asked (Sendmsg (fd (w_sock w)) msghdr) w)))
    else (Ok (DOIO_SOFT, dev'), asked (Sendmsg (fd (w_sock w)) msghdr) w).
Proof.
  intros Hb Hk Hcc dev'. unfold doio_send. run. rewrite Hb. run. rewrite Hk.
  replace (cc <? 0) with false by (symmetry; apply Z.ltb_ge; lia).
  replace (cc =? 0) with false by (symmetry; apply Z.eqb_neq; lia).
  run. fold dev'. destruct (cc =? write_count); cbn [negb]; [|reflexivity].
  run. reflexivity.
Qed.

(** X2.  On a stream socket [isc_socket_sendto] and [isc_socket_sendtov] with
    an explicit destination stop at INSIST(address == NULL) in
    [set_dev_address]; the request was allocated by then and the socket
    is as it was. *)
Theorem send_with_address_on_stream_socket_stops :
  ∀ w task action arg a pktinfo raw,
  VALID_SOCKET (w_sock w) = true →
  VALID_MANAGER (w_manager w) = true →
  task ≠ NULL → action ≠ 0 →
  is_tcp (w_sock w) = true →
  env_socketevent env (w_clock w) = Some raw →
  (∀ region,
     isc_socket_sendto env (Some region) task action arg (Some a) pktinfo w
     = (AssertionFailed, asked (EventAllocate ISC_SOCKEVENT_SENDDONE) w))
  ∧ (∀ buflist,
       buflist ≠ [] → 0 < isc_bufferlist_usedcount buflist →
       isc_socket_sendtov env (Some buflist) task action arg (Some a) pktinfo w
       = (AssertionFailed, asked (EventAllocate ISC_SOCKEVENT_SENDDONE) w)).
Proof.
  intros w task action arg a pktinfo raw Hv Hm Htask Hact Htcp Hraw.
  assert (Hudp := tcp_not_udp _ Htcp).
  split.
  - intros region. unfold isc_socket_sendto. run. rewrite Hv. run.
    rewrite bool_decide_eq_true_2 by exact Htask. run.
    replace (action =? 0) with false by (symmetry; now apply Z.eqb_neq).
    run. rewrite Hm. run.
    erewrite run_seq by (apply allocate_socketevent_run; exact Hraw).
    cbv beta iota. unfold set_dev_address. run.
    cbn [w_sock asked]. rewrite Hudp, Htcp. reflexivity.
  - intros buflist Hne Hcount. unfold isc_socket_sendtov. run. rewrite Hv. run.
    destruct buflist as [|b bl]; [done|]. cbn [EMPTY negb]. run.
    rewrite bool_decide_eq_true_2 by exact Htask. run.
    replace (action =? 0) with false by (symmetry; now apply Z.eqb_neq).
    run. rewrite Hm. run.
    replace (0 <? isc_bufferlist_usedcount (b :: bl)) with true
      by (symmetry; now apply Z.ltb_lt).
    run.
    erewrite run_seq by (apply allocate_socketevent_run; exact Hraw).
    cbv beta iota. unfold set_dev_address. run.
    cbn [w_sock asked]. rewrite Hudp, Htcp. reflexivity.
Qed.

(** X3.  A write that goes through in part.  On a stream socket with nothing
    queued, [isc_socket_send] of a region of which sendmsg() takes the
    first [cc] bytes queues the request with [n = cc], attaches to the
    task and pokes the watcher; the header built for the queued request
    covers exactly the bytes that are left.  When sendmsg() takes the
    whole region the request goes to its task at once with ISC_R_SUCCESS
    and [n] the length of the region, and nothing is queued. *)
Theorem send_writes_now_and_queues_the_rest :
  ∀ w region task action arg raw cc errno,
  VALID_SOCKET (w_sock w) = true →
  VALID_MANAGER (w_manager w) = true →
  task ≠ NULL → action ≠ 0 →
  is_tcp (w_sock w) = true →
  send_list (w_sock w) = [] →
  send_result (w_sock w) = ISC_R_SUCCESS →
  0 < region_length region < 2 ^ 32 →
  env_socketevent env (w_clock w) = Some raw →
  let msghdr := {| msg_name := None; msg_namelen := 0;
                   msg_iov := [region_length region];
                   msg_control := None; msg_controllen := 0;
                   msg_flags := 0 |} in
  env_sendmsg env (S (w_clock w)) (fd (w_sock w)) msghdr = (cc, errno) →
  0 < cc ≤ region_length region →
  ∃ w',
    isc_socket_send env (Some region) task action arg w
      = (Ok ISC_R_SUCCESS, w')
    ∧ if cc =? region_length region then
        (∃ e ev,
           extends (w_trace w) (w_trace w')
             [EventAllocate ISC_SOCKEVENT_SENDDONE;
              Sendmsg (fd (w_sock w)) msghdr; e]
           ∧ sent_to task (SocketEvent ev) e
           ∧ se_self ev = se_self raw
           ∧ se_result ev = ISC_R_SUCCESS
           ∧ se_n ev = region_length region)
        ∧ send_list (w_sock w') = []
      else
        extends (w_trace w) (w_trace w')
          [EventAllocate ISC_SOCKEVENT_SENDDONE;
           Sendmsg (fd (w_sock w)) msghdr;
           TaskAttach task; Poke (fd (w_sock w))]
        ∧ ∃ dev' next,
            send_list (w_sock w') = [dev']
            ∧ se_self dev' = se_self raw
            ∧ se_sender dev' = task
            ∧ se_n dev' = cc
            ∧ build_msghdr_send (w_sock w') dev' MAXSCATTERGATHER_SEND
              = Ok (next, region_length region - cc)
            ∧ msg_iov next = [region_length region - cc].
Proof.
  intros w region task action arg raw cc errno
    Hv Hm Htask Hact Htcp Hq Hr Hlen Hraw msghdr Hk Hcc.
  unfold isc_socket_send, isc_socket_sendto. run. rewrite Hv. run.
  rewrite bool_decide_eq_true_2 by exact Htask. run.
  replace (action =? 0) with false by (symmetry; now apply Z.eqb_neq).
  run. rewrite Hm. run.
  erewrite run_seq by (apply allocate_socketevent_run; exact Hraw).
  cbv beta iota.
  erewrite run_seq by (apply set_dev_address_run; reflexivity).
  unfold set_dev_pktinfo, send_now_or_queue. run.
  cbn [w_sock asked]. rewrite Hq, Hr. cbn [EMPTY negb].
  rewrite bool_decide_eq_false_2 by (intros H; now apply H).
  match goal with
  | |- context [(doio_send env ?d ≫= _) ?w1] =>
      pose proof (doio_send_written w1 d msghdr (region_length region) cc errno)
        as Hd
  end.
  cbn [w_sock w_clock asked] in Hd.
  rewrite (tcp_not_udp _ Htcp) in *.
  assert (Hb : build_msghdr_send (w_sock w)
                 (set_se_address (address (w_sock w))
                    (set_se_sender task
                       (set_se_region region
                          (init_socketevent (w_sock w) ISC_SOCKEVENT_SENDDONE
                             action arg raw))))
                 MAXSCATTERGATHER_SEND
               = Ok (msghdr, region_length region)).
  { rewrite build_msghdr_send_region by (exact Htcp || reflexivity).
    cbn [se_region se_n set_se_address set_se_sender set_se_region
         init_socketevent region_length].
    unfold uint. rewrite Z.sub_0_r, Z.mod_small by lia. reflexivity. }
  specialize (Hd Hb Hk (proj1 Hcc)).
  cbn [se_n set_se_n set_se_address set_se_sender set_se_region
       init_socketevent] in Hd.
  assert (Hu : uint cc = cc) by (unfold uint; apply Z.mod_small; lia).
  rewrite Z.add_0_l, !Hu in Hd.
  destruct (cc =? region_length region) eqn:Hfull;
    (erewrite run_seq by exact Hd).
  - apply Z.eqb_eq in Hfull. cbv beta iota. run.
    eexists. split; [reflexivity|].
    cbn [w_trace w_sock with_effects with_sock asked send_list set_send_list].
    rewrite Hq. cbn [unlink]. split; [|reflexivity].
    eexists _, _. split; [unfold extends; rewrite <- !app_assoc; reflexivity|].
    split; [apply handover_sent_to|].
    unfold senddone. cbn [w_sock asked]. rewrite Hr.
    rewrite bool_decide_eq_false_2 by (intros H; now apply H).
    cbn. auto.
  - apply Z.eqb_neq in Hfull. cbv beta iota. unfold send_queue. run.
    eexists. split; [reflexivity|].
    cbn [w_trace w_sock with_effects with_sock asked send_list set_send_list
         fd].
    rewrite Hq. cbn [app].
    split; [unfold extends; rewrite <- !app_assoc; reflexivity|].
    eexists _, _. split; [reflexivity|].
    cbn [se_self se_sender se_n or_attribute set_se_attributes set_se_n
         set_se_address set_se_sender set_se_region init_socketevent].
    split; [reflexivity|]. split; [reflexivity|]. split; [reflexivity|].
    rewrite build_msghdr_send_region; [|exact Htcp|reflexivity].
    cbn [se_region se_n or_attribute set_se_attributes set_se_n
         set_se_address set_se_sender set_se_region init_socketevent
         region_length msg_iov].
    unfold uint. rewrite Z.mod_small by lia. split; reflexivity.
Qed.

Lemma build_msghdr_send_ext s s' dev maxiov :
  sock_type s = sock_type s' →
  build_msghdr_send s dev maxiov = build_msghdr_send s' dev maxiov.
Proof. intros Ht. unfold build_msghdr_send, is_udp. now rewrite Ht. Qed.

(** The loop of [internal_send] when the kernel takes every write in
    full. *)
Lemma internal_send_loop_drains q : ∀ fuel w,
  send_list (w_sock w) = q →
  send_result (w_sock w) = ISC_R_SUCCESS →
  (∀ dev, dev ∈ q → se_type dev ≠ ISC_SOCKEVENT_SENDMARK →
     ∃ msghdr wc,
       build_msghdr_send (w_sock w) dev MAXSCATTERGATHER_SEND
         = Ok (msghdr, wc)
       ∧ 0 < wc
       ∧ ∀ t, (env_sendmsg env t (fd (w_sock w)) msghdr).1 = wc) →
  (length q ≤ fuel)%nat →
  ∃ w' t,
    internal_send_loop env fuel w = (Ok (), w')
    ∧ w_trace w' = w_trace w ++ t
    ∧ Forall2 (λ dev ev, completes dev ISC_R_SUCCESS ev) q (completions t)
    ∧ Forall (λ e, ∀ msg, e ≠ Poke msg) t
    ∧ w_sock w' = set_send_list [] (w_sock w).
Proof.
  induction q as [|dev q IH]; intros fuel w Hq Hr Hk Hf.
  - exists w, []. rewrite app_nil_r.
    split; [destruct fuel; cbn [internal_send_loop]; run; now rewrite Hq|].
    split; [reflexivity|]. split; [constructor|]. split; [constructor|].
    rewrite <- Hq. now destruct (w_sock w).
  - destruct fuel as [|fuel]; [cbn in Hf; lia|].
    assert (Hrest : ∀ w1,
      w_sock w1 = set_send_list q (w_sock w) →
      ∃ w' t,
        internal_send_loop env fuel w1 = (Ok (), w')
        ∧ w_trace w' = w_trace w1 ++ t
        ∧ Forall2 (λ dev ev, completes dev ISC_R_SUCCESS ev) q (completions t)
        ∧ Forall (λ e, ∀ msg, e ≠ Poke msg) t
        ∧ w_sock w' = set_send_list [] (w_sock w)).
    { intros w1 E1.
      destruct (IH fuel w1) as (w' & t & E & T & F & N & S).
      - now rewrite E1.
      - now rewrite E1.
      - intros d Hd Hm.
        destruct (Hk d (proj2 (elem_of_cons _ _ _) (or_intror Hd)) Hm)
          as (msghdr & wc & Hb & Hwc & Ht).
        exists msghdr, wc. rewrite E1. split; [|split; [exact Hwc|exact Ht]].
        rewrite <- Hb. now apply build_msghdr_send_ext.
      - cbn in Hf. lia.
      - exists w', t. repeat split; try assumption.
        rewrite S, E1. now destruct (w_sock w). }
    cbn [internal_send_loop]. run. rewrite Hq, Hr.
    destruct (bool_decide (se_type dev = ISC_SOCKEVENT_SENDMARK)) eqn:Hm.
    + run. rewrite Hq, unlink_head.
      match goal with
      | |- context [internal_send_loop env fuel ?w1] =>
          destruct (Hrest w1 eq_refl) as (w' & t & E & T & F & N & S)
      end.
      exists w'. eexists. split; [exact E|].
      cbn [w_trace with_effects with_sock] in T.
      split; [rewrite T, <- app_assoc; reflexivity|].
      split; [|split; [|exact S]].
      * cbn [app]. rewrite completions_cons, posted_handover.
        constructor; [|exact F]. now apply senddone_completes.
      * constructor; [|exact N]. intros msg. unfold handover.
        now destruct (_ =? _).
    + apply bool_decide_eq_false_1 in Hm.
      rewrite bool_decide_eq_false_2 by (intros H; now apply H).
      destruct (Hk dev (proj2 (elem_of_cons _ _ _) (or_introl eq_refl)) Hm)
        as (msghdr & wc & Hb & Hwc & Ht).
      destruct (env_sendmsg env (w_clock w) (fd (w_sock w)) msghdr)
        as [cc errno] eqn:Hcall.
      pose proof (Ht (w_clock w)) as Hcc. rewrite Hcall in Hcc.
      cbn [fst] in Hcc. subst cc.
      pose proof (doio_send_written w dev msghdr wc wc errno Hb Hcall Hwc)
        as Hd.
      cbv zeta in Hd. rewrite Z.eqb_refl in Hd.
      erewrite run_seq by exact Hd. cbv beta iota.
      rewrite Hq, unlink_head.
      match goal with
      | |- context [internal_send_loop env fuel ?w1] =>
          destruct (Hrest w1 eq_refl) as (w' & t & E & T & F & N & S)
      end.
      exists w'. eexists. split; [exact E|].
      cbn [w_trace with_effects with_sock asked] in T.
      split; [rewrite T, <- !app_assoc; reflexivity|].
      split; [|split; [|exact S]].
      * cbn [app]. rewrite completions_cons. cbn [posted].
        rewrite completions_cons, posted_handover.
        constructor; [|exact F]. now apply senddone_completes.
      * constructor; [discriminate|]. constructor; [|exact N].
        intros msg. unfold handover. now destruct (_ =? _).
Qed.

(** X4.  When the kernel takes every write in full, [internal_send] hands
    every queued request, markers included, to its task with
    ISC_R_SUCCESS, in queue order, and leaves the queue empty without a
    poke. *)
Theorem internal_send_drains_the_queue_when_writes_go_through :
  ∀ ev w,
  iev_type ev = ISC_SOCKEVENT_INTW →
  iev_sender ev = SockPtr (self (w_sock w)) →
  VALID_SOCKET (w_sock w) = true →
  pending_send (w_sock w) = true →
  1 < references (w_sock w) < 2 ^ 32 →
  send_result (w_sock w) = ISC_R_SUCCESS →
  (∀ dev, dev ∈ send_list (w_sock w) →
     se_type dev ≠ ISC_SOCKEVENT_SENDMARK →
     ∃ msghdr wc,
       build_msghdr_send (w_sock w) dev MAXSCATTERGATHER_SEND
         = Ok (msghdr, wc)
       ∧ 0 < wc
       ∧ ∀ t, (env_sendmsg env t (fd (w_sock w)) msghdr).1 = wc) →
  ∃ w' t,
    internal_send env ev w = (Ok (), w')
    ∧ extends (w_trace w) (w_trace w') t
    ∧ Forall2 (λ dev ev, completes dev ISC_R_SUCCESS ev)
        (send_list (w_sock w)) (completions t)
    ∧ Forall (λ e, ∀ msg, e ≠ Poke msg) t
    ∧ send_list (w_sock w') = []
    ∧ pending_send (w_sock w') = false
    ∧ references (w_sock w') = references (w_sock w) - 1.
Proof.
  intros ev w Ht Hs Hv Hp Href Hr Hk.
  rewrite (internal_send_enter ev w Ht Hs Hv Hp Href).
  match goal with
  | |- context [(_ ≫= _) ?w1] =>
      destruct (internal_send_loop_drains (send_list (w_sock w))
                  (length (send_list (w_sock w))) w1)
        as (w' & t & E & T & F & N & S)
  end.
  - reflexivity.
  - exact Hr.
  - intros dev Hd Hm. destruct (Hk dev Hd Hm) as (msghdr & wc & Hb & Hwc & Hc).
    exists msghdr, wc. split; [|split; [exact Hwc|exact Hc]].
    rewrite <- Hb. now apply build_msghdr_send_ext.
  - reflexivity.
  - erewrite run_seq by exact E. run. rewrite S.
    cbn [send_list set_send_list EMPTY negb].
    exists w', t. split; [reflexivity|]. split; [exact T|].
    split; [exact F|]. split; [exact N|].
    rewrite S. repeat split; reflexivity.
Qed.

(** X5.  A write that cannot go through now, at the head of the queue:
    sendmsg() fails with a soft errno, or with ECONNREFUSED, ENETUNREACH
    or EHOSTUNREACH on a socket that is not connected.  [internal_send]
    then leaves the whole queue as it was, tries nothing behind the head
    and pokes the watcher once. *)
Theorem soft_error_at_the_head_blocks_the_write_queue :
  ∀ ev w dev rest msghdr write_count cc errno,
  iev_type ev = ISC_SOCKEVENT_INTW →
  iev_sender ev = SockPtr (self (w_sock w)) →
  VALID_SOCKET (w_sock w) = true →
  pending_send (w_sock w) = true →
  1 < references (w_sock w) < 2 ^ 32 →
  send_list (w_sock w) = dev :: rest →
  send_result (w_sock w) = ISC_R_SUCCESS →
  se_type dev ≠ ISC_SOCKEVENT_SENDMARK →
  build_msghdr_send (w_sock w) dev MAXSCATTERGATHER_SEND
    = Ok (msghdr, write_count) →
  env_sendmsg env (w_clock w) (fd (w_sock w)) msghdr = (cc, errno) →
  cc < 0 →
  SOFT_ERROR errno = true
  ∨ (connected (w_sock w) = false ∧ errno ∈ SOFT_OR_HARD_errnos.*1) →
  ∃ w',
    internal_send env ev w = (Ok (), w')
    ∧ extends (w_trace w) (w_trace w')
        [Sendmsg (fd (w_sock w)) msghdr; Poke (fd (w_sock w))]
    ∧ send_list (w_sock w') = dev :: rest
    ∧ send_result (w_sock w') = ISC_R_SUCCESS
    ∧ pending_send (w_sock w') = false
    ∧ references (w_sock w') = references (w_sock w) - 1.
Proof.
  intros ev w dev rest msghdr write_count cc errno
    Ht Hs Hv Hp Href Hq Hr Hm Hb Hk Hcc Hsoft.
  rewrite (internal_send_enter ev w Ht Hs Hv Hp Href).
  set (w1 := with_sock _ w).
  assert (Hd : doio_send env dev w1
               = (Ok (DOIO_SOFT, dev),
                  asked (Sendmsg (fd (w_sock w)) msghdr) w1)).
  { assert (Hb1 : build_msghdr_send (w_sock w1) dev MAXSCATTERGATHER_SEND
                  = Ok (msghdr, write_count))
      by (rewrite <- Hb; now apply build_msghdr_send_ext).
    destruct Hsoft as [He|[Hc He]].
    - now apply (doio_send_soft w1 dev msghdr write_count cc errno).
    - apply list_elem_of_fmap in He as [[e code] [-> He]].
      now apply (doio_send_unreach_unconnected w1 dev msghdr write_count cc
                   e code). }
  assert (Hloop :
    internal_send_loop env (length (send_list (w_sock w))) w1
    = (Ok (),
       with_sock (set_send_list (dev :: rest) (w_sock w1))
         (asked (Sendmsg (fd (w_sock w)) msghdr) w1))).
  { rewrite Hq. cbn [length internal_send_loop]. run.
    subst w1. cbn [w_sock with_sock send_list send_result set_references
                   set_pending_send] in *.
    rewrite Hq, Hr.
    rewrite bool_decide_eq_false_2 by exact Hm.
    rewrite bool_decide_eq_false_2 by (intros H; now apply H).
    erewrite run_seq by exact Hd. cbv beta iota.
    unfold modify_sock.
    cbn [w_sock w_manager w_trace w_clock asked with_sock send_list
         set_references set_pending_send].
    rewrite Hq, (store_head dev dev rest eq_refl). reflexivity. }
  erewrite run_seq by exact Hloop. run.
  cbn [send_list set_send_list EMPTY negb]. rewrite select_poke_run.
  subst w1.
  eexists. split; [reflexivity|].
  cbn [w_trace w_sock with_effects with_sock asked send_list set_send_list
       send_result pending_send references set_references set_pending_send].
  split; [unfold extends; rewrite <- app_assoc; reflexivity|].
  repeat split; assumption || reflexivity.
Qed.

(** ** Markers *)

(** X6.  A marker posted on an empty queue is handed over at once, carrying
    the sticky result of its direction.  The call has not stored the
    task in the event by then, so the event goes to the pointer that
    isc_event_allocate() left in its sender field, which is the socket.
    Behind other requests the marker is queued at the tail for the task,
    with a task reference taken and its attributes as allocated. *)
Theorem marker_is_handed_over_or_queued :
  ∀ w task action arg raw,
  VALID_SOCKET (w_sock w) = true →
  VALID_MANAGER (w_manager w) = true →
  task ≠ NULL → action ≠ 0 →
  env_socketevent env (w_clock w) = Some raw →
  (match recv_list (w_sock w) with
   | [] =>
       ∃ w' e ev,
         isc_socket_recvmark env task action arg w = (Ok ISC_R_SUCCESS, w')
         ∧ extends (w_trace w) (w_trace w')
             [EventAllocate ISC_SOCKEVENT_RECVMARK; e]
         ∧ sent_to (SockPtr (self (w_sock w))) (SocketEvent ev) e
         ∧ se_self ev = se_self raw
         ∧ se_type ev = ISC_SOCKEVENT_RECVMARK
         ∧ se_result ev = recv_result (w_sock w)
         ∧ w_sock w' = w_sock w
   | _ =>
       ∃ w' dev',
         isc_socket_recvmark env task action arg w = (Ok ISC_R_SUCCESS, w')
         ∧ extends (w_trace w) (w_trace w')
             [EventAllocate ISC_SOCKEVENT_RECVMARK; TaskAttach task]
         ∧ w_sock w' = set_recv_list (recv_list (w_sock w) ++ [dev']) (w_sock w)
         ∧ se_self dev' = se_self raw
         ∧ se_type dev' = ISC_SOCKEVENT_RECVMARK
         ∧ se_sender dev' = task
         ∧ se_attributes dev' = se_attributes raw
   end)
  ∧
  (match send_list (w_sock w) with
   | [] =>
       ∃ w' e ev,
         isc_socket_sendmark env task action arg w = (Ok ISC_R_SUCCESS, w')
         ∧ extends (w_trace w) (w_trace w')
             [EventAllocate ISC_SOCKEVENT_SENDMARK; e]
         ∧ sent_to (SockPtr (self (w_sock w))) (SocketEvent ev) e
         ∧ se_self ev = se_self raw
         ∧ se_type ev = ISC_SOCKEVENT_SENDMARK
         ∧ se_result ev = send_result (w_sock w)
         ∧ w_sock w' = w_sock w
   | _ =>
       ∃ w' dev',
         isc_socket_sendmark env task action arg w = (Ok ISC_R_SUCCESS, w')
         ∧ extends (w_trace w) (w_trace w')
             [EventAllocate ISC_SOCKEVENT_SENDMARK; TaskAttach task]
         ∧ w_sock w' = set_send_list (send_list (w_sock w) ++ [dev']) (w_sock w)
         ∧ se_self dev' = se_self raw
         ∧ se_type dev' = ISC_SOCKEVENT_SENDMARK
         ∧ se_sender dev' = task
         ∧ se_attributes dev' = se_attributes raw
   end).
Proof.
  intros w task action arg raw Hv Hm Htask Hact Hraw.
  split.
  - unfold isc_socket_recvmark. run. rewrite Hv. run.
    rewrite bool_decide_eq_true_2 by exact Htask. run.
    replace (action =? 0) with false by (symmetry; now apply Z.eqb_neq).
    run. rewrite Hm. run.
    erewrite run_seq by (apply allocate_socketevent_run; exact Hraw).
    cbv beta iota.
    destruct (recv_list (w_sock w)) as [|head q] eqn:Hq; cbn [EMPTY].
    + run. cbn [w_sock asked]. rewrite Hq. cbn [unlink].
      eexists _, _, _. split; [reflexivity|].
      cbn [w_trace w_sock with_effects with_sock asked].
      split; [unfold extends; rewrite <- app_assoc; reflexivity|].
      split; [apply handover_sent_to|].
      unfold recvdone. cbn [w_sock asked].
      split; [now destruct (bool_decide _)|].
      split; [now destruct (bool_decide _)|].
      split; [now destruct (bool_decide _)|].
      rewrite <- Hq. now destruct (w_sock w).
    + run. eexists _, _. split; [reflexivity|].
      cbn [w_trace w_sock with_effects with_sock asked].
      split; [unfold extends; rewrite <- app_assoc; reflexivity|].
      rewrite Hq. repeat split; reflexivity.
  - unfold isc_socket_sendmark. run. rewrite Hv. run.
    rewrite bool_decide_eq_true_2 by exact Htask. run.
    replace (action =? 0) with false by (symmetry; now apply Z.eqb_neq).
    run. rewrite Hm. run.
    erewrite run_seq by (apply allocate_socketevent_run; exact Hraw).
    cbv beta iota.
    destruct (send_list (w_sock w)) as [|head q] eqn:Hq; cbn [EMPTY].
    + run. cbn [w_sock asked]. rewrite Hq. cbn [unlink].
      eexists _, _, _. split; [reflexivity|].
      cbn [w_trace w_sock with_effects with_sock asked].
      split; [unfold extends; rewrite <- app_assoc; reflexivity|].
      split; [apply handover_sent_to|].
      unfold senddone. cbn [w_sock asked].
      split; [now destruct (bool_decide _)|].
      split; [now destruct (bool_decide _)|].
      split; [now destruct (bool_decide _)|].
      rewrite <- Hq. now destruct (w_sock w).
    + run. eexists _, _. split; [reflexivity|].
      cbn [w_trace w_sock with_effects with_sock asked].
      split; [unfold extends; rewrite <- app_assoc; reflexivity|].
      rewrite Hq. repeat split; reflexivity.
Qed.

(** ** References *)

(** X7.  [isc_socket_attach] followed by [isc_socket_detach] leaves the socket,
    the manager and the trace as they were.  At the largest value of the
    counter the attach wraps it to zero and the detach stops at
    REQUIRE(sock->references > 0). *)
Theorem attach_then_detach_changes_nothing :
  ∀ w,
  VALID_SOCKET (w_sock w) = true →
  0 < references (w_sock w) < 2 ^ 32 →
  (isc_socket_attach (Some NULL);; isc_socket_detach) w
  = if references (w_sock w) =? 2 ^ 32 - 1
    then (AssertionFailed, with_sock (set_references 0 (w_sock w)) w)
    else (Ok NULL, w).
Proof.
  intros w Hv Hr. unfold isc_socket_attach, isc_socket_detach.
  run. rewrite Hv. run.
  change (VALID_SOCKET (set_references ?r (w_sock w)))
    with (VALID_SOCKET (w_sock w)).
  rewrite Hv. run. cbn [references set_references].
  destruct (references (w_sock w) =? 2 ^ 32 - 1) eqn:Hmax.
  - apply Z.eqb_eq in Hmax. rewrite Hmax. reflexivity.
  - apply Z.eqb_neq in Hmax.
    unfold uint. rewrite (Z.mod_small (references (w_sock w) + 1)) by lia.
    replace (0 <? references (w_sock w) + 1) with true
      by (symmetry; apply Z.ltb_lt; lia).
    run. cbn [references set_references].
    replace (references (w_sock w) + 1 - 1) with (references (w_sock w)) by lia.
    rewrite Z.mod_small by lia.
    replace (references (w_sock w) =? 0) with false
      by (symmetry; apply Z.eqb_neq; lia).
    run. destruct w as [s m t c]. destruct s. reflexivity.
Qed.

(** [destroy] on a socket with no reference, nothing queued and nothing
    pending. *)
Lemma destroy_run w :
  references (w_sock w) = 0 → VALID_SOCKET (w_sock w) = true →
  connecting (w_sock w) = false → pending_recv (w_sock w) = false →
  pending_send (w_sock w) = false → pending_accept (w_sock w) = false →
  recv_list (w_sock w) = [] → send_list (w_sock w) = [] →
  accept_list (w_sock w) = [] → connect_ev (w_sock w) = None →
  destroy w
  = (Ok (),
     {| w_sock := set_magic 0 (w_sock w);
        w_manager :=
          set_nsockets (uint (nsockets (w_manager w) - 1))
            (set_fdstate
               (<[fd (w_sock w) := CLOSE_PENDING]> (fdstate (w_manager w)))
               (set_fds (delete (fd (w_sock w)) (fds (w_manager w)))
                  (w_manager w)));
        w_trace :=
          w_trace w
          ++ Poke (fd (w_sock w))
             :: (if uint (nsockets (w_manager w) - 1) =? 0 then [Signal]
                 else [])
             ++ [MutexDestroy (self (w_sock w)); MemPut (self (w_sock w))];
        w_clock := w_clock w |}).
Proof.
  intros Hr Hv Hc Hpr Hps Hpa Hrl Hsl Hal Hce. unfold destroy. run.
  rewrite Hal, Hrl, Hsl. cbn [EMPTY]. run.
  rewrite bool_decide_eq_true_2 by exact Hce. run.
  rewrite !run_modify_manager. cbn [w_sock w_manager w_trace w_clock].
  rewrite run_poke, run_modify_manager, run_get_manager.
  cbn [w_sock w_manager w_trace w_clock with_effects nsockets set_nsockets
       set_fdstate set_fds].
  destruct (uint (nsockets (w_manager w) - 1) =? 0); run;
    (erewrite run_seq by (now apply free_socket_run));
    unfold modify_sock;
    cbn [w_sock w_manager w_trace w_clock with_effects];
    rewrite <- ?app_assoc; reflexivity.
Qed.

(** X8.  The last [isc_socket_detach] of a socket at rest destroys it: the
    descriptor leaves the manager's table and is marked CLOSE_PENDING,
    the watcher is poked, the socket count goes down (with a signal when
    it reaches zero) and the object is released.  The watcher, reading
    that poke, closes the descriptor and stops watching it. *)
Theorem last_detach_closes_the_socket :
  ∀ w heap,
  VALID_SOCKET (w_sock w) = true →
  references (w_sock w) = 1 →
  connecting (w_sock w) = false → pending_recv (w_sock w) = false →
  pending_send (w_sock w) = false → pending_accept (w_sock w) = false →
  recv_list (w_sock w) = [] → send_list (w_sock w) = [] →
  accept_list (w_sock w) = [] → connect_ev (w_sock w) = None →
  0 ≤ fd (w_sock w) < FD_SETSIZE →
  ∃ w',
    isc_socket_detach w = (Ok NULL, w')
    ∧ extends (w_trace w) (w_trace w')
        (Poke (fd (w_sock w))
         :: (if uint (nsockets (w_manager w) - 1) =? 0 then [Signal] else [])
         ++ [MutexDestroy (self (w_sock w)); MemPut (self (w_sock w))])
    ∧ VALID_SOCKET (w_sock w') = false
    ∧ fds (w_manager w') !! fd (w_sock w) = None
    ∧ fdstate_at (w_manager w') (fd (w_sock w)) = CLOSE_PENDING
    ∧ nsockets (w_manager w') = uint (nsockets (w_manager w) - 1)
    ∧ ∃ manager',
        watcher_wakeup heap (fd (w_sock w)) (w_manager w')
          = Ok (manager', [Close (fd (w_sock w))])
        ∧ fdstate_at manager' (fd (w_sock w)) = CLOSED
        ∧ FD_ISSET (fd (w_sock w)) (read_fds manager') = false
        ∧ FD_ISSET (fd (w_sock w)) (write_fds manager') = false.
Proof.
  intros w heap Hv Hr Hc Hpr Hps Hpa Hrl Hsl Hal Hce Hfd.
  unfold isc_socket_detach. run. rewrite Hv, Hr. run.
  cbn [references set_references]. rewrite ?Hr.
  change (uint (1 - 1) =? 0) with true. cbv beta iota.
  erewrite run_seq by (now apply destroy_run).
  eexists. split; [reflexivity|].
  cbn [w_sock w_manager w_trace with_sock fd self set_references nsockets
       set_nsockets fds set_fds fdstate set_fdstate magic set_magic].
  split; [reflexivity|]. split; [reflexivity|].
  split; [apply lookup_delete_eq|].
  unfold fdstate_at.
  cbn [fdstate set_nsockets set_fdstate set_fds].
  split; [now rewrite lookup_insert_eq|]. split; [reflexivity|].
  unfold watcher_wakeup, fdstate_at.
  replace (fd (w_sock w) <? FD_SETSIZE) with true
    by (symmetry; apply Z.ltb_lt; lia).
  cbn [negb fdstate set_nsockets set_fdstate set_fds].
  rewrite lookup_insert_eq. cbn [default Z.eqb CLOSE_PENDING Pos.eqb].
  eexists. split; [reflexivity|].
  cbn [fdstate read_fds write_fds set_fdstate set_read_fds set_write_fds].
  rewrite lookup_insert_eq, !FD_ISSET_FD_CLR.
  rewrite bool_decide_eq_true_2 by reflexivity. auto.
Qed.

(** X9.  The last [isc_socket_detach] of a socket that still has a request
    queued or a connect outstanding stops at an assertion of [destroy],
    with the reference count already at zero. *)
Theorem last_detach_with_requests_queued_stops :
  ∀ w,
  VALID_SOCKET (w_sock w) = true →
  references (w_sock w) = 1 →
  recv_list (w_sock w) ≠ [] ∨ send_list (w_sock w) ≠ []
  ∨ accept_list (w_sock w) ≠ [] ∨ connect_ev (w_sock w) ≠ None →
  isc_socket_detach w
  = (AssertionFailed, with_sock (set_references 0 (w_sock w)) w).
Proof.
  intros w Hv Hr Hbusy. unfold isc_socket_detach. run. rewrite Hv, Hr. run.
  cbn [references set_references]. rewrite ?Hr.
  change (uint (1 - 1)) with 0. cbn [Z.eqb]. unfold destroy. run.
  cbn [accept_list recv_list send_list connect_ev set_references].
  destruct (accept_list (w_sock w)); [|reflexivity].
  destruct (recv_list (w_sock w)); [|reflexivity].
  destruct (send_list (w_sock w)); [|reflexivity].
  cbn [EMPTY]. run.
  destruct (connect_ev (w_sock w)); [reflexivity|].
  destruct Hbusy as [H|[H|[H|H]]]; now contradict H.
Qed.

(** ** Cancelling by task *)

Lemma unlink_app_notin a (kept l : list isc_socketevent_t) dev :
  se_self dev = a → a ∉ map se_self kept →
  unlink a (kept ++ dev :: l) = kept ++ l.
Proof.
  intros Ha. induction kept as [|e kept IH]; cbn [app unlink map]; intros Hn.
  - now rewrite bool_decide_eq_true_2.
  - apply not_elem_of_cons in Hn as [Hne Hn].
    rewrite bool_decide_eq_false_2 by congruence. now rewrite IH.
Qed.

Lemma recvdone_ext s s' dev r :
  self s = self s' → recv_result s = recv_result s' →
  recvdone s dev r = recvdone s' dev r.
Proof. intros Hs Hr. unfold recvdone. now rewrite Hs, Hr. Qed.

Lemma senddone_ext s s' dev r :
  self s = self s' → send_result s = send_result s' →
  senddone s dev r = senddone s' dev r.
Proof. intros Hs Hr. unfold senddone. now rewrite Hs, Hr. Qed.

(** The read loop of [isc_socket_cancel], started anywhere in the queue:
    the requests of the task leave the queue in order, the others stay
    where they are. *)
Lemma cancel_recv_filter task : ∀ l kept w,
  recv_list (w_sock w) = kept ++ l →
  NoDup (map se_self (kept ++ l)) →
  cancel_recv task l w
  = (Ok (),
     with_effects
       (map (λ dev, handover (se_sender dev)
                      (recvdone (w_sock w) dev ISC_R_CANCELED))
          (filter (λ dev, cancels_task task (se_sender dev) = true) l))
       (with_sock
          (set_recv_list
             (kept ++ filter (λ dev, cancels_task task (se_sender dev) = false) l)
             (w_sock w)) w)).
Proof.
  induction l as [|dev l IH]; intros kept w Hq Hnd; cbn [cancel_recv].
  - rewrite !filter_nil. cbn [map]. rewrite <- Hq.
    destruct w as [s m t c]; destruct s.
    unfold with_effects, with_sock; cbn. now rewrite app_nil_r.
  - fold (cancels_task task (se_sender dev)).
    rewrite !filter_cons.
    destruct (cancels_task task (se_sender dev)) eqn:Hsel.
    + rewrite decide_True by reflexivity.
      rewrite decide_False by discriminate.
      run. rewrite Hq.
      rewrite unlink_app_notin; [|reflexivity|].
      2:{ rewrite map_app in Hnd. cbn [map] in Hnd.
          apply NoDup_app in Hnd as (_ & Hnd & _).
          intros Hin. apply (Hnd _ Hin). left. }
      rewrite (IH kept); cycle 1.
      { reflexivity. }
      { rewrite map_app in *. cbn [map] in Hnd.
        apply NoDup_app in Hnd as (H1 & H2 & H3).
        apply NoDup_app. split; [exact H1|]. split.
        - intros x Hx Hx'. apply (H2 x Hx). now right.
        - now apply NoDup_cons in H3 as [_ H3]. }
      cbn [w_sock with_effects with_sock map].
      erewrite (map_ext (λ dev0, handover (se_sender dev0)
                           (recvdone (set_recv_list _ _) dev0 _)));
        [|intros d; now rewrite (recvdone_ext _ (w_sock w))].
      destruct w as [s m t c]; destruct s.
      unfold with_effects, with_sock; cbn. now rewrite <- app_assoc.
    + rewrite decide_False by discriminate.
      rewrite decide_True by reflexivity.
      run.
      rewrite (IH (kept ++ [dev])); cycle 1.
      { now rewrite <- app_assoc. }
      { now rewrite <- app_assoc. }
      now rewrite <- app_assoc.
Qed.

Lemma cancel_send_filter task : ∀ l kept w,
  send_list (w_sock w) = kept ++ l →
  NoDup (map se_self (kept ++ l)) →
  cancel_send task l w
  = (Ok (),
     with_effects
       (map (λ dev, handover (se_sender dev)
                      (senddone (w_sock w) dev ISC_R_CANCELED))
          (filter (λ dev, cancels_task task (se_sender dev) = true) l))
       (with_sock
          (set_send_list
             (kept ++ filter (λ dev, cancels_task task (se_sender dev) = false) l)
             (w_sock w)) w)).
Proof.
  induction l as [|dev l IH]; intros kept w Hq Hnd; cbn [cancel_send].
  - rewrite !filter_nil. cbn [map]. rewrite <- Hq.
    destruct w as [s m t c]; destruct s.
    unfold with_effects, with_sock; cbn. now rewrite app_nil_r.
  - fold (cancels_task task (se_sender dev)).
    rewrite !filter_cons.
    destruct (cancels_task task (se_sender dev)) eqn:Hsel.
    + rewrite decide_True by reflexivity.
      rewrite decide_False by discriminate.
      run. rewrite Hq.
      rewrite unlink_app_notin; [|reflexivity|].
      2:{ rewrite map_app in Hnd. cbn [map] in Hnd.
          apply NoDup_app in Hnd as (_ & Hnd & _).
          intros Hin. apply (Hnd _ Hin). left. }
      rewrite (IH kept); cycle 1.
      { reflexivity. }
      { rewrite map_app in *. cbn [map] in Hnd.
        apply NoDup_app in Hnd as (H1 & H2 & H3).
        apply NoDup_app. split; [exact H1|]. split.
        - intros x Hx Hx'. apply (H2 x Hx). now right.
        - now apply NoDup_cons in H3 as [_ H3]. }
      cbn [w_sock with_effects with_sock map].
      erewrite (map_ext (λ dev0, handover (se_sender dev0)
                           (senddone (set_send_list _ _) dev0 _)));
        [|intros d; now rewrite (senddone_ext _ (w_sock w))].
      destruct w as [s m t c]; destruct s.
      unfold with_effects, with_sock; cbn. now rewrite <- app_assoc.
    + rewrite decide_False by discriminate.
      rewrite decide_True by reflexivity.
      run.
      rewrite (IH (kept ++ [dev])); cycle 1.
      { now rewrite <- app_assoc. }
      { now rewrite <- app_assoc. }
      now rewrite <- app_assoc.
Qed.

(** X10.  [isc_socket_cancel] on the read and write queues.  From each queue
    the mask selects, the requests of the task (all requests, for the
    null task) are handed to their tasks with ISC_R_CANCELED, in queue
    order, reads before writes; the requests of other tasks stay queued
    in their order, a queue the mask does not select is not touched, and
    the watcher is poked last. *)
Theorem cancel_takes_the_requests_of_the_task_and_keeps_the_rest :
  ∀ w task how,
  VALID_SOCKET (w_sock w) = true →
  how ≠ 0 →
  Z.land how ISC_SOCKCANCEL_ACCEPT ≠ ISC_SOCKCANCEL_ACCEPT →
  cancels_connect how = false →
  NoDup (map se_self (recv_list (w_sock w))) →
  NoDup (map se_self (send_list (w_sock w))) →
  let mine := λ dev, cancels_task task (se_sender dev) = true in
  let others := λ dev, cancels_task task (se_sender dev) = false in
  let reads := Z.land how ISC_SOCKCANCEL_RECV =? ISC_SOCKCANCEL_RECV in
  let writes := Z.land how ISC_SOCKCANCEL_SEND =? ISC_SOCKCANCEL_SEND in
  ∃ w',
    isc_socket_cancel task how w = (Ok (), w')
    ∧ recv_list (w_sock w')
      = (if reads then filter others (recv_list (w_sock w))
         else recv_list (w_sock w))
    ∧ send_list (w_sock w')
      = (if writes then filter others (send_list (w_sock w))
         else send_list (w_sock w))
    ∧ extends (w_trace w) (w_trace w')
        ((if reads
          then map (λ dev, handover (se_sender dev)
                             (recvdone (w_sock w) dev ISC_R_CANCELED))
                 (filter mine (recv_list (w_sock w)))
          else [])
         ++ (if writes
             then map (λ dev, handover (se_sender dev)
                                (senddone (w_sock w) dev ISC_R_CANCELED))
                    (filter mine (send_list (w_sock w)))
             else [])
         ++ [Poke (fd (w_sock w))]).
Proof.
  intros w task how Hv Hhow Hacc Hconn Hnr Hns mine others reads writes.
  unfold isc_socket_cancel. run. rewrite Hv. run.
  replace (how =? 0) with false by (symmetry; now apply Z.eqb_neq).
  (* the read queue *)
  assert (E1 :
    (if reads && negb (EMPTY (recv_list (w_sock w)))
     then cancel_recv task (recv_list (w_sock w)) else mret ()) w
    = (Ok (),
       with_effects
         (if reads
          then map (λ dev, handover (se_sender dev)
                             (recvdone (w_sock w) dev ISC_R_CANCELED))
                 (filter mine (recv_list (w_sock w)))
          else [])
         (with_sock
            (set_recv_list
               (if reads then filter others (recv_list (w_sock w))
                else recv_list (w_sock w)) (w_sock w)) w))).
  { destruct reads; cbn [andb].
    - destruct (recv_list (w_sock w)) as [|d q] eqn:Hq; cbn [EMPTY negb].
      + rewrite !filter_nil. cbn [map].
        destruct w as [s m t c]; destruct s; cbn in *; subst.
        unfold with_effects, with_sock; cbn. now rewrite app_nil_r.
      + rewrite <- Hq. apply (cancel_recv_filter task _ []); [reflexivity|].
        cbn [app]. now rewrite Hq.
    - destruct w as [s m t c]; destruct s.
      unfold with_effects, with_sock; cbn. now rewrite app_nil_r. }
  fold reads. erewrite run_seq by exact E1. run.
  cbn [send_list set_recv_list].
  (* the write queue *)
  match goal with
  | |- context [(_ ≫= _) ?w0] => set (w1 := w0)
  end.
  assert (E2 :
    (if writes && negb (EMPTY (send_list (w_sock w)))
     then cancel_send task (send_list (w_sock w)) else mret ()) w1
    = (Ok (),
       with_effects
         (if writes
          then map (λ dev, handover (se_sender dev)
                             (senddone (w_sock w) dev ISC_R_CANCELED))
                 (filter mine (send_list (w_sock w)))
          else [])
         (with_sock
            (set_send_list
               (if writes then filter others (send_list (w_sock w))
                else send_list (w_sock w)) (w_sock w1)) w1))).
  { destruct writes; cbn [andb].
    - destruct (send_list (w_sock w)) as [|d q] eqn:Hq; cbn [EMPTY negb].
      + rewrite !filter_nil. cbn [map]. subst w1.
        destruct w as [s m t c]; destruct s; cbn [w_sock send_list] in Hq.
        subst. unfold with_effects, with_sock;
          cbn [w_sock w_manager w_trace w_clock set_send_list set_recv_list
               self magic sock_type references fd recv_result send_result
               send_list recv_list accept_list connect_ev readable_ev
               writable_ev address pending_recv pending_send pending_accept
               listener connected connecting mret io_ret].
        now rewrite app_nil_r.
      + rewrite <- Hq.
        rewrite (cancel_send_filter task _ [] w1);
          [|subst w1; reflexivity|subst w1; cbn [app]; now rewrite Hq].
        cbn [app].
        erewrite map_ext; [reflexivity|].
        intros d'. cbv beta. subst w1. now rewrite (senddone_ext _ (w_sock w)).
    - subst w1. destruct w as [s m t c]; destruct s.
      unfold with_effects, with_sock;
        cbn [w_sock w_manager w_trace w_clock set_send_list set_recv_list
             self magic sock_type references fd recv_result send_result
             send_list recv_list accept_list connect_ev readable_ev
             writable_ev address pending_recv pending_send pending_accept
             listener connected connecting mret io_ret].
      now rewrite app_nil_r. }
  fold writes. erewrite run_seq by exact E2. run.
  cbn [accept_list set_send_list set_recv_list connect_ev fd].
  assert (Ha : (Z.land how ISC_SOCKCANCEL_ACCEPT =? ISC_SOCKCANCEL_ACCEPT)
               = false) by now apply Z.eqb_neq.
  rewrite Ha. cbn [andb]. run.
  unfold cancels_connect in Hconn.
  cbn [connect_ev set_send_list set_recv_list]. rewrite Hconn. run.
  cbn [fd set_send_list set_recv_list]. rewrite select_poke_run.
  eexists. split; [reflexivity|]. subst w1.
  cbn [w_trace w_sock with_effects with_sock recv_list send_list
       set_send_list set_recv_list].
  split; [reflexivity|]. split; [reflexivity|].
  unfold extends. rewrite <- !app_assoc. reflexivity.
Qed.

(** ** Connecting, the other outcomes *)

(** X11.  [isc_socket_connect] when connect() does not fail for good.  A
    return of zero marks the socket connected and sends the connect event
    with ISC_R_SUCCESS at once.  A soft errno or EINPROGRESS queues the
    event for the task: [connecting] is set, the event takes the connect
    slot, a task reference is taken and, the slot having been free, the
    watcher is poked; [connected] is left as it was. *)
Theorem connect_succeeding_at_once_or_in_progress :
  ∀ w addr task action arg raw cc errno,
  VALID_SOCKET (w_sock w) = true →
  VALID_MANAGER (w_manager w) = true →
  task ≠ NULL → action ≠ 0 →
  connecting (w_sock w) = false →
  connect_ev (w_sock w) = None →
  env_connev env (w_clock w) = Some raw →
  env_connect env (S (w_clock w)) (fd (w_sock w)) addr = (cc, errno) →
  (cc = 0 →
   ∃ w' ev,
     isc_socket_connect env (Some addr) task action arg w
       = (Ok ISC_R_SUCCESS, w')
     ∧ extends (w_trace w) (w_trace w')
         [EventAllocate ISC_SOCKEVENT_CONNECT; Connect (fd (w_sock w)) addr;
          TaskSend task (ConnEvent ev)]
     ∧ ce_self ev = ce_self raw ∧ ce_result ev = ISC_R_SUCCESS
     ∧ ce_sender ev = SockPtr (self (w_sock w))
     ∧ connected (w_sock w') = true
     ∧ connecting (w_sock w') = false ∧ connect_ev (w_sock w') = None
     ∧ address (w_sock w') = addr)
  ∧ (cc < 0 → SOFT_ERROR errno = true ∨ errno = EINPROGRESS →
     ∃ w' ev,
       isc_socket_connect env (Some addr) task action arg w
         = (Ok ISC_R_SUCCESS, w')
       ∧ extends (w_trace w) (w_trace w')
           [EventAllocate ISC_SOCKEVENT_CONNECT; Connect (fd (w_sock w)) addr;
            TaskAttach task; Poke (fd (w_sock w))]
       ∧ connecting (w_sock w') = true
       ∧ connect_ev (w_sock w') = Some ev
       ∧ ce_self ev = ce_self raw ∧ ce_sender ev = task
       ∧ ce_action ev = action ∧ ce_arg ev = arg
       ∧ connected (w_sock w') = connected (w_sock w)
       ∧ address (w_sock w') = addr).
Proof.
  intros w addr task action arg raw cc errno
    Hv Hm Htask Hact Hc Hce Hraw Hk.
  unfold isc_socket_connect. run. rewrite Hv. run.
  rewrite bool_decide_eq_true_2 by exact Htask. run.
  replace (action =? 0) with false by (symmetry; now apply Z.eqb_neq).
  cbn [negb]. run. rewrite Hm. run. rewrite Hc. cbn [negb]. run.
  rewrite Hraw. run. cbn [fd set_address]. rewrite Hk.
  split.
  - intros ->. cbn [Z.ltb Z.compare Z.eqb]. run.
    eexists _, _. split; [reflexivity|].
    cbn [w_trace w_sock with_effects with_sock asked].
    split; [unfold extends; rewrite <- !app_assoc; reflexivity|].
    cbn. rewrite Hc, Hce. auto 10.
  - intros Hcc Hsoft.
    replace (cc <? 0) with true by (symmetry; now apply Z.ltb_lt).
    replace (SOFT_ERROR errno || (errno =? EINPROGRESS)) with true
      by (symmetry; destruct Hsoft as [->| ->]; [reflexivity|];
          apply orb_true_r).
    unfold connect_queue. run. cbn [connect_ev set_connecting set_address].
    rewrite Hce. rewrite bool_decide_eq_true_2 by reflexivity. run.
    eexists _, _. split; [reflexivity|].
    cbn [w_trace w_sock with_effects with_sock asked fd set_connecting
         set_address].
    split; [unfold extends; rewrite <- !app_assoc; reflexivity|].
    cbn. auto 10.
Qed.

(** X12.  [internal_connect] on a socket that is connecting.  SO_ERROR tells
    the outcome: zero hands the connect event to its task with
    ISC_R_SUCCESS; a soft errno or EINPROGRESS puts [connecting] back,
    keeps the event and pokes the watcher; any other errno hands the
    event over with the code it maps to.  The event goes out with
    isc_task_sendanddetach() and the socket as its sender.  In no case
    is [connected] written. *)
Theorem internal_connect_reports_the_outcome :
  ∀ ev w dev ret optval errno,
  iev_type ev = ISC_SOCKEVENT_INTW →
  iev_sender ev = SockPtr (self (w_sock w)) →
  VALID_SOCKET (w_sock w) = true →
  1 < references (w_sock w) < 2 ^ 32 →
  connect_ev (w_sock w) = Some dev →
  connecting (w_sock w) = true →
  env_getsockopt env (w_clock w) (fd (w_sock w)) = (ret, optval, errno) →
  let e := if ret <? 0 then errno else optval in
  let code :=
    if e =? 0 then ISC_R_SUCCESS
    else if e =? ETIMEDOUT then ISC_R_TIMEDOUT
    else if e =? ECONNREFUSED then ISC_R_CONNREFUSED
    else if e =? ENETUNREACH then ISC_R_NETUNREACH
    else ISC_R_UNEXPECTED in
  let unexpected :=
    negb (e =? 0) && negb (e =? ETIMEDOUT) && negb (e =? ECONNREFUSED)
    && negb (e =? ENETUNREACH) in
  ∃ w',
    internal_connect env ev w = (Ok (), w')
    ∧ connected (w_sock w') = connected (w_sock w)
    ∧ references (w_sock w') = references (w_sock w) - 1
    ∧ if negb (e =? 0) && (SOFT_ERROR e || (e =? EINPROGRESS)) then
        extends (w_trace w) (w_trace w')
          [Getsockopt (fd (w_sock w)); Poke (fd (w_sock w))]
        ∧ connecting (w_sock w') = true
        ∧ connect_ev (w_sock w') = Some dev
      else
        extends (w_trace w) (w_trace w')
          (Getsockopt (fd (w_sock w))
           :: (if unexpected then [UnexpectedError] else [])
           ++ [TaskSendAndDetach (ce_sender dev)
                 (ConnEvent
                    (set_ce_sender (SockPtr (self (w_sock w)))
                       (set_ce_result code dev)))])
        ∧ connecting (w_sock w') = false
        ∧ connect_ev (w_sock w') = None.
Proof.
  intros ev w dev ret optval errno Ht Hs Hv Hr Hce Hc Hk e code unexpected.
  unfold internal_connect.
  rewrite bool_decide_eq_true_2 by exact Ht. run.
  rewrite bool_decide_eq_true_2 by exact Hs. run. rewrite Hv. run.
  replace (0 <? references (w_sock w)) with true
    by (symmetry; apply Z.ltb_lt; lia).
  run. cbn [references set_references connect_ev connecting fd].
  unfold uint. rewrite Z.mod_small by lia.
  replace (references (w_sock w) - 1 =? 0) with false
    by (symmetry; apply Z.eqb_neq; lia).
  rewrite Hce, Hc. run. rewrite Hk. fold e.
  destruct (negb (e =? 0) && (SOFT_ERROR e || (e =? EINPROGRESS))) eqn:Hsoft.
  - run. rewrite select_poke_run. eexists. split; [reflexivity|].
    cbn [w_trace w_sock with_effects with_sock asked connected connecting
         connect_ev references set_connecting set_references].
    split; [reflexivity|]. split; [reflexivity|].
    split; [unfold extends; rewrite <- !app_assoc; reflexivity|].
    split; [reflexivity|exact Hce].
  - subst code unexpected.
    destruct (e =? 0) eqn:H0; cbn [negb andb].
    + run. eexists. split; [reflexivity|].
      cbn [w_trace w_sock with_effects with_sock asked connected connecting
           connect_ev references set_connecting set_references set_connect_ev
           ce_sender set_ce_result self app].
      split; [reflexivity|]. split; [reflexivity|].
      split; [unfold extends; rewrite <- !app_assoc; reflexivity|].
      split; reflexivity.
    + destruct (e =? ETIMEDOUT) eqn:H1; [|destruct (e =? ECONNREFUSED) eqn:H2;
        [|destruct (e =? ENETUNREACH) eqn:H3]];
      cbn [negb andb]; run;
      (eexists; split; [reflexivity|]);
      cbn [w_trace w_sock with_effects with_sock asked connected connecting
           connect_ev references set_connecting set_references set_connect_ev
           ce_sender set_ce_result self app];
      (split; [reflexivity|]); (split; [reflexivity|]);
      (split; [unfold extends; rewrite <- !app_assoc; reflexivity|]);
      split; reflexivity.
Qed.

(** ** Out of memory *)

(** X13.  When isc_event_allocate() has no memory, every call that posts a
    request returns ISC_R_NOMEMORY and has done nothing but ask for the
    event: socket, manager and queues are as they were. *)
Theorem out_of_memory_leaves_the_socket_alone :
  ∀ w task action arg,
  VALID_SOCKET (w_sock w) = true →
  VALID_MANAGER (w_manager w) = true →
  task ≠ NULL → action ≠ 0 →
  env_socketevent env (w_clock w) = None →
  env_connev env (w_clock w) = None →
  let refused type := (Ok ISC_R_NOMEMORY, asked (EventAllocate type) w) in
  (∀ region minimum,
     minimum ≤ region_length region →
     isc_socket_recv env (Some region) minimum task action arg w
     = refused ISC_SOCKEVENT_RECVDONE)
  ∧ (∀ buflist minimum,
       buflist ≠ [] → 0 < isc_bufferlist_availablecount buflist →
       isc_socket_recvv env (Some buflist) minimum task action arg w
       = refused ISC_SOCKEVENT_RECVDONE)
  ∧ (∀ region addr pktinfo,
       isc_socket_sendto env (Some region) task action arg addr pktinfo w
       = refused ISC_SOCKEVENT_SENDDONE)
  ∧ (∀ buflist addr pktinfo,
       buflist ≠ [] → 0 < isc_bufferlist_usedcount buflist →
       isc_socket_sendtov env (Some buflist) task action arg addr pktinfo w
       = refused ISC_SOCKEVENT_SENDDONE)
  ∧ isc_socket_recvmark env task action arg w
    = refused ISC_SOCKEVENT_RECVMARK
  ∧ isc_socket_sendmark env task action arg w
    = refused ISC_SOCKEVENT_SENDMARK
  ∧ (∀ addr,
       connecting (w_sock w) = false →
       isc_socket_connect env (Some addr) task action arg w
       = refused ISC_SOCKEVENT_CONNECT).
Proof.
  intros w task action arg Hv Hm Htask Hact Hse Hce refused.
  assert (Ha : (action =? 0) = false) by now apply Z.eqb_neq.
  assert (Hal : ∀ type,
    allocate_socketevent env type action arg w
    = (Ok None, asked (EventAllocate type) w)).
  { intros type. unfold allocate_socketevent. run. now rewrite Hse. }
  repeat split.
  - intros region minimum Hmin. unfold isc_socket_recv. run. rewrite Hv. run.
    replace (minimum <=? region_length region) with true
      by (symmetry; now apply Z.leb_le).
    run. rewrite bool_decide_eq_true_2 by exact Htask. run.
    rewrite Ha. cbn [negb]. run. rewrite Hm. run.
    erewrite run_seq by apply Hal. reflexivity.
  - intros buflist minimum Hne Hcount. unfold isc_socket_recvv. run.
    rewrite Hv. run. destruct buflist as [|b bl]; [done|]. cbn [EMPTY negb].
    run. rewrite bool_decide_eq_true_2 by exact Htask. run.
    rewrite Ha. cbn [negb]. run. rewrite Hm. run.
    replace (0 <? isc_bufferlist_availablecount (b :: bl)) with true
      by (symmetry; now apply Z.ltb_lt).
    run. erewrite run_seq by apply Hal. reflexivity.
  - intros region addr pktinfo. unfold isc_socket_sendto. run.
    rewrite Hv. run. rewrite bool_decide_eq_true_2 by exact Htask. run.
    rewrite Ha. cbn [negb]. run. rewrite Hm. run.
    erewrite run_seq by apply Hal. reflexivity.
  - intros buflist addr pktinfo Hne Hcount. unfold isc_socket_sendtov. run.
    rewrite Hv. run. destruct buflist as [|b bl]; [done|]. cbn [EMPTY negb].
    run. rewrite bool_decide_eq_true_2 by exact Htask. run.
    rewrite Ha. cbn [negb]. run. rewrite Hm. run.
    replace (0 <? isc_bufferlist_usedcount (b :: bl)) with true
      by (symmetry; now apply Z.ltb_lt).
    run. erewrite run_seq by apply Hal. reflexivity.
  - unfold isc_socket_recvmark. run.
    rewrite Hv. run. rewrite bool_decide_eq_true_2 by exact Htask. run.
    rewrite Ha. cbn [negb]. run. rewrite Hm. run.
    erewrite run_seq by apply Hal. reflexivity.
  - unfold isc_socket_sendmark. run.
    rewrite Hv. run. rewrite bool_decide_eq_true_2 by exact Htask. run.
    rewrite Ha. cbn [negb]. run. rewrite Hm. run.
    erewrite run_seq by apply Hal. reflexivity.
  - intros addr Hc. unfold isc_socket_connect. run.
    rewrite Hv. run. rewrite bool_decide_eq_true_2 by exact Htask. run.
    rewrite Ha. cbn [negb]. run. rewrite Hm. run. rewrite Hc. cbn [negb].
    run. rewrite Hce. reflexivity.
Qed.

(** ** Reading from a stream *)

(** X14.  [doio_recv] for a request over a region on a stream socket, when
    recvmsg() reads [cc] bytes, more than none: the count [n] of the
    request goes up by [cc].  The request is handed to its task with
    ISC_R_SUCCESS when the region is full or [n] has reached the
    minimum; otherwise the outcome is DOIO_SOFT and nothing is handed
    over. *)
Theorem stream_read_completes_at_the_minimum :
  ∀ w dev cc,
  is_tcp (w_sock w) = true →
  se_bufferlist dev = [] →
  0 ≤ se_n dev ≤ region_length (se_region dev) →
  region_length (se_region dev) < 2 ^ 32 →
  let read_count := region_length (se_region dev) - se_n dev in
  let msghdr := {| msg_name := None; msg_namelen := 0;
                   msg_iov := [read_count];
                   msg_control := None; msg_controllen := 0;
                   msg_flags := 0 |} in
  rm_cc (env_recvmsg env (w_clock w) (fd (w_sock w)) msghdr) = cc →
  0 < cc ≤ read_count →
  let n' := se_n dev + cc in
  ∃ dev',
    se_n dev' = n' ∧ se_self dev' = se_self dev
    ∧ se_address dev' = address (w_sock w)
    ∧ if (cc =? read_count) || (se_minimum dev <=? n') then
        ∃ w' e ev,
          doio_recv env dev w = (Ok (DOIO_SUCCESS, dev'), w')
          ∧ extends (w_trace w) (w_trace w')
              [Recvmsg (fd (w_sock w)) msghdr; e]
          ∧ sent_to (se_sender dev) (SocketEvent ev) e
          ∧ se_self ev = se_self dev
          ∧ se_result ev = ISC_R_SUCCESS
          ∧ se_n ev = n'
          ∧ w_sock w'
            = set_recv_list (unlink (se_self dev) (recv_list (w_sock w)))
                (w_sock w)
      else
        doio_recv env dev w
        = (Ok (DOIO_SOFT, dev'), asked (Recvmsg (fd (w_sock w)) msghdr) w).
Proof.
  intros w dev cc Htcp Hbl Hn Hlen read_count msghdr Hk Hcc n'.
  assert (Hudp := tcp_not_udp _ Htcp).
  assert (Hb : build_msghdr_recv (w_sock w) dev MAXSCATTERGATHER_RECV
               = Ok (set_se_address (address (w_sock w)) dev, msghdr,
                     read_count)).
  { unfold build_msghdr_recv. rewrite Hudp. cbn [andb se_bufferlist
      set_se_address se_region se_n]. rewrite Hbl.
    cbn [mbind result_bind mret result_ret]. rewrite !andb_false_r.
    unfold uint. rewrite Z.mod_small by (subst read_count; lia).
    reflexivity. }
  set (dev' := set_se_bufferlist []
                 (set_se_n n' (set_se_address (address (w_sock w)) dev))).
  assert (Hrun :
    doio_recv env dev w
    = (if negb (cc =? read_count) && (n' <? se_minimum dev)
       then mret (DOIO_SOFT, dev')
       else send_recvdone_event dev' ISC_R_SUCCESS;;
            mret (DOIO_SUCCESS, dev'))
        (asked (Recvmsg (fd (w_sock w)) msghdr) w)).
  { unfold doio_recv. run. rewrite Hb. run. rewrite Hk.
    replace (cc <? 0) with false by (symmetry; apply Z.ltb_ge; lia).
    replace (cc =? 0) with false by (symmetry; apply Z.eqb_neq; lia).
    rewrite Htcp, Hudp, !andb_false_r. cbn [andb].
    assert (Hname :
      match msg_name (rm_msg (env_recvmsg env (w_clock w) (fd (w_sock w))
                                msghdr)) with
      | Some _ => set_se_address (address (w_sock w)) dev
      | None => set_se_address (address (w_sock w)) dev
      end = set_se_address (address (w_sock w)) dev)
      by now destruct (msg_name _).
    rewrite Hname.
    cbn [se_bufferlist se_n se_minimum set_se_address set_se_n
         set_se_bufferlist].
    rewrite Hbl. cbn [recv_fill mret result_ret]. run.
    cbn [se_bufferlist se_n se_minimum set_se_address set_se_n
         set_se_bufferlist].
    unfold uint. rewrite Z.mod_small by (subst read_count; lia).
    reflexivity. }
  exists dev'. split; [reflexivity|]. split; [reflexivity|].
  split; [reflexivity|]. rewrite Hrun.
  destruct (cc =? read_count) eqn:Hfull; cbn [negb andb orb].
  - run. eexists _, _, _. split; [reflexivity|].
    cbn [w_trace w_sock with_effects with_sock asked].
    split; [unfold extends; rewrite <- !app_assoc; reflexivity|].
    split; [apply handover_sent_to|].
    unfold recvdone; cbn [w_sock asked].
    destruct (bool_decide _); cbn; auto.
  - rewrite (Z.ltb_antisym (se_minimum dev) n').
    destruct (se_minimum dev <=? n'); cbn [negb]; [|reflexivity].
    run. eexists _, _, _. split; [reflexivity|].
    cbn [w_trace w_sock with_effects with_sock asked].
    split; [unfold extends; rewrite <- !app_assoc; reflexivity|].
    split; [apply handover_sent_to|].
    unfold recvdone; cbn [w_sock asked].
    destruct (bool_decide _); cbn; auto.
Qed.

(** ** Buffer lists *)

Lemma uint_small x : 0 ≤ x < 2 ^ 32 → uint x = x.
Proof. intros H. unfold uint. now apply Z.mod_small. Qed.

Lemma size_t_small x : 0 ≤ x < 2 ^ 64 → size_t x = x.
Proof. intros H. unfold size_t. now apply Z.mod_small. Qed.

Lemma Forall2_diag_of_Forall {A} (R : A → A → Prop) l :
  Forall (λ x, R x x) l → Forall2 R l l.
Proof. induction 1; constructor; assumption. Qed.

(** X15.  Received bytes go into the buffers front to back.  When the [cc]
    bytes fit in the room the list has, [recv_fill] adds exactly [cc] to
    the used counts, never past the length of a buffer, and a buffer
    behind one that still has room is not touched.  When they do not fit
    it stops at INSIST(actual_count == 0). *)
Theorem received_bytes_fill_the_buffers_front_to_back :
  ∀ bl cc,
  let used l := foldr (λ b acc, buffer_used b + acc) 0 l in
  let room l := foldr (λ b acc, buffer_length b - buffer_used b + acc) 0 l in
  Forall (λ b, ISC_BUFFER_VALID b = true
               ∧ 0 ≤ buffer_used b ≤ buffer_length b
               ∧ buffer_length b < 2 ^ 32) bl →
  0 ≤ cc < 2 ^ 32 →
  (cc ≤ room bl →
   ∃ bl',
     recv_fill bl cc = Ok bl'
     ∧ used bl' = used bl + cc
     ∧ Forall2 (λ b b', buffer_length b' = buffer_length b
                        ∧ buffer_magic b' = buffer_magic b
                        ∧ buffer_used b ≤ buffer_used b' ≤ buffer_length b)
         bl bl'
     ∧ ∀ i b', bl' !! i = Some b' → buffer_used b' < buffer_length b' →
               drop (S i) bl' = drop (S i) bl)
  ∧ (room bl < cc → bl ≠ [] → recv_fill bl cc = AssertionFailed).
Proof.
  intros bl cc used room Hwf. subst used room. cbv beta. revert cc.
  induction Hwf as [|b bl (Hv & Hu & Hl) Hwf IH]; intros cc Hcc.
  - split; [|done]. intros H. cbn in H. exists []. split; [reflexivity|].
    split; [cbn; lia|]. split; [constructor|]. intros i b' Hi. now destruct i.
  - assert (Ha : ISC_BUFFER_AVAILABLECOUNT b = buffer_length b - buffer_used b)
      by (unfold ISC_BUFFER_AVAILABLECOUNT; apply uint_small; lia).
    cbn [recv_fill]. destruct (0 <? cc) eqn:Hpos.
    2:{ apply Z.ltb_ge in Hpos. assert (cc = 0) as -> by lia.
        split.
        - intros _. exists (b :: bl). split; [reflexivity|].
          split; [lia|]. split; [|reflexivity].
          apply Forall2_diag_of_Forall. constructor; [lia|].
          eapply Forall_impl; [exact Hwf|]. intros ? (?&?&?). lia.
        - intros Hr. exfalso. cbn in Hr.
          assert (0 ≤ foldr (λ b acc, buffer_length b - buffer_used b + acc)
                        0 bl); [|lia].
          clear -Hwf. induction Hwf as [|x l (?&?&?) ? IHl]; cbn; lia. }
    apply Z.ltb_lt in Hpos. rewrite Hv.
    cbn [REQUIRE INSIST result_assert mbind result_bind]. rewrite Ha.
    assert (Hroom : 0 ≤ foldr (λ b acc, buffer_length b - buffer_used b + acc)
                          0 bl).
    { clear -Hwf. induction Hwf as [|x l (?&?&?) ? IHl]; cbn; lia. }
    destruct (buffer_length b - buffer_used b <=? cc) eqn:Hfit.
    + apply Z.leb_le in Hfit.
      rewrite size_t_small by lia.
      assert (Hb' : isc_buffer_add b (buffer_length b - buffer_used b)
                    = {| buffer_magic := buffer_magic b;
                         buffer_length := buffer_length b;
                         buffer_used := buffer_length b |}).
      { unfold isc_buffer_add. f_equal. rewrite uint_small by lia. lia. }
      rewrite Hb'.
      destruct (IH (cc - (buffer_length b - buffer_used b))) as [IH1 IH2];
        [lia|].
      split.
      * intros Hr. cbn in Hr.
        destruct IH1 as (bl' & E & U & F & O); [lia|].
        assert (Hlast :
          match bl with
          | [] => INSIST (cc - (buffer_length b - buffer_used b) =? 0)
          | _ => mret ()
          end = (Ok () : result ())).
        { destruct bl; [|reflexivity]. cbn in Hr.
          replace (cc - (buffer_length b - buffer_used b)) with 0 by lia.
          reflexivity. }
        rewrite Hlast. cbn [mbind result_bind]. rewrite E.
        cbn [mbind result_bind mret result_ret].
        eexists. split; [reflexivity|]. cbn [foldr buffer_used].
        split; [cbn in U |- *; lia|].
        split; [constructor; [cbn; lia|exact F]|].
        intros [|i] b' Hi Hb; cbn in Hi.
        -- injection Hi as <-. cbn in Hb. lia.
        -- cbn [drop]. now apply (O i b').
      * intros Hr _. cbn in Hr. destruct bl as [|b2 bl2].
        -- replace (cc - (buffer_length b - buffer_used b) =? 0) with false
             by (symmetry; apply Z.eqb_neq; cbn in Hr; lia).
           reflexivity.
        -- cbn [mret result_ret mbind result_bind].
           rewrite IH2; [reflexivity|cbn in Hr |- *; lia|done].
    + apply Z.leb_gt in Hfit. split.
      * intros _. eexists. split; [reflexivity|].
        unfold isc_buffer_add. rewrite uint_small by lia.
        cbn [foldr buffer_used buffer_length buffer_magic].
        split; [lia|]. split.
        -- constructor; [cbn; lia|].
           apply Forall2_diag_of_Forall.
           eapply Forall_impl; [exact Hwf|]. intros ? (?&?&?). lia.
        -- intros [|i] b' Hi Hb; reflexivity.
      * intros Hr. cbn in Hr. lia.
Qed.

Lemma used_nonneg bl :
  Forall (λ b, ISC_BUFFER_VALID b = true ∧ 0 ≤ buffer_used b < 2 ^ 32) bl →
  0 ≤ foldr (λ b acc, buffer_used b + acc) 0 bl.
Proof. induction 1 as [|b l (?&?) ? IH]; cbn; lia. Qed.

Lemma sum_used_filter bl :
  Forall (λ b, ISC_BUFFER_VALID b = true ∧ 0 ≤ buffer_used b < 2 ^ 32) bl →
  foldr Z.add 0 (map buffer_used (filter (λ b, 0 < buffer_used b) bl))
  = foldr (λ b acc, buffer_used b + acc) 0 bl.
Proof.
  induction 1 as [|b l (?&?) ? IH]; [reflexivity|].
  rewrite filter_cons. destruct (decide (0 < buffer_used b)); cbn; lia.
Qed.

(** The first loop of [build_msghdr_send] on a list split where the
    written bytes end: it drops the buffers wholly written. *)
Lemma send_skip_split pre : ∀ post n,
  Forall (λ b, ISC_BUFFER_VALID b = true ∧ 0 ≤ buffer_used b < 2 ^ 32)
    (pre ++ post) →
  foldr (λ b acc, buffer_used b + acc) 0 pre ≤ n < 2 ^ 64 →
  match post with
  | [] => True
  | b :: _ => n - foldr (λ b acc, buffer_used b + acc) 0 pre < buffer_used b
  end →
  send_skip n (pre ++ post)
  = Ok (n - foldr (λ b acc, buffer_used b + acc) 0 pre, post).
Proof.
  induction pre as [|p pre IH]; intros post n Hwf Hn Hhead.
  - cbn [app foldr] in *. rewrite Z.sub_0_r.
    destruct post as [|b rest]; [reflexivity|].
    apply Forall_cons in Hwf as [(Hv & Hu) _].
    cbn [send_skip]. rewrite Hv.
    cbn [REQUIRE INSIST result_assert mbind result_bind].
    unfold ISC_BUFFER_USEDCOUNT.
    replace (n <? buffer_used b) with true by (symmetry; apply Z.ltb_lt; lia).
    reflexivity.
  - cbn [app foldr] in *. apply Forall_cons in Hwf as [(Hv & Hu) Hwf].
    pose proof (used_nonneg pre) as Hnn.
    assert (0 ≤ foldr (λ b acc, buffer_used b + acc) 0 pre).
    { apply used_nonneg. now apply Forall_app in Hwf as [Hwf _]. }
    cbn [send_skip]. rewrite Hv.
    cbn [REQUIRE INSIST result_assert mbind result_bind].
    unfold ISC_BUFFER_USEDCOUNT.
    replace (n <? buffer_used p) with false by (symmetry; apply Z.ltb_ge; lia).
    rewrite size_t_small by lia.
    rewrite IH; [f_equal; f_equal; lia|exact Hwf|lia|].
    destruct post; [exact I|lia].
Qed.

(** The split exists for every list and every count of written bytes. *)
Lemma written_buffers_split bl : ∀ n,
  Forall (λ b, ISC_BUFFER_VALID b = true ∧ 0 ≤ buffer_used b < 2 ^ 32) bl →
  0 ≤ n →
  ∃ pre post,
    bl = pre ++ post
    ∧ foldr (λ b acc, buffer_used b + acc) 0 pre ≤ n
    ∧ match post with
      | [] => True
      | b :: _ => n - foldr (λ b acc, buffer_used b + acc) 0 pre < buffer_used b
      end.
Proof.
  induction bl as [|b bl IH]; intros n Hwf Hn.
  - exists [], []. cbn. auto.
  - apply Forall_cons in Hwf as [(Hv & Hu) Hwf].
    destruct (decide (n < buffer_used b)) as [Hlt|Hge].
    + exists [], (b :: bl). cbn. repeat split; lia.
    + destruct (IH (n - buffer_used b) Hwf ltac:(lia)) as (pre & post & -> & S & H).
      exists (b :: pre), post. cbn [app foldr]. repeat split; [lia|].
      destruct post; [exact I|lia].
Qed.

(** The second loop from a buffer boundary on, when INSIST(iovcount <
    maxiov) holds before each buffer: fewer than [maxiov] of the buffers
    before the last one hold data. *)
Lemma send_iov_fits maxiov bl : ∀ iov wc,
  Forall (λ b, ISC_BUFFER_VALID b = true ∧ 0 ≤ buffer_used b < 2 ^ 32) bl →
  bl = [] ∨
  Z.of_nat (length iov)
  + Z.of_nat (length (filter (λ b, 0 < buffer_used b) (removelast bl)))
  < maxiov →
  0 ≤ wc →
  wc + foldr (λ b acc, buffer_used b + acc) 0 bl < 2 ^ 64 →
  send_iov maxiov bl iov wc 0
  = Ok (iov ++ map buffer_used (filter (λ b, 0 < buffer_used b) bl),
        wc + foldr (λ b acc, buffer_used b + acc) 0 bl, 0).
Proof.
  induction bl as [|b bl IH]; intros iov wc Hwf Hlen Hwc Hsum.
  - cbn. now rewrite app_nil_r, Z.add_0_r.
  - destruct Hlen as [|Hlen]; [discriminate|].
    apply Forall_cons in Hwf as [(Hv & Hu) Hwf].
    pose proof (used_nonneg bl Hwf) as Hnn.
    assert (Hfirst : Z.of_nat (length iov) < maxiov) by lia.
    assert (Hrest : bl = [] ∨
      Z.of_nat (length iov) + (if decide (0 < buffer_used b) then 1 else 0)
      + Z.of_nat (length (filter (λ b, 0 < buffer_used b) (removelast bl)))
      < maxiov).
    { destruct bl as [|b2 bl2]; [now left|right].
      change (removelast (b :: b2 :: bl2)) with (b :: removelast (b2 :: bl2))
        in Hlen.
      rewrite filter_cons in Hlen.
      destruct (decide (0 < buffer_used b)); cbn [length] in Hlen; lia. }
    cbn [send_iov foldr] in *.
    replace (Z.of_nat (length iov) <? maxiov) with true
      by (symmetry; apply Z.ltb_lt; lia).
    cbn [INSIST result_assert mbind result_bind].
    unfold ISC_BUFFER_USEDCOUNT. rewrite filter_cons.
    destruct (0 <? buffer_used b) eqn:Hpos.
    + apply Z.ltb_lt in Hpos. rewrite decide_True in Hrest by exact Hpos.
      rewrite decide_True by exact Hpos.
      rewrite Z.sub_0_r, !size_t_small by lia.
      rewrite IH; [|exact Hwf| |lia|lia].
      * cbn [map]. rewrite <- app_assoc. cbn [app]. f_equal. f_equal. f_equal.
        lia.
      * destruct Hrest as [|Hrest]; [now left|right].
        rewrite length_app. cbn [length]. lia.
    + apply Z.ltb_ge in Hpos. rewrite decide_False in Hrest by lia.
      rewrite decide_False by lia.
      rewrite IH; [|exact Hwf| |lia|lia].
      * f_equal. f_equal. f_equal. lia.
      * destruct Hrest as [|Hrest]; [now left|right]. lia.
Qed.

(** The second loop stops at INSIST(iovcount < maxiov) when [maxiov] or
    more of the buffers before the last one hold data, whatever the rest
    holds. *)
Lemma send_iov_stops maxiov bl : ∀ iov wc skip,
  Forall (λ b, ISC_BUFFER_VALID b = true ∧ 0 ≤ buffer_used b < 2 ^ 32) bl →
  bl ≠ [] →
  maxiov
  ≤ Z.of_nat (length iov)
    + Z.of_nat (length (filter (λ b, 0 < buffer_used b) (removelast bl))) →
  send_iov maxiov bl iov wc skip = AssertionFailed.
Proof.
  induction bl as [|b bl IH]; intros iov wc skip Hwf Hne Hover; [done|].
  apply Forall_cons in Hwf as [(Hv & Hu) Hwf]. cbn [send_iov].
  destruct (Z.of_nat (length iov) <? maxiov) eqn:Hlt; [|reflexivity].
  apply Z.ltb_lt in Hlt.
  cbn [INSIST result_assert mbind result_bind].
  unfold ISC_BUFFER_USEDCOUNT.
  destruct bl as [|b2 bl2]; [cbn in Hover; lia|].
  change (removelast (b :: b2 :: bl2)) with (b :: removelast (b2 :: bl2))
    in Hover.
  rewrite filter_cons in Hover.
  destruct (0 <? buffer_used b) eqn:Hpos.
  - apply Z.ltb_lt in Hpos. rewrite decide_True in Hover by exact Hpos.
    apply IH; [exact Hwf|done|].
    rewrite length_app. cbn [length] in *. lia.
  - apply Z.ltb_ge in Hpos. rewrite decide_False in Hover by lia.
    apply IH; [exact Hwf|done|exact Hover].
Qed.

(** All but the last buffer hold all but at most one of the buffers with
    data. *)
Lemma with_data_but_last (bl : list isc_buffer_t) :
  Z.of_nat (length (filter (λ b, 0 < buffer_used b) bl))
  ≤ 1 + Z.of_nat (length (filter (λ b, 0 < buffer_used b) (removelast bl))).
Proof.
  induction bl as [|b1 [|b2 r] IH]; [cbn; lia| |].
  - rewrite filter_cons. destruct (decide _); cbn; lia.
  - change (removelast (b1 :: b2 :: r)) with (b1 :: removelast (b2 :: r)).
    rewrite !(filter_cons _ b1).
    destruct (decide (0 < buffer_used b1)); cbn [length]; lia.
Qed.

(** X16.  [build_msghdr_send] on a request over a buffer list of which [n]
    bytes are written.  The list splits into the buffers wholly written,
    which the first loop drops (empty ones with them), and the buffers
    [post] that are left, the first of which holds the next byte to
    write.  INSIST(iovcount < maxiov) is tested before every buffer that
    is left, with data or without, and only the buffers with data count:
    the call returns when fewer than [maxiov] of the buffers before the
    last one hold data, and stops at the INSIST otherwise.  When it
    returns there is one iovec for each buffer left that holds data, the
    first shortened by what of it is written: together they cover the
    used bytes that are left, none of them is empty, and there are no
    more of them than [maxiov].  With every byte written the header has
    no iovec, and with [n] beyond the used bytes the call stops at
    INSIST(skip_count == 0). *)
Theorem gather_header_covers_what_is_left_to_write :
  ∀ sock dev maxiov pre post,
  let used := foldr (λ b acc, buffer_used b + acc) 0 in
  let with_data := filter (λ b, 0 < buffer_used b) in
  let skip := se_n dev - used pre in
  se_bufferlist dev = pre ++ post →
  pre ++ post ≠ [] →
  Forall (λ b, ISC_BUFFER_VALID b = true ∧ 0 ≤ buffer_used b < 2 ^ 32)
    (pre ++ post) →
  used (pre ++ post) < 2 ^ 32 →
  used pre ≤ se_n dev < 2 ^ 32 →
  match post with [] => True | b :: _ => skip < buffer_used b end →
  (∀ b rest,
     post = b :: rest →
     Z.of_nat (length (with_data (removelast post))) < maxiov →
     ∃ msghdr,
       build_msghdr_send sock dev maxiov = Ok (msghdr, used post - skip)
       ∧ msg_iov msghdr
         = (buffer_used b - skip) :: map buffer_used (with_data rest)
       ∧ foldr Z.add 0 (msg_iov msghdr) = used (pre ++ post) - se_n dev
       ∧ Forall (λ len, 0 < len) (msg_iov msghdr)
       ∧ Z.of_nat (length (msg_iov msghdr)) ≤ maxiov)
  ∧ (post ≠ [] →
     maxiov ≤ Z.of_nat (length (with_data (removelast post))) →
     build_msghdr_send sock dev maxiov = AssertionFailed)
  ∧ (post = [] → skip = 0 →
     ∃ msghdr,
       build_msghdr_send sock dev maxiov = Ok (msghdr, 0)
       ∧ msg_iov msghdr = [])
  ∧ (post = [] → 0 < skip →
     build_msghdr_send sock dev maxiov = AssertionFailed).
Proof.
  intros sock dev maxiov pre post used with_data skip
    Hbl Hne Hwf Hsmall Hn Hhead.
  subst used with_data skip. cbv beta in *.
  pose proof (send_skip_split pre post (se_n dev) Hwf ltac:(lia) Hhead) as E.
  assert (Hwf' : Forall (λ b, ISC_BUFFER_VALID b = true
                              ∧ 0 ≤ buffer_used b < 2 ^ 32) post)
    by now apply Forall_app in Hwf as [_ Hwf].
  assert (Hpre : 0 ≤ foldr (λ b acc, buffer_used b + acc) 0 pre).
  { apply used_nonneg. now apply Forall_app in Hwf as [Hwf _]. }
  assert (Hsum : foldr (λ b acc, buffer_used b + acc) 0 (pre ++ post)
                 = foldr (λ b acc, buffer_used b + acc) 0 pre
                   + foldr (λ b acc, buffer_used b + acc) 0 post).
  { clear. induction pre as [|p pre IH]; cbn [app foldr]; lia. }
  unfold build_msghdr_send. rewrite Hbl.
  destruct (pre ++ post) as [|b0 bl0] eqn:Hl; [contradiction|].
  rewrite <- Hl in *. rewrite E. cbn [mbind result_bind].
  split; [|split; [|split]].
  - intros b rest -> Hfit.
    apply Forall_cons in Hwf' as [(Hv & Hu) Hwf'].
    pose proof (used_nonneg rest Hwf') as Hnn.
    cbn [foldr] in Hsum |- *.
    cbn [send_iov].
    assert (Hrest : rest = [] ∨
      Z.of_nat (length [buffer_used b
                        - (se_n dev
                           - foldr (λ b acc, buffer_used b + acc) 0 pre)])
      + Z.of_nat (length (filter (λ b, 0 < buffer_used b) (removelast rest)))
      < maxiov).
    { destruct rest as [|b2 bl2]; [now left|right].
      change (removelast (b :: b2 :: bl2)) with (b :: removelast (b2 :: bl2))
        in Hfit.
      rewrite filter_cons, decide_True in Hfit by lia.
      cbn [length] in Hfit |- *. lia. }
    assert (H0 : 0 < maxiov).
    { pose proof (Nat2Z.is_nonneg
        (length (filter (λ b, 0 < buffer_used b) (removelast (b :: rest))))).
      lia. }
    replace (Z.of_nat (length (@nil Z)) <? maxiov) with true
      by (symmetry; apply Z.ltb_lt; cbn; lia).
    cbn [INSIST result_assert mbind result_bind].
    unfold ISC_BUFFER_USEDCOUNT.
    replace (0 <? buffer_used b) with true by (symmetry; apply Z.ltb_lt; lia).
    cbn [app]. rewrite Z.add_0_l, !size_t_small by lia.
    rewrite send_iov_fits; [|exact Hwf'|exact Hrest|lia|lia].
    cbn [mbind result_bind Z.eqb INSIST result_assert mret result_ret].
    eexists. split; [f_equal; f_equal; lia|].
    cbn [msg_iov app foldr].
    split; [reflexivity|].
    split; [rewrite sum_used_filter by exact Hwf'; lia|].
    split.
    + constructor; [lia|]. apply Forall_forall.
      intros x [y [-> Hy]]%list_elem_of_fmap.
      now apply list_elem_of_filter in Hy as [Hy _].
    + cbn [length]. rewrite length_map.
      destruct Hrest as [->|Hrest]; [cbn; lia|].
      cbn [length] in Hrest.
      pose proof (with_data_but_last rest).
      lia.
  - intros Hpost Hover.
    rewrite send_iov_stops; [reflexivity|exact Hwf'|exact Hpost|cbn; lia].
  - intros -> Hskip. rewrite Hskip. cbn. eexists. split; reflexivity.
  - intros -> Hskip. cbn [send_iov mbind result_bind mret result_ret].
    replace (se_n dev - foldr (λ b acc, buffer_used b + acc) 0 pre =? 0)
      with false by (symmetry; apply Z.eqb_neq; lia).
    reflexivity.
Qed.

(** ** The watcher, the other answers to a poke *)

(** X17.  When the watcher recomputes the watch bits of a managed descriptor
    after a poke, the read bit of the socket's descriptor is set if and
    only if a read or accept request is queued and neither internal
    event is pending; the read bits of other descriptors stay as they
    were. *)
Theorem watch_read_bit :
  ∀ heap manager msg a sock,
  0 ≤ msg < FD_SETSIZE →
  fdstate_at manager msg = MANAGED →
  fds manager !! msg = Some a →
  heap !! a = Some sock →
  ∃ manager',
    watcher_wakeup heap msg manager = Ok (manager', [])
    ∧ FD_ISSET (fd sock) (read_fds manager')
      = (negb (EMPTY (recv_list sock)) || negb (EMPTY (accept_list sock)))
        && negb (pending_recv sock) && negb (pending_accept sock)
    ∧ (∀ i, i ≠ fd sock →
            FD_ISSET i (read_fds manager') = FD_ISSET i (read_fds manager))
    ∧ fdstate manager' = fdstate manager ∧ fds manager' = fds manager.
Proof.
  intros heap manager msg a sock Hmsg Hst Hfd Hheap.
  unfold watcher_wakeup.
  replace (msg <? FD_SETSIZE) with true by (symmetry; apply Z.ltb_lt; lia).
  rewrite Hst, Hfd.
  cbn [negb Z.eqb MANAGED CLOSE_PENDING Pos.eqb mbind option_bind].
  rewrite Hheap. eexists. split; [reflexivity|].
  unfold watch_write, watch_read.
  destruct (EMPTY (recv_list sock)), (EMPTY (accept_list sock)),
    (pending_recv sock), (pending_accept sock);
    cbn [orb andb negb];
    repeat case_match;
    cbn [read_fds fdstate fds set_write_fds set_read_fds];
    (split;
     [rewrite ?FD_ISSET_FD_SET, ?FD_ISSET_FD_CLR;
      rewrite bool_decide_eq_true_2 by reflexivity; reflexivity|]);
    (split; [|split; reflexivity]);
    intros i Hi; rewrite ?FD_ISSET_FD_SET, ?FD_ISSET_FD_CLR;
    rewrite bool_decide_eq_false_2 by exact Hi; reflexivity.
Qed.

(** X18.  A descriptor whose socket was destroyed is closed once.  The first
    poke the watcher reads for a descriptor in state CLOSE_PENDING closes
    it and takes it out of both sets; every further poke for it, in the
    same drain of the control pipe, changes nothing. *)
Theorem descriptor_is_closed_once :
  ∀ heap manager msg n,
  0 ≤ msg < FD_SETSIZE →
  fdstate_at manager msg = CLOSE_PENDING →
  ∃ manager',
    watcher_control heap (replicate (S n) msg) manager []
      = Ok (manager', false, [Close msg])
    ∧ fdstate_at manager' msg = CLOSED
    ∧ FD_ISSET msg (read_fds manager') = false
    ∧ FD_ISSET msg (write_fds manager') = false
    ∧ (∀ i, i ≠ msg →
         fdstate_at manager' i = fdstate_at manager i
         ∧ FD_ISSET i (read_fds manager') = FD_ISSET i (read_fds manager)
         ∧ FD_ISSET i (write_fds manager') = FD_ISSET i (write_fds manager))
    ∧ fds manager' = fds manager.
Proof.
  intros heap manager msg n Hmsg Hst.
  assert (Hn2 : (msg =? SELECT_POKE_NOTHING) = false)
    by (apply Z.eqb_neq; unfold SELECT_POKE_NOTHING; lia).
  assert (Hn1 : (msg =? SELECT_POKE_SHUTDOWN) = false)
    by (apply Z.eqb_neq; unfold SELECT_POKE_SHUTDOWN; lia).
  assert (H0 : (0 <=? msg) = true) by (apply Z.leb_le; lia).
  assert (Hlt : (msg <? FD_SETSIZE) = true) by (apply Z.ltb_lt; lia).
  set (closed :=
    set_write_fds (FD_CLR msg (write_fds manager))
      (set_read_fds (FD_CLR msg (read_fds manager))
         (set_fdstate (<[msg := CLOSED]> (fdstate manager)) manager))).
  assert (Hidle : ∀ k t,
    watcher_control heap (replicate k msg) closed t = Ok (closed, false, t)).
  { induction k as [|k IH]; intros t; [reflexivity|].
    cbn [replicate watcher_control]. rewrite Hn2, Hn1, H0.
    unfold watcher_wakeup at 1. rewrite Hlt. unfold fdstate_at.
    subst closed. cbn [negb fdstate set_write_fds set_read_fds set_fdstate].
    rewrite lookup_insert_eq. cbn [default from_option id].
    change (CLOSED =? CLOSE_PENDING) with false.
    change (CLOSED =? MANAGED) with false. cbn [negb].
    rewrite app_nil_r. apply IH. }
  exists closed. split.
  - cbn [replicate watcher_control]. rewrite Hn2, Hn1, H0.
    unfold watcher_wakeup at 1. rewrite Hlt, Hst.
    change (CLOSE_PENDING =? CLOSE_PENDING) with true. cbn [negb app].
    apply Hidle.
  - subst closed. unfold fdstate_at.
    cbn [fdstate read_fds write_fds fds set_write_fds set_read_fds
         set_fdstate].
    rewrite lookup_insert_eq, !FD_ISSET_FD_CLR.
    rewrite bool_decide_eq_true_2 by reflexivity.
    repeat split; try reflexivity.
    + now rewrite lookup_insert_ne.
    + rewrite FD_ISSET_FD_CLR. now rewrite bool_decide_eq_false_2.
    + rewrite FD_ISSET_FD_CLR. now rewrite bool_decide_eq_false_2.
Qed.

(** * Creating, accepting and dispatching *)

(** ** Running computations on a machine *)

Lemma srun_seq {A B} (c : sys A) (f : A → sys B) m a m' :
  c m = (Ok a, m') → (c ≫= f) m = f a m'.
Proof. intros H. unfold mbind, sys_bind. now rewrite H. Qed.

Lemma srun_assoc {A B C} (c : sys A) (g : A → sys B) (f : B → sys C) m :
  ((c ≫= g) ≫= f) m = (c ≫= λ a, g a ≫= f) m.
Proof. unfold mbind, sys_bind. destruct (c m) as [[]]; reflexivity. Qed.

Lemma srun_ret {A B} (a : A) (f : A → sys B) m : (mret a ≫= f) m = f a m.
Proof. reflexivity. Qed.

Lemma srun_insist {B} (f : unit → sys B) m : (INSIST true ≫= f) m = f () m.
Proof. reflexivity. Qed.

Lemma srun_require {B} (f : unit → sys B) m : (REQUIRE true ≫= f) m = f () m.
Proof. reflexivity. Qed.

Lemma lift_run {A} (c : io A) (m : machine) r w :
  c {| w_sock := m_sock m; w_manager := m_manager m;
       w_trace := []; w_clock := m_clock m |} = (r, w) →
  lift c m = (r, {| m_sock := w_sock w; m_manager := w_manager w;
                    m_calls := m_calls m ++ map Effect (w_trace w);
                    m_clock := w_clock w |}).
Proof. intros H. unfold lift. now rewrite H. Qed.

Lemma lift_get_sock m : lift get_sock m = (Ok (m_sock m), m).
Proof. destruct m. unfold lift, get_sock. cbn. now rewrite app_nil_r. Qed.

Lemma lift_get_manager m : lift get_manager m = (Ok (m_manager m), m).
Proof. destruct m. unfold lift, get_manager. cbn. now rewrite app_nil_r. Qed.

Lemma lift_modify_sock g m :
  lift (modify_sock g) m
  = (Ok (), {| m_sock := g (m_sock m); m_manager := m_manager m;
               m_calls := m_calls m; m_clock := m_clock m |}).
Proof. unfold lift, modify_sock. cbn. now rewrite app_nil_r. Qed.

Lemma lift_modify_manager g m :
  lift (modify_manager g) m
  = (Ok (), {| m_sock := m_sock m; m_manager := g (m_manager m);
               m_calls := m_calls m; m_clock := m_clock m |}).
Proof. unfold lift, modify_manager. cbn. now rewrite app_nil_r. Qed.

Lemma lift_emit e m :
  lift (emit e) m
  = (Ok (), {| m_sock := m_sock m; m_manager := m_manager m;
               m_calls := m_calls m ++ [Effect e]; m_clock := m_clock m |}).
Proof. reflexivity. Qed.

Lemma lift_poke msg m :
  lift (select_poke msg) m
  = (Ok (), {| m_sock := m_sock m; m_manager := m_manager m;
               m_calls := m_calls m ++ [Effect (Poke msg)];
               m_clock := m_clock m |}).
Proof. reflexivity. Qed.

Lemma lift_ask {A} e (answer : nat → A) m :
  lift (ask e answer) m
  = (Ok (answer (m_clock m)),
     {| m_sock := m_sock m; m_manager := m_manager m;
        m_calls := m_calls m ++ [Effect e]; m_clock := S (m_clock m) |}).
Proof. reflexivity. Qed.

Lemma srun_consult {A B} c (answer : nat → A) (f : A → sys B) m :
  (consult c answer ≫= f) m
  = f (answer (m_clock m))
      {| m_sock := m_sock m; m_manager := m_manager m;
         m_calls := m_calls m ++ [c]; m_clock := S (m_clock m) |}.
Proof. reflexivity. Qed.

Lemma srun_note {B} c (f : unit → sys B) m :
  (note c ≫= f) m
  = f () {| m_sock := m_sock m; m_manager := m_manager m;
            m_calls := m_calls m ++ [c]; m_clock := m_clock m |}.
Proof. reflexivity. Qed.

Ltac srun_step :=
  first
    [ rewrite srun_ret | rewrite srun_insist | rewrite srun_require
    | rewrite srun_consult | rewrite srun_note
    | erewrite (srun_seq (lift get_sock)) by apply lift_get_sock
    | erewrite (srun_seq (lift get_manager)) by apply lift_get_manager
    | erewrite (srun_seq (lift (modify_sock _))) by apply lift_modify_sock
    | erewrite (srun_seq (lift (modify_manager _)))
        by apply lift_modify_manager
    | erewrite (srun_seq (lift (emit _))) by apply lift_emit
    | erewrite (srun_seq (lift (select_poke _))) by apply lift_poke
    | erewrite (srun_seq (lift (ask _ _))) by apply lift_ask
    | rewrite srun_assoc ].

Ltac srun :=
  repeat first
    [ srun_step
    | progress cbn [m_sock m_manager m_calls m_clock machine_after] ].

(** Bring a trace into the shape [t ++ [c1; ...; cn]]. *)
Ltac sys_norm := rewrite ?app_nil_r, <- ?app_assoc; cbn [app].

Lemma make_nonblock_run (k : kernel) s m :
  make_nonblock k s m
  = let flags := Z.lor (k_fcntl k (m_clock m) s F_GETFL 0) O_NONBLOCK in
    let ret := k_fcntl k (S (m_clock m)) s F_SETFL flags in
    (Ok (if ret =? -1 then ISC_R_UNEXPECTED else ISC_R_SUCCESS),
     {| m_sock := m_sock m; m_manager := m_manager m;
        m_calls :=
          m_calls m
          ++ [Fcntl s F_GETFL 0; Fcntl s F_SETFL flags]
          ++ (if ret =? -1 then [Effect UnexpectedError] else []);
        m_clock := S (S (m_clock m)) |}).
Proof.
  unfold make_nonblock. cbv zeta. srun.
  destruct (_ =? -1); srun; unfold mret, sys_ret; sys_norm; reflexivity.
Qed.

(** ** A fresh socket *)

Lemma allocate_socket_run (k : kernel) type m block :
  k_mem_get k (m_clock m) = Some block →
  k_mutex_init k (S (m_clock m)) = ISC_R_SUCCESS →
  ∃ sock,
    allocate_socket k type m
    = (Ok (ISC_R_SUCCESS, Some sock),
       machine_after (m_sock m) (m_manager m)
         [MemGet; MutexInit (self block)] 2 m)
    ∧ at_rest sock ∧ references sock = 0 ∧ fd sock = -1
    ∧ sock_type sock = type ∧ self sock = self block
    ∧ listener sock = false ∧ connected sock = false
    ∧ recv_result sock = ISC_R_SUCCESS ∧ send_result sock = ISC_R_SUCCESS
    ∧ iev_type (readable_ev sock) = ISC_SOCKEVENT_INTR
    ∧ iev_type (writable_ev sock) = ISC_SOCKEVENT_INTW
    ∧ iev_sender (readable_ev sock) = SockPtr (self block)
    ∧ iev_sender (writable_ev sock) = SockPtr (self block).
Proof.
  intros Hb Hx. unfold allocate_socket. srun. rewrite Hb. cbv zeta. srun.
  cbn [self set_magic set_references set_sock_type set_fd set_recv_list
       set_send_list set_accept_list set_connect_ev set_pending_recv
       set_pending_send set_pending_accept set_listener set_connected
       set_connecting set_recv_result set_send_result].
  rewrite Hx. rewrite bool_decide_eq_false_2 by (intros H; now apply H).
  eexists. split.
  { unfold mret, sys_ret, machine_after.
    cbn [m_sock m_manager m_calls m_clock Nat.add]. sys_norm. reflexivity. }
  unfold at_rest, VALID_SOCKET. cbn. repeat split; reflexivity.
Qed.

Lemma lift_free_socket sock m :
  at_rest sock → references sock = 0 →
  lift (free_socket sock) m
  = (Ok (set_magic 0 sock),
     {| m_sock := m_sock m; m_manager := m_manager m;
        m_calls :=
          m_calls m
          ++ [Effect (MutexDestroy (self sock)); Effect (MemPut (self sock))];
        m_clock := m_clock m |}).
Proof.
  intros (Hv & Hc & Hpr & Hps & Hpa & Hrl & Hsl & Hal & Hce) Hr.
  erewrite lift_run by (now apply free_socket_run).
  cbn [w_sock w_manager w_trace w_clock with_effects app map].
  reflexivity.
Qed.

(** ** Posting an accept *)

(** X19.  An accept request on a listening socket is queued behind the ones
    already there, for the task that asked, and carries a socket fresh
    from [allocate_socket]: of the type of the listening socket, with no
    descriptor yet (fd -1), nothing queued and the one reference the
    request holds.  The watcher is poked when the queue was empty, and
    the manager is not touched. *)
Theorem accept_queues_a_request_with_a_fresh_socket :
  ∀ (k : kernel) task action arg m dev block,
    VALID_SOCKET (m_sock m) = true →
    VALID_MANAGER (m_manager m) = true →
    listener (m_sock m) = true →
    k_newconnev k (m_clock m) = Some dev →
    k_mem_get k (S (m_clock m)) = Some block →
    k_mutex_init k (S (S (m_clock m))) = ISC_R_SUCCESS →
    ∃ dev' ns,
      isc_socket_accept k task action arg m
      = (Ok ISC_R_SUCCESS,
         machine_after
           (set_accept_list (accept_list (m_sock m) ++ [dev']) (m_sock m))
           (m_manager m)
           ([Effect (EventAllocate ISC_SOCKEVENT_NEWCONN); MemGet;
             MutexInit (self block); Effect (TaskAttach task)]
            ++ (if EMPTY (accept_list (m_sock m))
                then [Effect (Poke (fd (m_sock m)))] else []))
           3 m)
      ∧ nascent dev'
      ∧ nc_self dev' = nc_self dev ∧ nc_sender dev' = task
      ∧ nc_type dev' = ISC_SOCKEVENT_NEWCONN
      ∧ nc_action dev' = action ∧ nc_arg dev' = arg
      ∧ newsocket dev' = Some ns
      ∧ self ns = self block ∧ sock_type ns = sock_type (m_sock m)
      ∧ fd ns = -1 ∧ connect_ev ns = None ∧ listener ns = false
      ∧ connected ns = false
      ∧ recv_result ns = ISC_R_SUCCESS ∧ send_result ns = ISC_R_SUCCESS
      ∧ iev_type (readable_ev ns) = ISC_SOCKEVENT_INTR
      ∧ iev_type (writable_ev ns) = ISC_SOCKEVENT_INTW.
Proof.
  intros k task action arg m dev block Hv Hm Hl Hd Hb Hx.
  unfold isc_socket_accept.
  repeat (progress (rewrite ?Hv, ?Hm, ?Hl; srun)).
  rewrite Hd. cbv zeta.
  match goal with
  | |- context [(allocate_socket k ?ty ≫= _) ?m0] =>
      destruct (allocate_socket_run k ty m0 block Hb Hx)
        as (ns & Ha & Hrest & Hr0 & Hfd & Hty & Hself & Hnl & Hnc & Hrr
            & Hsr & Hre & Hwe & _)
  end.
  erewrite srun_seq by exact Ha. cbv beta iota.
  rewrite (bool_decide_eq_false_2 (ISC_R_SUCCESS ≠ ISC_R_SUCCESS))
    by (intros H; now apply H).
  destruct Hrest as (Hnv & Hcg & Hpr & Hps & Hpa & Hrl & Hsl & Hal & Hce).
  match goal with
  | |- context [set_accept_list (accept_list _ ++ [?d])] => exists d
  end.
  exists (set_references (uint (references ns + 1)) ns). split.
  { destruct (accept_list (m_sock m)) eqn:Hq; cbn [EMPTY]; srun;
      unfold mret, sys_ret, machine_after;
      cbn [m_sock m_manager m_calls m_clock Nat.add];
      rewrite ?Hq; sys_norm; reflexivity. }
  cbn [nc_self nc_sender nc_type nc_action nc_arg newsocket set_nc_sender
       set_newsocket].
  split.
  { eexists. split; [reflexivity|]. rewrite Hr0.
    cbn [references set_references]. repeat split; assumption || reflexivity. }
  repeat split; assumption || reflexivity.
Qed.

(** X20.  An accept request that cannot get its memory, or whose new socket
    cannot get its lock, is not queued: the call answers NOMEMORY or
    UNEXPECTED, gives back the event and the socket block it had taken,
    and leaves the listening socket and the manager as they were. *)
Theorem accept_that_fails_gives_back_what_it_took :
  ∀ (k : kernel) task action arg m,
    VALID_SOCKET (m_sock m) = true →
    VALID_MANAGER (m_manager m) = true →
    listener (m_sock m) = true →
    (k_newconnev k (m_clock m) = None →
     isc_socket_accept k task action arg m
     = (Ok ISC_R_NOMEMORY,
        machine_after (m_sock m) (m_manager m)
          [Effect (EventAllocate ISC_SOCKEVENT_NEWCONN)] 1 m))
    ∧ (∀ dev, k_newconnev k (m_clock m) = Some dev →
       k_mem_get k (S (m_clock m)) = None →
       isc_socket_accept k task action arg m
       = (Ok ISC_R_NOMEMORY,
          machine_after (m_sock m) (m_manager m)
            [Effect (EventAllocate ISC_SOCKEVENT_NEWCONN); MemGet;
             EventFree (nc_self dev)] 2 m))
    ∧ (∀ dev block, k_newconnev k (m_clock m) = Some dev →
       k_mem_get k (S (m_clock m)) = Some block →
       k_mutex_init k (S (S (m_clock m))) ≠ ISC_R_SUCCESS →
       isc_socket_accept k task action arg m
       = (Ok ISC_R_UNEXPECTED,
          machine_after (m_sock m) (m_manager m)
            [Effect (EventAllocate ISC_SOCKEVENT_NEWCONN); MemGet;
             MutexInit (self block); Effect UnexpectedError;
             Effect (MemPut (self block)); EventFree (nc_self dev)] 3 m)).
Proof.
  intros k task action arg m Hv Hm Hl.
  split; [|split].
  - intros Hd. unfold isc_socket_accept.
    repeat (progress (rewrite ?Hv, ?Hm, ?Hl; srun)).
    rewrite Hd. reflexivity.
  - intros dev Hd Hb. unfold isc_socket_accept, allocate_socket.
    repeat (progress (rewrite ?Hv, ?Hm, ?Hl; srun)).
    rewrite Hd. cbv zeta. srun. rewrite Hb. srun.
    rewrite (bool_decide_eq_true_2 (ISC_R_NOMEMORY ≠ ISC_R_SUCCESS))
      by discriminate.
    srun. unfold mret, sys_ret, machine_after. cbn [Nat.add nc_self].
    sys_norm. reflexivity.
  - intros dev block Hd Hb Hx. unfold isc_socket_accept, allocate_socket.
    repeat (progress (rewrite ?Hv, ?Hm, ?Hl; srun)).
    rewrite Hd. cbv zeta. srun. rewrite Hb. cbv zeta. srun.
    cbn [self set_magic set_references set_sock_type set_fd set_recv_list
         set_send_list set_accept_list set_connect_ev set_pending_recv
         set_pending_send set_pending_accept set_listener set_connected
         set_connecting set_recv_result set_send_result].
    rewrite (bool_decide_eq_true_2 _ Hx). srun.
    rewrite (bool_decide_eq_true_2 (ISC_R_UNEXPECTED ≠ ISC_R_SUCCESS))
      by discriminate.
    srun. unfold mret, sys_ret, machine_after. cbn [Nat.add nc_self].
    sys_norm. reflexivity.
Qed.

(** ** The accept handler *)


Lemma unlink_newconn_head dev dev' rest :
  nc_self dev' = nc_self dev →
  unlink_newconn (nc_self dev) (dev' :: rest) = rest.
Proof.
  intros H. cbn [unlink_newconn].
  now rewrite bool_decide_eq_true_2 by exact H.
Qed.

(** The socket as [internal_accept] finds it once the internal event is
    accounted for, and the first steps of the handler up to accept(). *)
Lemma internal_accept_enter (k : kernel) ev s mg calls t dev rest ns :
  iev_sender ev = SockPtr (self s) →
  VALID_SOCKET s = true → VALID_MANAGER mg = true →
  listener s = true → pending_accept s = true →
  1 < references s →
  accept_list s = dev :: rest → newsocket dev = Some ns →
  internal_accept k ev
    {| m_sock := s; m_manager := mg; m_calls := calls; m_clock := t |}
  = let '(a, errno, name) :=
      k_accept k t (fd s)
        {| sa := sa (address ns); sa_length := sizeof_sockaddr_type |} in
    let ns' := set_address name ns in
    let dev' := set_newsocket (Some ns') dev in
    let m1 :=
      {| m_sock :=
           set_accept_list (dev' :: rest)
             (set_references (references s - 1)
                (set_pending_accept false s));
         m_manager := mg; m_calls := calls ++ [Accept (fd s)];
         m_clock := S t |} in
    if a <? 0 then
      if SOFT_ERROR errno
      then (Ok (),
            {| m_sock := m_sock m1; m_manager := mg;
               m_calls := calls ++ [Accept (fd s); Effect (Poke (fd s))];
               m_clock := S t |})
      else internal_accept_finish k dev' ns' (-1) ISC_R_UNEXPECTED
             {| m_sock := m_sock m1; m_manager := mg;
                m_calls :=
                  calls ++ [Accept (fd s); Effect UnexpectedError];
                m_clock := S t |}
    else internal_accept_finish k dev' ns' a ISC_R_SUCCESS m1.
Proof.
  intros He Hv Hm Hl Hp Hr Hq Hn.
  unfold internal_accept. srun.
  rewrite bool_decide_eq_true_2 by exact He.
  repeat (progress (rewrite ?Hv, ?Hm, ?Hl, ?Hp; srun)).
  replace (0 <? references s) with true by (symmetry; apply Z.ltb_lt; lia).
  srun. cbn [references set_references set_pending_accept].
  replace (references s - 1 =? 0) with false
    by (symmetry; apply Z.eqb_neq; lia).
  cbn [accept_list set_references set_pending_accept].
  rewrite Hq, Hn. srun. cbn [fd set_references set_pending_accept].
  destruct (k_accept k t (fd s) _) as [[a errno] name]. cbv zeta. srun.
  destruct (a <? 0); [destruct (SOFT_ERROR errno)|]; srun.
  - rewrite lift_poke. cbn [m_sock m_manager m_calls m_clock]. sys_norm.
    reflexivity.
  - sys_norm. reflexivity.
  - reflexivity.
Qed.

(** [internal_accept_finish] when there is no descriptor to set up. *)
Lemma internal_accept_finish_none (k : kernel) dev ns r s mg calls t dev0 rest :
  accept_list s = dev0 :: rest → nc_self dev0 = nc_self dev →
  internal_accept_finish k dev ns (-1) r
    {| m_sock := s; m_manager := mg; m_calls := calls; m_clock := t |}
  = (Ok (),
     {| m_sock := set_accept_list rest s; m_manager := mg;
        m_calls :=
          calls
          ++ (if EMPTY rest then [] else [Effect (Poke (fd s))])
          ++ [Effect (TaskSendAndDetach (nc_sender dev)
                        (NewconnEvent (newconn_done s dev ns r)))];
        m_clock := t |}).
Proof.
  intros Hq Hs. unfold internal_accept_finish. srun.
  rewrite Hq, (unlink_newconn_head _ _ _ Hs).
  cbn [accept_list set_accept_list fd].
  destruct rest; cbn [EMPTY negb]; srun;
    repeat (progress (change (-1 =? -1) with true; cbn [negb]; srun));
    rewrite lift_emit; cbn [m_sock m_manager m_calls m_clock];
    sys_norm; reflexivity.
Qed.

(** [internal_accept_finish] with a descriptor that fcntl() refuses to
    make non-blocking: it is closed and the request fails. *)
Lemma internal_accept_finish_blocking (k : kernel) dev ns r a s mg calls t
    dev0 rest :
  accept_list s = dev0 :: rest → nc_self dev0 = nc_self dev →
  a ≠ -1 →
  k_fcntl k (S t) a F_SETFL (Z.lor (k_fcntl k t a F_GETFL 0) O_NONBLOCK) = -1 →
  internal_accept_finish k dev ns a r
    {| m_sock := s; m_manager := mg; m_calls := calls; m_clock := t |}
  = (Ok (),
     {| m_sock := set_accept_list rest s; m_manager := mg;
        m_calls :=
          calls
          ++ (if EMPTY rest then [] else [Effect (Poke (fd s))])
          ++ [Fcntl a F_GETFL 0;
              Fcntl a F_SETFL (Z.lor (k_fcntl k t a F_GETFL 0) O_NONBLOCK);
              Effect UnexpectedError; Effect (Close a);
              Effect UnexpectedError;
              Effect (TaskSendAndDetach (nc_sender dev)
                        (NewconnEvent
                           (newconn_done s dev ns ISC_R_UNEXPECTED)))];
        m_clock := S (S t) |}).
Proof.
  intros Hq Hs Ha Hf. unfold internal_accept_finish. srun.
  rewrite Hq, (unlink_newconn_head _ _ _ Hs).
  cbn [accept_list set_accept_list fd].
  replace (a =? -1) with false by (symmetry; apply Z.eqb_neq; exact Ha).
  destruct rest; cbn [EMPTY negb]; srun;
    (erewrite srun_seq by apply make_nonblock_run);
    cbv zeta; cbn [m_sock m_manager m_calls m_clock];
    rewrite Hf; change (-1 =? -1) with true;
    rewrite bool_decide_eq_true_2 by discriminate; srun;
    repeat (progress (change (-1 =? -1) with true; cbn [negb]; srun));
    rewrite lift_emit; cbn [m_sock m_manager m_calls m_clock];
    sys_norm; reflexivity.
Qed.

Lemma register_accepted_run ns m :
  lift (register_accepted ns) m
  = (Ok (), {| m_sock := m_sock m;
               m_manager := registered (fd ns) (self ns) (m_manager m);
               m_calls := m_calls m; m_clock := m_clock m |}).
Proof.
  unfold register_accepted.
  erewrite lift_run
    by (rewrite !run_modify_manager; unfold modify_manager; reflexivity).
  cbn [w_sock w_manager w_trace w_clock map]. rewrite app_nil_r.
  do 2 f_equal. unfold registered.
  cbn [maxfd set_fds set_fdstate].
  destruct (Z.ltb_spec (maxfd (m_manager m)) (fd ns));
    [rewrite Z.max_r by lia | rewrite Z.max_l by lia]; reflexivity.
Qed.

Lemma register_created_run ns m :
  lift (register_created ns) m
  = (Ok (), {| m_sock := m_sock m;
               m_manager := registered (fd ns) (self ns) (m_manager m);
               m_calls := m_calls m; m_clock := m_clock m |}).
Proof.
  unfold register_created.
  erewrite lift_run
    by (rewrite !run_modify_manager; unfold modify_manager; reflexivity).
  cbn [w_sock w_manager w_trace w_clock map]. rewrite app_nil_r.
  do 2 f_equal. unfold registered.
  cbn [maxfd set_fds set_fdstate set_nsockets].
  destruct (Z.ltb_spec (maxfd (m_manager m)) (fd ns));
    [rewrite Z.max_r by lia | rewrite Z.max_l by lia]; reflexivity.
Qed.

(** [internal_accept_finish] with a descriptor that is set up: the new
    socket takes it and is entered in the manager's tables. *)
Lemma internal_accept_finish_ok (k : kernel) dev ns r a s mg calls t
    dev0 rest :
  accept_list s = dev0 :: rest → nc_self dev0 = nc_self dev →
  a ≠ -1 →
  k_fcntl k (S t) a F_SETFL (Z.lor (k_fcntl k t a F_GETFL 0) O_NONBLOCK) ≠ -1 →
  internal_accept_finish k dev ns a r
    {| m_sock := s; m_manager := mg; m_calls := calls; m_clock := t |}
  = (Ok (),
     {| m_sock := set_accept_list rest s;
        m_manager := registered a (self ns) mg;
        m_calls :=
          calls
          ++ (if EMPTY rest then [] else [Effect (Poke (fd s))])
          ++ [Fcntl a F_GETFL 0;
              Fcntl a F_SETFL (Z.lor (k_fcntl k t a F_GETFL 0) O_NONBLOCK);
              Effect (TaskSendAndDetach (nc_sender dev)
                        (NewconnEvent
                           (newconn_done s (set_nc_address (address ns) dev)
                              (set_fd a ns) r)))];
        m_clock := S (S t) |}).
Proof.
  intros Hq Hs Ha Hf. unfold internal_accept_finish. srun.
  rewrite Hq, (unlink_newconn_head _ _ _ Hs).
  cbn [accept_list set_accept_list fd].
  assert (Ha' : (a =? -1) = false) by (apply Z.eqb_neq; exact Ha).
  rewrite ?Ha'. apply Z.eqb_neq in Hf.
  destruct rest; cbn [EMPTY negb]; srun;
    (erewrite srun_seq by apply make_nonblock_run);
    cbv zeta; cbn [m_sock m_manager m_calls m_clock];
    rewrite Hf;
    rewrite bool_decide_eq_false_2 by (intros H; now apply H); srun;
    rewrite ?Ha'; cbn [negb]; srun;
    (erewrite srun_seq by apply register_accepted_run);
    cbn [m_sock m_manager m_calls m_clock fd set_fd self address];
    srun; rewrite lift_emit; cbn [m_sock m_manager m_calls m_clock];
    sys_norm; reflexivity.
Qed.

(** X21.  A connection that accept() returns, on a descriptor within the
    manager's tables, and that fcntl() sets up is entered in the
    manager's tables under its descriptor and handed to the task of
    the request at the head of the accept queue: the event carries
    SUCCESS, the listening socket as sender, the peer address and the new
    socket on that descriptor.  The request leaves the queue, the
    listening socket gives up the reference of the internal event, and
    the watcher is poked when more requests wait. *)
Theorem internal_accept_registers_the_connection :
  ∀ (k : kernel) ev m dev rest ns a errno name,
    iev_sender ev = SockPtr (self (m_sock m)) →
    VALID_SOCKET (m_sock m) = true → VALID_MANAGER (m_manager m) = true →
    listener (m_sock m) = true → pending_accept (m_sock m) = true →
    1 < references (m_sock m) →
    accept_list (m_sock m) = dev :: rest → newsocket dev = Some ns →
    k_accept k (m_clock m) (fd (m_sock m))
      {| sa := sa (address ns); sa_length := sizeof_sockaddr_type |}
    = (a, errno, name) →
    0 ≤ a < FD_SETSIZE →
    k_fcntl k (S (S (m_clock m))) a F_SETFL
      (Z.lor (k_fcntl k (S (m_clock m)) a F_GETFL 0) O_NONBLOCK) ≠ -1 →
      internal_accept k ev m
      = (Ok (),
         machine_after
           (set_accept_list rest
              (set_references (references (m_sock m) - 1)
                 (set_pending_accept false (m_sock m))))
           (registered a (self ns) (m_manager m))
           ([Accept (fd (m_sock m))]
            ++ (if EMPTY rest then [] else [Effect (Poke (fd (m_sock m)))])
            ++ [Fcntl a F_GETFL 0;
                Fcntl a F_SETFL
                  (Z.lor (k_fcntl k (S (m_clock m)) a F_GETFL 0) O_NONBLOCK);
                Effect
                  (TaskSendAndDetach (nc_sender dev)
                     (NewconnEvent
                        (newconn_done (m_sock m) (set_nc_address name dev)
                           (set_fd a (set_address name ns))
                           ISC_R_SUCCESS)))])
           3 m)
      ∧ fds (registered a (self ns) (m_manager m)) !! a = Some (self ns)
      ∧ fdstate_at (registered a (self ns) (m_manager m)) a = MANAGED
      ∧ a ≤ maxfd (registered a (self ns) (m_manager m)).
Proof.
  intros k ev [s mg calls t] dev rest ns a errno name.
  cbn [m_sock m_manager m_calls m_clock].
  intros He Hv Hm Hl Hp Hr Hq Hn Hk Ha Hf.
  split.
  - rewrite (internal_accept_enter k ev s mg calls t dev rest ns)
      by assumption.
    rewrite Hk. cbv zeta.
    replace (a <? 0) with false by (symmetry; apply Z.ltb_ge; lia).
    erewrite internal_accept_finish_ok;
      [| reflexivity | reflexivity | lia | exact Hf].
    unfold machine_after. cbn [m_sock m_manager m_calls m_clock Nat.add].
    cbn [address set_address self fd set_accept_list set_references
         set_pending_accept nc_sender set_newsocket].
    sys_norm. reflexivity.
  - unfold registered, fdstate_at. cbn [fds fdstate maxfd].
    rewrite !lookup_insert_eq. cbn [default from_option id].
    repeat split; lia.
Qed.

(** X22.  When accept() fails with a soft error nothing is delivered: the
    request stays at the head of the queue, the manager is not touched,
    the listening socket gives up the reference of the internal event and
    stops being pending, and the watcher is poked to watch the
    descriptor again.  With no request queued the handler does nothing
    more than that accounting, and asks the kernel nothing. *)
Theorem internal_accept_waits_on_a_soft_error :
  ∀ (k : kernel) ev m,
    iev_sender ev = SockPtr (self (m_sock m)) →
    VALID_SOCKET (m_sock m) = true → VALID_MANAGER (m_manager m) = true →
    listener (m_sock m) = true → pending_accept (m_sock m) = true →
    1 < references (m_sock m) →
    (accept_list (m_sock m) = [] →
     internal_accept k ev m
     = (Ok (),
        machine_after
          (set_references (references (m_sock m) - 1)
             (set_pending_accept false (m_sock m)))
          (m_manager m) [] 0 m))
    ∧ (∀ dev rest ns a errno name,
       accept_list (m_sock m) = dev :: rest → newsocket dev = Some ns →
       k_accept k (m_clock m) (fd (m_sock m))
         {| sa := sa (address ns); sa_length := sizeof_sockaddr_type |}
       = (a, errno, name) →
       a < 0 → SOFT_ERROR errno = true →
       internal_accept k ev m
       = (Ok (),
          machine_after
            (set_accept_list
               (set_newsocket (Some (set_address name ns)) dev :: rest)
               (set_references (references (m_sock m) - 1)
                  (set_pending_accept false (m_sock m))))
            (m_manager m)
            [Accept (fd (m_sock m)); Effect (Poke (fd (m_sock m)))] 1 m)).
Proof.
  intros k ev [s mg calls t]. cbn [m_sock m_manager m_calls m_clock].
  intros He Hv Hm Hl Hp Hr. split.
  - intros Hq. unfold internal_accept. srun.
    rewrite bool_decide_eq_true_2 by exact He.
    repeat (progress (rewrite ?Hv, ?Hm, ?Hl, ?Hp; srun)).
    replace (0 <? references s) with true by (symmetry; apply Z.ltb_lt; lia).
    srun. cbn [references set_references set_pending_accept].
    replace (references s - 1 =? 0) with false
      by (symmetry; apply Z.eqb_neq; lia).
    cbn [accept_list set_references set_pending_accept]. rewrite Hq.
    unfold machine_after, mret, sys_ret.
    cbn [m_sock m_manager m_calls m_clock Nat.add]. now rewrite app_nil_r.
  - intros dev rest ns a errno name Hq Hn Hk Ha Hs.
    rewrite (internal_accept_enter k ev s mg calls t dev rest ns)
      by assumption.
    rewrite Hk. cbv zeta.
    replace (a <? 0) with true by (symmetry; apply Z.ltb_lt; lia).
    rewrite Hs. reflexivity.
Qed.

(** X23.  When accept() fails with an error that is not soft, or returns a
    descriptor that fcntl() refuses to make non-blocking, the request is
    delivered all the same, with UNEXPECTED, and the manager's tables are
    not touched.  The socket the event carries has no descriptor: its fd
    is -1 as [allocate_socket] left it, and it holds its one reference.
    Giving up that reference destroys the socket, and [destroy] pokes the
    watcher with the descriptor of the socket, here -1, which is the
    shutdown message: the watcher, reading it, leaves its loop.  The
    socket count goes down although the socket was never counted.  (The
    two table entries [destroy] writes for the descriptor are entries at
    -1 here; in C they lie in front of the arrays.) *)
Theorem failed_accept_hands_out_a_socket_whose_release_stops_the_watcher :
  ∀ (k : kernel) ev m dev rest ns a errno name,
    iev_sender ev = SockPtr (self (m_sock m)) →
    VALID_SOCKET (m_sock m) = true → VALID_MANAGER (m_manager m) = true →
    listener (m_sock m) = true → pending_accept (m_sock m) = true →
    1 < references (m_sock m) →
    accept_list (m_sock m) = dev :: rest → newsocket dev = Some ns →
    at_rest ns → references ns = 1 → fd ns = -1 →
    k_accept k (m_clock m) (fd (m_sock m))
      {| sa := sa (address ns); sa_length := sizeof_sockaddr_type |}
    = (a, errno, name) →
    let sock' :=
      set_accept_list rest
        (set_references (references (m_sock m) - 1)
           (set_pending_accept false (m_sock m))) in
    let poke :=
      if EMPTY rest then [] else [Effect (Poke (fd (m_sock m)))] in
    let done :=
      Effect
        (TaskSendAndDetach (nc_sender dev)
           (NewconnEvent
              (newconn_done (m_sock m) dev (set_address name ns)
                 ISC_R_UNEXPECTED))) in
    (a < 0 → SOFT_ERROR errno = false →
     internal_accept k ev m
     = (Ok (),
        machine_after sock' (m_manager m)
          ([Accept (fd (m_sock m)); Effect UnexpectedError] ++ poke
           ++ [done]) 1 m))
    ∧ (0 ≤ a →
       k_fcntl k (S (S (m_clock m))) a F_SETFL
         (Z.lor (k_fcntl k (S (m_clock m)) a F_GETFL 0) O_NONBLOCK) = -1 →
       internal_accept k ev m
       = (Ok (),
          machine_after sock' (m_manager m)
            ([Accept (fd (m_sock m))] ++ poke
             ++ [Fcntl a F_GETFL 0;
                 Fcntl a F_SETFL
                   (Z.lor (k_fcntl k (S (m_clock m)) a F_GETFL 0) O_NONBLOCK);
                 Effect UnexpectedError; Effect (Close a);
                 Effect UnexpectedError; done]) 3 m))
    ∧ (∀ w heap pipe,
       w_sock w = set_address name ns →
       ∃ w',
         isc_socket_detach w = (Ok NULL, w')
         ∧ extends (w_trace w) (w_trace w')
             (Poke SELECT_POKE_SHUTDOWN
              :: (if uint (nsockets (w_manager w) - 1) =? 0 then [Signal]
                  else [])
              ++ [MutexDestroy (self ns); MemPut (self ns)])
         ∧ nsockets (w_manager w') = uint (nsockets (w_manager w) - 1)
         ∧ watcher_control heap (SELECT_POKE_SHUTDOWN :: pipe)
             (w_manager w') []
           = Ok (w_manager w', true, [])).
Proof.
  intros k ev [s mg calls t] dev rest ns a errno name.
  cbn [m_sock m_manager m_calls m_clock].
  intros He Hv Hm Hl Hp Hr Hq Hn Hrest Hone Hfd Hk. cbv zeta.
  split; [|split].
  - intros Ha Hs.
    rewrite (internal_accept_enter k ev s mg calls t dev rest ns)
      by assumption.
    rewrite Hk. cbv zeta.
    replace (a <? 0) with true by (symmetry; apply Z.ltb_lt; lia).
    rewrite Hs.
    erewrite internal_accept_finish_none; [| reflexivity | reflexivity].
    unfold machine_after. cbn [m_sock m_manager m_calls m_clock Nat.add].
    cbn [fd set_accept_list set_references set_pending_accept nc_sender
         set_newsocket].
    sys_norm. reflexivity.
  - intros Ha Hf.
    rewrite (internal_accept_enter k ev s mg calls t dev rest ns)
      by assumption.
    rewrite Hk. cbv zeta.
    replace (a <? 0) with false by (symmetry; apply Z.ltb_ge; lia).
    erewrite internal_accept_finish_blocking;
      [| reflexivity | reflexivity | lia | exact Hf].
    unfold machine_after. cbn [m_sock m_manager m_calls m_clock Nat.add].
    cbn [fd set_accept_list set_references set_pending_accept nc_sender
         set_newsocket].
    sys_norm. reflexivity.
  - intros w heap pipe Hw.
    destruct Hrest as (Hvn & Hc & Hpr & Hps & Hpa & Hrl & Hsl & Hal & Hce).
    unfold isc_socket_detach. run. rewrite Hw.
    change (VALID_SOCKET (set_address name ns)) with (VALID_SOCKET ns).
    rewrite Hvn. run. cbn [references set_address]. rewrite Hone. run.
    rewrite Hw. cbn [references set_references set_address].
    rewrite Hone. change (uint (1 - 1) =? 0) with true. cbv beta iota.
    erewrite run_seq
      by (apply destroy_run; cbn [w_sock with_sock]; assumption || reflexivity).
    eexists. split; [reflexivity|].
    cbn [w_sock w_manager w_trace with_sock fd self set_references
         set_address nsockets set_nsockets].
    rewrite Hfd.
    split; [reflexivity|]. split; [reflexivity|].
    reflexivity.
Qed.

(** ** Dispatching *)

Lemma uint_succ x : 0 < x < 2 ^ 32 - 1 → uint (x + 1) = x + 1.
Proof. intros H. unfold uint. apply Z.mod_small. lia. Qed.

Lemma dispatch_read_undone s iev n :
  pending_recv s = false → n = references s →
  set_references (n + 1 - 1)
    (set_pending_recv false
       (set_readable_ev iev
          (set_references (n + 1) (set_pending_recv true s))))
  = set_readable_ev iev s.
Proof.
  intros Hp ->. destruct s. cbn in Hp. subst.
  cbv -[Z.add Z.sub]. f_equal. lia.
Qed.

Lemma dispatch_write_undone s iev n :
  pending_send s = false → n = references s →
  set_references (n + 1 - 1)
    (set_pending_send false
       (set_writable_ev iev
          (set_references (n + 1) (set_pending_send true s))))
  = set_writable_ev iev s.
Proof.
  intros Hp ->. destruct s. cbn in Hp. subst.
  cbv -[Z.add Z.sub]. f_equal. lia.
Qed.

(** X24.  What [dispatch_read] and [dispatch_write] set up is what
    [internal_recv] and [internal_send] check on entry.  With a request
    at the head of the queue and no internal event under way, the
    dispatch marks the socket pending, takes a reference for the internal
    event and hands the event, naming the handler, to the task of the
    head request.  The handler run on that event passes its assertions,
    clears the mark and gives the reference back, so that its loop runs
    on the socket as it was before the dispatch, the fields of the
    embedded event apart.  Without a request at the head, or with an
    event under way, the dispatch stops at an assertion. *)
Theorem dispatch_sets_up_what_the_handler_checks :
  ∀ (address_of : handler → Z) w,
    VALID_SOCKET (w_sock w) = true →
    0 < references (w_sock w) < 2 ^ 32 - 1 →
    (∀ dev rest,
       recv_list (w_sock w) = dev :: rest →
       pending_recv (w_sock w) = false →
       iev_type (readable_ev (w_sock w)) = ISC_SOCKEVENT_INTR →
       ∃ sock1 iev,
         dispatch_read address_of (w_sock w)
         = Ok (sock1, TaskSendInternal (se_sender dev) iev)
         ∧ iev_action iev = address_of internal_recv_fn
         ∧ pending_recv sock1 = true
         ∧ references sock1 = references (w_sock w) + 1
         ∧ internal_recv env iev (with_sock sock1 w)
           = (internal_recv_loop env (length (recv_list (w_sock w)));;
              sock ← get_sock;
              if negb (EMPTY (recv_list sock)) then select_poke (fd sock)
              else mret ())
               (with_sock (set_readable_ev iev (w_sock w)) w))
    ∧ (∀ dev rest,
       send_list (w_sock w) = dev :: rest →
       pending_send (w_sock w) = false →
       iev_type (writable_ev (w_sock w)) = ISC_SOCKEVENT_INTW →
       ∃ sock1 iev,
         dispatch_write address_of (w_sock w)
         = Ok (sock1, TaskSendInternal (se_sender dev) iev)
         ∧ iev_action iev = address_of internal_send_fn
         ∧ pending_send sock1 = true
         ∧ references sock1 = references (w_sock w) + 1
         ∧ internal_send env iev (with_sock sock1 w)
           = (internal_send_loop env (length (send_list (w_sock w)));;
              sock ← get_sock;
              if negb (EMPTY (send_list sock)) then select_poke (fd sock)
              else mret ())
               (with_sock (set_writable_ev iev (w_sock w)) w))
    ∧ (recv_list (w_sock w) = [] ∨ pending_recv (w_sock w) = true →
       dispatch_read address_of (w_sock w) = AssertionFailed)
    ∧ (send_list (w_sock w) = [] ∨ pending_send (w_sock w) = true →
       dispatch_write address_of (w_sock w) = AssertionFailed).
Proof.
  intros address_of w Hv Hr.
  split; [|split; [|split]].
  - intros dev rest Hq Hp Ht. unfold dispatch_read. rewrite Hq, Hp.
    cbn [negb INSIST result_assert mbind result_bind].
    eexists _, _. split; [reflexivity|].
    cbn [iev_action internal_event pending_recv references set_readable_ev
         set_references set_pending_recv].
    split; [reflexivity|]. split; [reflexivity|].
    split; [now apply uint_succ|].
    rewrite internal_recv_enter; cbn [w_sock with_sock]; cycle 1.
    { exact Ht. } { reflexivity. } { exact Hv. } { reflexivity. }
    { cbn [references set_readable_ev set_references].
      rewrite uint_succ by exact Hr. lia. }
    unfold recv_entered.
    cbn [recv_list references set_readable_ev set_references
         set_pending_recv].
    rewrite uint_succ by exact Hr.
    rewrite ?Hq. f_equal. unfold with_sock.
    cbn [w_sock w_manager w_trace w_clock]. f_equal.
    now apply dispatch_read_undone.
  - intros dev rest Hq Hp Ht. unfold dispatch_write. rewrite Hq, Hp.
    cbn [negb INSIST result_assert mbind result_bind].
    eexists _, _. split; [reflexivity|].
    cbn [iev_action internal_event pending_send references set_writable_ev
         set_references set_pending_send].
    split; [reflexivity|]. split; [reflexivity|].
    split; [now apply uint_succ|].
    rewrite internal_send_enter; cbn [w_sock with_sock]; cycle 1.
    { exact Ht. } { reflexivity. } { exact Hv. } { reflexivity. }
    { cbn [references set_writable_ev set_references].
      rewrite uint_succ by exact Hr. lia. }
    cbn [send_list references set_writable_ev set_references
         set_pending_send].
    rewrite uint_succ by exact Hr.
    rewrite ?Hq. f_equal. unfold with_sock.
    cbn [w_sock w_manager w_trace w_clock]. f_equal.
    now apply dispatch_write_undone.
  - intros [Hq|Hp]; unfold dispatch_read.
    + now rewrite Hq.
    + rewrite Hp. now destruct (recv_list (w_sock w)).
  - intros [Hq|Hp]; unfold dispatch_write.
    + now rewrite Hq.
    + rewrite Hp. now destruct (send_list (w_sock w)).
Qed.

(** ** The watcher's pass over the descriptors *)

Lemma watcher_ready_manager ready clear dispatch sock heap mg calls
    heap' mg' calls' :
  watcher_ready ready clear dispatch sock (heap, mg, calls)
    = Ok (heap', mg', calls') →
  mg' = (if ready then clear mg else mg).
Proof.
  unfold watcher_ready. destruct ready; [|now intros [= <- <- <-]].
  destruct sock as [a|]; [|now intros [= <- <- <-]].
  destruct (heap !! a) as [s|]; [|discriminate].
  destruct (negb (SOCK_DEAD s)); [|now intros [= <- <- <-]].
  destruct (dispatch s) as [[s' c]| |]; cbn; [|discriminate..].
  now intros [= <- <- <-].
Qed.

Lemma elem_of_FD_CLR j i s : j ∈ FD_CLR i s ↔ j ∈ s ∧ j ≠ i.
Proof.
  unfold FD_CLR. rewrite elem_of_difference, elem_of_singleton. tauto.
Qed.

(** What one turn of the loop does to the manager. *)
Lemma watcher_fd_manager (address_of : handler → Z) r w i heap mg calls
    heap' mg' calls' :
  watcher_fd address_of r w i (heap, mg, calls) = Ok (heap', mg', calls') →
  pipe_fds mg' = pipe_fds mg
  ∧ (∀ j, j ∈ read_fds mg' → j ∈ read_fds mg)
  ∧ (∀ j, j ∈ write_fds mg' → j ∈ write_fds mg)
  ∧ (∀ j, j ≠ i → j ∈ read_fds mg → j ∈ read_fds mg')
  ∧ (∀ j, j ≠ i → j ∈ write_fds mg → j ∈ write_fds mg')
  ∧ (i = (pipe_fds mg).1 ∨ i = (pipe_fds mg).2 → mg' = mg)
  ∧ (i ≠ (pipe_fds mg).1 → i ≠ (pipe_fds mg).2 →
     (i ∈ r → i ∉ read_fds mg') ∧ (i ∈ w → i ∉ write_fds mg')).
Proof.
  unfold watcher_fd.
  destruct ((i =? (pipe_fds mg).1) || (i =? (pipe_fds mg).2)) eqn:Hp.
  { intros [= <- <- <-]. repeat split; try tauto.
    - apply orb_true_iff in Hp as [Hp|Hp]; apply Z.eqb_eq in Hp; tauto.
    - apply orb_true_iff in Hp as [Hp|Hp]; apply Z.eqb_eq in Hp; tauto. }
  apply orb_false_iff in Hp as [Hp1 Hp2].
  apply Z.eqb_neq in Hp1, Hp2.
  destruct (fdstate_at mg i =? CLOSE_PENDING).
  { intros [= <- <- <-].
    cbn [pipe_fds read_fds write_fds set_fdstate set_read_fds set_write_fds].
    repeat split; intros; rewrite ?elem_of_FD_CLR in *; tauto. }
  destruct (watcher_ready (FD_ISSET i r) _ _ _ _) as [[[heap1 mg1] calls1]| |]
    eqn:H1; cbn [mbind result_bind]; [|discriminate..].
  intros H2.
  apply watcher_ready_manager in H1, H2. subst mg' mg1.
  unfold FD_ISSET.
  destruct (bool_decide (i ∈ r)) eqn:Hr;
    destruct (bool_decide (i ∈ w)) eqn:Hw;
    try apply bool_decide_eq_true in Hr;
    try apply bool_decide_eq_false in Hr;
    try apply bool_decide_eq_true in Hw;
    try apply bool_decide_eq_false in Hw;
    cbn [pipe_fds read_fds write_fds set_read_fds set_write_fds];
    repeat split; intros; rewrite ?elem_of_FD_CLR in *; tauto.
Qed.

Lemma watcher_fd_loop_manager (address_of : handler → Z) r w l :
  ∀ heap mg calls heap' mg' calls',
  watcher_fd_loop address_of r w l (heap, mg, calls)
    = Ok (heap', mg', calls') →
  pipe_fds mg' = pipe_fds mg
  ∧ (∀ j, j ∈ read_fds mg' → j ∈ read_fds mg)
  ∧ (∀ j, j ∈ write_fds mg' → j ∈ write_fds mg)
  ∧ (∀ j, j ∉ l ∨ j = (pipe_fds mg).1 ∨ j = (pipe_fds mg).2 →
       (j ∈ read_fds mg → j ∈ read_fds mg')
       ∧ (j ∈ write_fds mg → j ∈ write_fds mg'))
  ∧ (∀ i, i ∈ l → i ≠ (pipe_fds mg).1 → i ≠ (pipe_fds mg).2 →
       (i ∈ r → i ∉ read_fds mg') ∧ (i ∈ w → i ∉ write_fds mg')).
Proof.
  induction l as [|i l IH]; intros heap mg calls heap' mg' calls'.
  - cbn. intros [= <- <- <-]. repeat split; try tauto.
    all: match goal with H : _ ∈ [] |- _ => now apply elem_of_nil in H end.
  - cbn [watcher_fd_loop].
    destruct (watcher_fd address_of r w i (heap, mg, calls))
      as [[[heap1 mg1] calls1]| |] eqn:H1; cbn [mbind result_bind];
      [|discriminate..].
    intros H2. apply IH in H2 as (P2 & R2 & W2 & K2 & C2).
    apply watcher_fd_manager in H1 as (P1 & R1 & W1 & KR1 & KW1 & S1 & C1).
    rewrite P1 in *.
    split; [congruence|].
    split; [intros j Hj; auto|]. split; [intros j Hj; auto|].
    split.
    + intros j Hj.
      assert (Hj2 : j ∉ l ∨ j = (pipe_fds mg).1 ∨ j = (pipe_fds mg).2).
      { destruct Hj as [Hj|Hj]; [left|right; exact Hj].
        intros Hin. apply Hj. now apply elem_of_cons; right. }
      destruct (decide (j = i)) as [->|Hne].
      * destruct Hj as [Hj|Hj].
        { exfalso. apply Hj. now apply elem_of_cons; left. }
        rewrite (S1 Hj) in *. apply (K2 i). now right.
      * split; intros H; apply (K2 j Hj2); auto.
    + intros j Hj Hn1 Hn2. apply elem_of_cons in Hj as [->|Hj].
      * destruct (C1 Hn1 Hn2) as [Cr Cw].
        split; intros H Hin; [apply (Cr H) | apply (Cw H)]; auto.
      * now apply C2.
Qed.

(** X25.  One pass of the watcher over the descriptors below [maxfd].  When
    the pass gets through, every descriptor that select() reported
    readable has left the set the watcher reads on, and every one
    reported writable the set it writes on, until a poke puts it back.
    The pass never adds a descriptor to either set, leaves the
    descriptors it did not visit as they were, and keeps watching the
    two ends of the control pipe as before. *)
Theorem reported_descriptors_leave_the_watched_sets :
  ∀ (address_of : handler → Z) readfds writefds maxfd heap manager calls
    heap' manager' calls',
    watcher_fds address_of readfds writefds maxfd (heap, manager, calls)
      = Ok (heap', manager', calls') →
    pipe_fds manager' = pipe_fds manager
    ∧ read_fds manager' ⊆ read_fds manager
    ∧ write_fds manager' ⊆ write_fds manager
    ∧ (∀ i, 0 ≤ i < maxfd →
         i ≠ (pipe_fds manager).1 → i ≠ (pipe_fds manager).2 →
         (i ∈ readfds → i ∉ read_fds manager')
         ∧ (i ∈ writefds → i ∉ write_fds manager'))
    ∧ (∀ j, j < 0 ∨ maxfd ≤ j
            ∨ j = (pipe_fds manager).1 ∨ j = (pipe_fds manager).2 →
         (j ∈ read_fds manager ↔ j ∈ read_fds manager')
         ∧ (j ∈ write_fds manager ↔ j ∈ write_fds manager')).
Proof.
  intros address_of r w maxfd heap mg calls heap' mg' calls' H.
  unfold watcher_fds in H.
  apply watcher_fd_loop_manager in H as (P & R & W & K & C).
  split; [exact P|].
  split; [intros j; apply R|]. split; [intros j; apply W|].
  split.
  - intros i Hi. apply C. apply elem_of_seqZ. lia.
  - intros j Hj.
    assert (Hj' : j ∉ seqZ 0 maxfd
                  ∨ j = (pipe_fds mg).1 ∨ j = (pipe_fds mg).2).
    { destruct Hj as [Hj|[Hj|Hj]]; [left|left|right; exact Hj];
        rewrite elem_of_seqZ; lia. }
    destruct (K j Hj') as [Kr Kw]. split; split; auto.
Qed.

Lemma filter_cancelled_by_all (l : list isc_socketevent_t) :
  filter (λ dev, cancels_task NULL (se_sender dev) = false) l = [].
Proof.
  induction l as [|dev l IH]; [reflexivity|].
  rewrite filter_cons, decide_False; [exact IH|].
  unfold cancels_task. rewrite bool_decide_eq_true_2 by reflexivity.
  discriminate.
Qed.

(** [isc_socket_cancel] of the reads of every task, on a socket that has
    only reads queued: the read queue ends up empty and nothing else of
    the socket changes. *)
Lemma cancel_all_reads how w :
  VALID_SOCKET (w_sock w) = true →
  Z.land how ISC_SOCKCANCEL_RECV = ISC_SOCKCANCEL_RECV → how ≠ 0 →
  NoDup (map se_self (recv_list (w_sock w))) →
  send_list (w_sock w) = [] → accept_list (w_sock w) = [] →
  connect_ev (w_sock w) = None →
  isc_socket_cancel NULL how w
  = (Ok (),
     with_effects
       (map (λ dev, handover (se_sender dev)
                      (recvdone (w_sock w) dev ISC_R_CANCELED))
          (recv_list (w_sock w))
        ++ [Poke (fd (w_sock w))])
       (with_sock (set_recv_list [] (w_sock w)) w)).
Proof.
  intros Hv Hh Hz Hnd Hs Ha Hc.
  unfold isc_socket_cancel. run. rewrite Hv. run.
  replace (how =? 0) with false by (symmetry; now apply Z.eqb_neq).
  rewrite Hh, Z.eqb_refl. cbn [andb].
  assert (E1 :
    (if negb (EMPTY (recv_list (w_sock w)))
     then cancel_recv NULL (recv_list (w_sock w)) else mret ()) w
    = (Ok (),
       with_effects
         (map (λ dev, handover (se_sender dev)
                        (recvdone (w_sock w) dev ISC_R_CANCELED))
            (recv_list (w_sock w)))
         (with_sock (set_recv_list [] (w_sock w)) w))).
  { destruct (recv_list (w_sock w)) as [|d q] eqn:Hq; cbn [EMPTY negb].
    - cbn [map]. destruct w as [s m t c]; destruct s; cbn in *; subst.
      unfold with_effects, with_sock; cbn. now rewrite app_nil_r.
    - rewrite <- Hq.
      rewrite (cancel_recv_filter NULL _ [] w);
        [|reflexivity|cbn [app]; now rewrite Hq].
      rewrite filter_cancelled_by_all. cbn [app].
      do 3 f_equal.
      clear. induction (recv_list (w_sock w)) as [|e l IH]; [reflexivity|].
      rewrite filter_cons, decide_True; [cbn [map]; now rewrite IH|].
      unfold cancels_task. now rewrite bool_decide_eq_true_2. }
  erewrite run_seq by exact E1. run.
  cbn [send_list set_recv_list]. rewrite Hs.
  cbn [EMPTY negb]. rewrite andb_false_r. run.
  cbn [accept_list set_recv_list]. rewrite Ha.
  cbn [EMPTY negb]. rewrite andb_false_r. run.
  cbn [connect_ev set_recv_list]. rewrite Hc.
  destruct (Z.land how ISC_SOCKCANCEL_CONNECT =? ISC_SOCKCANCEL_CONNECT);
    run; cbn [fd set_recv_list]; rewrite select_poke_run;
    now rewrite with_effects_app.
Qed.

(** X26.  Readiness that select() reported before a cancel.  The watcher
    copies its sets before it calls select() and works on the copy
    afterwards.  When [isc_socket_cancel] empties the read queue of a
    socket in between, the descriptor is still marked readable in the
    copy, and the watcher's turn for that descriptor stops at
    INSIST(ev != NULL) in [dispatch_read].  Reading the poke of the
    cancel first does not help: it clears the bit in the manager's set,
    not in the copy. *)
Theorem readiness_reported_before_a_cancel_stops_the_watcher :
  ∀ (address_of : handler → Z) w how readfds writefds heap manager calls,
    VALID_SOCKET (w_sock w) = true →
    Z.land how ISC_SOCKCANCEL_RECV = ISC_SOCKCANCEL_RECV → how ≠ 0 →
    NoDup (map se_self (recv_list (w_sock w))) →
    send_list (w_sock w) = [] → accept_list (w_sock w) = [] →
    connect_ev (w_sock w) = None →
    listener (w_sock w) = false → 0 < references (w_sock w) →
    fd (w_sock w) ∈ readfds →
    0 ≤ fd (w_sock w) < FD_SETSIZE →
    fd (w_sock w) ≠ (pipe_fds manager).1 →
    fd (w_sock w) ≠ (pipe_fds manager).2 →
    fdstate_at manager (fd (w_sock w)) = MANAGED →
    fds manager !! fd (w_sock w) = Some (self (w_sock w)) →
    ∃ w',
      isc_socket_cancel NULL how w = (Ok (), w')
      ∧ extends (w_trace w) (w_trace w')
          (map (λ dev, handover (se_sender dev)
                         (recvdone (w_sock w) dev ISC_R_CANCELED))
             (recv_list (w_sock w))
           ++ [Poke (fd (w_sock w))])
      ∧ recv_list (w_sock w') = []
      ∧ watcher_fd address_of readfds writefds (fd (w_sock w))
          (<[self (w_sock w) := w_sock w']> heap, manager, calls)
        = AssertionFailed
      ∧ ∃ manager1,
          watcher_wakeup (<[self (w_sock w) := w_sock w']> heap)
            (fd (w_sock w)) manager
          = Ok (manager1, [])
          ∧ FD_ISSET (fd (w_sock w)) (read_fds manager1) = false
          ∧ watcher_fd address_of readfds writefds (fd (w_sock w))
              (<[self (w_sock w) := w_sock w']> heap, manager1, calls)
            = AssertionFailed.
Proof.
  intros address_of w how r wr heap mg calls
    Hv Hh Hz Hnd Hs Ha Hc Hl Href Hin Hfd Hp1 Hp2 Hst Hfds.
  eexists. split; [now apply cancel_all_reads|].
  cbn [w_sock w_trace with_sock with_effects recv_list set_recv_list].
  split; [reflexivity|]. split; [reflexivity|].
  assert (Hfail : ∀ mg1,
    pipe_fds mg1 = pipe_fds mg → fdstate mg1 = fdstate mg →
    fds mg1 = fds mg →
    watcher_fd address_of r wr (fd (w_sock w))
      (<[self (w_sock w) := set_recv_list [] (w_sock w)]> heap, mg1, calls)
    = AssertionFailed).
  { intros mg1 E1 E2 E3. unfold watcher_fd. rewrite E1.
    replace (fd (w_sock w) =? (pipe_fds mg).1) with false
      by (symmetry; now apply Z.eqb_neq).
    replace (fd (w_sock w) =? (pipe_fds mg).2) with false
      by (symmetry; now apply Z.eqb_neq).
    cbn [orb]. unfold fdstate_at in *. rewrite E2, Hst, E3, Hfds.
    change (MANAGED =? CLOSE_PENDING) with false. cbv iota.
    unfold watcher_ready at 2. unfold FD_ISSET at 2.
    rewrite bool_decide_eq_true_2 by exact Hin.
    rewrite lookup_insert_eq. unfold SOCK_DEAD.
    cbn [references listener set_recv_list]. rewrite Hl.
    replace (references (w_sock w) =? 0) with false
      by (symmetry; apply Z.eqb_neq; lia).
    cbn [negb]. unfold dispatch_read. cbn [recv_list set_recv_list].
    reflexivity. }
  split; [now apply Hfail|].
  unfold watcher_wakeup.
  replace (fd (w_sock w) <? FD_SETSIZE) with true
    by (symmetry; apply Z.ltb_lt; lia).
  cbn [negb]. rewrite Hst.
  change (MANAGED =? CLOSE_PENDING) with false.
  change (MANAGED =? MANAGED) with true. cbn [negb].
  rewrite Hfds. cbn [mbind option_bind]. rewrite lookup_insert_eq.
  eexists. split; [reflexivity|].
  split.
  - unfold watch_write, watch_read.
    cbn [recv_list accept_list set_recv_list pending_recv pending_accept
         send_list pending_send connecting fd].
    rewrite Ha. cbn [EMPTY andb orb].
    destruct ((_ || _) && _);
      cbn [read_fds set_read_fds set_write_fds];
      rewrite FD_ISSET_FD_CLR, bool_decide_eq_true_2 by reflexivity;
      reflexivity.
  - apply Hfail; unfold watch_write, watch_read;
      repeat match goal with |- context [if ?c then _ else _] =>
               destruct c end; reflexivity.
Qed.

(** X27.  A listening socket on which nothing can be accepted yet, through one
    round of the watcher.  select() reports the descriptor readable: the
    watcher's turn for it takes it out of the read set, marks the socket
    pending with one more reference and hands the internal event, naming
    [internal_accept], to the task of the request at the head of the
    accept queue.  While that event is under way a poke does not bring
    the descriptor back into the read set.  The handler finds that
    accept() fails with a soft error: it gives the reference back, clears
    the mark, keeps the queue and pokes the watcher; and the watcher,
    reading that poke, watches the descriptor for reading again. *)
Theorem a_listener_with_nothing_to_accept_is_watched_again :
  ∀ (k : kernel) (address_of : handler → Z) readfds writefds heap calls m
    dev rest ns a errno name,
    heap !! self (m_sock m) = Some (m_sock m) →
    fds (m_manager m) !! fd (m_sock m) = Some (self (m_sock m)) →
    fdstate_at (m_manager m) (fd (m_sock m)) = MANAGED →
    0 ≤ fd (m_sock m) < FD_SETSIZE →
    fd (m_sock m) ≠ (pipe_fds (m_manager m)).1 →
    fd (m_sock m) ≠ (pipe_fds (m_manager m)).2 →
    fd (m_sock m) ∈ readfds → fd (m_sock m) ∉ writefds →
    VALID_SOCKET (m_sock m) = true → VALID_MANAGER (m_manager m) = true →
    listener (m_sock m) = true →
    pending_accept (m_sock m) = false → pending_recv (m_sock m) = false →
    0 < references (m_sock m) < 2 ^ 32 - 1 →
    accept_list (m_sock m) = dev :: rest → newsocket dev = Some ns →
    k_accept k (m_clock m) (fd (m_sock m))
      {| sa := sa (address ns); sa_length := sizeof_sockaddr_type |}
    = (a, errno, name) →
    a < 0 → SOFT_ERROR errno = true →
    ∃ sock1 iev sock2 manager2,
      let manager1 :=
        set_read_fds (FD_CLR (fd (m_sock m)) (read_fds (m_manager m)))
          (m_manager m) in
      watcher_fd address_of readfds writefds (fd (m_sock m))
        (heap, m_manager m, calls)
      = Ok (<[self (m_sock m) := sock1]> heap, manager1,
            calls ++ [TaskSendInternal (nc_sender dev) iev])
      ∧ iev_action iev = address_of internal_accept_fn
      ∧ references sock1 = references (m_sock m) + 1
      ∧ (∃ mg,
           watcher_wakeup (<[self (m_sock m) := sock1]> heap)
             (fd (m_sock m)) manager1 = Ok (mg, [])
           ∧ FD_ISSET (fd (m_sock m)) (read_fds mg) = false)
      ∧ internal_accept k iev
          {| m_sock := sock1; m_manager := manager1;
             m_calls := m_calls m; m_clock := m_clock m |}
        = (Ok (),
           machine_after sock2 manager1
             [Accept (fd (m_sock m)); Effect (Poke (fd (m_sock m)))] 1 m)
      ∧ references sock2 = references (m_sock m)
      ∧ pending_accept sock2 = false
      ∧ accept_list sock2
        = set_newsocket (Some (set_address name ns)) dev :: rest
      ∧ watcher_wakeup (<[self (m_sock m) := sock2]> heap)
          (fd (m_sock m)) manager1 = Ok (manager2, [])
      ∧ FD_ISSET (fd (m_sock m)) (read_fds manager2) = true.
Proof.
  intros k address_of r wr heap calls [s mg calls0 t] dev rest ns a errno name.
  cbn [m_sock m_manager m_calls m_clock].
  intros Hheap Hfds Hst Hfd Hp1 Hp2 Hin Hout Hv Hm Hl Hpa Hpr Href Hq Hn
    Hk Ha Hs.
  set (iev := internal_event address_of
                (readable_ev
                   (set_references (uint (references s + 1))
                      (set_pending_accept true s)))
                (set_references (uint (references s + 1))
                   (set_pending_accept true s)) internal_accept_fn).
  set (sock1 := set_readable_ev iev
                  (set_references (uint (references s + 1))
                     (set_pending_accept true s))).
  assert (Hwake : ∀ s' mg', fdstate mg' = fdstate mg → fds mg' = fds mg →
            watcher_wakeup (<[self s := s']> heap) (fd s) mg'
            = Ok (watch_write s' (watch_read s' mg'), [])).
  { intros s' mg' E1 E2. unfold watcher_wakeup, fdstate_at in *.
    replace (fd s <? FD_SETSIZE) with true
      by (symmetry; apply Z.ltb_lt; lia).
    cbn [negb]. rewrite E1, Hst, E2, Hfds.
    change (MANAGED =? CLOSE_PENDING) with false.
    change (MANAGED =? MANAGED) with true. cbn [negb mbind option_bind].
    now rewrite lookup_insert_eq. }
  exists sock1, iev. eexists. eexists. cbv zeta.
  split.
  { unfold watcher_fd.
    replace (fd s =? (pipe_fds mg).1) with false
      by (symmetry; now apply Z.eqb_neq).
    replace (fd s =? (pipe_fds mg).2) with false
      by (symmetry; now apply Z.eqb_neq).
    cbn [orb]. rewrite Hst, Hfds.
    change (MANAGED =? CLOSE_PENDING) with false. cbv iota.
    unfold watcher_ready, FD_ISSET.
    rewrite (bool_decide_eq_true_2 (fd s ∈ r)) by exact Hin.
    rewrite (bool_decide_eq_false_2 (fd s ∈ wr)) by exact Hout.
    rewrite Hheap. unfold SOCK_DEAD.
    replace (references s =? 0) with false
      by (symmetry; apply Z.eqb_neq; lia).
    cbn [negb]. rewrite Hl. unfold dispatch_accept. rewrite Hq, Hpa.
    cbn [negb INSIST result_assert mbind result_bind]. reflexivity. }
  split; [reflexivity|].
  split.
  { subst sock1. cbn [references set_readable_ev set_references].
    apply uint_succ. exact Href. }
  split.
  { eexists. split; [apply Hwake; reflexivity|].
    unfold watch_write, watch_read. subst sock1.
    cbn [recv_list accept_list pending_recv pending_accept send_list
         pending_send connecting fd set_readable_ev set_references
         set_pending_accept].
    rewrite orb_true_r.
    destruct ((_ || _) && _);
      cbn [read_fds set_read_fds set_write_fds];
      rewrite FD_ISSET_FD_CLR, bool_decide_eq_true_2 by reflexivity;
      reflexivity. }
  split.
  { rewrite (internal_accept_enter k iev sock1 _ calls0 t dev rest ns);
      [| reflexivity | exact Hv | exact Hm | exact Hl | reflexivity
       | subst sock1; cbn [references set_readable_ev set_references];
         rewrite uint_succ by exact Href; lia
       | exact Hq | exact Hn ].
    change (fd sock1) with (fd s). rewrite Hk. cbv zeta.
    replace (a <? 0) with true by (symmetry; apply Z.ltb_lt; lia).
    rewrite Hs. unfold machine_after.
    cbn [m_sock m_manager m_calls m_clock Nat.add]. reflexivity. }
  cbn [references pending_accept accept_list set_accept_list set_references
       set_pending_accept].
  split.
  { subst sock1. cbn [references set_readable_ev set_references].
    rewrite uint_succ by exact Href. lia. }
  split; [reflexivity|]. split; [reflexivity|].
  split; [apply Hwake; reflexivity|].
  unfold watch_write, watch_read. subst sock1.
  cbn [recv_list accept_list pending_recv pending_accept send_list
       pending_send connecting fd set_readable_ev set_references
       set_pending_accept set_accept_list].
  rewrite Hpr. cbn [EMPTY andb orb]. rewrite andb_false_r. cbn [orb].
  destruct ((_ || _) && _);
    cbn [read_fds set_read_fds set_write_fds];
    rewrite FD_ISSET_FD_SET, bool_decide_eq_true_2 by reflexivity;
    reflexivity.
Qed.

(** X28.  A descriptor marked CLOSE_PENDING is closed by whichever of the
    watcher's two loops comes to it first, and not again by the other.
    The loop over the descriptors closes it, marks it CLOSED and stops
    watching it, after which the poke that [destroy] wrote does nothing;
    and when the poke was read first, the loop over the descriptors
    finds the descriptor CLOSED with no socket and at most clears its
    stale bits. *)
Theorem close_pending_is_settled_by_the_loop_that_sees_it_first :
  ∀ (address_of : handler → Z) readfds writefds heap manager calls i,
    0 ≤ i < FD_SETSIZE →
    i ≠ (pipe_fds manager).1 → i ≠ (pipe_fds manager).2 →
    fdstate_at manager i = CLOSE_PENDING →
    fds manager !! i = None →
    (∃ manager',
       watcher_fd address_of readfds writefds i (heap, manager, calls)
       = Ok (heap, manager', calls ++ [Effect (Close i)])
       ∧ fdstate_at manager' i = CLOSED
       ∧ FD_ISSET i (read_fds manager') = false
       ∧ FD_ISSET i (write_fds manager') = false
       ∧ watcher_wakeup heap i manager' = Ok (manager', []))
    ∧ (∃ manager',
         watcher_wakeup heap i manager = Ok (manager', [Close i])
         ∧ ∃ manager'',
             watcher_fd address_of readfds writefds i (heap, manager', calls)
             = Ok (heap, manager'', calls)
             ∧ fdstate_at manager'' i = CLOSED
             ∧ FD_ISSET i (read_fds manager'') = false
             ∧ FD_ISSET i (write_fds manager'') = false).
Proof.
  intros address_of r wr heap mg calls i Hi Hp1 Hp2 Hst Hfds.
  assert (Hlt : (i <? FD_SETSIZE) = true) by (apply Z.ltb_lt; lia).
  assert (Hn1 : (i =? (pipe_fds mg).1) = false) by now apply Z.eqb_neq.
  assert (Hn2 : (i =? (pipe_fds mg).2) = false) by now apply Z.eqb_neq.
  split.
  - eexists. split.
    { unfold watcher_fd. rewrite Hn1, Hn2. cbn [orb]. rewrite Hst.
      change (CLOSE_PENDING =? CLOSE_PENDING) with true. cbv iota.
      reflexivity. }
    unfold fdstate_at.
    cbn [fdstate read_fds write_fds set_fdstate set_read_fds set_write_fds].
    rewrite lookup_insert_eq. cbn [default from_option id].
    split; [reflexivity|].
    rewrite !FD_ISSET_FD_CLR, bool_decide_eq_true_2 by reflexivity.
    split; [reflexivity|]. split; [reflexivity|].
    unfold watcher_wakeup, fdstate_at. rewrite Hlt. cbn [negb].
    cbn [fdstate set_fdstate set_read_fds set_write_fds].
    rewrite lookup_insert_eq. cbn [default from_option id].
    reflexivity.
  - eexists. split.
    { unfold watcher_wakeup. rewrite Hlt. cbn [negb]. rewrite Hst.
      change (CLOSE_PENDING =? CLOSE_PENDING) with true. cbv iota.
      reflexivity. }
    unfold watcher_fd.
    cbn [pipe_fds set_fdstate set_read_fds set_write_fds].
    rewrite Hn1, Hn2. cbn [orb]. unfold fdstate_at.
    cbn [fdstate fds set_fdstate set_read_fds set_write_fds].
    rewrite lookup_insert_eq, Hfds. cbn [default from_option id].
    change (CLOSED =? CLOSE_PENDING) with false. cbv iota.
    unfold watcher_ready.
    destruct (FD_ISSET i r), (FD_ISSET i wr);
      cbn [mbind result_bind];
      (eexists; split; [reflexivity|]);
      cbn [fdstate read_fds write_fds set_fdstate set_read_fds
           set_write_fds];
      rewrite lookup_insert_eq; cbn [default from_option id];
      rewrite ?FD_ISSET_FD_CLR, bool_decide_eq_true_2 by reflexivity;
      repeat split; reflexivity.
Qed.

(** ** Creating a socket *)

Lemma isc_socket_create_enter (k : kernel) pf type m block :
  VALID_MANAGER (m_manager m) = true →
  k_mem_get k (m_clock m) = Some block →
  k_mutex_init k (S (m_clock m)) = ISC_R_SUCCESS →
  ∃ sock,
    (at_rest sock ∧ references sock = 0 ∧ fd sock = -1
     ∧ sock_type sock = type ∧ self sock = self block
     ∧ listener sock = false ∧ connected sock = false
     ∧ recv_result sock = ISC_R_SUCCESS ∧ send_result sock = ISC_R_SUCCESS
     ∧ iev_type (readable_ev sock) = ISC_SOCKEVENT_INTR
     ∧ iev_type (writable_ev sock) = ISC_SOCKEVENT_INTW
     ∧ iev_sender (readable_ev sock) = SockPtr (self block)
     ∧ iev_sender (writable_ev sock) = SockPtr (self block))
    ∧ ∀ s errno,
        k_socket k (S (S (m_clock m))) pf (socket_arguments type).1
          (socket_arguments type).2 = (s, errno) →
        isc_socket_create k pf type (Some NULL) m
        = (let sock := set_fd s sock in
           if fd sock <? 0 then
             lift (free_socket sock);;
             if (errno =? EMFILE) || (errno =? ENFILE) || (errno =? ENOBUFS)
             then mret (ISC_R_NORESOURCES, None)
             else
               note (Effect UnexpectedError);;
               mret (ISC_R_UNEXPECTED, None)
           else
             r ← make_nonblock k (fd sock);
             if bool_decide (r ≠ ISC_R_SUCCESS) then
               lift (free_socket sock);;
               mret (ISC_R_UNEXPECTED, None)
             else
               (if bool_decide (type = isc_sockettype_udp) then
                  ret ← consult (Setsockopt (fd sock) SOL_SOCKET SO_TIMESTAMP)
                          (λ t, k_setsockopt k t (fd sock) SOL_SOCKET
                                  SO_TIMESTAMP);
                  (if ret <? 0 then note (Effect UnexpectedError)
                   else mret ());;
                  if ISC_PLATFORM_HAVEIPV6 && (pf =? AF_INET6) then
                    ret ← consult
                            (Setsockopt (fd sock) IPPROTO_IPV6 IPV6_PKTINFO)
                            (λ t, k_setsockopt k t (fd sock) IPPROTO_IPV6
                                    IPV6_PKTINFO);
                    if ret <? 0 then note (Effect UnexpectedError)
                    else mret ()
                  else mret ()
                else mret ());;
               let sock := set_references 1 sock in
               lift (register_created sock);;
               mret (ISC_R_SUCCESS, Some sock))
            (machine_after (m_sock m) (m_manager m)
               [MemGet; MutexInit (self block);
                Socket pf (socket_arguments type).1 (socket_arguments type).2]
               3 m).
Proof.
  intros Hm Hb Hx.
  destruct (allocate_socket_run k type m block Hb Hx) as (sock & Ha & Hsock).
  exists sock. split; [exact Hsock|].
  intros s errno Hk. unfold isc_socket_create. srun. rewrite Hm. srun.
  erewrite srun_seq by exact Ha. cbv beta iota.
  rewrite (bool_decide_eq_false_2 (ISC_R_SUCCESS ≠ ISC_R_SUCCESS))
    by (intros H; now apply H).
  clear Ha Hsock.
  destruct type; cbn [socket_arguments fst snd] in *; srun;
    cbn [Nat.add]; rewrite Hk; cbv zeta; cbv beta iota;
    sys_norm; reflexivity.
Qed.

(** The setsockopt() calls of [isc_socket_create] go through whatever
    the kernel answers, and touch neither the socket nor the manager. *)
Lemma create_setsockopt_run (k : kernel) pf type (a : Z) m :
  ∃ m',
    (if bool_decide (type = isc_sockettype_udp) then
       ret ← consult (Setsockopt a SOL_SOCKET SO_TIMESTAMP)
               (λ t, k_setsockopt k t a SOL_SOCKET SO_TIMESTAMP);
       (if ret <? 0 then note (Effect UnexpectedError) else mret ());;
       if ISC_PLATFORM_HAVEIPV6 && (pf =? AF_INET6) then
         ret ← consult (Setsockopt a IPPROTO_IPV6 IPV6_PKTINFO)
                 (λ t, k_setsockopt k t a IPPROTO_IPV6 IPV6_PKTINFO);
         if ret <? 0 then note (Effect UnexpectedError) else mret ()
       else mret ()
     else mret ()) m = (Ok (), m')
    ∧ m_sock m' = m_sock m ∧ m_manager m' = m_manager m.
Proof.
  destruct (bool_decide (type = isc_sockettype_udp));
    [|eexists; split; [reflexivity|]; split; reflexivity].
  srun.
  destruct (_ <? 0); srun;
    (destruct (ISC_PLATFORM_HAVEIPV6 && (pf =? AF_INET6));
     [srun; destruct (_ <? 0)|]);
    (eexists; split; [reflexivity|]; split; reflexivity).
Qed.

(** X29.  A socket that socket() and fcntl() go through for, on a descriptor
    within the manager's tables, is entered in those tables under its
    descriptor, with one reference, nothing
    queued and the type asked for; a setsockopt() that fails does not
    stop the call.  Giving that reference up again undoes the entry:
    the descriptor has no socket any more and waits to be closed, the
    watcher is poked, and the socket count is what it was before the
    socket was created. *)
Theorem create_registers_the_socket_and_the_last_detach_undoes_it :
  ∀ (k : kernel) pf type m block s errno,
    VALID_MANAGER (m_manager m) = true →
    0 ≤ nsockets (m_manager m) < 2 ^ 32 - 1 →
    k_mem_get k (m_clock m) = Some block →
    k_mutex_init k (S (m_clock m)) = ISC_R_SUCCESS →
    k_socket k (S (S (m_clock m))) pf (socket_arguments type).1
      (socket_arguments type).2 = (s, errno) →
    0 ≤ s < FD_SETSIZE →
    k_fcntl k (S (S (S (S (m_clock m))))) s F_SETFL
      (Z.lor (k_fcntl k (S (S (S (m_clock m)))) s F_GETFL 0) O_NONBLOCK)
    ≠ -1 →
    ∃ sock m',
      isc_socket_create k pf type (Some NULL) m
      = (Ok (ISC_R_SUCCESS, Some sock), m')
      ∧ m_sock m' = m_sock m
      ∧ m_manager m' = registered s (self block) (m_manager m)
      ∧ at_rest sock ∧ references sock = 1 ∧ fd sock = s
      ∧ sock_type sock = type ∧ self sock = self block
      ∧ listener sock = false ∧ connected sock = false
      ∧ ∀ w, w_sock w = sock → w_manager w = m_manager m' →
          ∃ w',
            isc_socket_detach w = (Ok NULL, w')
            ∧ fds (w_manager w') !! s = None
            ∧ fdstate_at (w_manager w') s = CLOSE_PENDING
            ∧ nsockets (w_manager w') = nsockets (m_manager m)
            ∧ extends (w_trace w) (w_trace w')
                (Poke s
                 :: (if nsockets (m_manager m) =? 0 then [Signal] else [])
                 ++ [MutexDestroy (self block); MemPut (self block)]).
Proof.
  intros k pf type m block s errno Hm Hn Hb Hx Hk Hs Hf.
  destruct (isc_socket_create_enter k pf type m block Hm Hb Hx)
    as (sock & Hsock & Hrun).
  destruct Hsock as (Hrest & Hr0 & Hfd & Hty & Hself & Hl & Hc & _).
  rewrite (Hrun s errno Hk). clear Hrun. cbv zeta.
  cbn [fd set_fd].
  replace (s <? 0) with false by (symmetry; apply Z.ltb_ge; lia).
  erewrite srun_seq by apply make_nonblock_run.
  cbv zeta. unfold machine_after.
  cbn [m_sock m_manager m_calls m_clock Nat.add].
  apply Z.eqb_neq in Hf. rewrite Hf.
  rewrite (bool_decide_eq_false_2 (ISC_R_SUCCESS ≠ ISC_R_SUCCESS))
    by (intros H; now apply H).
  match goal with
  | |- context [(_ ≫= _) ?m0] =>
      destruct (create_setsockopt_run k pf type s m0) as (m1 & E1 & S1 & M1)
  end.
  erewrite srun_seq by exact E1. clear E1.
  erewrite srun_seq by apply register_created_run.
  cbn [fd self set_fd set_references].
  cbn [m_sock m_manager m_calls m_clock] in S1, M1.
  eexists _, _. split; [reflexivity|].
  cbn [m_sock m_manager]. rewrite S1, M1, Hself.
  split; [reflexivity|]. split; [reflexivity|].
  destruct Hrest as (Hv & Hcg & Hpr & Hps & Hpa & Hrl & Hsl & Hal & Hce).
  split; [repeat split; assumption|].
  split; [reflexivity|]. split; [reflexivity|].
  split; [exact Hty|]. split; [exact Hself|].
  split; [exact Hl|]. split; [exact Hc|].
  intros w Hw Hmg.
  assert (Hu : uint (nsockets (m_manager m) + 1) = nsockets (m_manager m) + 1)
    by (unfold uint; apply Z.mod_small; lia).
  assert (Hu' : uint (nsockets (w_manager w) - 1) = nsockets (m_manager m)).
  { rewrite Hmg. unfold registered. cbn [nsockets]. rewrite Hu.
    unfold uint. rewrite Z.mod_small by lia. lia. }
  unfold isc_socket_detach. run. rewrite Hw.
  change (VALID_SOCKET (set_references 1 (set_fd s sock)))
    with (VALID_SOCKET sock).
  rewrite Hv. run. cbn [references set_references]. run.
  rewrite Hw. cbn [references set_references].
  change (uint (1 - 1) =? 0) with true. cbv beta iota.
  erewrite run_seq
    by (apply destroy_run; cbn [w_sock with_sock]; assumption || reflexivity).
  eexists. split; [reflexivity|].
  cbn [w_sock w_manager w_trace with_sock fd self set_references set_fd
       nsockets set_nsockets fds set_fds fdstate set_fdstate].
  split; [apply lookup_delete_eq|].
  unfold fdstate_at. cbn [fdstate set_nsockets set_fdstate set_fds].
  split; [now rewrite lookup_insert_eq|].
  split; [exact Hu'|].
  rewrite Hu', Hself. reflexivity.
Qed.

(** X30.  A socket that cannot be created leaves the manager as it was and
    gives its memory back.  Without memory the call answers NOMEMORY;
    when the lock cannot be set up, UNEXPECTED; when socket() fails,
    NORESOURCES for EMFILE, ENFILE and ENOBUFS and UNEXPECTED otherwise.
    When socket() returned a descriptor that fcntl() refuses to make
    non-blocking, the call answers UNEXPECTED and releases the socket
    object, and the descriptor is not closed. *)
Theorem create_that_fails_registers_nothing :
  ∀ (k : kernel) pf type m,
    VALID_MANAGER (m_manager m) = true →
    (k_mem_get k (m_clock m) = None →
     isc_socket_create k pf type (Some NULL) m
     = (Ok (ISC_R_NOMEMORY, None),
        machine_after (m_sock m) (m_manager m) [MemGet] 1 m))
    ∧ (∀ block,
       k_mem_get k (m_clock m) = Some block →
       k_mutex_init k (S (m_clock m)) ≠ ISC_R_SUCCESS →
       isc_socket_create k pf type (Some NULL) m
       = (Ok (ISC_R_UNEXPECTED, None),
          machine_after (m_sock m) (m_manager m)
            [MemGet; MutexInit (self block); Effect UnexpectedError;
             Effect (MemPut (self block))] 2 m))
    ∧ (∀ block s errno,
       k_mem_get k (m_clock m) = Some block →
       k_mutex_init k (S (m_clock m)) = ISC_R_SUCCESS →
       k_socket k (S (S (m_clock m))) pf (socket_arguments type).1
         (socket_arguments type).2 = (s, errno) →
       (s < 0 →
        isc_socket_create k pf type (Some NULL) m
        = (Ok (if bool_decide (errno ∈ [EMFILE; ENFILE; ENOBUFS])
               then ISC_R_NORESOURCES else ISC_R_UNEXPECTED, None),
           machine_after (m_sock m) (m_manager m)
             ([MemGet; MutexInit (self block);
               Socket pf (socket_arguments type).1 (socket_arguments type).2;
               Effect (MutexDestroy (self block));
               Effect (MemPut (self block))]
              ++ (if bool_decide (errno ∈ [EMFILE; ENFILE; ENOBUFS])
                  then [] else [Effect UnexpectedError])) 3 m))
       ∧ (0 ≤ s →
          k_fcntl k (S (S (S (S (m_clock m))))) s F_SETFL
            (Z.lor (k_fcntl k (S (S (S (m_clock m)))) s F_GETFL 0)
               O_NONBLOCK) = -1 →
          isc_socket_create k pf type (Some NULL) m
          = (Ok (ISC_R_UNEXPECTED, None),
             machine_after (m_sock m) (m_manager m)
               [MemGet; MutexInit (self block);
                Socket pf (socket_arguments type).1 (socket_arguments type).2;
                Fcntl s F_GETFL 0;
                Fcntl s F_SETFL
                  (Z.lor (k_fcntl k (S (S (S (m_clock m)))) s F_GETFL 0)
                     O_NONBLOCK);
                Effect UnexpectedError;
                Effect (MutexDestroy (self block));
                Effect (MemPut (self block))] 5 m))).
Proof.
  intros k pf type m Hm. split; [|split].
  - intros Hb. unfold isc_socket_create, allocate_socket. srun.
    rewrite Hm. srun. rewrite Hb. srun.
    rewrite (bool_decide_eq_true_2 (ISC_R_NOMEMORY ≠ ISC_R_SUCCESS))
      by discriminate.
    unfold mret, sys_ret, machine_after. now cbn [Nat.add].
  - intros block Hb Hx. unfold isc_socket_create, allocate_socket. srun.
    rewrite Hm. srun. rewrite Hb. cbv zeta. srun.
    cbn [self set_magic set_references set_sock_type set_fd set_recv_list
         set_send_list set_accept_list set_connect_ev set_pending_recv
         set_pending_send set_pending_accept set_listener set_connected
         set_connecting set_recv_result set_send_result].
    rewrite (bool_decide_eq_true_2 _ Hx). srun.
    rewrite (bool_decide_eq_true_2 (ISC_R_UNEXPECTED ≠ ISC_R_SUCCESS))
      by discriminate.
    unfold mret, sys_ret, machine_after. cbn [Nat.add]. sys_norm.
    reflexivity.
  - intros block s errno Hb Hx Hk.
    destruct (isc_socket_create_enter k pf type m block Hm Hb Hx)
      as (sock & Hsock & Hrun).
    destruct Hsock as (Hrest & Hr0 & Hfd & Hty & Hself & _).
    rewrite (Hrun s errno Hk). clear Hrun. cbv zeta. cbn [fd set_fd].
    assert (Hfree : ∀ m0,
      lift (free_socket (set_fd s sock)) m0
      = (Ok (set_magic 0 (set_fd s sock)),
         {| m_sock := m_sock m0; m_manager := m_manager m0;
            m_calls :=
              m_calls m0
              ++ [Effect (MutexDestroy (self block));
                  Effect (MemPut (self block))];
            m_clock := m_clock m0 |})).
    { intros m0. rewrite lift_free_socket; [now rewrite <- Hself| |exact Hr0].
      destruct Hrest as (? & ? & ? & ? & ? & ? & ? & ? & ?).
      repeat split; assumption. }
    split.
    + intros Hs.
      replace (s <? 0) with true by (symmetry; apply Z.ltb_lt; lia).
      erewrite srun_seq by apply Hfree.
      unfold machine_after. cbn [m_sock m_manager m_calls m_clock Nat.add].
      destruct ((errno =? EMFILE) || (errno =? ENFILE) || (errno =? ENOBUFS))
        eqn:He.
      * rewrite bool_decide_eq_true_2.
        2:{ rewrite !elem_of_cons.
            apply orb_true_iff in He as [He|He];
              [apply orb_true_iff in He as [He|He]|];
              apply Z.eqb_eq in He; auto. }
        unfold mret, sys_ret. sys_norm. reflexivity.
      * rewrite bool_decide_eq_false_2.
        2:{ rewrite !elem_of_cons, elem_of_nil.
            apply orb_false_iff in He as [He He3].
            apply orb_false_iff in He as [He1 He2].
            apply Z.eqb_neq in He1, He2, He3. tauto. }
        srun. unfold mret, sys_ret. sys_norm. reflexivity.
    + intros Hs Hf.
      replace (s <? 0) with false by (symmetry; apply Z.ltb_ge; lia).
      erewrite srun_seq by apply make_nonblock_run.
      cbv zeta. unfold machine_after.
      cbn [m_sock m_manager m_calls m_clock Nat.add].
      rewrite Hf. change (-1 =? -1) with true.
      rewrite (bool_decide_eq_true_2 (ISC_R_UNEXPECTED ≠ ISC_R_SUCCESS))
        by discriminate.
      erewrite srun_seq by apply Hfree.
      unfold mret, sys_ret. cbn [m_sock m_manager m_calls m_clock].
      sys_norm. reflexivity.
Qed.

End Properties.

(** * The statements at concrete inputs *)

(** C2 at a stream socket whose recvmsg() and sendmsg() fail with
    EMSGSIZE (90). *)
Lemma doio_recv_other_errno_is_success_doio_send_is_hard_witness :
  let w := sample_world (sample_socket isc_sockettype_tcp) in
  let dev := sample_request 7 ISC_SOCKEVENT_RECVDONE 2 in
  let env := kernel_says (-1) 90 in
  (∃ dev' w' e ev,
     @doio_recv sample_headers env dev w = (Ok (DOIO_SUCCESS, dev'), w')
     ∧ recv_result (w_sock w') = ISC_R_UNEXPECTED
     ∧ extends (w_trace w) (w_trace w')
         [Recvmsg 5 {| msg_name := None; msg_namelen := 0; msg_iov := [512];
                       msg_control := None; msg_controllen := 0;
                       msg_flags := 0 |}; e]
     ∧ sent_to (TaskPtr 2) ev e
     ∧ completes dev ISC_R_UNEXPECTED ev)
  ∧
  (∃ dev' w' e ev,
     @doio_send sample_headers env dev w = (Ok (DOIO_HARD, dev'), w')
     ∧ send_result (w_sock w') = ISC_R_UNEXPECTED
     ∧ extends (w_trace w) (w_trace w')
         [Sendmsg 5 {| msg_name := None; msg_namelen := 0; msg_iov := [512];
                       msg_control := None; msg_controllen := 0;
                       msg_flags := 0 |}; UnexpectedError; e]
     ∧ sent_to (TaskPtr 2) ev e
     ∧ completes dev ISC_R_UNEXPECTED ev).
Proof.
  cbv zeta. split.
  - apply (proj1 (@doio_recv_other_errno_is_success_doio_send_is_hard
                    sample_headers (kernel_says (-1) 90))
             (sample_world (sample_socket isc_sockettype_tcp))
             (sample_request 7 ISC_SOCKEVENT_RECVDONE 2)
             (set_se_address {| sa := 0; sa_length := 0 |}
                (sample_request 7 ISC_SOCKEVENT_RECVDONE 2))
             _ 512).
    + reflexivity.
    + cbn. lia.
    + reflexivity.
    + evaluate.
    + evaluate.
  - apply (proj2 (@doio_recv_other_errno_is_success_doio_send_is_hard
                    sample_headers (kernel_says (-1) 90))
             (sample_world (sample_socket isc_sockettype_tcp))
             (sample_request 7 ISC_SOCKEVENT_RECVDONE 2) _ 512 (-1) 90).
    + reflexivity.
    + reflexivity.
    + lia.
    + reflexivity.
    + evaluate.
    + evaluate.
Defined.

(** C1 at a stream socket whose sticky read result is ISC_R_EOF: a
    request posted through [isc_socket_recv] on the empty queue comes back
    with ISC_R_EOF, and the handler run on a queue of a request and a
    marker empties it. *)
Lemma sticky_recv_result_completes_every_request_witness :
  let env := kernel_says 10 0 in
  let s := set_recv_result ISC_R_EOF (sample_socket isc_sockettype_tcp) in
  let w := sample_world s in
  let queue := [sample_request 7 ISC_SOCKEVENT_RECVDONE 2;
                sample_request 8 ISC_SOCKEVENT_RECVMARK 3] in
  let w2 := sample_world (set_pending_recv true (set_recv_list queue s)) in
  (∃ w' e ev,
     @isc_socket_recv sample_headers env
       (Some {| base := 4096; region_length := 512 |}) 1 (TaskPtr 2) 1 0 w
       = (Ok ISC_R_SUCCESS, w')
     ∧ w_trace w' = [EventAllocate ISC_SOCKEVENT_RECVDONE; e]
     ∧ sent_to (TaskPtr 2) (SocketEvent ev) e
     ∧ se_result ev = ISC_R_EOF)
  ∧
  (∃ w' t,
     @internal_recv sample_headers env (readable_ev s) w2 = (Ok (), w')
     ∧ w_trace w' = t
     ∧ Forall2
         (λ dev e, ∃ ev, sent_to (se_sender dev) ev e
                         ∧ completes dev ISC_R_EOF ev) queue t
     ∧ recv_list (w_sock w') = []).
Proof.
  cbv zeta. split.
  - pose proof (@sticky_recv_result_completes_every_request sample_headers
        (kernel_says 10 0)
        (sample_world
           (set_recv_result ISC_R_EOF (sample_socket isc_sockettype_tcp)))
        ISC_R_EOF eq_refl ltac:(discriminate) eq_refl) as H.
    cbv zeta in H. destruct H as [H _].
    destruct (H {| base := 4096; region_length := 512 |} 1 (TaskPtr 2) 1 0
                (sample_request 100 ISC_SOCKEVENT_SENDDONE 0))
      as (w' & t & E & T & _ & (e & ev & -> & P & _ & R) & _).
    + reflexivity.
    + cbn. lia.
    + discriminate.
    + lia.
    + reflexivity.
    + exists w', e, ev. repeat split; assumption.
  - pose proof (@sticky_recv_result_completes_every_request sample_headers
        (kernel_says 10 0)
        (sample_world
           (set_pending_recv true
              (set_recv_list
                 [sample_request 7 ISC_SOCKEVENT_RECVDONE 2;
                  sample_request 8 ISC_SOCKEVENT_RECVMARK 3]
                 (set_recv_result ISC_R_EOF
                    (sample_socket isc_sockettype_tcp)))))
        ISC_R_EOF eq_refl ltac:(discriminate) eq_refl) as H.
    cbv zeta in H. destruct H as (_ & _ & H).
    destruct (H (readable_ev (sample_socket isc_sockettype_tcp)))
      as (w' & t & E & T & F & Q & _).
    + reflexivity.
    + reflexivity.
    + reflexivity.
    + cbn. lia.
    + exists w', t. repeat split; assumption.
Defined.

(** C3 as stated fails: on a datagram socket that is not
    connected, recvmsg() failing with EMSGSIZE (90) hands the request to
    its task with ISC_R_UNEXPECTED and the outcome is DOIO_SUCCESS, not
    DOIO_SOFT; the same failure of sendmsg() hands the request over and
    gives DOIO_HARD. *)
Lemma datagram_error_is_not_always_soft :
  let env := kernel_says (-1) 90 in
  let w := sample_world (sample_socket isc_sockettype_udp) in
  let dev := sample_request 7 ISC_SOCKEVENT_RECVDONE 2 in
  let sent := sample_request 7 ISC_SOCKEVENT_SENDDONE 2 in
  is_udp (w_sock w) = true
  ∧ (∃ dev' w' ev,
       @doio_recv sample_headers env dev w = (Ok (DOIO_SUCCESS, dev'), w')
       ∧ completions (w_trace w') = [ev]
       ∧ completes dev ISC_R_UNEXPECTED ev)
  ∧ (∃ dev' w' ev,
       @doio_send sample_headers env sent w = (Ok (DOIO_HARD, dev'), w')
       ∧ completions (w_trace w') = [ev]
       ∧ completes sent ISC_R_UNEXPECTED ev).
Proof.
  cbv zeta. split; [reflexivity|]. split.
  - eexists _, _, _. split; [vm_compute; reflexivity|].
    split; [vm_compute; reflexivity|].
    eexists. repeat split; reflexivity.
  - eexists _, _, _. split; [vm_compute; reflexivity|].
    split; [vm_compute; reflexivity|].
    eexists. repeat split; reflexivity.
Qed.

(** C3, as amended, at a datagram socket: EAGAIN is quiet in both
    directions, and ENOBUFS hands the request over with
    ISC_R_NORESOURCES and gives DOIO_HARD. *)
Lemma datagram_kernel_errors_witness :
  let w := sample_world (sample_socket isc_sockettype_udp) in
  let dev := sample_request 7 ISC_SOCKEVENT_RECVDONE 2 in
  let sent := sample_request 7 ISC_SOCKEVENT_SENDDONE 2 in
  (∃ dev' msghdr,
     @doio_recv sample_headers (kernel_says (-1) EAGAIN) dev w
       = (Ok (DOIO_SOFT, dev'), asked (Recvmsg 5 msghdr) w))
  ∧ (∃ msghdr,
       @doio_send sample_headers (kernel_says (-1) EAGAIN) sent w
         = (Ok (DOIO_SOFT, sent), asked (Sendmsg 5 msghdr) w))
  ∧ (∃ dev' w' msghdr e ev,
       @doio_recv sample_headers (kernel_says (-1) ENOBUFS) dev w
         = (Ok (DOIO_HARD, dev'), w')
       ∧ w_trace w' = [Recvmsg 5 msghdr; e]
       ∧ sent_to (TaskPtr 2) ev e
       ∧ completes dev ISC_R_NORESOURCES ev).
Proof.
  cbv zeta. split; [|split].
  - edestruct (proj1 (@datagram_kernel_errors sample_headers
                        (kernel_says (-1) EAGAIN))
                 (sample_world (sample_socket isc_sockettype_udp))
                 (sample_request 7 ISC_SOCKEVENT_RECVDONE 2))
      as [_ H].
    + vm_compute. reflexivity.
    + cbn. lia.
    + cbv zeta in H. destruct (H eq_refl) as [[dev' E] _]; [reflexivity|].
      eexists dev', _. exact E.
  - edestruct (proj2 (@datagram_kernel_errors sample_headers
                        (kernel_says (-1) EAGAIN))
                 (sample_world (sample_socket isc_sockettype_udp))
                 (sample_request 7 ISC_SOCKEVENT_SENDDONE 2))
      as [_ H].
    + vm_compute. reflexivity.
    + reflexivity.
    + lia.
    + cbv zeta in H. destruct (H eq_refl) as [E _].
      eexists. apply E. reflexivity.
  - edestruct (proj1 (@datagram_kernel_errors sample_headers
                        (kernel_says (-1) ENOBUFS))
                 (sample_world (sample_socket isc_sockettype_udp))
                 (sample_request 7 ISC_SOCKEVENT_RECVDONE 2))
      as [H _].
    + vm_compute. reflexivity.
    + cbn. lia.
    + cbv zeta in H.
      destruct (H eq_refl) as [(dev' & w' & e & ev & E & T & P & C) _].
      eexists dev', w', _, e, ev.
      split; [exact E|]. split; [exact T|]. split; assumption.
Defined.

(** C4 at a stream socket with a request and a marker queued, whose
    recvmsg() reads zero bytes. *)
Lemma eof_completes_every_queued_request_witness :
  let env := kernel_says 0 0 in
  let queue := [sample_request 7 ISC_SOCKEVENT_RECVDONE 2;
                sample_request 8 ISC_SOCKEVENT_RECVMARK 3] in
  let s := set_pending_recv true
             (set_recv_list queue (sample_socket isc_sockettype_tcp)) in
  let w := sample_world s in
  ∃ w' msghdr t,
    @internal_recv sample_headers env (readable_ev s) w = (Ok (), w')
    ∧ w_trace w' = Recvmsg 5 msghdr :: t
    ∧ Forall2 (λ dev ev, completes dev ISC_R_EOF ev) queue (completions t)
    ∧ length t = 2%nat
    ∧ recv_list (w_sock w') = []
    ∧ recv_result (w_sock w') = ISC_R_EOF.
Proof.
  cbv zeta.
  edestruct (proj2 (@eof_completes_every_queued_request sample_headers
                      (kernel_says 0 0))
               (readable_ev (sample_socket isc_sockettype_tcp))
               (sample_world
                  (set_pending_recv true
                     (set_recv_list
                        [sample_request 7 ISC_SOCKEVENT_RECVDONE 2;
                         sample_request 8 ISC_SOCKEVENT_RECVMARK 3]
                        (sample_socket isc_sockettype_tcp)))))
    as (w' & t & E & T & F & L & Q & R).
  - reflexivity.
  - reflexivity.
  - reflexivity.
  - reflexivity.
  - cbn. lia.
  - reflexivity.
  - reflexivity.
  - reflexivity.
  - discriminate.
  - vm_compute. reflexivity.
  - reflexivity.
  - eexists w', _, t.
    split; [exact E|]. split; [exact T|]. repeat split; assumption.
Defined.

(** C10 at a datagram socket whose recvmsg() reads zero bytes: in
    [doio_recv], posted through [isc_socket_recv], and met at the head
    of the queue by [internal_recv]. *)
Lemma empty_datagram_is_soft_witness :
  let env := kernel_says 0 0 in
  let s := sample_socket isc_sockettype_udp in
  let dev := sample_request 7 ISC_SOCKEVENT_RECVDONE 2 in
  let s2 := set_pending_recv true (set_recv_list [dev] s) in
  (∃ dev' msghdr,
     @doio_recv sample_headers env dev (sample_world s)
       = (Ok (DOIO_SOFT, dev'), asked (Recvmsg 5 msghdr) (sample_world s))
     ∧ se_n dev' = 0)
  ∧ (∃ w' msghdr dev',
       @isc_socket_recv sample_headers env
         (Some {| base := 4096; region_length := 512 |}) 0 (TaskPtr 2) 1 0
         (sample_world s)
         = (Ok ISC_R_SUCCESS, w')
       ∧ w_trace w' = [EventAllocate ISC_SOCKEVENT_RECVDONE;
                       Recvmsg 5 msghdr; TaskAttach (TaskPtr 2); Poke 5]
       ∧ recv_list (w_sock w') = [dev']
       ∧ se_n dev' = 0 ∧ se_minimum dev' = 1)
  ∧ (∃ w' msghdr dev',
       @internal_recv sample_headers env (readable_ev s) (sample_world s2)
         = (Ok (), w')
       ∧ w_trace w' = [Recvmsg 5 msghdr; Poke 5]
       ∧ recv_list (w_sock w') = [dev']
       ∧ se_self dev' = 7%nat ∧ se_n dev' = 0).
Proof.
  cbv zeta. split; [|split].
  - edestruct (proj1 (@empty_datagram_is_soft sample_headers (kernel_says 0 0)
                        (sample_world (sample_socket isc_sockettype_udp))
                        eq_refl)
                 (sample_request 7 ISC_SOCKEVENT_RECVDONE 2))
      as (dev' & E & _ & N).
    + vm_compute. reflexivity.
    + lia.
    + reflexivity.
    + cbn. lia.
    + cbn. lia.
    + eexists dev', _. split; [exact E|exact N].
  - edestruct (proj1 (proj2 (@empty_datagram_is_soft sample_headers
                               (kernel_says 0 0)
                               (sample_world
                                  (sample_socket isc_sockettype_udp))
                               eq_refl))
                 {| base := 4096; region_length := 512 |} 0 (TaskPtr 2) 1 0
                 (sample_request 100 ISC_SOCKEVENT_SENDDONE 0))
      as (w' & msghdr & dev' & E & T & Q & _ & N & M).
    + reflexivity.
    + reflexivity.
    + cbn. lia.
    + cbn. lia.
    + discriminate.
    + lia.
    + reflexivity.
    + reflexivity.
    + reflexivity.
    + intros msghdr. reflexivity.
    + exists w', msghdr, dev'.
      split; [exact E|]. split; [exact T|]. repeat split; assumption.
  - edestruct (proj2 (proj2 (@empty_datagram_is_soft sample_headers
                               (kernel_says 0 0)
                               (sample_world
                                  (set_pending_recv true
                                     (set_recv_list
                                        [sample_request 7
                                           ISC_SOCKEVENT_RECVDONE 2]
                                        (sample_socket isc_sockettype_udp))))
                               eq_refl))
                 (readable_ev (sample_socket isc_sockettype_udp))
                 (sample_request 7 ISC_SOCKEVENT_RECVDONE 2) [])
      as (w' & dev' & E & T & Q & S & N).
    + reflexivity.
    + reflexivity.
    + reflexivity.
    + reflexivity.
    + cbn. lia.
    + reflexivity.
    + reflexivity.
    + discriminate.
    + vm_compute. reflexivity.
    + lia.
    + reflexivity.
    + cbn. lia.
    + cbn. lia.
    + eexists w', _, dev'.
      split; [exact E|]. split; [exact T|]. repeat split; assumption.
Defined.


(** C5 at a stream socket: connect() failing with ECONNREFUSED sends the
    connect event with ISC_R_CONNREFUSED, and failing with ETIMEDOUT
    makes the call return ISC_R_UNEXPECTED. *)
Lemma connect_failing_at_once_witness :
  let w := sample_world (sample_socket isc_sockettype_tcp) in
  let addr := {| sa := 9; sa_length := 16 |} in
  (∃ w' ev,
     isc_socket_connect (kernel_says (-1) ECONNREFUSED) (Some addr)
       (TaskPtr 2) 1 0 w
       = (Ok ISC_R_SUCCESS, w')
     ∧ w_trace w' = [EventAllocate ISC_SOCKEVENT_CONNECT; Connect 5 addr;
                     TaskSend (TaskPtr 2) (ConnEvent ev)]
     ∧ ce_result ev = ISC_R_CONNREFUSED)
  ∧ (∃ w',
       isc_socket_connect (kernel_says (-1) ETIMEDOUT) (Some addr)
         (TaskPtr 2) 1 0 w
         = (Ok ISC_R_UNEXPECTED, w')
       ∧ w_trace w' = [EventAllocate ISC_SOCKEVENT_CONNECT; Connect 5 addr;
                       UnexpectedError]).
Proof.
  cbv zeta. split.
  - edestruct (connect_failing_at_once (kernel_says (-1) ECONNREFUSED)
                 (sample_world (sample_socket isc_sockettype_tcp))
                 {| sa := 9; sa_length := 16 |} (TaskPtr 2) 1 0)
      as (H & _ & _).
    + reflexivity.
    + reflexivity.
    + discriminate.
    + lia.
    + reflexivity.
    + reflexivity.
    + reflexivity.
    + lia.
    + reflexivity.
    + discriminate.
    + destruct (H eq_refl) as (w' & ev & E & T & _ & R).
      exists w', ev. split; [exact E|]. split; [exact T|exact R].
  - edestruct (connect_failing_at_once (kernel_says (-1) ETIMEDOUT)
                 (sample_world (sample_socket isc_sockettype_tcp))
                 {| sa := 9; sa_length := 16 |} (TaskPtr 2) 1 0)
      as (_ & _ & H).
    + reflexivity.
    + reflexivity.
    + discriminate.
    + lia.
    + reflexivity.
    + reflexivity.
    + reflexivity.
    + lia.
    + reflexivity.
    + discriminate.
    + destruct H as (w' & E & T); [discriminate|discriminate|].
      exists w'. split; [exact E|exact T].
Defined.

(** C7 as stated fails: with [connecting] and [pending_send]
    both set and an empty send queue, the watcher sets the write bit,
    where the stated formula clears it. *)
Lemma write_bit_is_set_while_connecting_with_send_pending :
  let sock := set_connecting true
                (set_pending_send true (sample_socket isc_sockettype_tcp)) in
  let heap : gmap nat isc_socket_t := {[ 1%nat := sock ]} in
  (∃ manager',
     watcher_wakeup heap 5 sample_manager = Ok (manager', [])
     ∧ FD_ISSET (fd sock) (write_fds manager') = true)
  ∧ (negb (EMPTY (send_list sock)) || connecting sock)
    && negb (pending_send sock) = false.
Proof.
  cbv zeta. split; [|reflexivity].
  eexists. split; vm_compute; reflexivity.
Qed.

(** C7, as amended, at that socket and at a socket with a request to
    send and nothing pending. *)
Lemma watch_write_bit_witness :
  let sock := set_connecting true
                (set_pending_send true (sample_socket isc_sockettype_tcp)) in
  let sock2 := set_send_list [sample_request 7 ISC_SOCKEVENT_SENDDONE 2]
                 (sample_socket isc_sockettype_udp) in
  (∃ manager',
     watcher_wakeup {[ 1%nat := sock ]} 5 sample_manager = Ok (manager', [])
     ∧ FD_ISSET 5 (write_fds manager') = true
     ∧ FD_ISSET 3 (write_fds manager') = false)
  ∧ (∃ manager',
       watcher_wakeup {[ 1%nat := sock2 ]} 5 sample_manager
         = Ok (manager', [])
       ∧ FD_ISSET 5 (write_fds manager') = true).
Proof.
  cbv zeta. split.
  - edestruct (watch_write_bit
                 {[ 1%nat := set_connecting true
                               (set_pending_send true
                                  (sample_socket isc_sockettype_tcp)) ]}
                 sample_manager 5 1)
      as (manager' & E & B & O).
    + vm_compute. split; [discriminate|reflexivity].
    + vm_compute. reflexivity.
    + vm_compute. reflexivity.
    + vm_compute. reflexivity.
    + exists manager'. split; [exact E|]. split; [exact B|].
      rewrite (O 3) by discriminate. reflexivity.
  - edestruct (watch_write_bit
                 {[ 1%nat := set_send_list
                               [sample_request 7 ISC_SOCKEVENT_SENDDONE 2]
                               (sample_socket isc_sockettype_udp) ]}
                 sample_manager 5 1)
      as (manager' & E & B & _).
    + vm_compute. split; [discriminate|reflexivity].
    + vm_compute. reflexivity.
    + vm_compute. reflexivity.
    + vm_compute. reflexivity.
    + exists manager'. split; [exact E|exact B].
Defined.

(** C8 as stated fails: with an empty mask
    [isc_socket_cancel] returns without a poke, although the socket has
    a request queued. *)
Lemma cancel_with_empty_mask_does_not_poke :
  let w := sample_world
             (set_recv_list [sample_request 7 ISC_SOCKEVENT_RECVDONE 2]
                (sample_socket isc_sockettype_tcp)) in
  ∃ w',
    @isc_socket_cancel sample_headers (TaskPtr 2) 0 w = (Ok (), w')
    ∧ w_trace w' = []
    ∧ Poke 5 ∉ w_trace w'.
Proof.
  cbv zeta. eexists. split; [vm_compute; reflexivity|].
  split; [reflexivity|]. cbn. apply not_elem_of_nil.
Qed.

(** C8, as amended, at a stream socket with a request queued: the empty
    mask changes nothing, and the read mask cancels the request and
    pokes the watcher once, at the end.  And at a stream socket whose
    connect slot is taken while [connecting] is clear, the state a cancel
    by another task leaves: the read mask returns and pokes, and the
    connect mask stops at INSIST(sock->connecting) without a poke. *)
Lemma cancel_pokes_unless_mask_is_empty_witness :
  let w := sample_world
             (set_recv_list [sample_request 7 ISC_SOCKEVENT_RECVDONE 2]
                (sample_socket isc_sockettype_tcp)) in
  let w2 := sample_world
              (set_connect_ev (Some (sample_connev 9 (TaskPtr 2)))
                 (sample_socket isc_sockettype_tcp)) in
  @isc_socket_cancel sample_headers (TaskPtr 2) 0 w = (Ok (), w)
  ∧ (∃ w' t,
       @isc_socket_cancel sample_headers (TaskPtr 2) 1 w = (Ok (), w')
       ∧ w_trace w' = t ++ [Poke 5]
       ∧ Forall (λ e, ∀ msg, e ≠ Poke msg) t)
  ∧ (∃ w' t,
       @isc_socket_cancel sample_headers (TaskPtr 3) 1 w2 = (Ok (), w')
       ∧ w_trace w' = t ++ [Poke 5]
       ∧ Forall (λ e, ∀ msg, e ≠ Poke msg) t)
  ∧ (∃ w' t,
       @isc_socket_cancel sample_headers (TaskPtr 3) 8 w2
         = (AssertionFailed, w')
       ∧ w_trace w' = t
       ∧ Forall (λ e, ∀ msg, e ≠ Poke msg) t).
Proof.
  cbv zeta.
  destruct (@cancel_pokes_unless_mask_is_empty sample_headers
              (sample_world
                 (set_recv_list [sample_request 7 ISC_SOCKEVENT_RECVDONE 2]
                    (sample_socket isc_sockettype_tcp)))
              (TaskPtr 2) eq_refl) as [H0 H].
  destruct (@cancel_pokes_unless_mask_is_empty sample_headers
              (sample_world
                 (set_connect_ev (Some (sample_connev 9 (TaskPtr 2)))
                    (sample_socket isc_sockettype_tcp)))
              (TaskPtr 3) eq_refl) as [_ H2].
  split; [exact H0|]. split; [|split].
  - destruct (proj1 (H 1 ltac:(lia)) eq_refl) as (w' & t & E & T & Q).
    exists w', t. split; [exact E|]. split; [exact T|exact Q].
  - destruct (proj1 (H2 1 ltac:(lia)) eq_refl) as (w' & t & E & T & Q).
    exists w', t. split; [exact E|]. split; [exact T|exact Q].
  - destruct (proj2 (H2 8 ltac:(lia)) eq_refl) as (w' & t & E & T & Q).
    exists w', t. split; [exact E|]. split; [exact T|exact Q].
Defined.

(** C6 at a stream socket that is connecting for task 2, cancelled by
    task 3 with the connect mask: the call leaves [connecting] clear and
    the connect event in its slot, and the writable event of the socket
    then stops at the assertion of [internal_connect]. *)
Lemma cancel_connect_for_another_task_splits_the_connect_slot_witness :
  let dev := sample_connev 9 (TaskPtr 2) in
  let s := set_connecting true
             (set_connect_ev (Some dev) (sample_socket isc_sockettype_tcp)) in
  ∃ w',
    @isc_socket_cancel sample_headers (TaskPtr 3) 8 (sample_world s)
      = (Ok (), w')
    ∧ connecting (w_sock w') = false
    ∧ connect_ev (w_sock w') = Some dev
    ∧ (internal_connect (kernel_says 0 0) (writable_ev s) w').1
      = AssertionFailed.
Proof.
  cbv zeta.
  destruct (@cancel_connect_for_another_task_splits_the_connect_slot
              sample_headers (kernel_says 0 0)
              (sample_world
                 (set_connecting true
                    (set_connect_ev (Some (sample_connev 9 (TaskPtr 2)))
                       (sample_socket isc_sockettype_tcp))))
              (TaskPtr 3) 8 (sample_connev 9 (TaskPtr 2)))
    as (w' & E & C & H).
  - reflexivity.
  - lia.
  - reflexivity.
  - apply Forall_nil_2.
  - reflexivity.
  - reflexivity.
  - change (connect_ev (w_sock w') = Some (sample_connev 9 (TaskPtr 2))
            ∧ ∀ ev,
                iev_type ev = ISC_SOCKEVENT_INTW →
                iev_sender ev = SockPtr (self (w_sock w')) →
                VALID_SOCKET (w_sock w') = true →
                1 < references (w_sock w') < 2 ^ 32 →
                (internal_connect (kernel_says 0 0) ev w').1
                = AssertionFailed) in H.
    destruct H as [S A].
    assert (W : w' = with_effects [Poke 5]
                   (with_sock
                      (set_connecting false
                         (set_connecting true
                            (set_connect_ev
                               (Some (sample_connev 9 (TaskPtr 2)))
                               (sample_socket isc_sockettype_tcp))))
                      (sample_world
                         (set_connecting true
                            (set_connect_ev
                               (Some (sample_connev 9 (TaskPtr 2)))
                               (sample_socket isc_sockettype_tcp))))))
      by (injection E as <-; reflexivity).
    subst w'.
    eexists. split; [exact E|]. split; [exact C|]. split; [exact S|].
    apply A; [reflexivity|reflexivity|reflexivity|cbn; lia].
Defined.

(** * The further properties at concrete inputs

    From here on the header constants are those of [sample_headers]. *)

#[local] Existing Instance sample_headers.

(** Settle a hypothesis at a concrete input by evaluation. *)
Ltac discharge :=
  first
    [ reflexivity | discriminate | lia | (cbn; lia) | evaluate
    | (intros; reflexivity) | (intros; discriminate)
    | (left; reflexivity) | (left; discriminate)
    | (vm_compute; repeat split; first [reflexivity | intro; discriminate]) ].

(** X1 at a stream socket whose sticky write result is ISC_R_EOF: a write
    posted on the empty queue, and the handler run on a queue of a request
    and a marker. *)
Lemma sticky_send_result_completes_every_request_witness :
  (∃ (w' : world) (t : list effect),
     isc_socket_sendto (kernel_says 10 0)
       (Some {| base := 4096; region_length := 512 |}) 
       (TaskPtr 2) 1 0 None None
       (sample_world
          (set_send_result ISC_R_EOF (sample_socket isc_sockettype_tcp))) =
     (Ok ISC_R_SUCCESS, w')
     ∧ extends [] (w_trace w') (EventAllocate ISC_SOCKEVENT_SENDDONE :: t)
       ∧ send_result (w_sock w') = ISC_R_EOF
         ∧ match
             send_list
               (set_send_result ISC_R_EOF (sample_socket isc_sockettype_tcp))
           with
           | [] =>
               (∃ (e : effect) (ev : isc_socketevent_t),
                  t = [e]
                  ∧ sent_to (TaskPtr 2) (SocketEvent ev) e
                    ∧ se_self ev =
                      se_self (sample_request 100 ISC_SOCKEVENT_SENDDONE 0)
                      ∧ se_result ev = ISC_R_EOF)
               ∧ send_list (w_sock w') = []
           | _ :: _ =>
               t = [TaskAttach (TaskPtr 2)]
               ∧ ∃ dev' : isc_socketevent_t,
                   send_list (w_sock w') =
                   send_list
                     (set_send_result ISC_R_EOF
                        (sample_socket isc_sockettype_tcp)) ++
                   [dev']
                   ∧ se_self dev' =
                     se_self (sample_request 100 ISC_SOCKEVENT_SENDDONE 0)
           end)
  ∧ ∃ (w' : world) (t : list effect),
      internal_send (kernel_says 10 0)
        (writable_ev (sample_socket isc_sockettype_tcp))
        (sample_world
           (set_pending_send true
              (set_send_list
                 [sample_request 7 ISC_SOCKEVENT_SENDDONE 2;
                  sample_request 8 ISC_SOCKEVENT_SENDMARK 3]
                 (set_send_result ISC_R_EOF (sample_socket
                   isc_sockettype_tcp))))) =
      (Ok (), w')
      ∧ extends [] (w_trace w') t
        ∧ Forall2
            (λ (dev : isc_socketevent_t) (e : effect),
               ∃ ev : event,
                 sent_to (se_sender dev) ev e ∧ completes dev ISC_R_EOF ev)
            (send_list
               (set_pending_send true
                  (set_send_list
                     [sample_request 7 ISC_SOCKEVENT_SENDDONE 2;
                      sample_request 8 ISC_SOCKEVENT_SENDMARK 3]
                     (set_send_result ISC_R_EOF
                        (sample_socket isc_sockettype_tcp)))))
            t
          ∧ send_list (w_sock w') = [] ∧ send_result (w_sock w') = ISC_R_EOF.
Proof.
  unshelve refine
    (conj
      (proj1
         (sticky_send_result_completes_every_request (kernel_says 10 0)
            (sample_world (set_send_result ISC_R_EOF (sample_socket
              isc_sockettype_tcp))) ISC_R_EOF _ _ _)
         {| base := 4096; region_length := 512 |} (TaskPtr 2) 1 0 None None
           (sample_request 100 ISC_SOCKEVENT_SENDDONE 0) _ _ _ _ _)
      (proj2
         (sticky_send_result_completes_every_request (kernel_says 10 0)
            (sample_world
               (set_pending_send true
                  (set_send_list
                     [(sample_request 7 ISC_SOCKEVENT_SENDDONE 2);
                       (sample_request 8 ISC_SOCKEVENT_SENDMARK 3)]
                     (set_send_result ISC_R_EOF (sample_socket
                       isc_sockettype_tcp)))))
            ISC_R_EOF _ _ _)
         (writable_ev (sample_socket isc_sockettype_tcp)) _ _ _ _)).
  all: discharge.
Defined.

(** X2 at a stream socket, with a region of 512 bytes and with a list of
    one buffer holding 100 bytes. *)
Lemma send_with_address_on_stream_socket_stops_witness :
  isc_socket_sendto (kernel_says 10 0)
    (Some {| base := 4096; region_length := 512 |}) 
    (TaskPtr 2) 1 0 (Some {| sa := 7; sa_length := 16 |}) None
    (sample_world (sample_socket isc_sockettype_tcp)) =
  (AssertionFailed,
   asked (EventAllocate ISC_SOCKEVENT_SENDDONE)
     (sample_world (sample_socket isc_sockettype_tcp)))
  ∧ isc_socket_sendtov (kernel_says 10 0) (Some [sample_buffer 100])
      (TaskPtr 2) 1 0 (Some {| sa := 7; sa_length := 16 |}) None
      (sample_world (sample_socket isc_sockettype_tcp)) =
    (AssertionFailed,
     asked (EventAllocate ISC_SOCKEVENT_SENDDONE)
       (sample_world (sample_socket isc_sockettype_tcp))).
Proof.
  unshelve refine
    (let H :=
      send_with_address_on_stream_socket_stops (kernel_says 10 0)
        (sample_world (sample_socket isc_sockettype_tcp)) (TaskPtr 2) 1 0
        {| sa := 7; sa_length := 16 |} None (sample_request 100
          ISC_SOCKEVENT_SENDDONE 0) _ _ _ _ _ _ in
    conj (proj1 H {| base := 4096; region_length := 512 |}) (proj2 H
      [sample_buffer 100] _ _)).
  all: discharge.
Defined.

(** X3 at a stream socket and a region of 512 bytes, first when sendmsg()
    takes all 512 bytes, then when it takes 100. *)
Lemma send_writes_now_and_queues_the_rest_witness :
  (∃ w' : world,
     isc_socket_send (kernel_says 512 0)
       (Some {| base := 4096; region_length := 512 |}) 
       (TaskPtr 2) 1 0 (sample_world (sample_socket isc_sockettype_tcp)) =
     (Ok ISC_R_SUCCESS, w')
     ∧ (if 512 =? region_length {| base := 4096; region_length := 512 |}
        then
         (∃ (e : effect) (ev : isc_socketevent_t),
            extends [] (w_trace w')
              [EventAllocate ISC_SOCKEVENT_SENDDONE;
               Sendmsg (fd (sample_socket isc_sockettype_tcp))
                 {|
                   msg_name := None;
                   msg_namelen := 0;
                   msg_iov :=
                     [region_length {| base := 4096; region_length := 512 |}];
                   msg_control := None;
                   msg_controllen := 0;
                   msg_flags := 0
                 |};
               e]
            ∧ sent_to (TaskPtr 2) (SocketEvent ev) e
              ∧ se_self ev =
                se_self (sample_request 100 ISC_SOCKEVENT_SENDDONE 0)
                ∧ se_result ev = ISC_R_SUCCESS
                  ∧ se_n ev =
                    region_length {| base := 4096; region_length := 512 |})
         ∧ send_list (w_sock w') = []
        else
         extends [] (w_trace w')
           [EventAllocate ISC_SOCKEVENT_SENDDONE;
            Sendmsg (fd (sample_socket isc_sockettype_tcp))
              {|
                msg_name := None;
                msg_namelen := 0;
                msg_iov :=
                  [region_length {| base := 4096; region_length := 512 |}];
                msg_control := None;
                msg_controllen := 0;
                msg_flags := 0
              |};
            TaskAttach (TaskPtr 2);
            Poke (fd (sample_socket isc_sockettype_tcp))]
         ∧ ∃ (dev' : isc_socketevent_t) (next : msghdr),
             send_list (w_sock w') = [dev']
             ∧ se_self dev' =
               se_self (sample_request 100 ISC_SOCKEVENT_SENDDONE 0)
               ∧ se_sender dev' = TaskPtr 2
                 ∧ se_n dev' = 512
                   ∧ build_msghdr_send (w_sock w') dev' MAXSCATTERGATHER_SEND
                     =
                     Ok
                       (next,
                        region_length {| base := 4096; region_length := 512 |}
                          -
                        512)
                     ∧ msg_iov next =
                       [region_length {| base := 4096; region_length := 512 |}
                         -
                        512]))
  ∧ ∃ w' : world,
      isc_socket_send (kernel_says 100 0)
        (Some {| base := 4096; region_length := 512 |}) 
        (TaskPtr 2) 1 0 (sample_world (sample_socket isc_sockettype_tcp)) =
      (Ok ISC_R_SUCCESS, w')
      ∧ (if 100 =? region_length {| base := 4096; region_length := 512 |}
         then
          (∃ (e : effect) (ev : isc_socketevent_t),
             extends [] (w_trace w')
               [EventAllocate ISC_SOCKEVENT_SENDDONE;
                Sendmsg (fd (sample_socket isc_sockettype_tcp))
                  {|
                    msg_name := None;
                    msg_namelen := 0;
                    msg_iov :=
                      [region_length {| base := 4096; region_length := 512
                        |}];
                    msg_control := None;
                    msg_controllen := 0;
                    msg_flags := 0
                  |};
                e]
             ∧ sent_to (TaskPtr 2) (SocketEvent ev) e
               ∧ se_self ev =
                 se_self (sample_request 100 ISC_SOCKEVENT_SENDDONE 0)
                 ∧ se_result ev = ISC_R_SUCCESS
                   ∧ se_n ev =
                     region_length {| base := 4096; region_length := 512 |})
          ∧ send_list (w_sock w') = []
         else
          extends [] (w_trace w')
            [EventAllocate ISC_SOCKEVENT_SENDDONE;
             Sendmsg (fd (sample_socket isc_sockettype_tcp))
               {|
                 msg_name := None;
                 msg_namelen := 0;
                 msg_iov :=
                   [region_length {| base := 4096; region_length := 512 |}];
                 msg_control := None;
                 msg_controllen := 0;
                 msg_flags := 0
               |};
             TaskAttach (TaskPtr 2);
             Poke (fd (sample_socket isc_sockettype_tcp))]
          ∧ ∃ (dev' : isc_socketevent_t) (next : msghdr),
              send_list (w_sock w') = [dev']
              ∧ se_self dev' =
                se_self (sample_request 100 ISC_SOCKEVENT_SENDDONE 0)
                ∧ se_sender dev' = TaskPtr 2
                  ∧ se_n dev' = 100
                    ∧ build_msghdr_send (w_sock w') dev' MAXSCATTERGATHER_SEND
                      =
                      Ok
                        (next,
                         region_length
                           {| base := 4096; region_length := 512 |} -
                         100)
                      ∧ msg_iov next =
                        [region_length
                           {| base := 4096; region_length := 512 |} -
                         100]).
Proof.
  unshelve refine
    (conj
      (send_writes_now_and_queues_the_rest (kernel_says 512 0)
         (sample_world (sample_socket isc_sockettype_tcp)) {| base := 4096;
           region_length := 512 |} (TaskPtr 2) 1 0 (sample_request 100
           ISC_SOCKEVENT_SENDDONE 0) 512 0
         _ _ _ _ _ _ _ _ _ _ _)
      (send_writes_now_and_queues_the_rest (kernel_says 100 0)
         (sample_world (sample_socket isc_sockettype_tcp)) {| base := 4096;
           region_length := 512 |} (TaskPtr 2) 1 0 (sample_request 100
           ISC_SOCKEVENT_SENDDONE 0) 100 0
         _ _ _ _ _ _ _ _ _ _ _)).
  all: discharge.
Defined.

(** X4 at a stream socket with two writes of 512 bytes queued, when every
    sendmsg() takes 512 bytes. *)
Lemma internal_send_drains_the_queue_when_writes_go_through_witness :
  ∃ (w' : world) (t : list effect),
    internal_send (kernel_says 512 0)
      (writable_ev (sample_socket isc_sockettype_tcp))
      (sample_world
         (set_pending_send true
            (set_send_list
               [sample_request 7 ISC_SOCKEVENT_SENDDONE 2;
                sample_request 8 ISC_SOCKEVENT_SENDDONE 3]
               (sample_socket isc_sockettype_tcp)))) =
    (Ok (), w')
    ∧ extends [] (w_trace w') t
      ∧ Forall2
          (λ (dev : isc_socketevent_t) (ev : event),
             completes dev ISC_R_SUCCESS ev)
          (send_list
             (set_pending_send true
                (set_send_list
                   [sample_request 7 ISC_SOCKEVENT_SENDDONE 2;
                    sample_request 8 ISC_SOCKEVENT_SENDDONE 3]
                   (sample_socket isc_sockettype_tcp))))
          (completions t)
        ∧ Forall (λ e : effect, ∀ msg : Z, e ≠ Poke msg) t
          ∧ send_list (w_sock w') = []
            ∧ pending_send (w_sock w') = false
              ∧ references (w_sock w') =
                references
                  (set_pending_send true
                     (set_send_list
                        [sample_request 7 ISC_SOCKEVENT_SENDDONE 2;
                         sample_request 8 ISC_SOCKEVENT_SENDDONE 3]
                        (sample_socket isc_sockettype_tcp))) -
                1.
Proof.
  unshelve refine
    (internal_send_drains_the_queue_when_writes_go_through
      (kernel_says 512 0) (writable_ev (sample_socket isc_sockettype_tcp))
      (sample_world
           (set_pending_send true
              (set_send_list
                 [(sample_request 7 ISC_SOCKEVENT_SENDDONE 2); (sample_request
                   8 ISC_SOCKEVENT_SENDDONE 3)]
                 (sample_socket isc_sockettype_tcp))))
      _ _ _ _ _ _ _).
  all: match goal with |- ∀ _, _ → _ => idtac | _ => discharge end.
  intros dev Hin _. exists (plain_msghdr [512]), 512.
  cbn [w_sock sample_world send_list set_pending_send set_send_list] in Hin.
  rewrite !elem_of_cons, elem_of_nil in Hin.
  destruct Hin as [->|[->|[]]]; repeat split; reflexivity || lia.
Defined.

(** X5 at a stream socket with two writes queued, when sendmsg() fails
    with EAGAIN. *)
Lemma soft_error_at_the_head_blocks_the_write_queue_witness :
  ∃ w' : world,
    internal_send (kernel_says (-1) EAGAIN)
      (writable_ev (sample_socket isc_sockettype_tcp))
      (sample_world
         (set_pending_send true
            (set_send_list
               [sample_request 7 ISC_SOCKEVENT_SENDDONE 2;
                sample_request 8 ISC_SOCKEVENT_SENDDONE 3]
               (sample_socket isc_sockettype_tcp)))) =
    (Ok (), w')
    ∧ extends [] (w_trace w')
        [Sendmsg
           (fd
              (set_pending_send true
                 (set_send_list
                    [sample_request 7 ISC_SOCKEVENT_SENDDONE 2;
                     sample_request 8 ISC_SOCKEVENT_SENDDONE 3]
                    (sample_socket isc_sockettype_tcp))))
           (plain_msghdr [512]);
         Poke
           (fd
              (set_pending_send true
                 (set_send_list
                    [sample_request 7 ISC_SOCKEVENT_SENDDONE 2;
                     sample_request 8 ISC_SOCKEVENT_SENDDONE 3]
                    (sample_socket isc_sockettype_tcp))))]
      ∧ send_list (w_sock w') =
        [sample_request 7 ISC_SOCKEVENT_SENDDONE 2;
         sample_request 8 ISC_SOCKEVENT_SENDDONE 3]
        ∧ send_result (w_sock w') = ISC_R_SUCCESS
          ∧ pending_send (w_sock w') = false
            ∧ references (w_sock w') =
              references
                (set_pending_send true
                   (set_send_list
                      [sample_request 7 ISC_SOCKEVENT_SENDDONE 2;
                       sample_request 8 ISC_SOCKEVENT_SENDDONE 3]
                      (sample_socket isc_sockettype_tcp))) -
              1.
Proof.
  unshelve refine
    (soft_error_at_the_head_blocks_the_write_queue (kernel_says (-1) EAGAIN)
      (writable_ev (sample_socket isc_sockettype_tcp))
      (sample_world
           (set_pending_send true
              (set_send_list
                 [(sample_request 7 ISC_SOCKEVENT_SENDDONE 2); (sample_request
                   8 ISC_SOCKEVENT_SENDDONE 3)]
                 (sample_socket isc_sockettype_tcp))))
      (sample_request 7 ISC_SOCKEVENT_SENDDONE 2) [(sample_request 8
        ISC_SOCKEVENT_SENDDONE 3)] (plain_msghdr [512])
      512 (-1) EAGAIN _ _ _ _ _ _ _ _ _ _ _ _).
  all: discharge.
Defined.

(** X6 at a stream socket with both queues empty, and at one with a
    request in each queue. *)
Lemma marker_is_handed_over_or_queued_witness :
  (match recv_list (sample_socket isc_sockettype_tcp) with
   | [] =>
       ∃ (w' : world) (e : effect) (ev : isc_socketevent_t),
         isc_socket_recvmark (kernel_says 10 0) (TaskPtr 2) 1 0
           (sample_world (sample_socket isc_sockettype_tcp)) =
         (Ok ISC_R_SUCCESS, w')
         ∧ extends [] (w_trace w') [EventAllocate ISC_SOCKEVENT_RECVMARK; e]
           ∧ sent_to (SockPtr (self (sample_socket isc_sockettype_tcp)))
               (SocketEvent ev) e
             ∧ se_self ev =
               se_self (sample_request 100 ISC_SOCKEVENT_SENDDONE 0)
               ∧ se_type ev = ISC_SOCKEVENT_RECVMARK
                 ∧ se_result ev =
                   recv_result (sample_socket isc_sockettype_tcp)
                   ∧ w_sock w' = sample_socket isc_sockettype_tcp
   | _ :: _ =>
       ∃ (w' : world) (dev' : isc_socketevent_t),
         isc_socket_recvmark (kernel_says 10 0) (TaskPtr 2) 1 0
           (sample_world (sample_socket isc_sockettype_tcp)) =
         (Ok ISC_R_SUCCESS, w')
         ∧ extends [] (w_trace w')
             [EventAllocate ISC_SOCKEVENT_RECVMARK; TaskAttach (TaskPtr 2)]
           ∧ w_sock w' =
             set_recv_list
               (recv_list (sample_socket isc_sockettype_tcp) ++ [dev'])
               (sample_socket isc_sockettype_tcp)
             ∧ se_self dev' =
               se_self (sample_request 100 ISC_SOCKEVENT_SENDDONE 0)
               ∧ se_type dev' = ISC_SOCKEVENT_RECVMARK
                 ∧ se_sender dev' = TaskPtr 2
                   ∧ se_attributes dev' =
                     se_attributes
                       (sample_request 100 ISC_SOCKEVENT_SENDDONE 0)
   end
   ∧ match send_list (sample_socket isc_sockettype_tcp) with
     | [] =>
         ∃ (w' : world) (e : effect) (ev : isc_socketevent_t),
           isc_socket_sendmark (kernel_says 10 0) (TaskPtr 2) 1 0
             (sample_world (sample_socket isc_sockettype_tcp)) =
           (Ok ISC_R_SUCCESS, w')
           ∧ extends [] (w_trace w') [EventAllocate ISC_SOCKEVENT_SENDMARK; e]
             ∧ sent_to (SockPtr (self (sample_socket isc_sockettype_tcp)))
                 (SocketEvent ev) e
               ∧ se_self ev =
                 se_self (sample_request 100 ISC_SOCKEVENT_SENDDONE 0)
                 ∧ se_type ev = ISC_SOCKEVENT_SENDMARK
                   ∧ se_result ev =
                     send_result (sample_socket isc_sockettype_tcp)
                     ∧ w_sock w' = sample_socket isc_sockettype_tcp
     | _ :: _ =>
         ∃ (w' : world) (dev' : isc_socketevent_t),
           isc_socket_sendmark (kernel_says 10 0) (TaskPtr 2) 1 0
             (sample_world (sample_socket isc_sockettype_tcp)) =
           (Ok ISC_R_SUCCESS, w')
           ∧ extends [] (w_trace w')
               [EventAllocate ISC_SOCKEVENT_SENDMARK; TaskAttach (TaskPtr 2)]
             ∧ w_sock w' =
               set_send_list
                 (send_list (sample_socket isc_sockettype_tcp) ++ [dev'])
                 (sample_socket isc_sockettype_tcp)
               ∧ se_self dev' =
                 se_self (sample_request 100 ISC_SOCKEVENT_SENDDONE 0)
                 ∧ se_type dev' = ISC_SOCKEVENT_SENDMARK
                   ∧ se_sender dev' = TaskPtr 2
                     ∧ se_attributes dev' =
                       se_attributes
                         (sample_request 100 ISC_SOCKEVENT_SENDDONE 0)
     end)
  ∧ match
      recv_list
        (set_recv_list [sample_request 7 ISC_SOCKEVENT_RECVDONE 2]
           (set_send_list [sample_request 8 ISC_SOCKEVENT_SENDDONE 2]
              (sample_socket isc_sockettype_tcp)))
    with
    | [] =>
        ∃ (w' : world) (e : effect) (ev : isc_socketevent_t),
          isc_socket_recvmark (kernel_says 10 0) (TaskPtr 2) 1 0
            (sample_world
               (set_recv_list [sample_request 7 ISC_SOCKEVENT_RECVDONE 2]
                  (set_send_list [sample_request 8 ISC_SOCKEVENT_SENDDONE 2]
                     (sample_socket isc_sockettype_tcp)))) =
          (Ok ISC_R_SUCCESS, w')
          ∧ extends [] (w_trace w') [EventAllocate ISC_SOCKEVENT_RECVMARK; e]
            ∧ sent_to
                (SockPtr
                   (self
                      (set_recv_list
                         [sample_request 7 ISC_SOCKEVENT_RECVDONE 2]
                         (set_send_list
                            [sample_request 8 ISC_SOCKEVENT_SENDDONE 2]
                            (sample_socket isc_sockettype_tcp)))))
                (SocketEvent ev) e
              ∧ se_self ev =
                se_self (sample_request 100 ISC_SOCKEVENT_SENDDONE 0)
                ∧ se_type ev = ISC_SOCKEVENT_RECVMARK
                  ∧ se_result ev =
                    recv_result
                      (set_recv_list
                         [sample_request 7 ISC_SOCKEVENT_RECVDONE 2]
                         (set_send_list
                            [sample_request 8 ISC_SOCKEVENT_SENDDONE 2]
                            (sample_socket isc_sockettype_tcp)))
                    ∧ w_sock w' =
                      set_recv_list
                        [sample_request 7 ISC_SOCKEVENT_RECVDONE 2]
                        (set_send_list
                           [sample_request 8 ISC_SOCKEVENT_SENDDONE 2]
                           (sample_socket isc_sockettype_tcp))
    | _ :: _ =>
        ∃ (w' : world) (dev' : isc_socketevent_t),
          isc_socket_recvmark (kernel_says 10 0) (TaskPtr 2) 1 0
            (sample_world
               (set_recv_list [sample_request 7 ISC_SOCKEVENT_RECVDONE 2]
                  (set_send_list [sample_request 8 ISC_SOCKEVENT_SENDDONE 2]
                     (sample_socket isc_sockettype_tcp)))) =
          (Ok ISC_R_SUCCESS, w')
          ∧ extends [] (w_trace w')
              [EventAllocate ISC_SOCKEVENT_RECVMARK; TaskAttach (TaskPtr 2)]
            ∧ w_sock w' =
              set_recv_list
                (recv_list
                   (set_recv_list [sample_request 7 ISC_SOCKEVENT_RECVDONE 2]
                      (set_send_list
                         [sample_request 8 ISC_SOCKEVENT_SENDDONE 2]
                         (sample_socket isc_sockettype_tcp))) ++
                 [dev'])
                (set_recv_list [sample_request 7 ISC_SOCKEVENT_RECVDONE 2]
                   (set_send_list [sample_request 8 ISC_SOCKEVENT_SENDDONE 2]
                      (sample_socket isc_sockettype_tcp)))
              ∧ se_self dev' =
                se_self (sample_request 100 ISC_SOCKEVENT_SENDDONE 0)
                ∧ se_type dev' = ISC_SOCKEVENT_RECVMARK
                  ∧ se_sender dev' = TaskPtr 2
                    ∧ se_attributes dev' =
                      se_attributes
                        (sample_request 100 ISC_SOCKEVENT_SENDDONE 0)
    end
    ∧ match
        send_list
          (set_recv_list [sample_request 7 ISC_SOCKEVENT_RECVDONE 2]
             (set_send_list [sample_request 8 ISC_SOCKEVENT_SENDDONE 2]
                (sample_socket isc_sockettype_tcp)))
      with
      | [] =>
          ∃ (w' : world) (e : effect) (ev : isc_socketevent_t),
            isc_socket_sendmark (kernel_says 10 0) 
              (TaskPtr 2) 1 0
              (sample_world
                 (set_recv_list [sample_request 7 ISC_SOCKEVENT_RECVDONE 2]
                    (set_send_list [sample_request 8 ISC_SOCKEVENT_SENDDONE 2]
                       (sample_socket isc_sockettype_tcp)))) =
            (Ok ISC_R_SUCCESS, w')
            ∧ extends [] (w_trace w')
                [EventAllocate ISC_SOCKEVENT_SENDMARK; e]
              ∧ sent_to
                  (SockPtr
                     (self
                        (set_recv_list
                           [sample_request 7 ISC_SOCKEVENT_RECVDONE 2]
                           (set_send_list
                              [sample_request 8 ISC_SOCKEVENT_SENDDONE 2]
                              (sample_socket isc_sockettype_tcp)))))
                  (SocketEvent ev) e
                ∧ se_self ev =
                  se_self (sample_request 100 ISC_SOCKEVENT_SENDDONE 0)
                  ∧ se_type ev = ISC_SOCKEVENT_SENDMARK
                    ∧ se_result ev =
                      send_result
                        (set_recv_list
                           [sample_request 7 ISC_SOCKEVENT_RECVDONE 2]
                           (set_send_list
                              [sample_request 8 ISC_SOCKEVENT_SENDDONE 2]
                              (sample_socket isc_sockettype_tcp)))
                      ∧ w_sock w' =
                        set_recv_list
                          [sample_request 7 ISC_SOCKEVENT_RECVDONE 2]
                          (set_send_list
                             [sample_request 8 ISC_SOCKEVENT_SENDDONE 2]
                             (sample_socket isc_sockettype_tcp))
      | _ :: _ =>
          ∃ (w' : world) (dev' : isc_socketevent_t),
            isc_socket_sendmark (kernel_says 10 0) 
              (TaskPtr 2) 1 0
              (sample_world
                 (set_recv_list [sample_request 7 ISC_SOCKEVENT_RECVDONE 2]
                    (set_send_list [sample_request 8 ISC_SOCKEVENT_SENDDONE 2]
                       (sample_socket isc_sockettype_tcp)))) =
            (Ok ISC_R_SUCCESS, w')
            ∧ extends [] (w_trace w')
                [EventAllocate ISC_SOCKEVENT_SENDMARK; TaskAttach (TaskPtr 2)]
              ∧ w_sock w' =
                set_send_list
                  (send_list
                     (set_recv_list
                        [sample_request 7 ISC_SOCKEVENT_RECVDONE 2]
                        (set_send_list
                           [sample_request 8 ISC_SOCKEVENT_SENDDONE 2]
                           (sample_socket isc_sockettype_tcp))) ++
                   [dev'])
                  (set_recv_list [sample_request 7 ISC_SOCKEVENT_RECVDONE 2]
                     (set_send_list
                        [sample_request 8 ISC_SOCKEVENT_SENDDONE 2]
                        (sample_socket isc_sockettype_tcp)))
                ∧ se_self dev' =
                  se_self (sample_request 100 ISC_SOCKEVENT_SENDDONE 0)
                  ∧ se_type dev' = ISC_SOCKEVENT_SENDMARK
                    ∧ se_sender dev' = TaskPtr 2
                      ∧ se_attributes dev' =
                        se_attributes
                          (sample_request 100 ISC_SOCKEVENT_SENDDONE 0)
      end.
Proof.
  unshelve refine
    (conj
      (marker_is_handed_over_or_queued (kernel_says 10 0)
         (sample_world (sample_socket isc_sockettype_tcp)) (TaskPtr 2) 1 0
           (sample_request 100 ISC_SOCKEVENT_SENDDONE 0) _ _ _ _ _)
      (marker_is_handed_over_or_queued (kernel_says 10 0)
         (sample_world
            (set_recv_list [(sample_request 7 ISC_SOCKEVENT_RECVDONE 2)]
               (set_send_list [(sample_request 8 ISC_SOCKEVENT_SENDDONE 2)]
                 (sample_socket isc_sockettype_tcp))))
         (TaskPtr 2) 1 0 (sample_request 100 ISC_SOCKEVENT_SENDDONE 0) _ _ _ _
           _)).
  all: discharge.
Defined.

(** X7 attaching to and detaching from the sample stream socket, which
    holds two references. *)
Lemma attach_then_detach_changes_nothing_witness :
  (isc_socket_attach (Some NULL) ≫= λ _ : pointer, isc_socket_detach)
    (sample_world (sample_socket isc_sockettype_tcp)) =
  (if references (sample_socket isc_sockettype_tcp) =? 2 ^ 32 - 1
   then
    (AssertionFailed,
     with_sock (set_references 0 (sample_socket isc_sockettype_tcp))
       (sample_world (sample_socket isc_sockettype_tcp)))
   else (Ok NULL, sample_world (sample_socket isc_sockettype_tcp))).
Proof.
  unshelve refine
    (attach_then_detach_changes_nothing (sample_world (sample_socket
      isc_sockettype_tcp)) _ _).
  all: discharge.
Defined.

(** X8 at a stream socket on descriptor 5 that holds one reference. *)
Lemma last_detach_closes_the_socket_witness :
  ∃ w' : world,
    isc_socket_detach
      (sample_world (set_references 1 (sample_socket isc_sockettype_tcp))) =
    (Ok NULL, w')
    ∧ extends [] (w_trace w')
        (Poke (fd (set_references 1 (sample_socket isc_sockettype_tcp)))
         :: (if uint (nsockets sample_manager - 1) =? 0 then [Signal] else [])
           ++
            [MutexDestroy
               (self (set_references 1 (sample_socket isc_sockettype_tcp)));
             MemPut
               (self (set_references 1 (sample_socket isc_sockettype_tcp)))])
      ∧ VALID_SOCKET (w_sock w') = false
        ∧ fds (w_manager w')
          !! fd (set_references 1 (sample_socket isc_sockettype_tcp)) = None
          ∧ fdstate_at (w_manager w')
              (fd (set_references 1 (sample_socket isc_sockettype_tcp))) =
            CLOSE_PENDING
            ∧ nsockets (w_manager w') = uint (nsockets sample_manager - 1)
              ∧ ∃ manager' : isc_socketmgr_t,
                  watcher_wakeup ∅
                    (fd (set_references 1 (sample_socket isc_sockettype_tcp)))
                    (w_manager w') =
                  Ok
                    (manager',
                     [Close
                        (fd
                           (set_references 1
                              (sample_socket isc_sockettype_tcp)))])
                  ∧ fdstate_at manager'
                      (fd
                         (set_references 1 (sample_socket
                           isc_sockettype_tcp))) =
                    CLOSED
                    ∧ FD_ISSET
                        (fd
                           (set_references 1
                              (sample_socket isc_sockettype_tcp)))
                        (read_fds manager') =
                      false
                      ∧ FD_ISSET
                          (fd
                             (set_references 1
                                (sample_socket isc_sockettype_tcp)))
                          (write_fds manager') =
                        false.
Proof.
  unshelve refine
    (last_detach_closes_the_socket
      (sample_world (set_references 1 (sample_socket isc_sockettype_tcp))) ∅
      _ _ _ _ _ _ _ _ _ _ _).
  all: discharge.
Defined.

(** X9 at a stream socket that holds one reference and has a read queued. *)
Lemma last_detach_with_requests_queued_stops_witness :
  isc_socket_detach
    (sample_world
       (set_recv_list [sample_request 7 ISC_SOCKEVENT_RECVDONE 2]
          (set_references 1 (sample_socket isc_sockettype_tcp)))) =
  (AssertionFailed,
   with_sock
     (set_references 0
        (set_recv_list [sample_request 7 ISC_SOCKEVENT_RECVDONE 2]
           (set_references 1 (sample_socket isc_sockettype_tcp))))
     (sample_world
        (set_recv_list [sample_request 7 ISC_SOCKEVENT_RECVDONE 2]
           (set_references 1 (sample_socket isc_sockettype_tcp))))).
Proof.
  unshelve refine
    (last_detach_with_requests_queued_stops
      (sample_world
         (set_recv_list [(sample_request 7 ISC_SOCKEVENT_RECVDONE 2)]
           (set_references 1 (sample_socket isc_sockettype_tcp))))
      _ _ _).
  all: discharge.
Defined.

(** X10 at a stream socket with reads of the tasks 2 and 3 and a write of
    task 2 queued: cancelling the reads and writes of task 2. *)
Lemma cancel_takes_the_requests_of_the_task_and_keeps_the_rest_witness :
  ∃ w' : world,
    isc_socket_cancel (TaskPtr 2) 3
      (sample_world
         (set_recv_list
            [sample_request 7 ISC_SOCKEVENT_RECVDONE 2;
             sample_request 8 ISC_SOCKEVENT_RECVDONE 3]
            (set_send_list [sample_request 9 ISC_SOCKEVENT_SENDDONE 2]
               (sample_socket isc_sockettype_tcp)))) =
    (Ok (), w')
    ∧ recv_list (w_sock w') =
      (if Z.land 3 ISC_SOCKCANCEL_RECV =? ISC_SOCKCANCEL_RECV
       then
        filter
          (λ dev : isc_socketevent_t,
             cancels_task (TaskPtr 2) (se_sender dev) = false)
          (recv_list
             (set_recv_list
                [sample_request 7 ISC_SOCKEVENT_RECVDONE 2;
                 sample_request 8 ISC_SOCKEVENT_RECVDONE 3]
                (set_send_list [sample_request 9 ISC_SOCKEVENT_SENDDONE 2]
                   (sample_socket isc_sockettype_tcp))))
       else
        recv_list
          (set_recv_list
             [sample_request 7 ISC_SOCKEVENT_RECVDONE 2;
              sample_request 8 ISC_SOCKEVENT_RECVDONE 3]
             (set_send_list [sample_request 9 ISC_SOCKEVENT_SENDDONE 2]
                (sample_socket isc_sockettype_tcp))))
      ∧ send_list (w_sock w') =
        (if Z.land 3 ISC_SOCKCANCEL_SEND =? ISC_SOCKCANCEL_SEND
         then
          filter
            (λ dev : isc_socketevent_t,
               cancels_task (TaskPtr 2) (se_sender dev) = false)
            (send_list
               (set_recv_list
                  [sample_request 7 ISC_SOCKEVENT_RECVDONE 2;
                   sample_request 8 ISC_SOCKEVENT_RECVDONE 3]
                  (set_send_list [sample_request 9 ISC_SOCKEVENT_SENDDONE 2]
                     (sample_socket isc_sockettype_tcp))))
         else
          send_list
            (set_recv_list
               [sample_request 7 ISC_SOCKEVENT_RECVDONE 2;
                sample_request 8 ISC_SOCKEVENT_RECVDONE 3]
               (set_send_list [sample_request 9 ISC_SOCKEVENT_SENDDONE 2]
                  (sample_socket isc_sockettype_tcp))))
        ∧ extends [] (w_trace w')
            ((if Z.land 3 ISC_SOCKCANCEL_RECV =? ISC_SOCKCANCEL_RECV
              then
               map
                 (λ dev : isc_socketevent_t,
                    handover (se_sender dev)
                      (recvdone
                         (set_recv_list
                            [sample_request 7 ISC_SOCKEVENT_RECVDONE 2;
                             sample_request 8 ISC_SOCKEVENT_RECVDONE 3]
                            (set_send_list
                               [sample_request 9 ISC_SOCKEVENT_SENDDONE 2]
                               (sample_socket isc_sockettype_tcp)))
                         dev ISC_R_CANCELED))
                 (filter
                    (λ dev : isc_socketevent_t,
                       cancels_task (TaskPtr 2) (se_sender dev) = true)
                    (recv_list
                       (set_recv_list
                          [sample_request 7 ISC_SOCKEVENT_RECVDONE 2;
                           sample_request 8 ISC_SOCKEVENT_RECVDONE 3]
                          (set_send_list
                             [sample_request 9 ISC_SOCKEVENT_SENDDONE 2]
                             (sample_socket isc_sockettype_tcp)))))
              else []) ++
             (if Z.land 3 ISC_SOCKCANCEL_SEND =? ISC_SOCKCANCEL_SEND
              then
               map
                 (λ dev : isc_socketevent_t,
                    handover (se_sender dev)
                      (senddone
                         (set_recv_list
                            [sample_request 7 ISC_SOCKEVENT_RECVDONE 2;
                             sample_request 8 ISC_SOCKEVENT_RECVDONE 3]
                            (set_send_list
                               [sample_request 9 ISC_SOCKEVENT_SENDDONE 2]
                               (sample_socket isc_sockettype_tcp)))
                         dev ISC_R_CANCELED))
                 (filter
                    (λ dev : isc_socketevent_t,
                       cancels_task (TaskPtr 2) (se_sender dev) = true)
                    (send_list
                       (set_recv_list
                          [sample_request 7 ISC_SOCKEVENT_RECVDONE 2;
                           sample_request 8 ISC_SOCKEVENT_RECVDONE 3]
                          (set_send_list
                             [sample_request 9 ISC_SOCKEVENT_SENDDONE 2]
                             (sample_socket isc_sockettype_tcp)))))
              else []) ++
             [Poke
                (fd
                   (set_recv_list
                      [sample_request 7 ISC_SOCKEVENT_RECVDONE 2;
                       sample_request 8 ISC_SOCKEVENT_RECVDONE 3]
                      (set_send_list
                         [sample_request 9 ISC_SOCKEVENT_SENDDONE 2]
                         (sample_socket isc_sockettype_tcp))))]).
Proof.
  unshelve refine
    (cancel_takes_the_requests_of_the_task_and_keeps_the_rest
      (sample_world
         (set_recv_list [(sample_request 7 ISC_SOCKEVENT_RECVDONE 2);
           (sample_request 8 ISC_SOCKEVENT_RECVDONE 3)]
            (set_send_list [(sample_request 9 ISC_SOCKEVENT_SENDDONE 2)]
              (sample_socket isc_sockettype_tcp))))
      (TaskPtr 2) 3 _ _ _ _ _ _).
  all: discharge.
Defined.

(** X11 at a stream socket, when connect() returns 0 and when it fails
    with EINPROGRESS. *)
Lemma connect_succeeding_at_once_or_in_progress_witness :
  (∃ (w' : world) (ev : isc_socket_connev_t),
     isc_socket_connect (kernel_says 0 0)
       (Some {| sa := 7; sa_length := 16 |}) (TaskPtr 2) 1 0
       (sample_world (sample_socket isc_sockettype_tcp)) =
     (Ok ISC_R_SUCCESS, w')
     ∧ extends [] (w_trace w')
         [EventAllocate ISC_SOCKEVENT_CONNECT;
          Connect (fd (sample_socket isc_sockettype_tcp))
            {| sa := 7; sa_length := 16 |};
          TaskSend (TaskPtr 2) (ConnEvent ev)]
       ∧ ce_self ev = ce_self (sample_connev 100 NULL)
         ∧ ce_result ev = ISC_R_SUCCESS
           ∧ ce_sender ev = SockPtr (self (sample_socket isc_sockettype_tcp))
             ∧ connected (w_sock w') = true
               ∧ connecting (w_sock w') = false
                 ∧ connect_ev (w_sock w') = None
                   ∧ address (w_sock w') = {| sa := 7; sa_length := 16 |})
  ∧ ∃ (w' : world) (ev : isc_socket_connev_t),
      isc_socket_connect (kernel_says (-1) EINPROGRESS)
        (Some {| sa := 7; sa_length := 16 |}) (TaskPtr 2) 1 0
        (sample_world (sample_socket isc_sockettype_tcp)) =
      (Ok ISC_R_SUCCESS, w')
      ∧ extends [] (w_trace w')
          [EventAllocate ISC_SOCKEVENT_CONNECT;
           Connect (fd (sample_socket isc_sockettype_tcp))
             {| sa := 7; sa_length := 16 |};
           TaskAttach (TaskPtr 2);
           Poke (fd (sample_socket isc_sockettype_tcp))]
        ∧ connecting (w_sock w') = true
          ∧ connect_ev (w_sock w') = Some ev
            ∧ ce_self ev = ce_self (sample_connev 100 NULL)
              ∧ ce_sender ev = TaskPtr 2
                ∧ ce_action ev = 1
                  ∧ ce_arg ev = 0
                    ∧ connected (w_sock w') =
                      connected (sample_socket isc_sockettype_tcp)
                      ∧ address (w_sock w') = {| sa := 7; sa_length := 16 |}.
Proof.
  unshelve refine
    (conj
      (proj1
         (connect_succeeding_at_once_or_in_progress (kernel_says 0 0)
            (sample_world (sample_socket isc_sockettype_tcp)) {| sa := 7;
              sa_length := 16 |} (TaskPtr 2) 1 0
            (sample_connev 100 NULL) 0 0 _ _ _ _ _ _ _ _)
         _)
      (proj2
         (connect_succeeding_at_once_or_in_progress
            (kernel_says (-1) EINPROGRESS)
            (sample_world (sample_socket isc_sockettype_tcp)) {| sa := 7;
              sa_length := 16 |} (TaskPtr 2) 1 0
            (sample_connev 100 NULL) (-1) EINPROGRESS _ _ _ _ _ _ _ _)
         _ _)).
  all: discharge.
Defined.

(** X12 at a connecting stream socket, when SO_ERROR reads 0 and when it
    reads ECONNREFUSED. *)
Lemma internal_connect_reports_the_outcome_witness :
  (∃ w' : world,
     internal_connect (kernel_says 0 0)
       (writable_ev (sample_socket isc_sockettype_tcp))
       (sample_world
          (set_connecting true
             (set_connect_ev (Some (sample_connev 9 (TaskPtr 2)))
                (sample_socket isc_sockettype_tcp)))) =
     (Ok (), w')
     ∧ connected (w_sock w') =
       connected
         (set_connecting true
            (set_connect_ev (Some (sample_connev 9 (TaskPtr 2)))
               (sample_socket isc_sockettype_tcp)))
       ∧ references (w_sock w') =
         references
           (set_connecting true
              (set_connect_ev (Some (sample_connev 9 (TaskPtr 2)))
                 (sample_socket isc_sockettype_tcp))) -
         1
         ∧ (if
             negb ((if 0 <? 0 then 0 else 0) =? 0) &&
             (SOFT_ERROR (if 0 <? 0 then 0 else 0)
              || ((if 0 <? 0 then 0 else 0) =? EINPROGRESS))
            then
             extends [] (w_trace w')
               [Getsockopt
                  (fd
                     (set_connecting true
                        (set_connect_ev (Some (sample_connev 9 (TaskPtr 2)))
                           (sample_socket isc_sockettype_tcp))));
                Poke
                  (fd
                     (set_connecting true
                        (set_connect_ev (Some (sample_connev 9 (TaskPtr 2)))
                           (sample_socket isc_sockettype_tcp))))]
             ∧ connecting (w_sock w') = true
               ∧ connect_ev (w_sock w') = Some (sample_connev 9 (TaskPtr 2))
            else
             extends [] (w_trace w')
               (Getsockopt
                  (fd
                     (set_connecting true
                        (set_connect_ev (Some (sample_connev 9 (TaskPtr 2)))
                           (sample_socket isc_sockettype_tcp))))
                :: (if
                     negb ((if 0 <? 0 then 0 else 0) =? 0) &&
                     negb ((if 0 <? 0 then 0 else 0) =? ETIMEDOUT) &&
                     negb ((if 0 <? 0 then 0 else 0) =? ECONNREFUSED) &&
                     negb ((if 0 <? 0 then 0 else 0) =? ENETUNREACH)
                    then [UnexpectedError]
                    else []) ++
                   [TaskSendAndDetach
                      (ce_sender (sample_connev 9 (TaskPtr 2)))
                      (ConnEvent
                         (set_ce_sender
                            (SockPtr
                               (self
                                  (set_connecting true
                                     (set_connect_ev
                                        (Some (sample_connev 9 (TaskPtr 2)))
                                        (sample_socket isc_sockettype_tcp)))))
                            (set_ce_result
                               (if (if 0 <? 0 then 0 else 0) =? 0
                                then ISC_R_SUCCESS
                                else
                                 if (if 0 <? 0 then 0 else 0) =? ETIMEDOUT
                                 then ISC_R_TIMEDOUT
                                 else
                                  if (if 0 <? 0 then 0 else 0) =? ECONNREFUSED
                                  then ISC_R_CONNREFUSED
                                  else
                                   if (if 0 <? 0 then 0 else 0) =? ENETUNREACH
                                   then ISC_R_NETUNREACH
                                   else ISC_R_UNEXPECTED)
                               (sample_connev 9 (TaskPtr 2)))))])
             ∧ connecting (w_sock w') = false ∧ connect_ev (w_sock w') =
               None))
  ∧ ∃ w' : world,
      internal_connect (kernel_says 0 ECONNREFUSED)
        (writable_ev (sample_socket isc_sockettype_tcp))
        (sample_world
           (set_connecting true
              (set_connect_ev (Some (sample_connev 9 (TaskPtr 2)))
                 (sample_socket isc_sockettype_tcp)))) =
      (Ok (), w')
      ∧ connected (w_sock w') =
        connected
          (set_connecting true
             (set_connect_ev (Some (sample_connev 9 (TaskPtr 2)))
                (sample_socket isc_sockettype_tcp)))
        ∧ references (w_sock w') =
          references
            (set_connecting true
               (set_connect_ev (Some (sample_connev 9 (TaskPtr 2)))
                  (sample_socket isc_sockettype_tcp))) -
          1
          ∧ (if
              negb ((if 0 <? 0 then ECONNREFUSED else ECONNREFUSED) =? 0) &&
              (SOFT_ERROR (if 0 <? 0 then ECONNREFUSED else ECONNREFUSED)
               || ((if 0 <? 0 then ECONNREFUSED else ECONNREFUSED) =?
                   EINPROGRESS))
             then
              extends [] (w_trace w')
                [Getsockopt
                   (fd
                      (set_connecting true
                         (set_connect_ev (Some (sample_connev 9 (TaskPtr 2)))
                            (sample_socket isc_sockettype_tcp))));
                 Poke
                   (fd
                      (set_connecting true
                         (set_connect_ev (Some (sample_connev 9 (TaskPtr 2)))
                            (sample_socket isc_sockettype_tcp))))]
              ∧ connecting (w_sock w') = true
                ∧ connect_ev (w_sock w') = Some (sample_connev 9 (TaskPtr 2))
             else
              extends [] (w_trace w')
                (Getsockopt
                   (fd
                      (set_connecting true
                         (set_connect_ev (Some (sample_connev 9 (TaskPtr 2)))
                            (sample_socket isc_sockettype_tcp))))
                 :: (if
                      negb
                        ((if 0 <? 0 then ECONNREFUSED else ECONNREFUSED) =? 0)
                          &&
                      negb
                        ((if 0 <? 0 then ECONNREFUSED else ECONNREFUSED) =?
                         ETIMEDOUT) &&
                      negb
                        ((if 0 <? 0 then ECONNREFUSED else ECONNREFUSED) =?
                         ECONNREFUSED) &&
                      negb
                        ((if 0 <? 0 then ECONNREFUSED else ECONNREFUSED) =?
                         ENETUNREACH)
                     then [UnexpectedError]
                     else []) ++
                    [TaskSendAndDetach
                       (ce_sender (sample_connev 9 (TaskPtr 2)))
                       (ConnEvent
                          (set_ce_sender
                             (SockPtr
                                (self
                                   (set_connecting true
                                      (set_connect_ev
                                         (Some (sample_connev 9 (TaskPtr 2)))
                                         (sample_socket
                                           isc_sockettype_tcp)))))
                             (set_ce_result
                                (if
                                  (if 0 <? 0
                                   then ECONNREFUSED
                                   else ECONNREFUSED) =?
                                  0
                                 then ISC_R_SUCCESS
                                 else
                                  if
                                   (if 0 <? 0
                                    then ECONNREFUSED
                                    else ECONNREFUSED) =?
                                   ETIMEDOUT
                                  then ISC_R_TIMEDOUT
                                  else
                                   if
                                    (if 0 <? 0
                                     then ECONNREFUSED
                                     else ECONNREFUSED) =?
                                    ECONNREFUSED
                                   then ISC_R_CONNREFUSED
                                   else
                                    if
                                     (if 0 <? 0
                                      then ECONNREFUSED
                                      else ECONNREFUSED) =?
                                     ENETUNREACH
                                    then ISC_R_NETUNREACH
                                    else ISC_R_UNEXPECTED)
                                (sample_connev 9 (TaskPtr 2)))))])
              ∧ connecting (w_sock w') = false ∧ connect_ev (w_sock w') =
                None).
Proof.
  unshelve refine
    (conj
      (internal_connect_reports_the_outcome (kernel_says 0 0) (writable_ev
        (sample_socket isc_sockettype_tcp))
         (sample_world
            (set_connecting true
               (set_connect_ev (Some (sample_connev 9 (TaskPtr 2)))
                  (sample_socket isc_sockettype_tcp))))
         (sample_connev 9 (TaskPtr 2)) 0 0 0 _ _ _ _ _ _ _)
      (internal_connect_reports_the_outcome (kernel_says 0 ECONNREFUSED)
         (writable_ev (sample_socket isc_sockettype_tcp))
         (sample_world
            (set_connecting true
               (set_connect_ev (Some (sample_connev 9 (TaskPtr 2)))
                  (sample_socket isc_sockettype_tcp))))
         (sample_connev 9 (TaskPtr 2)) 0 ECONNREFUSED ECONNREFUSED
         _ _ _ _ _ _ _)).
  all: discharge.
Defined.

(** X13 at a stream socket, with a region of 512 bytes and a list of one
    buffer holding 100 of its 512 bytes. *)
Lemma out_of_memory_leaves_the_socket_alone_witness :
  isc_socket_recv kernel_without_memory
    (Some {| base := 4096; region_length := 512 |}) 1 
    (TaskPtr 2) 1 0 (sample_world (sample_socket isc_sockettype_tcp)) =
  (Ok ISC_R_NOMEMORY,
   asked (EventAllocate ISC_SOCKEVENT_RECVDONE)
     (sample_world (sample_socket isc_sockettype_tcp)))
  ∧ isc_socket_recvv kernel_without_memory (Some [sample_buffer 100]) 1
      (TaskPtr 2) 1 0 (sample_world (sample_socket isc_sockettype_tcp)) =
    (Ok ISC_R_NOMEMORY,
     asked (EventAllocate ISC_SOCKEVENT_RECVDONE)
       (sample_world (sample_socket isc_sockettype_tcp)))
    ∧ isc_socket_sendto kernel_without_memory
        (Some {| base := 4096; region_length := 512 |}) 
        (TaskPtr 2) 1 0 None None
        (sample_world (sample_socket isc_sockettype_tcp)) =
      (Ok ISC_R_NOMEMORY,
       asked (EventAllocate ISC_SOCKEVENT_SENDDONE)
         (sample_world (sample_socket isc_sockettype_tcp)))
      ∧ isc_socket_sendtov kernel_without_memory (Some [sample_buffer 100])
          (TaskPtr 2) 1 0 None None
          (sample_world (sample_socket isc_sockettype_tcp)) =
        (Ok ISC_R_NOMEMORY,
         asked (EventAllocate ISC_SOCKEVENT_SENDDONE)
           (sample_world (sample_socket isc_sockettype_tcp)))
        ∧ isc_socket_recvmark kernel_without_memory 
            (TaskPtr 2) 1 0 (sample_world (sample_socket isc_sockettype_tcp))
              =
          (Ok ISC_R_NOMEMORY,
           asked (EventAllocate ISC_SOCKEVENT_RECVMARK)
             (sample_world (sample_socket isc_sockettype_tcp)))
          ∧ isc_socket_sendmark kernel_without_memory 
              (TaskPtr 2) 1 0
              (sample_world (sample_socket isc_sockettype_tcp)) =
            (Ok ISC_R_NOMEMORY,
             asked (EventAllocate ISC_SOCKEVENT_SENDMARK)
               (sample_world (sample_socket isc_sockettype_tcp)))
            ∧ isc_socket_connect kernel_without_memory
                (Some {| sa := 7; sa_length := 16 |}) 
                (TaskPtr 2) 1 0
                (sample_world (sample_socket isc_sockettype_tcp)) =
              (Ok ISC_R_NOMEMORY,
               asked (EventAllocate ISC_SOCKEVENT_CONNECT)
                 (sample_world (sample_socket isc_sockettype_tcp))).
Proof.
  unshelve refine
    (let H :=
      out_of_memory_leaves_the_socket_alone kernel_without_memory
        (sample_world (sample_socket isc_sockettype_tcp)) (TaskPtr 2) 1 0 _ _
          _ _ _ _ in
    conj (proj1 H {| base := 4096; region_length := 512 |} 1 _)
      (conj (proj1 (proj2 H) [sample_buffer 100] 1 _ _)
         (conj (proj1 (proj2 (proj2 H)) {| base := 4096; region_length := 512
           |} None None)
            (conj
               (proj1 (proj2 (proj2 (proj2 H))) [sample_buffer 100] None
                  None _ _)
               (conj (proj1 (proj2 (proj2 (proj2 (proj2 H)))))
                  (conj
                     (proj1 (proj2 (proj2 (proj2 (proj2 (proj2 H))))))
                     (proj2 (proj2 (proj2 (proj2 (proj2 (proj2 H)))))
                        {| sa := 7; sa_length := 16 |} _))))))).
  all: discharge.
Defined.

(** X14 at a stream socket where recvmsg() returns 10 of the 512 bytes
    asked for: a request with minimum 1 is complete, one with minimum 100
    is not. *)
Lemma stream_read_completes_at_the_minimum_witness :
  (∃ dev' : isc_socketevent_t,
     se_n dev' = se_n (sample_request 7 ISC_SOCKEVENT_RECVDONE 2) + 10
     ∧ se_self dev' = se_self (sample_request 7 ISC_SOCKEVENT_RECVDONE 2)
       ∧ se_address dev' = address (sample_socket isc_sockettype_tcp)
         ∧ (if
             (10 =?
              region_length
                (se_region (sample_request 7 ISC_SOCKEVENT_RECVDONE 2)) -
              se_n (sample_request 7 ISC_SOCKEVENT_RECVDONE 2))
             || (se_minimum (sample_request 7 ISC_SOCKEVENT_RECVDONE 2) <=?
                 se_n (sample_request 7 ISC_SOCKEVENT_RECVDONE 2) + 10)
            then
             ∃ (w' : world) (e : effect) (ev : isc_socketevent_t),
               doio_recv (kernel_says 10 0)
                 (sample_request 7 ISC_SOCKEVENT_RECVDONE 2)
                 (sample_world (sample_socket isc_sockettype_tcp)) =
               (Ok (DOIO_SUCCESS, dev'), w')
               ∧ extends [] (w_trace w')
                   [Recvmsg (fd (sample_socket isc_sockettype_tcp))
                      {|
                        msg_name := None;
                        msg_namelen := 0;
                        msg_iov :=
                          [region_length
                             (se_region
                                (sample_request 7 ISC_SOCKEVENT_RECVDONE 2)) -
                           se_n (sample_request 7 ISC_SOCKEVENT_RECVDONE 2)];
                        msg_control := None;
                        msg_controllen := 0;
                        msg_flags := 0
                      |};
                    e]
                 ∧ sent_to
                     (se_sender (sample_request 7 ISC_SOCKEVENT_RECVDONE 2))
                     (SocketEvent ev) e
                   ∧ se_self ev =
                     se_self (sample_request 7 ISC_SOCKEVENT_RECVDONE 2)
                     ∧ se_result ev = ISC_R_SUCCESS
                       ∧ se_n ev =
                         se_n (sample_request 7 ISC_SOCKEVENT_RECVDONE 2) + 10
                         ∧ w_sock w' =
                           set_recv_list
                             (unlink
                                (se_self
                                   (sample_request 7 ISC_SOCKEVENT_RECVDONE
                                     2))
                                (recv_list (sample_socket
                                  isc_sockettype_tcp)))
                             (sample_socket isc_sockettype_tcp)
            else
             doio_recv (kernel_says 10 0)
               (sample_request 7 ISC_SOCKEVENT_RECVDONE 2)
               (sample_world (sample_socket isc_sockettype_tcp)) =
             (Ok (DOIO_SOFT, dev'),
              asked
                (Recvmsg (fd (sample_socket isc_sockettype_tcp))
                   {|
                     msg_name := None;
                     msg_namelen := 0;
                     msg_iov :=
                       [region_length
                          (se_region
                             (sample_request 7 ISC_SOCKEVENT_RECVDONE 2)) -
                        se_n (sample_request 7 ISC_SOCKEVENT_RECVDONE 2)];
                     msg_control := None;
                     msg_controllen := 0;
                     msg_flags := 0
                   |})
                (sample_world (sample_socket isc_sockettype_tcp)))))
  ∧ ∃ dev' : isc_socketevent_t,
      se_n dev' =
      se_n (set_se_minimum 100 (sample_request 7 ISC_SOCKEVENT_RECVDONE 2)) +
      10
      ∧ se_self dev' =
        se_self
          (set_se_minimum 100 (sample_request 7 ISC_SOCKEVENT_RECVDONE 2))
        ∧ se_address dev' = address (sample_socket isc_sockettype_tcp)
          ∧ (if
              (10 =?
               region_length
                 (se_region
                    (set_se_minimum 100
                       (sample_request 7 ISC_SOCKEVENT_RECVDONE 2))) -
               se_n
                 (set_se_minimum 100
                    (sample_request 7 ISC_SOCKEVENT_RECVDONE 2)))
              || (se_minimum
                    (set_se_minimum 100
                       (sample_request 7 ISC_SOCKEVENT_RECVDONE 2)) <=?
                  se_n
                    (set_se_minimum 100
                       (sample_request 7 ISC_SOCKEVENT_RECVDONE 2)) +
                  10)
             then
              ∃ (w' : world) (e : effect) (ev : isc_socketevent_t),
                doio_recv (kernel_says 10 0)
                  (set_se_minimum 100
                     (sample_request 7 ISC_SOCKEVENT_RECVDONE 2))
                  (sample_world (sample_socket isc_sockettype_tcp)) =
                (Ok (DOIO_SUCCESS, dev'), w')
                ∧ extends [] (w_trace w')
                    [Recvmsg (fd (sample_socket isc_sockettype_tcp))
                       {|
                         msg_name := None;
                         msg_namelen := 0;
                         msg_iov :=
                           [region_length
                              (se_region
                                 (set_se_minimum 100
                                    (sample_request 7 ISC_SOCKEVENT_RECVDONE
                                      2))) -
                            se_n
                              (set_se_minimum 100
                                 (sample_request 7 ISC_SOCKEVENT_RECVDONE
                                   2))];
                         msg_control := None;
                         msg_controllen := 0;
                         msg_flags := 0
                       |};
                     e]
                  ∧ sent_to
                      (se_sender
                         (set_se_minimum 100
                            (sample_request 7 ISC_SOCKEVENT_RECVDONE 2)))
                      (SocketEvent ev) e
                    ∧ se_self ev =
                      se_self
                        (set_se_minimum 100
                           (sample_request 7 ISC_SOCKEVENT_RECVDONE 2))
                      ∧ se_result ev = ISC_R_SUCCESS
                        ∧ se_n ev =
                          se_n
                            (set_se_minimum 100
                               (sample_request 7 ISC_SOCKEVENT_RECVDONE 2)) +
                          10
                          ∧ w_sock w' =
                            set_recv_list
                              (unlink
                                 (se_self
                                    (set_se_minimum 100
                                       (sample_request 7
                                          ISC_SOCKEVENT_RECVDONE 2)))
                                 (recv_list (sample_socket
                                   isc_sockettype_tcp)))
                              (sample_socket isc_sockettype_tcp)
             else
              doio_recv (kernel_says 10 0)
                (set_se_minimum 100
                   (sample_request 7 ISC_SOCKEVENT_RECVDONE 2))
                (sample_world (sample_socket isc_sockettype_tcp)) =
              (Ok (DOIO_SOFT, dev'),
               asked
                 (Recvmsg (fd (sample_socket isc_sockettype_tcp))
                    {|
                      msg_name := None;
                      msg_namelen := 0;
                      msg_iov :=
                        [region_length
                           (se_region
                              (set_se_minimum 100
                                 (sample_request 7 ISC_SOCKEVENT_RECVDONE 2)))
                                   -
                         se_n
                           (set_se_minimum 100
                              (sample_request 7 ISC_SOCKEVENT_RECVDONE 2))];
                      msg_control := None;
                      msg_controllen := 0;
                      msg_flags := 0
                    |})
                 (sample_world (sample_socket isc_sockettype_tcp)))).
Proof.
  unshelve refine
    (conj
      (stream_read_completes_at_the_minimum (kernel_says 10 0)
         (sample_world (sample_socket isc_sockettype_tcp)) (sample_request 7
           ISC_SOCKEVENT_RECVDONE 2) 10 _ _ _ _ _ _)
      (stream_read_completes_at_the_minimum (kernel_says 10 0)
         (sample_world (sample_socket isc_sockettype_tcp)) (set_se_minimum 100
           (sample_request 7 ISC_SOCKEVENT_RECVDONE 2))
         10 _ _ _ _ _ _)).
  all: discharge.
Defined.

(** X15 at two buffers of 512 bytes, the first with 500 bytes used: 100
    bytes fit, 2000 bytes do not. *)
Lemma received_bytes_fill_the_buffers_front_to_back_witness :
  (∃ bl' : list isc_buffer_t,
     recv_fill [sample_buffer 500; sample_buffer 0] 100 = Ok bl'
     ∧ foldr (λ (b : isc_buffer_t) (acc : Z), buffer_used b + acc) 0 bl' =
       foldr (λ (b : isc_buffer_t) (acc : Z), buffer_used b + acc) 0
         [sample_buffer 500; sample_buffer 0] +
       100
       ∧ Forall2
           (λ b b' : isc_buffer_t,
              buffer_length b' = buffer_length b
              ∧ buffer_magic b' = buffer_magic b
                ∧ buffer_used b <= buffer_used b' <= buffer_length b)
           [sample_buffer 500; sample_buffer 0] bl'
         ∧ ∀ (i : nat) (b' : isc_buffer_t),
             bl' !! i = Some b'
             → buffer_used b' < buffer_length b'
               → drop (S i) bl' =
                 drop (S i) [sample_buffer 500; sample_buffer 0])
  ∧ recv_fill [sample_buffer 500; sample_buffer 0] 2000 = AssertionFailed.
Proof.
  unshelve refine
    (conj
      (proj1
         (received_bytes_fill_the_buffers_front_to_back
            [sample_buffer 500; sample_buffer 0] 100 _ _)
         _)
      (proj2
         (received_bytes_fill_the_buffers_front_to_back
            [sample_buffer 500; sample_buffer 0] 2000 _ _)
         _ _)).
  all: try discharge.
  all: repeat constructor; cbn; lia.
Defined.

(** X16 at ten buffers of 100 bytes with 200 written and room for 8
    iovecs, where the eight buffers left fit; at buffers of 3, 4 and 0
    bytes with room for 2, where the test before the empty third buffer
    stops the call; and at buffers of 3 and 4 bytes with all 7 bytes
    written, and with 9 said to be written. *)
Lemma gather_header_covers_what_is_left_to_write_witness :
  (∃ msghdr0 : msghdr,
     build_msghdr_send (sample_socket isc_sockettype_tcp)
       (set_se_n 200
          (set_se_bufferlist (replicate 10 (sample_buffer 100))
             (sample_request 7 ISC_SOCKEVENT_SENDDONE 2)))
       8 =
     Ok (msghdr0, 800)
     ∧ msg_iov msghdr0 = replicate 8 100
     ∧ foldr Z.add 0 (msg_iov msghdr0) = 800
     ∧ Forall (λ len : Z, 0 < len) (msg_iov msghdr0)
     ∧ Z.of_nat (length (msg_iov msghdr0)) <= 8)
  ∧ build_msghdr_send (sample_socket isc_sockettype_tcp)
      (set_se_bufferlist [sample_buffer 3; sample_buffer 4; sample_buffer 0]
         (sample_request 7 ISC_SOCKEVENT_SENDDONE 2))
      2 =
    AssertionFailed
  ∧ (∃ msghdr0 : msghdr,
       build_msghdr_send (sample_socket isc_sockettype_tcp)
         (set_se_n 7
            (set_se_bufferlist [sample_buffer 3; sample_buffer 4]
               (sample_request 7 ISC_SOCKEVENT_SENDDONE 2)))
         2 =
       Ok (msghdr0, 0) ∧ msg_iov msghdr0 = [])
  ∧ build_msghdr_send (sample_socket isc_sockettype_tcp)
      (set_se_n 9
         (set_se_bufferlist [sample_buffer 3; sample_buffer 4]
            (sample_request 7 ISC_SOCKEVENT_SENDDONE 2)))
      2 =
    AssertionFailed.
Proof.
  unshelve refine
    (conj
      (proj1
         (gather_header_covers_what_is_left_to_write
            (sample_socket isc_sockettype_tcp)
            (set_se_n 200
               (set_se_bufferlist (replicate 10 (sample_buffer 100))
                  (sample_request 7 ISC_SOCKEVENT_SENDDONE 2)))
            8 (replicate 2 (sample_buffer 100))
            (replicate 8 (sample_buffer 100)) _ _ _ _ _ _)
         (sample_buffer 100) (replicate 7 (sample_buffer 100)) _ _)
      (conj
         (proj1 (proj2
            (gather_header_covers_what_is_left_to_write
               (sample_socket isc_sockettype_tcp)
               (set_se_bufferlist
                  [sample_buffer 3; sample_buffer 4; sample_buffer 0]
                  (sample_request 7 ISC_SOCKEVENT_SENDDONE 2))
               2 [] [sample_buffer 3; sample_buffer 4; sample_buffer 0]
               _ _ _ _ _ _))
            _ _)
         (conj
            (proj1 (proj2 (proj2
               (gather_header_covers_what_is_left_to_write
                  (sample_socket isc_sockettype_tcp)
                  (set_se_n 7
                     (set_se_bufferlist [sample_buffer 3; sample_buffer 4]
                        (sample_request 7 ISC_SOCKEVENT_SENDDONE 2)))
                  2 [sample_buffer 3; sample_buffer 4] [] _ _ _ _ _ _)))
               _ _)
            (proj2 (proj2 (proj2
               (gather_header_covers_what_is_left_to_write
                  (sample_socket isc_sockettype_tcp)
                  (set_se_n 9
                     (set_se_bufferlist [sample_buffer 3; sample_buffer 4]
                        (sample_request 7 ISC_SOCKEVENT_SENDDONE 2)))
                  2 [sample_buffer 3; sample_buffer 4] [] _ _ _ _ _ _)))
               _ _)))).
  all: try discharge.
  all: try (intros N; discriminate N).
  all: repeat constructor; cbn; lia.
Defined.

(** X17 at the sample manager and a stream socket on descriptor 5 with a
    read queued. *)
Lemma watch_read_bit_witness :
  ∃ manager' : isc_socketmgr_t,
    watcher_wakeup
      {[1%nat
      := set_recv_list [sample_request 7 ISC_SOCKEVENT_RECVDONE 2]
           (sample_socket isc_sockettype_tcp)]}
      5 sample_manager =
    Ok (manager', [])
    ∧ FD_ISSET
        (fd
           (set_recv_list [sample_request 7 ISC_SOCKEVENT_RECVDONE 2]
              (sample_socket isc_sockettype_tcp)))
        (read_fds manager') =
      (negb
         (EMPTY
            (recv_list
               (set_recv_list [sample_request 7 ISC_SOCKEVENT_RECVDONE 2]
                  (sample_socket isc_sockettype_tcp))))
       || negb
            (EMPTY
               (accept_list
                  (set_recv_list [sample_request 7 ISC_SOCKEVENT_RECVDONE 2]
                     (sample_socket isc_sockettype_tcp))))) &&
      negb
        (pending_recv
           (set_recv_list [sample_request 7 ISC_SOCKEVENT_RECVDONE 2]
              (sample_socket isc_sockettype_tcp))) &&
      negb
        (pending_accept
           (set_recv_list [sample_request 7 ISC_SOCKEVENT_RECVDONE 2]
              (sample_socket isc_sockettype_tcp)))
      ∧ (∀ i : Z,
           i
           ≠ fd
               (set_recv_list [sample_request 7 ISC_SOCKEVENT_RECVDONE 2]
                  (sample_socket isc_sockettype_tcp))
           → FD_ISSET i (read_fds manager') =
             FD_ISSET i (read_fds sample_manager))
        ∧ fdstate manager' = fdstate sample_manager
          ∧ fds manager' = fds sample_manager.
Proof.
  unshelve refine
    (watch_read_bit
      {[ 1%nat := set_recv_list [(sample_request 7 ISC_SOCKEVENT_RECVDONE 2)]
        (sample_socket isc_sockettype_tcp) ]}
      sample_manager 5 1%nat
      (set_recv_list [(sample_request 7 ISC_SOCKEVENT_RECVDONE 2)]
        (sample_socket isc_sockettype_tcp)) _ _ _ _).
  all: discharge.
Defined.

(** X18 at a manager where descriptor 5 waits to be closed, with three
    pokes for it in the pipe. *)
Lemma descriptor_is_closed_once_witness :
  ∃ manager' : isc_socketmgr_t,
    watcher_control ∅ (replicate 3 5)
      (set_fdstate {[5 := CLOSE_PENDING]} sample_manager) [] =
    Ok (manager', false, [Close 5])
    ∧ fdstate_at manager' 5 = CLOSED
      ∧ FD_ISSET 5 (read_fds manager') = false
        ∧ FD_ISSET 5 (write_fds manager') = false
          ∧ (∀ i : Z,
               i ≠ 5
               → fdstate_at manager' i =
                 fdstate_at
                   (set_fdstate {[5 := CLOSE_PENDING]} sample_manager) i
                 ∧ FD_ISSET i (read_fds manager') =
                   FD_ISSET i
                     (read_fds
                        (set_fdstate {[5 := CLOSE_PENDING]} sample_manager))
                   ∧ FD_ISSET i (write_fds manager') =
                     FD_ISSET i
                       (write_fds
                          (set_fdstate {[5 := CLOSE_PENDING]}
                            sample_manager)))
            ∧ fds manager' =
              fds (set_fdstate {[5 := CLOSE_PENDING]} sample_manager).
Proof.
  unshelve refine
    (descriptor_is_closed_once ∅
      (set_fdstate {[ 5 := CLOSE_PENDING ]} sample_manager) 5 2 _ _).
  all: discharge.
Defined.

(** X19 at a listening stream socket with nothing queued, with memory at
    hand. *)
Lemma accept_queues_a_request_with_a_fresh_socket_witness :
  ∃ (dev' : isc_socket_newconnev_t) (ns : isc_socket_t),
    isc_socket_accept (sample_kernel true true ISC_R_SUCCESS 9 0 0)
      (TaskPtr 2) 1 0 (sample_machine (sample_listener [])) =
    (Ok ISC_R_SUCCESS,
     machine_after
       (set_accept_list (accept_list (sample_listener []) ++ [dev'])
          (sample_listener []))
       sample_manager
       (Effect (EventAllocate ISC_SOCKEVENT_NEWCONN)
        :: MemGet
           :: MutexInit (self (sample_block 201))
              :: Effect (TaskAttach (TaskPtr 2))
                 :: (if EMPTY (accept_list (sample_listener []))
                     then [Effect (Poke (fd (sample_listener [])))]
                     else []))
       3 (sample_machine (sample_listener [])))
    ∧ nascent dev'
      ∧ nc_self dev' = nc_self (sample_newconn 300 0 None)
        ∧ nc_sender dev' = TaskPtr 2
          ∧ nc_type dev' = ISC_SOCKEVENT_NEWCONN
            ∧ nc_action dev' = 1
              ∧ nc_arg dev' = 0
                ∧ newsocket dev' = Some ns
                  ∧ self ns = self (sample_block 201)
                    ∧ sock_type ns = sock_type (sample_listener [])
                      ∧ fd ns = -1
                        ∧ connect_ev ns = None
                          ∧ listener ns = false
                            ∧ connected ns = false
                              ∧ recv_result ns = ISC_R_SUCCESS
                                ∧ send_result ns = ISC_R_SUCCESS
                                  ∧ iev_type (readable_ev ns) =
                                    ISC_SOCKEVENT_INTR
                                    ∧ iev_type (writable_ev ns) =
                                      ISC_SOCKEVENT_INTW.
Proof.
  unshelve refine
    (accept_queues_a_request_with_a_fresh_socket (sample_kernel true true
      ISC_R_SUCCESS 9 0 0) (TaskPtr 2) 1 0
      (sample_machine (sample_listener []))
      (sample_newconn 300 0 None) (sample_block 201) _ _ _ _ _ _).
  all: discharge.
Defined.

(** X20 at a listening stream socket: without memory for the event,
    without memory for the socket, and when the lock of the new socket
    cannot be set up. *)
Lemma accept_that_fails_gives_back_what_it_took_witness :
  isc_socket_accept (sample_kernel false true ISC_R_SUCCESS 9 0 0) 
    (TaskPtr 2) 1 0 (sample_machine (sample_listener [])) =
  (Ok ISC_R_NOMEMORY,
   machine_after (sample_listener []) sample_manager
     [Effect (EventAllocate ISC_SOCKEVENT_NEWCONN)] 1
     (sample_machine (sample_listener [])))
  ∧ isc_socket_accept (sample_kernel true false ISC_R_SUCCESS 9 0 0)
      (TaskPtr 2) 1 0 (sample_machine (sample_listener [])) =
    (Ok ISC_R_NOMEMORY,
     machine_after (sample_listener []) sample_manager
       [Effect (EventAllocate ISC_SOCKEVENT_NEWCONN); MemGet;
        EventFree (nc_self (sample_newconn 300 0 None))]
       2 (sample_machine (sample_listener [])))
    ∧ isc_socket_accept (sample_kernel true true ISC_R_UNEXPECTED 9 0 0)
        (TaskPtr 2) 1 0 (sample_machine (sample_listener [])) =
      (Ok ISC_R_UNEXPECTED,
       machine_after (sample_listener []) sample_manager
         [Effect (EventAllocate ISC_SOCKEVENT_NEWCONN); MemGet;
          MutexInit (self (sample_block 201)); Effect UnexpectedError;
          Effect (MemPut (self (sample_block 201)));
          EventFree (nc_self (sample_newconn 300 0 None))]
         3 (sample_machine (sample_listener []))).
Proof.
  unshelve refine
    (conj
      (proj1
         (accept_that_fails_gives_back_what_it_took
            (sample_kernel false true ISC_R_SUCCESS 9 0 0) (TaskPtr 2) 1 0
            (sample_machine (sample_listener [])) _ _ _)
         _)
      (conj
         (proj1
            (proj2
               (accept_that_fails_gives_back_what_it_took
                  (sample_kernel true false ISC_R_SUCCESS 9 0 0)
                  (TaskPtr 2) 1 0
                  (sample_machine (sample_listener [])) _ _ _))
            (sample_newconn 300 0 None) _ _)
         (proj2
            (proj2
               (accept_that_fails_gives_back_what_it_took
                  (sample_kernel true true ISC_R_UNEXPECTED 9 0 0)
                  (TaskPtr 2) 1 0
                  (sample_machine (sample_listener [])) _ _ _))
            (sample_newconn 300 0 None) (sample_block 201) _ _ _))).
  all: discharge.
Defined.

(** X21 at a listening stream socket with two accept requests queued, when
    accept() returns descriptor 9 for a peer at 127.0.0.1. *)
Lemma internal_accept_registers_the_connection_witness :
  internal_accept (sample_kernel true true ISC_R_SUCCESS 9 0 0)
    (readable_ev (sample_socket isc_sockettype_tcp))
    (sample_machine
       (set_pending_accept true
          (sample_listener
             [sample_newconn 9 2 (Some (sample_newsocket 12));
              sample_newconn 10 3 (Some (sample_newsocket 13))]))) =
  (Ok (),
   machine_after
     (set_accept_list [sample_newconn 10 3 (Some (sample_newsocket 13))]
        (set_references
           (references
              (set_pending_accept true
                 (sample_listener
                    [sample_newconn 9 2 (Some (sample_newsocket 12));
                     sample_newconn 10 3 (Some (sample_newsocket 13))])) -
            1)
           (set_pending_accept false
              (set_pending_accept true
                 (sample_listener
                    [sample_newconn 9 2 (Some (sample_newsocket 12));
                     sample_newconn 10 3 (Some (sample_newsocket 13))])))))
     (registered 9 (self (sample_newsocket 12)) sample_manager)
     [Accept
        (fd
           (set_pending_accept true
              (sample_listener
                 [sample_newconn 9 2 (Some (sample_newsocket 12));
                  sample_newconn 10 3 (Some (sample_newsocket 13))])));
      Effect
        (Poke
           (fd
              (set_pending_accept true
                 (sample_listener
                    [sample_newconn 9 2 (Some (sample_newsocket 12));
                     sample_newconn 10 3 (Some (sample_newsocket 13))]))));
      Fcntl 9 F_GETFL 0;
      Fcntl 9 F_SETFL
        (Z.lor
           (k_fcntl (sample_kernel true true ISC_R_SUCCESS 9 0 0) 1 9 F_GETFL
              0)
           O_NONBLOCK);
      Effect
        (TaskSendAndDetach
           (nc_sender (sample_newconn 9 2 (Some (sample_newsocket 12))))
           (NewconnEvent
              (newconn_done
                 (set_pending_accept true
                    (sample_listener
                       [sample_newconn 9 2 (Some (sample_newsocket 12));
                        sample_newconn 10 3 (Some (sample_newsocket 13))]))
                 (set_nc_address {| sa := 2130706433; sa_length := 16 |}
                    (sample_newconn 9 2 (Some (sample_newsocket 12))))
                 (set_fd 9
                    (set_address {| sa := 2130706433; sa_length := 16 |}
                       (sample_newsocket 12)))
                 ISC_R_SUCCESS)))]
     3
     (sample_machine
        (set_pending_accept true
           (sample_listener
              [sample_newconn 9 2 (Some (sample_newsocket 12));
               sample_newconn 10 3 (Some (sample_newsocket 13))]))))
  ∧ fds (registered 9 (self (sample_newsocket 12)) sample_manager) !! 9 =
    Some (self (sample_newsocket 12))
    ∧ fdstate_at (registered 9 (self (sample_newsocket 12)) sample_manager) 9
      =
      MANAGED
      ∧ 9 <= maxfd (registered 9 (self (sample_newsocket 12)) sample_manager).
Proof.
  unshelve refine
    (internal_accept_registers_the_connection (sample_kernel true true
      ISC_R_SUCCESS 9 0 0) (readable_ev (sample_socket isc_sockettype_tcp))
      (sample_machine
         (set_pending_accept true (sample_listener [(sample_newconn 9 2 (Some
           (sample_newsocket 12))); (sample_newconn 10 3 (Some
           (sample_newsocket 13)))])))
      (sample_newconn 9 2 (Some (sample_newsocket 12)))
      [(sample_newconn 10 3 (Some (sample_newsocket 13)))]
      (sample_newsocket 12) 9 0 {| sa := 0x7f000001; sa_length := 16 |}
      _ _ _ _ _ _ _ _ _ _ _).
  all: discharge.
Defined.

(** X22 at a listening stream socket, first with no accept request queued,
    then with one queued when accept() fails with EAGAIN. *)
Lemma internal_accept_waits_on_a_soft_error_witness :
  internal_accept (sample_kernel true true ISC_R_SUCCESS (-1) EAGAIN 0)
    (readable_ev (sample_socket isc_sockettype_tcp))
    (sample_machine (set_pending_accept true (sample_listener []))) =
  (Ok (),
   machine_after
     (set_references
        (references (set_pending_accept true (sample_listener [])) - 1)
        (set_pending_accept false
           (set_pending_accept true (sample_listener []))))
     sample_manager [] 0
     (sample_machine (set_pending_accept true (sample_listener []))))
  ∧ internal_accept (sample_kernel true true ISC_R_SUCCESS (-1) EAGAIN 0)
      (readable_ev (sample_socket isc_sockettype_tcp))
      (sample_machine
         (set_pending_accept true
            (sample_listener [sample_newconn 9 2 (Some (sample_newsocket
              12))]))) =
    (Ok (),
     machine_after
       (set_accept_list
          [set_newsocket
             (Some
                (set_address {| sa := 0; sa_length := 28 |}
                   (sample_newsocket 12)))
             (sample_newconn 9 2 (Some (sample_newsocket 12)))]
          (set_references
             (references
                (set_pending_accept true
                   (sample_listener
                      [sample_newconn 9 2 (Some (sample_newsocket 12))])) -
              1)
             (set_pending_accept false
                (set_pending_accept true
                   (sample_listener
                      [sample_newconn 9 2 (Some (sample_newsocket 12))])))))
       sample_manager
       [Accept
          (fd
             (set_pending_accept true
                (sample_listener
                   [sample_newconn 9 2 (Some (sample_newsocket 12))])));
        Effect
          (Poke
             (fd
                (set_pending_accept true
                   (sample_listener
                      [sample_newconn 9 2 (Some (sample_newsocket 12))]))))]
       1
       (sample_machine
          (set_pending_accept true
             (sample_listener
                [sample_newconn 9 2 (Some (sample_newsocket 12))])))).
Proof.
  unshelve refine
    (conj
      (proj1
         (internal_accept_waits_on_a_soft_error (sample_kernel true true
           ISC_R_SUCCESS (-1) EAGAIN 0) (readable_ev (sample_socket
           isc_sockettype_tcp))
            (sample_machine (set_pending_accept true (sample_listener [])))
            _ _ _ _ _ _)
         _)
      (proj2
         (internal_accept_waits_on_a_soft_error (sample_kernel true true
           ISC_R_SUCCESS (-1) EAGAIN 0) (readable_ev (sample_socket
           isc_sockettype_tcp))
            (sample_machine
               (set_pending_accept true (sample_listener [(sample_newconn 9 2
                 (Some (sample_newsocket 12)))])))
            _ _ _ _ _ _)
         (sample_newconn 9 2 (Some (sample_newsocket 12))) []
           (sample_newsocket 12) (-1) EAGAIN
         {| sa := 0; sa_length := 28 |} _ _ _ _ _)).
  all: discharge.
Defined.

(** X23 at a listening stream socket with one accept request queued: when
    accept() fails with EMFILE, when fcntl() fails on the descriptor 9
    that accept() returned, and the release of the socket that the failed
    request carries. *)
Lemma failed_accept_hands_out_a_socket_whose_release_stops_the_watcher_witness
  :
  internal_accept (sample_kernel true true ISC_R_SUCCESS (-1) EMFILE 0)
    (readable_ev (sample_socket isc_sockettype_tcp))
    (sample_machine
       (set_pending_accept true
          (sample_listener [sample_newconn 9 2 (Some (sample_newsocket
            12))]))) =
  (Ok (),
   machine_after
     (set_accept_list []
        (set_references
           (references
              (set_pending_accept true
                 (sample_listener
                    [sample_newconn 9 2 (Some (sample_newsocket 12))])) -
            1)
           (set_pending_accept false
              (set_pending_accept true
                 (sample_listener
                    [sample_newconn 9 2 (Some (sample_newsocket 12))])))))
     sample_manager
     [Accept
        (fd
           (set_pending_accept true
              (sample_listener
                 [sample_newconn 9 2 (Some (sample_newsocket 12))])));
      Effect UnexpectedError;
      Effect
        (TaskSendAndDetach
           (nc_sender (sample_newconn 9 2 (Some (sample_newsocket 12))))
           (NewconnEvent
              (newconn_done
                 (set_pending_accept true
                    (sample_listener
                       [sample_newconn 9 2 (Some (sample_newsocket 12))]))
                 (sample_newconn 9 2 (Some (sample_newsocket 12)))
                 (set_address {| sa := 0; sa_length := 28 |}
                    (sample_newsocket 12))
                 ISC_R_UNEXPECTED)))]
     1
     (sample_machine
        (set_pending_accept true
           (sample_listener [sample_newconn 9 2 (Some (sample_newsocket
             12))]))))
  ∧ internal_accept (sample_kernel true true ISC_R_SUCCESS 9 0 (-1))
      (readable_ev (sample_socket isc_sockettype_tcp))
      (sample_machine
         (set_pending_accept true
            (sample_listener [sample_newconn 9 2 (Some (sample_newsocket
              12))]))) =
    (Ok (),
     machine_after
       (set_accept_list []
          (set_references
             (references
                (set_pending_accept true
                   (sample_listener
                      [sample_newconn 9 2 (Some (sample_newsocket 12))])) -
              1)
             (set_pending_accept false
                (set_pending_accept true
                   (sample_listener
                      [sample_newconn 9 2 (Some (sample_newsocket 12))])))))
       sample_manager
       [Accept
          (fd
             (set_pending_accept true
                (sample_listener
                   [sample_newconn 9 2 (Some (sample_newsocket 12))])));
        Fcntl 9 F_GETFL 0;
        Fcntl 9 F_SETFL
          (Z.lor
             (k_fcntl (sample_kernel true true ISC_R_SUCCESS 9 0 (-1)) 1 9
                F_GETFL 0)
             O_NONBLOCK);
        Effect UnexpectedError; Effect (Close 9); Effect UnexpectedError;
        Effect
          (TaskSendAndDetach
             (nc_sender (sample_newconn 9 2 (Some (sample_newsocket 12))))
             (NewconnEvent
                (newconn_done
                   (set_pending_accept true
                      (sample_listener
                         [sample_newconn 9 2 (Some (sample_newsocket 12))]))
                   (sample_newconn 9 2 (Some (sample_newsocket 12)))
                   (set_address {| sa := 2130706433; sa_length := 16 |}
                      (sample_newsocket 12))
                   ISC_R_UNEXPECTED)))]
       3
       (sample_machine
          (set_pending_accept true
             (sample_listener
                [sample_newconn 9 2 (Some (sample_newsocket 12))]))))
    ∧ ∃ w' : world,
        isc_socket_detach
          (sample_world
             (set_address {| sa := 0; sa_length := 28 |} (sample_newsocket
               12))) =
        (Ok NULL, w')
        ∧ extends [] (w_trace w')
            (Poke SELECT_POKE_SHUTDOWN
             :: (if uint (nsockets sample_manager - 1) =? 0
                 then [Signal]
                 else []) ++
                [MutexDestroy (self (sample_newsocket 12));
                 MemPut (self (sample_newsocket 12))])
          ∧ nsockets (w_manager w') = uint (nsockets sample_manager - 1)
            ∧ watcher_control ∅ [SELECT_POKE_SHUTDOWN] (w_manager w') [] =
              Ok (w_manager w', true, []).
Proof.
  unshelve refine
    (conj
      (proj1
         (failed_accept_hands_out_a_socket_whose_release_stops_the_watcher
            (sample_kernel true true ISC_R_SUCCESS (-1) EMFILE 0) (readable_ev
              (sample_socket isc_sockettype_tcp))
            (sample_machine
               (set_pending_accept true (sample_listener [(sample_newconn 9 2
                 (Some (sample_newsocket 12)))])))
            (sample_newconn 9 2 (Some (sample_newsocket 12))) []
              (sample_newsocket 12) (-1) EMFILE
            {| sa := 0; sa_length := 28 |}
            _ _ _ _ _ _ _ _ _ _ _ _)
         _ _)
      (conj
         (proj1
            (proj2
               (failed_accept_hands_out_a_socket_whose_release_stops_the_watcher
            (sample_kernel true true ISC_R_SUCCESS 9 0 (-1)) (readable_ev
              (sample_socket isc_sockettype_tcp))
            (sample_machine
               (set_pending_accept true (sample_listener [(sample_newconn 9 2
                 (Some (sample_newsocket 12)))])))
            (sample_newconn 9 2 (Some (sample_newsocket 12))) []
              (sample_newsocket 12) 9 0
            {| sa := 0x7f000001; sa_length := 16 |}
            _ _ _ _ _ _ _ _ _ _ _ _))
            _ _)
         (proj2
            (proj2
               (failed_accept_hands_out_a_socket_whose_release_stops_the_watcher
            (sample_kernel true true ISC_R_SUCCESS (-1) EMFILE 0) (readable_ev
              (sample_socket isc_sockettype_tcp))
            (sample_machine
               (set_pending_accept true (sample_listener [(sample_newconn 9 2
                 (Some (sample_newsocket 12)))])))
            (sample_newconn 9 2 (Some (sample_newsocket 12))) []
              (sample_newsocket 12) (-1) EMFILE
            {| sa := 0; sa_length := 28 |}
            _ _ _ _ _ _ _ _ _ _ _ _))
            (sample_world (set_address {| sa := 0; sa_length := 28 |}
              (sample_newsocket 12)))
            ∅ [] _))).
  all: try discharge.
  all: repeat split; reflexivity.
Defined.

(** X24 at a stream socket with a read of task 2 and a write of task 3
    queued, and at one with nothing queued. *)
Lemma dispatch_sets_up_what_the_handler_checks_witness :
  (∃ (sock1 : isc_socket_t) (iev : intev_t),
     dispatch_read sample_handlers
       (set_recv_list [sample_request 7 ISC_SOCKEVENT_RECVDONE 2]
          (set_send_list [sample_request 8 ISC_SOCKEVENT_SENDDONE 3]
             (sample_socket isc_sockettype_tcp))) =
     Ok
       (sock1,
        TaskSendInternal
          (se_sender (sample_request 7 ISC_SOCKEVENT_RECVDONE 2)) iev)
     ∧ iev_action iev = sample_handlers internal_recv_fn
       ∧ pending_recv sock1 = true
         ∧ references sock1 =
           references
             (set_recv_list [sample_request 7 ISC_SOCKEVENT_RECVDONE 2]
                (set_send_list [sample_request 8 ISC_SOCKEVENT_SENDDONE 3]
                   (sample_socket isc_sockettype_tcp))) +
           1
           ∧ internal_recv (kernel_says 10 0) iev
               (with_sock sock1
                  (sample_world
                     (set_recv_list
                        [sample_request 7 ISC_SOCKEVENT_RECVDONE 2]
                        (set_send_list
                           [sample_request 8 ISC_SOCKEVENT_SENDDONE 3]
                           (sample_socket isc_sockettype_tcp))))) =
             (internal_recv_loop (kernel_says 10 0)
                (length
                   (recv_list
                      (set_recv_list
                         [sample_request 7 ISC_SOCKEVENT_RECVDONE 2]
                         (set_send_list
                            [sample_request 8 ISC_SOCKEVENT_SENDDONE 3]
                            (sample_socket isc_sockettype_tcp)))))
              ≫= λ _ : (),
                   get_sock
                   ≫= λ sock : isc_socket_t,
                        if negb (EMPTY (recv_list sock))
                        then select_poke (fd sock)
                        else mret ())
               (with_sock
                  (set_readable_ev iev
                     (set_recv_list
                        [sample_request 7 ISC_SOCKEVENT_RECVDONE 2]
                        (set_send_list
                           [sample_request 8 ISC_SOCKEVENT_SENDDONE 3]
                           (sample_socket isc_sockettype_tcp))))
                  (sample_world
                     (set_recv_list
                        [sample_request 7 ISC_SOCKEVENT_RECVDONE 2]
                        (set_send_list
                           [sample_request 8 ISC_SOCKEVENT_SENDDONE 3]
                           (sample_socket isc_sockettype_tcp))))))
  ∧ (∃ (sock1 : isc_socket_t) (iev : intev_t),
       dispatch_write sample_handlers
         (set_recv_list [sample_request 7 ISC_SOCKEVENT_RECVDONE 2]
            (set_send_list [sample_request 8 ISC_SOCKEVENT_SENDDONE 3]
               (sample_socket isc_sockettype_tcp))) =
       Ok
         (sock1,
          TaskSendInternal
            (se_sender (sample_request 8 ISC_SOCKEVENT_SENDDONE 3)) iev)
       ∧ iev_action iev = sample_handlers internal_send_fn
         ∧ pending_send sock1 = true
           ∧ references sock1 =
             references
               (set_recv_list [sample_request 7 ISC_SOCKEVENT_RECVDONE 2]
                  (set_send_list [sample_request 8 ISC_SOCKEVENT_SENDDONE 3]
                     (sample_socket isc_sockettype_tcp))) +
             1
             ∧ internal_send (kernel_says 10 0) iev
                 (with_sock sock1
                    (sample_world
                       (set_recv_list
                          [sample_request 7 ISC_SOCKEVENT_RECVDONE 2]
                          (set_send_list
                             [sample_request 8 ISC_SOCKEVENT_SENDDONE 3]
                             (sample_socket isc_sockettype_tcp))))) =
               (internal_send_loop (kernel_says 10 0)
                  (length
                     (send_list
                        (set_recv_list
                           [sample_request 7 ISC_SOCKEVENT_RECVDONE 2]
                           (set_send_list
                              [sample_request 8 ISC_SOCKEVENT_SENDDONE 3]
                              (sample_socket isc_sockettype_tcp)))))
                ≫= λ _ : (),
                     get_sock
                     ≫= λ sock : isc_socket_t,
                          if negb (EMPTY (send_list sock))
                          then select_poke (fd sock)
                          else mret ())
                 (with_sock
                    (set_writable_ev iev
                       (set_recv_list
                          [sample_request 7 ISC_SOCKEVENT_RECVDONE 2]
                          (set_send_list
                             [sample_request 8 ISC_SOCKEVENT_SENDDONE 3]
                             (sample_socket isc_sockettype_tcp))))
                    (sample_world
                       (set_recv_list
                          [sample_request 7 ISC_SOCKEVENT_RECVDONE 2]
                          (set_send_list
                             [sample_request 8 ISC_SOCKEVENT_SENDDONE 3]
                             (sample_socket isc_sockettype_tcp))))))
    ∧ dispatch_read sample_handlers (sample_socket isc_sockettype_tcp) =
      AssertionFailed
      ∧ dispatch_write sample_handlers (sample_socket isc_sockettype_tcp) =
        AssertionFailed.
Proof.
  unshelve refine
    (let H :=
      dispatch_sets_up_what_the_handler_checks (kernel_says 10 0)
        sample_handlers
        (sample_world
            (set_recv_list [(sample_request 7 ISC_SOCKEVENT_RECVDONE 2)]
               (set_send_list [(sample_request 8 ISC_SOCKEVENT_SENDDONE 3)]
                 (sample_socket isc_sockettype_tcp))))
        _ _ in
    let H0 :=
      dispatch_sets_up_what_the_handler_checks (kernel_says 10 0)
        sample_handlers (sample_world (sample_socket isc_sockettype_tcp)) _ _
          in
    conj (proj1 H (sample_request 7 ISC_SOCKEVENT_RECVDONE 2) [] _ _ _)
      (conj (proj1 (proj2 H) (sample_request 8 ISC_SOCKEVENT_SENDDONE 3) [] _
        _ _)
         (conj (proj1 (proj2 (proj2 H0)) _)
            (proj2 (proj2 (proj2 H0)) _)))).
  all: discharge.
Defined.

(** X25 at the sample manager watching descriptor 5 for reading, with a
    read of task 2 queued on its socket, when select() reports descriptor
    5 readable. *)
Lemma reported_descriptors_leave_the_watched_sets_witness :
  pipe_fds (set_read_fds {[3]} sample_manager) =
  pipe_fds (set_read_fds {[3; 5]} sample_manager)
  ∧ read_fds (set_read_fds {[3]} sample_manager)
    ⊆ read_fds (set_read_fds {[3; 5]} sample_manager)
    ∧ write_fds (set_read_fds {[3]} sample_manager)
      ⊆ write_fds (set_read_fds {[3; 5]} sample_manager)
      ∧ (∀ i : Z,
           0 <= i < 6
           → i ≠ (pipe_fds (set_read_fds {[3; 5]} sample_manager)).1
             → i ≠ (pipe_fds (set_read_fds {[3; 5]} sample_manager)).2
               → (i ∈ only_descriptor_5
                  → i ∉ read_fds (set_read_fds {[3]} sample_manager))
                 ∧ (i ∈ no_descriptor
                    → i ∉ write_fds (set_read_fds {[3]} sample_manager)))
        ∧ ∀ j : Z,
            j < 0
            ∨ 6 <= j
              ∨ j = (pipe_fds (set_read_fds {[3; 5]} sample_manager)).1
                ∨ j = (pipe_fds (set_read_fds {[3; 5]} sample_manager)).2
            → (j ∈ read_fds (set_read_fds {[3; 5]} sample_manager)
               ↔ j ∈ read_fds (set_read_fds {[3]} sample_manager))
              ∧ (j ∈ write_fds (set_read_fds {[3; 5]} sample_manager)
                 ↔ j ∈ write_fds (set_read_fds {[3]} sample_manager)).
Proof.
  unshelve refine
    (reported_descriptors_leave_the_watched_sets sample_handlers
      only_descriptor_5 no_descriptor 6
      {[ 1%nat := set_recv_list [(sample_request 7 ISC_SOCKEVENT_RECVDONE 2)]
        (sample_socket isc_sockettype_tcp) ]}
      (set_read_fds {[ 3; 5 ]} sample_manager) []
      {[ 1%nat :=
           set_readable_ev
             {| iev_type := ISC_SOCKEVENT_INTR; iev_sender := SockPtr 1;
                iev_action := sample_handlers internal_recv_fn;
                iev_arg := 1 |}
             (set_references 3
                (set_pending_recv true
                   (set_recv_list [(sample_request 7 ISC_SOCKEVENT_RECVDONE
                     2)] (sample_socket isc_sockettype_tcp)))) ]}
      (set_read_fds {[ 3 ]} sample_manager)
      [TaskSendInternal (TaskPtr 2)
         {| iev_type := ISC_SOCKEVENT_INTR; iev_sender := SockPtr 1;
            iev_action := sample_handlers internal_recv_fn;
            iev_arg := 1 |}]
      _).
  vm_compute. reflexivity.
Defined.

(** X26 at a stream socket on descriptor 5 with a read queued: its reads
    are cancelled after select() reported descriptor 5 readable. *)
Lemma readiness_reported_before_a_cancel_stops_the_watcher_witness :
  ∃ w' : world,
    isc_socket_cancel NULL 1
      (sample_world
         (set_recv_list [sample_request 7 ISC_SOCKEVENT_RECVDONE 2]
            (sample_socket isc_sockettype_tcp))) =
    (Ok (), w')
    ∧ extends [] (w_trace w')
        (map
           (λ dev : isc_socketevent_t,
              handover (se_sender dev)
                (recvdone
                   (set_recv_list [sample_request 7 ISC_SOCKEVENT_RECVDONE 2]
                      (sample_socket isc_sockettype_tcp))
                   dev ISC_R_CANCELED))
           (recv_list
              (set_recv_list [sample_request 7 ISC_SOCKEVENT_RECVDONE 2]
                 (sample_socket isc_sockettype_tcp))) ++
         [Poke
            (fd
               (set_recv_list [sample_request 7 ISC_SOCKEVENT_RECVDONE 2]
                  (sample_socket isc_sockettype_tcp)))])
      ∧ recv_list (w_sock w') = []
        ∧ watcher_fd sample_handlers {[5]} ∅
            (fd
               (set_recv_list [sample_request 7 ISC_SOCKEVENT_RECVDONE 2]
                  (sample_socket isc_sockettype_tcp)))
            (<[self
                 (set_recv_list [sample_request 7 ISC_SOCKEVENT_RECVDONE 2]
                    (sample_socket isc_sockettype_tcp)):=
               w_sock w']> ∅,
             sample_manager, []) =
          AssertionFailed
          ∧ ∃ manager1 : isc_socketmgr_t,
              watcher_wakeup
                (<[self
                     (set_recv_list
                        [sample_request 7 ISC_SOCKEVENT_RECVDONE 2]
                        (sample_socket isc_sockettype_tcp)):=
                   w_sock w']> ∅)
                (fd
                   (set_recv_list [sample_request 7 ISC_SOCKEVENT_RECVDONE 2]
                      (sample_socket isc_sockettype_tcp)))
                sample_manager =
              Ok (manager1, [])
              ∧ FD_ISSET
                  (fd
                     (set_recv_list
                        [sample_request 7 ISC_SOCKEVENT_RECVDONE 2]
                        (sample_socket isc_sockettype_tcp)))
                  (read_fds manager1) =
                false
                ∧ watcher_fd sample_handlers {[5]} ∅
                    (fd
                       (set_recv_list
                          [sample_request 7 ISC_SOCKEVENT_RECVDONE 2]
                          (sample_socket isc_sockettype_tcp)))
                    (<[self
                         (set_recv_list
                            [sample_request 7 ISC_SOCKEVENT_RECVDONE 2]
                            (sample_socket isc_sockettype_tcp)):=
                       w_sock w']> ∅,
                     manager1, []) =
                  AssertionFailed.
Proof.
  unshelve refine
    (readiness_reported_before_a_cancel_stops_the_watcher sample_handlers
      (sample_world (set_recv_list [(sample_request 7 ISC_SOCKEVENT_RECVDONE
        2)] (sample_socket isc_sockettype_tcp)))
      1 {[ 5 ]} ∅ ∅ sample_manager []
      _ _ _ _ _ _ _ _ _ _ _ _ _ _ _).
  all: discharge.
Defined.

(** X27 at a listening stream socket on descriptor 5 with one accept
    request queued, when select() reports the descriptor readable and
    accept() then fails with EAGAIN. *)
Lemma a_listener_with_nothing_to_accept_is_watched_again_witness :
  ∃ (sock1 : isc_socket_t) (iev : intev_t) (sock2 : isc_socket_t) 
    (manager2 : isc_socketmgr_t),
    watcher_fd sample_handlers {[5]} ∅
      (fd (sample_listener [sample_newconn 9 2 (Some (sample_newsocket 12))]))
      ({[1%nat
       := sample_listener [sample_newconn 9 2 (Some (sample_newsocket 12))]]},
       sample_manager, []) =
    Ok
      ({[self
           (sample_listener [sample_newconn 9 2 (Some (sample_newsocket 12))])
             := sock1;
         1%nat := sample_listener
                    [sample_newconn 9 2 (Some (sample_newsocket 12))]]},
       set_read_fds
         (FD_CLR
            (fd
               (sample_listener
                  [sample_newconn 9 2 (Some (sample_newsocket 12))]))
            (read_fds sample_manager))
         sample_manager,
       [TaskSendInternal
          (nc_sender (sample_newconn 9 2 (Some (sample_newsocket 12)))) iev])
    ∧ iev_action iev = sample_handlers internal_accept_fn
      ∧ references sock1 =
        references
          (sample_listener [sample_newconn 9 2 (Some (sample_newsocket 12))])
            +
        1
        ∧ (∃ mg : isc_socketmgr_t,
             watcher_wakeup
               {[self
                   (sample_listener
                      [sample_newconn 9 2 (Some (sample_newsocket 12))]) :=
                        sock1;
                 1%nat := sample_listener
                            [sample_newconn 9 2 (Some (sample_newsocket
                              12))]]}
               (fd
                  (sample_listener
                     [sample_newconn 9 2 (Some (sample_newsocket 12))]))
               (set_read_fds
                  (FD_CLR
                     (fd
                        (sample_listener
                           [sample_newconn 9 2 (Some (sample_newsocket 12))]))
                     (read_fds sample_manager))
                  sample_manager) =
             Ok (mg, [])
             ∧ FD_ISSET
                 (fd
                    (sample_listener
                       [sample_newconn 9 2 (Some (sample_newsocket 12))]))
                 (read_fds mg) =
               false)
          ∧ internal_accept
              (sample_kernel true true ISC_R_SUCCESS (-1) EAGAIN 0) iev
              {|
                m_sock := sock1;
                m_manager :=
                  set_read_fds
                    (FD_CLR
                       (fd
                          (sample_listener
                             [sample_newconn 9 2 (Some (sample_newsocket
                               12))]))
                       (read_fds sample_manager))
                    sample_manager;
                m_calls := [];
                m_clock := 0
              |} =
            (Ok (),
             machine_after sock2
               (set_read_fds
                  (FD_CLR
                     (fd
                        (sample_listener
                           [sample_newconn 9 2 (Some (sample_newsocket 12))]))
                     (read_fds sample_manager))
                  sample_manager)
               [Accept
                  (fd
                     (sample_listener
                        [sample_newconn 9 2 (Some (sample_newsocket 12))]));
                Effect
                  (Poke
                     (fd
                        (sample_listener
                           [sample_newconn 9 2 (Some (sample_newsocket
                             12))])))]
               1
               (sample_machine
                  (sample_listener
                     [sample_newconn 9 2 (Some (sample_newsocket 12))])))
            ∧ references sock2 =
              references
                (sample_listener
                   [sample_newconn 9 2 (Some (sample_newsocket 12))])
              ∧ pending_accept sock2 = false
                ∧ accept_list sock2 =
                  [set_newsocket
                     (Some
                        (set_address {| sa := 0; sa_length := 28 |}
                           (sample_newsocket 12)))
                     (sample_newconn 9 2 (Some (sample_newsocket 12)))]
                  ∧ watcher_wakeup
                      {[self
                          (sample_listener
                             [sample_newconn 9 2 (Some (sample_newsocket
                               12))]) := sock2;
                        1%nat := sample_listener
                                   [sample_newconn 9 2
                                      (Some (sample_newsocket 12))]]}
                      (fd
                         (sample_listener
                            [sample_newconn 9 2 (Some (sample_newsocket
                              12))]))
                      (set_read_fds
                         (FD_CLR
                            (fd
                               (sample_listener
                                  [sample_newconn 9 2
                                     (Some (sample_newsocket 12))]))
                            (read_fds sample_manager))
                         sample_manager) =
                    Ok (manager2, [])
                    ∧ FD_ISSET
                        (fd
                           (sample_listener
                              [sample_newconn 9 2 (Some (sample_newsocket
                                12))]))
                        (read_fds manager2) =
                      true.
Proof.
  unshelve refine
    (a_listener_with_nothing_to_accept_is_watched_again (sample_kernel true
      true ISC_R_SUCCESS (-1) EAGAIN 0)
      sample_handlers {[ 5 ]} ∅
      {[ 1%nat := sample_listener [(sample_newconn 9 2 (Some (sample_newsocket
        12)))] ]} []
      (sample_machine (sample_listener [(sample_newconn 9 2 (Some
        (sample_newsocket 12)))]))
      (sample_newconn 9 2 (Some (sample_newsocket 12))) [] (sample_newsocket
        12) (-1) EAGAIN
      {| sa := 0; sa_length := 28 |}
      _ _ _ _ _ _ _ _ _ _ _ _ _ _ _ _ _ _ _).
  all: discharge.
Defined.

(** X28 at a manager where descriptor 5 waits to be closed and has no
    socket any more, when select() had reported it readable. *)
Lemma close_pending_is_settled_by_the_loop_that_sees_it_first_witness :
  (∃ manager' : isc_socketmgr_t,
     watcher_fd sample_handlers {[5]} ∅ 5
       (∅, set_fds ∅ (set_fdstate {[5 := CLOSE_PENDING]} sample_manager), [])
         =
     Ok (∅, manager', [Effect (Close 5)])
     ∧ fdstate_at manager' 5 = CLOSED
       ∧ FD_ISSET 5 (read_fds manager') = false
         ∧ FD_ISSET 5 (write_fds manager') = false
           ∧ watcher_wakeup ∅ 5 manager' = Ok (manager', []))
  ∧ ∃ manager' : isc_socketmgr_t,
      watcher_wakeup ∅ 5
        (set_fds ∅ (set_fdstate {[5 := CLOSE_PENDING]} sample_manager)) =
      Ok (manager', [Close 5])
      ∧ ∃ manager'' : isc_socketmgr_t,
          watcher_fd sample_handlers {[5]} ∅ 5 (∅, manager', []) =
          Ok (∅, manager'', [])
          ∧ fdstate_at manager'' 5 = CLOSED
            ∧ FD_ISSET 5 (read_fds manager'') = false
              ∧ FD_ISSET 5 (write_fds manager'') = false.
Proof.
  unshelve refine
    (close_pending_is_settled_by_the_loop_that_sees_it_first sample_handlers
      {[ 5 ]} ∅ ∅
      (set_fds ∅ (set_fdstate {[ 5 := CLOSE_PENDING ]} sample_manager))
      [] 5 _ _ _ _ _).
  all: discharge.
Defined.

(** X29 at the sample manager: a datagram socket for which socket()
    returns descriptor 9. *)
Lemma create_registers_the_socket_and_the_last_detach_undoes_it_witness :
  ∃ (sock : isc_socket_t) (m' : machine),
    isc_socket_create (sample_kernel true true ISC_R_SUCCESS 9 0 0) 2
      isc_sockettype_udp (Some NULL)
      (sample_machine (sample_socket isc_sockettype_tcp)) =
    (Ok (ISC_R_SUCCESS, Some sock), m')
    ∧ m_sock m' = sample_socket isc_sockettype_tcp
      ∧ m_manager m' = registered 9 (self (sample_block 200)) sample_manager
        ∧ at_rest sock
          ∧ references sock = 1
            ∧ fd sock = 9
              ∧ sock_type sock = isc_sockettype_udp
                ∧ self sock = self (sample_block 200)
                  ∧ listener sock = false
                    ∧ connected sock = false
                      ∧ ∀ w : world,
                          w_sock w = sock
                          → w_manager w = m_manager m'
                            → ∃ w' : world,
                                isc_socket_detach w = (Ok NULL, w')
                                ∧ fds (w_manager w') !! 9 = None
                                  ∧ fdstate_at (w_manager w') 9 =
                                    CLOSE_PENDING
                                    ∧ nsockets (w_manager w') =
                                      nsockets sample_manager
                                      ∧ extends (w_trace w) 
                                          (w_trace w')
                                          (Poke 9
                                           :: (if nsockets sample_manager =? 0
                                               then [Signal]
                                               else []) ++
                                              [MutexDestroy
                                                 (self (sample_block 200));
                                               MemPut
                                                 (self (sample_block 200))]).
Proof.
  unshelve refine
    (create_registers_the_socket_and_the_last_detach_undoes_it (sample_kernel
      true true ISC_R_SUCCESS 9 0 0) 2
      isc_sockettype_udp (sample_machine (sample_socket isc_sockettype_tcp))
        (sample_block 200) 9 0
      _ _ _ _ _ _ _).
  all: discharge.
Defined.

(** X30 at the sample manager, for a stream socket: without memory, when
    the lock cannot be set up, when socket() fails with EMFILE, and when
    fcntl() fails on the descriptor 9 that socket() returned. *)
Lemma create_that_fails_registers_nothing_witness :
  isc_socket_create (sample_kernel true false ISC_R_SUCCESS 9 0 0) 2
    isc_sockettype_tcp (Some NULL)
    (sample_machine (sample_socket isc_sockettype_tcp)) =
  (Ok (ISC_R_NOMEMORY, None),
   machine_after (sample_socket isc_sockettype_tcp) sample_manager [MemGet] 1
     (sample_machine (sample_socket isc_sockettype_tcp)))
  ∧ isc_socket_create (sample_kernel true true ISC_R_UNEXPECTED 9 0 0) 2
      isc_sockettype_tcp (Some NULL)
      (sample_machine (sample_socket isc_sockettype_tcp)) =
    (Ok (ISC_R_UNEXPECTED, None),
     machine_after (sample_socket isc_sockettype_tcp) sample_manager
       [MemGet; MutexInit (self (sample_block 200)); 
        Effect UnexpectedError; Effect (MemPut (self (sample_block 200)))]
       2 (sample_machine (sample_socket isc_sockettype_tcp)))
    ∧ isc_socket_create (sample_kernel true true ISC_R_SUCCESS (-1) EMFILE 0)
        2 isc_sockettype_tcp (Some NULL)
        (sample_machine (sample_socket isc_sockettype_tcp)) =
      (Ok
         (if bool_decide (EMFILE ∈ [EMFILE; ENFILE; ENOBUFS])
          then ISC_R_NORESOURCES
          else ISC_R_UNEXPECTED, None),
       machine_after (sample_socket isc_sockettype_tcp) sample_manager
         (MemGet
          :: MutexInit (self (sample_block 200))
             :: Socket 2 (socket_arguments isc_sockettype_tcp).1
                  (socket_arguments isc_sockettype_tcp).2
                :: Effect (MutexDestroy (self (sample_block 200)))
                   :: Effect (MemPut (self (sample_block 200)))
                      :: (if bool_decide (EMFILE ∈ [EMFILE; ENFILE; ENOBUFS])
                          then []
                          else [Effect UnexpectedError]))
         3 (sample_machine (sample_socket isc_sockettype_tcp)))
      ∧ isc_socket_create (sample_kernel true true ISC_R_SUCCESS 9 0 (-1)) 2
          isc_sockettype_tcp (Some NULL)
          (sample_machine (sample_socket isc_sockettype_tcp)) =
        (Ok (ISC_R_UNEXPECTED, None),
         machine_after (sample_socket isc_sockettype_tcp) sample_manager
           [MemGet; MutexInit (self (sample_block 200));
            Socket 2 (socket_arguments isc_sockettype_tcp).1
              (socket_arguments isc_sockettype_tcp).2;
            Fcntl 9 F_GETFL 0;
            Fcntl 9 F_SETFL
              (Z.lor
                 (k_fcntl (sample_kernel true true ISC_R_SUCCESS 9 0 (-1)) 3 9
                    F_GETFL 0)
                 O_NONBLOCK);
            Effect UnexpectedError;
            Effect (MutexDestroy (self (sample_block 200)));
            Effect (MemPut (self (sample_block 200)))]
           5 (sample_machine (sample_socket isc_sockettype_tcp))).
Proof.
  unshelve refine
    (conj
      (proj1
         (create_that_fails_registers_nothing
               (sample_kernel true false ISC_R_SUCCESS 9 0 0) 2
               isc_sockettype_tcp (sample_machine (sample_socket
                 isc_sockettype_tcp)) _)
         _)
      (conj
         (proj1
            (proj2
               (create_that_fails_registers_nothing
               (sample_kernel true true ISC_R_UNEXPECTED 9 0 0) 2
               isc_sockettype_tcp (sample_machine (sample_socket
                 isc_sockettype_tcp)) _))
            (sample_block 200) _ _)
         (conj
            (proj1
               (proj2
                  (proj2
                     (create_that_fails_registers_nothing
               (sample_kernel true true ISC_R_SUCCESS (-1) EMFILE 0) 2
               isc_sockettype_tcp (sample_machine (sample_socket
                 isc_sockettype_tcp)) _))
                  (sample_block 200) (-1) EMFILE _ _ _)
               _)
            (proj2
               (proj2
                  (proj2
                     (create_that_fails_registers_nothing
               (sample_kernel true true ISC_R_SUCCESS 9 0 (-1)) 2
               isc_sockettype_tcp (sample_machine (sample_socket
                 isc_sockettype_tcp)) _))
                  (sample_block 200) 9 0 _ _ _)
               _ _)))).
  all: discharge.
Defined.
